(* ===== verification/_CoqProject ===== *)
-Q . S2P
Prelude.v
GoStrings.v
GoFormat.v
GoMonad.v
World.v
Scenario.v
Utils.v
OvsDb.v
OvsPort.v
Types.v
Config.v
Faucet.v
Iptables.v
Docker.v
OvsBridge.v
Driver.v
Links.v
Handlers.v
FaucetView.v
NetworkView.v
Json.v
JsonText.v
Manager.v
Reconcile.v
Web.v
Notifier.v
Registry.v
Concurrent.v
Cleanup.v
StatusDoc.v
Announce.v
Startup.v
GoFlag.v
Main.v
Logging.v
