(* ===== verification/Prelude.v ===== *)
(** * dovesnap: a verification library

    dovesnap is a docker network driver.  docker asks it to create and delete networks and to
    connect and disconnect containers; for every network it keeps an Open vSwitch bridge, and it
    describes the bridge's ports to the SDN controller Faucet.  This library models the Go program
    (src/main.go and src/ovs/*.go) and proves what makes it correct.

    ** The program

    - main (src/main.go) reads the command line, starts the driver, serves docker's requests, and
      on SIGTERM waits for the resource manager before it ends.
    - docker's requests (CreateNetwork, DeleteNetwork, CreateEndpoint, Join, Leave in
      src/ovs/driver.go) run on goroutines of their own.  They check their arguments, may create
      the bridge, and send a message to the resource manager over a channel; some wait for a reply
      on a channel that travels with the message, and Join waits on a wait group that counts the
      networks being created or deleted.
    - The resource manager (resourceManager) is one goroutine that owns the table of networks.  It
      takes one message after the other and runs its handler; after three idle seconds it compares
      its view with Open vSwitch and with the DHCP clients.
    - The handlers use Open vSwitch through its command line tools (ovsdb.go, ovs_bridge.go,
      ovs_port.go), Faucet through RPCs (ovs_faucetconfrpc.go), docker (ovs_docker.go), iptables
      (ovs_iptables.go) and netlink (utils.go).  ovs_config.go reads the options of networks.
    - What the handlers did is announced on a channel, and the notifier prints it as JSON.
    - A status page answers with a JSON document of the networks to authorized addresses.
    - At startup NewDriver checks its settings, creates the shared bridges, and restores the
      networks that docker knows.

    ** The files

    - [Prelude], [GoStrings], [GoFormat], [GoFlag]: machine integers, digits, lists; Go's strings
      and strconv, fmt without operands, and package flag.
    - [GoMonad]: Go's control flow.  A computation maps a state to an outcome (a value, a panic,
      the end of the process, or waiting for ever) and a state, so that a panic keeps what was
      done before it; [recovering] and [deferring] are recover and defer.  [wp] is total
      correctness: a postcondition speaks of every outcome.
    - [World]: everything outside is an environment [Env], which answers every call as any function
      of the history of calls before it, and picks the order in which maps are iterated.  The
      history is part of the state.  The theorems hold for every environment unless they say what
      is assumed of it.  [Scenario] builds concrete environments for the examples.
    - [Utils] (utils.go), [OvsDb] (ovsdb.go), [OvsPort] (ovs_port.go), [Config] (ovs_config.go),
      [Faucet] (ovs_faucetconfrpc.go), [Iptables] (ovs_iptables.go), [Docker] (ovs_docker.go),
      [OvsBridge] (ovs_bridge.go), [Logging] (logging.go): one definition per function, under the
      function's name.
    - [Types]: the structs and the shared state.  A NetworkState is copied through channels while
      its three maps are shared, so the maps live in a heap and the struct holds references.
    - [Driver]: the requests; [Handlers]: the handlers of messages; [Manager]: the manager's switch
      and its reconciliations, and the parts of restoreNetworks; [Web] and [Json]: the status page;
      [Notifier]: the notifier; [Startup]: NewDriver up to the start of the manager, and
      restoreNetworks beside the manager as a step relation; [Main]: main.go.
    - [Registry], [Concurrent], [Reconcile], [FaucetView], [NetworkView], [Links], [Cleanup],
      [JsonText], [StatusDoc], [Announce]: properties across components.

    ** The theorems

    - Refinement.  [Registry] states what the driver is for as an abstract table of networks and
      their containers with five kinds of steps, and a simulation.  [Concurrent] proves it for the
      transition system in which requests, their sends, turns of the manager, replies and
      announcements interleave: in every reachable state and for every environment, a turn of the
      manager changes the table only by steps that the message at the head of the queue permits,
      requests change nothing, and no two networks and no pending message share a map
      ([driver_implements_registry]).  [StatusDoc] shows that the status page, which has the
      state reconciled first, is this table when it is read back as JSON, as far as no text of a
      network has a percent sign; [FaucetView] that Faucet was told of a container as it is recorded, and
      [NetworkView] the same of a network's ports.
    - The wait group counts the creations and deletions that are queued or wait to be sent, as long
      as no bridge is found down ([wait_group_counts_all]); with one found down it does not
      ([recreatedownbridge_unbalanced]).
    - Handlers: joining and deleting are all or nothing (a join on a network without maps may leave
      its port behind), leaving is always answered, creating registers exactly the requested
      network under docker's name, and the manager does not stop, whatever the outside answers
      ([Handlers], [Manager]).  A failed deletion is not answered
      ([mustHandleDeleteNetwork_no_reply]).
    - Announcements: every one is printed once and in order; one without a percent sign can be read
      back, and a join says what is recorded ([Announce]).
    - Bridges and ports: createBridge runs the right commands and cleans up after an error; the
      option add_ports is read back as written and within bounds; port dumps are parsed, the lowest
      free port is chosen; a reconciliation that nothing fails makes the record of external ports
      agree with the bridge ([OvsBridge], [OvsPort], [Reconcile]).
    - A deleted network leaves nothing behind: no port on a bridge and no rule ([Cleanup]).  The
      history is read there as the effect of the commands that were carried out ([replay]).
    - Requests and restarts: an accepted request is consistent, a request queues one message, and
      the state that a restart rebuilds is the one that was requested, up to the name of the
      bridge and an empty mode ([Driver]); a start sends the manager exactly dovesnap's networks,
      while the manager is handling them, and refuses bad settings first ([Startup]).
    - The program: settings reach the driver as they were written, a bad argument ends it before
      anything is done, and a signal ends it after the queue was worked off ([Main]).
    - Options, names and addresses, rules and retries: [Config], [Utils], [Iptables], [Docker],
      [Faucet], [Web].  JSON is read back from its text: [JsonText].

    ** Choices and bounds

    - Integers are [Z], with wrap-around where Go converts to a narrower type or may overflow;
      [int], [uint] and Durations (nanoseconds) have 64 bits.  The doubling timeout of the
      connection loop wraps: it is exact for the first 31 attempts ([dial_wait_exact]).  base-62 encoding goes through float64 as in the source, which is exact
      below 2^53.
    - Loops with a bound of the source use it.  [to_digits] has fuel [digits_fuel], which is at
      least the number of digits; [b62_loop] likewise; [escape_chars] and [print_format] have the
      length of their text, of which every round takes a character; [Parse] has one more than the
      number of arguments, of which every round takes one ([parse_flags_total]); [Unmarshal] has
      the length of its text, which bounds the nesting ([Marshal_depth]).
    - A request up to its wait, a turn of the manager, a receipt of a reply and a line of the
      notifier are each one step of the transition systems, and the steps interleave freely; in
      [Concurrent] the send of a request is a step apart, and in [Startup] each turn of
      restoreNetworks and its send.  A send on a full channel and a receive on an empty one are
      the outcome [Block].  Only the channel of announcements has no bound here (64 in the source):
      the notifier takes from it without waiting for anyone, so that a send on the full channel
      goes on after a while, and the delay is all that is left out.
    - Log messages have no effect, except the notifier's lines, which are calls.  [log.Fatalf] ends
      the process or, as the environment says, returns, since the source has code after it.
    - Where the source uses a text as a format string without operands, [Sprintf0] is what fmt
      makes of it.
    - Parameters: docker, Faucet, Open vSwitch, the kernel, the files, the clock, the plugin and
      HTTP servers, and the baseconv package (its function and alphabets).

    ** Not modelled

    The servers' own work, the delivery of signals, and the effect of log levels.  Data races: a
    step is atomic, so that a map is not read while another goroutine writes it.  The Python, shell
    and container files of the repository are no part of the driver.

    ** To come

    The steps of a request before its send apart from each other; the address of a gateway; what a
    reconciliation tells Faucet; the shared bridges as configured. *)
From Stdlib Require Export Ascii.
From Stdlib Require String.
From stdpp Require Export base numbers sorting gmap strings fin_maps list.

(** ** Scope, tactics and hint databases of the library *)

Declare Scope go_scope.
Delimit Scope go_scope with go.

(** Facts about Go's data (strings, integers, maps) that close side goals. *)
Create HintDb go.
(** Equations that normalise strings. *)
Create Rewrite HintDb go_str.

(** Split every boolean test of the goal into the proposition it decides. *)
Ltac bool_cases :=
  repeat match goal with
  | |- context [if ?b then _ else _] => destruct b eqn:?
  end;
  repeat match goal with
  | H : (_ <? _)%Z = true |- _ => apply Z.ltb_lt in H
  | H : (_ <? _)%Z = false |- _ => apply Z.ltb_ge in H
  | H : (_ <=? _)%Z = true |- _ => apply Z.leb_le in H
  | H : (_ <=? _)%Z = false |- _ => apply Z.leb_gt in H
  | H : (_ =? _)%Z = true |- _ => apply Z.eqb_eq in H
  | H : (_ =? _)%Z = false |- _ => apply Z.eqb_neq in H
  end.

(** Decide a closed proposition by computing its decision procedure. *)
Ltac decide_now := apply (bool_decide_eq_true_1 _); vm_compute; reflexivity.

(** ** Machine integers

    Go's [uint32] and [uint64] (and [uint], which is 64 bits wide on the
    supported platforms) are integers of [Z]; a conversion to a narrower type,
    or an addition that may overflow, wraps. *)

Definition u32_max : Z := 2 ^ 32 - 1.
Definition u64_max : Z := 2 ^ 64 - 1.
Definition wrap32 (x : Z) : Z := x `mod` 2 ^ 32.
Definition wrap64 (x : Z) : Z := x `mod` 2 ^ 64.

Lemma wrap32_small x : (0 ≤ x ≤ u32_max)%Z → wrap32 x = x.
Proof. intros. apply Z.mod_small. unfold u32_max in *. lia. Qed.

Lemma wrap64_small x : (0 ≤ x ≤ u64_max)%Z → wrap64 x = x.
Proof. intros. apply Z.mod_small. unfold u64_max in *. lia. Qed.

Lemma wrap32_bounds x : (0 ≤ wrap32 x ≤ u32_max)%Z.
Proof. unfold wrap32, u32_max. pose proof (Z.mod_pos_bound x (2 ^ 32)). lia. Qed.

Lemma wrap64_bounds x : (0 ≤ wrap64 x ≤ u64_max)%Z.
Proof. unfold wrap64, u64_max. pose proof (Z.mod_pos_bound x (2 ^ 64)). lia. Qed.

#[export] Hint Resolve wrap32_bounds wrap64_bounds : go.

(** The result of [int64] arithmetic, in two's complement.  As a map from [Z] it respects
    additions and products, so that a chain of them wraps once, at its end. *)
Definition wrap_int64 (x : Z) : Z := (x + 2 ^ 63) `mod` 2 ^ 64 - 2 ^ 63.

Lemma wrap_int64_small x : (- 2 ^ 63 ≤ x < 2 ^ 63)%Z → wrap_int64 x = x.
Proof. intros. unfold wrap_int64. rewrite Z.mod_small; lia. Qed.

Lemma wrap_int64_eq x y : (2 ^ 64 | x - y)%Z → wrap_int64 x = wrap_int64 y.
Proof.
  intros [k Hk]. unfold wrap_int64. f_equal.
  replace (x + 2 ^ 63)%Z with (y + 2 ^ 63 + k * 2 ^ 64)%Z by lia. by rewrite Z_mod_plus_full.
Qed.

Lemma wrap_int64_congr x : (2 ^ 64 | wrap_int64 x - x)%Z.
Proof.
  exists (- ((x + 2 ^ 63) / 2 ^ 64))%Z. unfold wrap_int64.
  pose proof (Z_div_mod_eq_full (x + 2 ^ 63) (2 ^ 64)). lia.
Qed.

Lemma wrap_int64_add_mul a x b : wrap_int64 ((wrap_int64 x + a) * b) = wrap_int64 ((x + a) * b).
Proof.
  apply wrap_int64_eq. replace ((wrap_int64 x + a) * b - (x + a) * b)%Z with ((wrap_int64 x - x) * b)%Z by lia.
  apply Z.divide_mul_l, wrap_int64_congr.
Qed.

(** ** Positional numerals

    Go's [%d], [strconv.ParseUint] and the base-62 link names all write a
    number in a base; [to_digits] and [of_digits] are the arithmetic they share.
    Digits are most significant first. *)

Fixpoint to_digits (fuel : nat) (b n : Z) (acc : list Z) : list Z :=
  match fuel with
  | O => acc
  | S f => if (0 <? n)%Z then to_digits f b (n `div` b) (n `mod` b :: acc)%Z else acc
  end.

Definition of_digits (b : Z) (ds : list Z) : Z :=
  fold_left (λ a d, a * b + d)%Z ds 0%Z.

(** Enough fuel for a number in any base of two or more. *)
Definition digits_fuel (n : Z) : nat := S (Z.to_nat (Z.log2 n)).

Section digits.
Local Open Scope Z_scope.
Context (b : Z) (Hb : 2 ≤ b).

Lemma of_digits_acc ds a :
  fold_left (λ a d, a * b + d) ds a = a * b ^ Z.of_nat (length ds) + of_digits b ds.
Proof.
  unfold of_digits. revert a. induction ds as [|d ds IH]; intros a; cbn [fold_left length].
  - rewrite Z.pow_0_r. lia.
  - rewrite IH, (IH (0 * b + d)), Nat2Z.inj_succ, Z.pow_succ_r by lia. ring.
Qed.

Lemma of_digits_cons d ds :
  of_digits b (d :: ds) = d * b ^ Z.of_nat (length ds) + of_digits b ds.
Proof. unfold of_digits at 1. cbn. rewrite of_digits_acc. lia. Qed.

Lemma pow_digits_fuel n : 0 ≤ n → n < b ^ Z.of_nat (digits_fuel n).
Proof.
  intros Hn. unfold digits_fuel. rewrite Nat2Z.inj_succ, Z2Nat.id by apply Z.log2_nonneg.
  pose proof (Z.log2_nonneg n).
  destruct (decide (n = 0)) as [->|]; [apply Z.pow_pos_nonneg; lia|].
  eapply Z.lt_le_trans; [apply Z.log2_spec; lia|].
  apply Z.pow_le_mono_l. lia.
Qed.

Lemma to_digits_acc fuel n acc :
  to_digits fuel b n acc = to_digits fuel b n [] ++ acc.
Proof.
  revert n acc. induction fuel as [|f IH]; intros n acc; cbn; [done|].
  destruct (0 <? n); [|done]. rewrite IH, (IH _ [_]), <-app_assoc. done.
Qed.

Lemma of_to_digits fuel n :
  0 ≤ n < b ^ Z.of_nat fuel → of_digits b (to_digits fuel b n []) = n.
Proof.
  revert n. induction fuel as [|f IH]; intros n Hn; [cbn in *; lia|].
  rewrite Nat2Z.inj_succ, Z.pow_succ_r in Hn by lia. cbn.
  destruct (0 <? n) eqn:E; [apply Z.ltb_lt in E|apply Z.ltb_ge in E; cbn; lia].
  rewrite to_digits_acc. unfold of_digits. rewrite fold_left_app. cbn.
  change (fold_left _ _ 0) with (of_digits b (to_digits f b (n / b) [])).
  rewrite IH.
  - pose proof (Z.div_mod n b). lia.
  - split; [apply Z.div_pos; lia|]. apply Z.div_lt_upper_bound; lia.
Qed.

Lemma to_digits_bounds fuel n : Forall (λ d, 0 ≤ d < b) (to_digits fuel b n []).
Proof.
  revert n. induction fuel as [|f IH]; intros n; cbn; [constructor|].
  destruct (0 <? n); [|constructor].
  rewrite to_digits_acc. apply Forall_app. split; [apply IH|].
  repeat constructor; apply Z.mod_pos_bound; lia.
Qed.

Lemma length_to_digits fuel n k :
  0 ≤ n < b ^ Z.of_nat k → (length (to_digits fuel b n []) ≤ k)%nat.
Proof.
  revert n k. induction fuel as [|f IH]; intros n k Hn; cbn; [lia|].
  destruct (0 <? n) eqn:E; [apply Z.ltb_lt in E|cbn; lia].
  destruct k as [|k]; [cbn in Hn; lia|].
  rewrite Nat2Z.inj_succ, Z.pow_succ_r in Hn by lia.
  rewrite to_digits_acc, length_app. cbn. rewrite Nat.add_1_r.
  apply le_n_S, IH. split; [apply Z.div_pos; lia|]. apply Z.div_lt_upper_bound; lia.
Qed.

Lemma to_digits_nonempty fuel n : 0 < n → to_digits (S fuel) b n [] ≠ [].
Proof.
  intros Hn. cbn. destruct (0 <? n) eqn:E; [|apply Z.ltb_ge in E; lia].
  rewrite to_digits_acc. destruct (to_digits fuel b (n / b) []); done.
Qed.
End digits.

(** ** Lists and options *)

Lemma Forall_map_id {A} (f : A → A) (l : list A) :
  Forall (λ x, f x = x) l → map f l = l.
Proof. induction 1 as [|x l Hx _ IH]; cbn; congruence. Qed.

(** [merge_sort] by a rank: the way a map's entries are put in an order that
    the environment chooses. *)
Definition rank_le {A} (rank : A → N) : relation A := λ x y, (rank x ≤ rank y)%N.
#[export] Instance rank_le_dec {A} (rank : A → N) : RelDecision (rank_le rank).
Proof. intros x y. unfold rank_le. apply _. Defined.
