(* ===== verification/GoStrings.v ===== *)
(** * Go's strings and numerals

    The parts of Go's [strings], [strconv], [fmt], [sort] and [regexp] packages
    that dovesnap calls, on byte strings: a Go string is a [string], one
    [ascii] per byte.  The functions are total and executable; an [error] result
    is a value of [result].  The lemmas are the ones the components use:
    [Split]/[Join] round trips, [ParseUint] against [itoa], prefixes. *)
From S2P Require Import Prelude.

(** A Go [(T, error)] pair of which exactly one part is meaningful.  An error is
    the text of its [Error()] method. *)
Inductive result (A : Type) : Type :=
  | Ok (a : A)
  | Err (e : string).
Arguments Ok {A} _.
Arguments Err {A} _.

(** The value a caller reads when it drops the error: [v, _ := f()]. *)
Definition ok_or {A} (d : A) (r : result A) : A :=
  match r with Ok a => a | Err _ => d end.

(** ** Bytes and characters *)

Definition dquote : ascii := "034"%char.
Definition newline : ascii := "010"%char.

Definition chars (s : string) : list ascii := String.list_ascii_of_string s.
Definition of_chars (l : list ascii) : string := String.string_of_list_ascii l.

(** [len(s)] *)
Definition len (s : string) : Z := Z.of_nat (String.length s).

(** ** strings *)

(** [strings.Split(s, sep)] for a separator of one byte. *)
Fixpoint Split (s : string) (sep : ascii) : list string :=
  match s with
  | EmptyString => [""]
  | String c s' =>
      if decide (c = sep) then "" :: Split s' sep
      else match Split s' sep with
           | w :: ws => String c w :: ws
           | [] => [String c ""]
           end
  end.

(** [strings.Join(l, sep)] *)
Fixpoint Join (l : list string) (sep : string) : string :=
  match l with
  | [] => ""
  | [w] => w
  | w :: ws => w +:+ sep +:+ Join ws sep
  end.

(** [strings.HasPrefix(s, p)] *)
Fixpoint HasPrefix (s p : string) : bool :=
  match p, s with
  | EmptyString, _ => true
  | String a p', String c s' => bool_decide (a = c) && HasPrefix s' p'
  | String _ _, EmptyString => false
  end.

(** [strings.Contains(s, sub)] *)
Fixpoint Contains (s sub : string) : bool :=
  HasPrefix s sub || match s with EmptyString => false | String _ s' => Contains s' sub end.

(** [strings.TrimSuffix(s, x)] for a suffix of one byte. *)
Fixpoint TrimSuffix (s : string) (x : ascii) : string :=
  match s with
  | EmptyString => ""
  | String c EmptyString => if decide (c = x) then "" else s
  | String c s' => String c (TrimSuffix s' x)
  end.

Fixpoint drop_while (cut : list ascii) (l : list ascii) : list ascii :=
  match l with
  | [] => []
  | c :: l' => if decide (c ∈ cut) then drop_while cut l' else l
  end.

(** [strings.Trim(s, cutset)] *)
Definition Trim (s : string) (cutset : string) : string :=
  of_chars (reverse (drop_while (chars cutset)
    (reverse (drop_while (chars cutset) (chars s))))).

(** [strings.ReplaceAll(s, old, "")] for an [old] of one byte. *)
Definition RemoveAll (s : string) (old : ascii) : string :=
  of_chars (filter (λ c, c ≠ old) (chars s)).

Definition ascii_in (lo hi : nat) (c : ascii) : bool :=
  let n := nat_of_ascii c in (lo <=? n)%nat && (n <=? hi)%nat.

Definition to_lower_char (c : ascii) : ascii :=
  if ascii_in 65 90 c then ascii_of_nat (nat_of_ascii c + 32) else c.
Definition to_upper_char (c : ascii) : ascii :=
  if ascii_in 97 122 c then ascii_of_nat (nat_of_ascii c - 32) else c.

(** [strings.ToLower] and [strings.ToUpper], on ASCII text. *)
Definition ToLower (s : string) : string := of_chars (map to_lower_char (chars s)).
Definition ToUpper (s : string) : string := of_chars (map to_upper_char (chars s)).

(** [s\[n:\]]: [None] when [n] is past the end, where Go panics. *)
Fixpoint slice_from (s : string) (n : nat) : option string :=
  match n, s with
  | O, _ => Some s
  | S n', String _ s' => slice_from s' n'
  | S _, EmptyString => None
  end.

(** [s\[:n\]] *)
Fixpoint slice_to (s : string) (n : nat) : option string :=
  match n, s with
  | O, _ => Some ""
  | S n', String c s' => String c <$> slice_to s' n'
  | S _, EmptyString => None
  end.

(** ** strconv and fmt *)

Definition digit_char (d : Z) : ascii := ascii_of_nat (48 + Z.to_nat d).
Definition char_digit (c : ascii) : option Z :=
  if ascii_in 48 57 c then Some (Z.of_nat (nat_of_ascii c) - 48)%Z else None.

Definition digits_string (ds : list Z) : string := of_chars (map digit_char ds).

(** [fmt.Sprintf("%d", n)] *)
Definition itoa (n : Z) : string :=
  if (n =? 0)%Z then "0"
  else if (n <? 0)%Z
       then "-" +:+ digits_string (to_digits (digits_fuel (- n)) 10 (- n) [])
       else digits_string (to_digits (digits_fuel n) 10 n []).

(** [strconv.Quote], on printable ASCII text. *)
Definition Quote (s : string) : string :=
  String dquote (of_chars (flat_map
    (λ c, if decide (c = dquote) then ["\"%char; dquote]
          else if decide (c = "\"%char) then ["\"%char; "\"%char] else [c]) (chars s))
  +:+ String dquote "").

Definition num_error (s kind : string) : string :=
  "strconv.ParseUint: parsing " +:+ Quote s +:+ ": " +:+ kind.

(** The digit loop of [strconv.ParseUint(s, 10, bits)]: [max] is
    [2^bits - 1]; a number that passes it is a range error. *)
Fixpoint parse_digits (all : string) (max acc : Z) (s : string) : result Z :=
  match s with
  | EmptyString => Ok acc
  | String c s' =>
      match char_digit c with
      | None => Err (num_error all "invalid syntax")
      | Some d =>
          let acc' := (acc * 10 + d)%Z in
          if (max <? acc')%Z then Err (num_error all "value out of range")
          else parse_digits all max acc' s'
      end
  end.

(** [strconv.ParseUint(s, 10, bits)] with [max = 2^bits - 1]. *)
Definition ParseUint (s : string) (max : Z) : result Z :=
  match s with
  | EmptyString => Err (num_error s "invalid syntax")
  | _ => parse_digits s max 0 s
  end.

(** [strconv.ParseBool] *)
Definition ParseBool (s : string) : result bool :=
  if bool_decide (s ∈ ["1"; "t"; "T"; "true"; "TRUE"; "True"]) then Ok true
  else if bool_decide (s ∈ ["0"; "f"; "F"; "false"; "FALSE"; "False"]) then Ok false
  else Err ("strconv.ParseBool: parsing " +:+ Quote s +:+ ": invalid syntax").

(** [sort.Ints] *)
Definition Ints (l : list Z) : list Z := merge_sort Z.le l.

(** ** regexp

    The white space and digit classes of RE2. *)
Definition is_space (c : ascii) : bool :=
  bool_decide (c ∈ ["009"; "010"; "012"; "013"; " "]%char).
Definition is_digit (c : ascii) : bool := ascii_in 48 57 c.

(** The longest prefix of characters of a class, and the rest. *)
Fixpoint span (p : ascii → bool) (s : string) : string * string :=
  match s with
  | EmptyString => ("", "")
  | String c s' =>
      if p c then let '(w, r) := span p s' in (String c w, r) else ("", s)
  end.

(** The longest prefix whose elements satisfy a test, and the rest. *)
Fixpoint list_span {A} (p : A → bool) (l : list A) : list A * list A :=
  match l with
  | [] => ([], [])
  | x :: l' => if p x then let '(w, r) := list_span p l' in (x :: w, r) else ([], l)
  end.

(** ** Lemmas: bytes *)

Lemma list_span_app {A} (p : A → bool) l x r :
  Forall (λ y, p y = true) l → p x = false → list_span p (l ++ x :: r) = (l, x :: r).
Proof. induction 1 as [|y l Hy _ IH]; intros Hx; cbn; [by rewrite Hx|]. by rewrite Hy, IH. Qed.

Lemma str_app_nil_l s : "" +:+ s = s.
Proof. done. Qed.

Lemma str_app_cons c s t : String c s +:+ t = String c (s +:+ t).
Proof. done. Qed.

Lemma chars_app s t : chars (s +:+ t) = chars s ++ chars t.
Proof. unfold chars. induction s as [|c s IH]; [done|]. rewrite str_app_cons. cbn. by rewrite IH. Qed.

Lemma of_chars_chars s : of_chars (chars s) = s.
Proof. apply String.string_of_list_ascii_of_string. Qed.

Lemma chars_of_chars l : chars (of_chars l) = l.
Proof. apply String.list_ascii_of_string_of_list_ascii. Qed.

Lemma chars_inj s t : chars s = chars t → s = t.
Proof. intros H. by rewrite <-(of_chars_chars s), H, of_chars_chars. Qed.

Lemma length_chars s : length (chars s) = String.length s.
Proof. unfold chars. induction s as [|c s IH]; cbn; congruence. Qed.

Lemma length_of_chars l : String.length (of_chars l) = length l.
Proof. by rewrite <-length_chars, chars_of_chars. Qed.

Lemma str_length_app s t : String.length (s +:+ t) = (String.length s + String.length t)%nat.
Proof. by rewrite <-!length_chars, chars_app, length_app. Qed.

Lemma str_app_assoc s t u : (s +:+ t) +:+ u = s +:+ (t +:+ u).
Proof. apply chars_inj. by rewrite !chars_app, app_assoc. Qed.

Lemma str_app_nil_r s : s +:+ "" = s.
Proof. apply chars_inj. by rewrite chars_app, app_nil_r. Qed.

Lemma of_chars_app l k : of_chars (l ++ k) = of_chars l +:+ of_chars k.
Proof. apply chars_inj. by rewrite chars_app, !chars_of_chars. Qed.

#[export] Hint Rewrite chars_app length_chars length_of_chars str_length_app
  str_app_assoc str_app_nil_l str_app_nil_r str_app_cons : go_str.

(** A string in which a separator does not occur. *)
Definition free (c : ascii) (s : string) : Prop := c ∉ chars s.
#[export] Instance free_dec c s : Decision (free c s).
Proof. unfold free. apply _. Defined.

Lemma free_app c s t : free c (s +:+ t) ↔ free c s ∧ free c t.
Proof. unfold free. rewrite chars_app, elem_of_app. tauto. Qed.

Lemma free_cons c d s : free c (String d s) ↔ c ≠ d ∧ free c s.
Proof. unfold free. cbn. rewrite elem_of_cons. tauto. Qed.

Lemma free_nil c : free c "".
Proof. unfold free. apply not_elem_of_nil. Qed.

#[export] Hint Resolve free_nil : go.

(** ** Lemmas: Split and Join *)

Lemma Split_not_nil s sep : Split s sep ≠ [].
Proof.
  destruct s as [|c s]; cbn; [done|].
  case_decide; [done|]. by destruct (Split s sep).
Qed.

Lemma Split_free s sep : free sep s → Split s sep = [s].
Proof.
  induction s as [|c s IH]; [done|].
  rewrite free_cons. intros [Hc Hs]. cbn. rewrite IH by done. by rewrite decide_False by done.
Qed.

Lemma Split_app s sep t :
  free sep s → Split (s +:+ String sep t) sep = s :: Split t sep.
Proof.
  induction s as [|c s IH]; intros Hs.
  - rewrite str_app_nil_l. cbn. by rewrite decide_True.
  - apply free_cons in Hs as [Hc Hs]. rewrite str_app_cons. cbn.
    rewrite decide_False by done. by rewrite IH.
Qed.

Lemma Join_cons w ws sep : ws ≠ [] → Join (w :: ws) sep = w +:+ sep +:+ Join ws sep.
Proof. by destruct ws. Qed.

(** Splitting what [Join] wrote gives the parts back, when no part holds the
    separator. *)
Lemma Split_Join l sep :
  l ≠ [] → Forall (free sep) l → Split (Join l (String sep "")) sep = l.
Proof.
  intros Hl HF. induction HF as [|w ws Hw Hws IH]; [done|].
  destruct ws as [|w' ws']; [by apply Split_free|].
  rewrite Join_cons by done. rewrite str_app_cons, str_app_nil_l, Split_app by done.
  by rewrite IH.
Qed.

(** Joining the parts of a split gives the string back. *)
Lemma Join_Split s sep : Join (Split s sep) (String sep "") = s.
Proof.
  induction s as [|c s IH]; [done|]. cbn.
  case_decide as Hc.
  - subst c. rewrite Join_cons by apply Split_not_nil. by rewrite IH.
  - destruct (Split s sep) as [|w ws] eqn:E; [by apply Split_not_nil in E|].
    destruct ws as [|w' ws']; cbn [Join] in *; rewrite <-IH; by rewrite ?str_app_cons.
Qed.

Lemma Split_parts_free s sep : Forall (free sep) (Split s sep).
Proof.
  induction s as [|c s IH]; [repeat constructor; auto with go|]. cbn.
  case_decide as Hc; [constructor; auto with go|].
  destruct (Split s sep) as [|w ws]; inversion_clear IH; constructor; auto.
  - apply free_cons; auto with go.
  - apply free_cons; auto.
Qed.

Lemma Split_chars s sep w : w ∈ Split s sep → ∀ c, c ∈ chars w → c ∈ chars s.
Proof.
  revert w. induction s as [|c s IH]; cbn; intros w Hw.
  - apply list_elem_of_singleton in Hw as ->. done.
  - case_decide.
    + apply elem_of_cons in Hw as [->|Hw]; [by intros ? ?%not_elem_of_nil|].
      intros c' Hc'. right. by eapply IH.
    + destruct (Split s sep) as [|u us] eqn:E; [by apply Split_not_nil in E|].
      apply elem_of_cons in Hw as [->|Hw]; intros c' Hc'.
      * apply elem_of_cons in Hc' as [->|Hc']; [left|right; eapply IH; [left|done]].
      * right. eapply IH; [by right|done].
Qed.

(** ** Lemmas: prefixes *)

Lemma HasPrefix_app p s : HasPrefix (p +:+ s) p = true.
Proof.
  induction p as [|a p IH]; [by destruct s|]. rewrite str_app_cons. cbn.
  by rewrite bool_decide_eq_true_2.
Qed.

Lemma HasPrefix_spec s p : HasPrefix s p = true ↔ ∃ t, s = p +:+ t.
Proof.
  split.
  - revert s. induction p as [|a p IH]; intros s H; [by exists s|].
    destruct s as [|c s]; [done|]. cbn in H. apply andb_true_iff in H as [Ha H].
    apply bool_decide_eq_true_1 in Ha as ->. destruct (IH _ H) as [t ->]. by exists t.
  - intros [t ->]. apply HasPrefix_app.
Qed.

Lemma slice_to_length s n t : slice_to s n = Some t → String.length t = n.
Proof.
  revert s t. induction n as [|n IH]; intros s t; [by destruct s; intros [= <-]|].
  destruct s as [|c s]; [done|]. cbn.
  destruct (slice_to s n) as [t'|] eqn:E; cbn; [|done]. intros [= <-]. cbn. by rewrite (IH s t').
Qed.

Lemma slice_to_is_Some s n : is_Some (slice_to s n) ↔ (n ≤ String.length s)%nat.
Proof.
  revert n. induction s as [|c s IH]; intros [|n]; cbn.
  - split; [lia|eauto].
  - split; [by intros [? ?]|lia].
  - split; [lia|eauto].
  - rewrite fmap_is_Some, IH. lia.
Qed.

(** ** Lemmas: decimal numerals *)

Lemma char_digit_char d : (0 ≤ d < 10)%Z → char_digit (digit_char d) = Some d.
Proof.
  intros Hd.
  assert (d = 0 ∨ d = 1 ∨ d = 2 ∨ d = 3 ∨ d = 4 ∨ d = 5 ∨ d = 6 ∨ d = 7 ∨ d = 8 ∨ d = 9)%Z
    as [->|[->|[->|[->|[->|[->|[->|[->|[->| ->]]]]]]]]] by lia; reflexivity.
Qed.

Lemma char_digit_bounds c d : char_digit c = Some d → (0 ≤ d < 10)%Z.
Proof.
  unfold char_digit, ascii_in. destruct (andb _ _) eqn:E; [|done].
  apply andb_true_iff in E as [H1%Nat.leb_le H2%Nat.leb_le]. intros [= <-]. lia.
Qed.

Lemma parse_digits_bounds all max acc s v :
  (0 ≤ acc ≤ max)%Z → parse_digits all max acc s = Ok v → (0 ≤ v ≤ max)%Z.
Proof.
  revert acc. induction s as [|c s IH]; cbn; intros acc Ha; [by intros [= <-]|].
  destruct (char_digit c) as [d|] eqn:E; [|done].
  apply char_digit_bounds in E.
  destruct (max <? _)%Z eqn:Hlt; [done|]. apply Z.ltb_ge in Hlt. apply IH. lia.
Qed.

(** A parsed number fits the width it was parsed for. *)
Lemma ParseUint_bounds s max v :
  (0 ≤ max)%Z → ParseUint s max = Ok v → (0 ≤ v ≤ max)%Z.
Proof. intros Hm. destruct s; [done|]. apply parse_digits_bounds. lia. Qed.

Lemma of_digits_nonneg b ds : (0 ≤ b)%Z → Forall (λ d, 0 ≤ d)%Z ds → (0 ≤ of_digits b ds)%Z.
Proof.
  unfold of_digits. intros Hb HF.
  enough (∀ a, 0 ≤ a → 0 ≤ fold_left (λ a d, a * b + d) ds a)%Z by (apply H; lia).
  induction HF as [|d ds Hd _ IH]; cbn; intros a Ha; [done|]. apply IH. nia.
Qed.

Lemma parse_digits_digits all max acc ds :
  Forall (λ d, 0 ≤ d < 10)%Z ds → (0 ≤ acc)%Z →
  (fold_left (λ a d, a * 10 + d) ds acc ≤ max)%Z →
  parse_digits all max acc (digits_string ds) = Ok (fold_left (λ a d, a * 10 + d)%Z ds acc).
Proof.
  intros HF. revert acc. induction HF as [|d ds Hd HF IH]; intros acc Ha Hmax; [done|].
  cbn in *. rewrite char_digit_char by done.
  assert (acc * 10 + d ≤ max)%Z as Hle.
  { rewrite of_digits_acc in Hmax by lia.
    assert (Forall (λ d, 0 ≤ d)%Z ds) as HF0
      by (eapply Forall_impl; [exact HF|]; by intros ? [? ?]).
    pose proof (of_digits_nonneg 10 ds ltac:(lia) HF0) as H0.
    pose proof (Z.pow_pos_nonneg 10 (Z.of_nat (length ds)) ltac:(lia) ltac:(lia)).
    nia. }
  rewrite (proj2 (Z.ltb_ge _ _)) by done.
  apply IH; [lia|done].
Qed.

Lemma digits_string_nil ds : digits_string ds = "" → ds = [].
Proof. by destruct ds. Qed.

Lemma ParseUint_cons c s max : ParseUint (String c s) max = parse_digits (String c s) max 0 (String c s).
Proof. done. Qed.

(** Printing a number and parsing it gives it back, when it fits the width. *)
Lemma ParseUint_itoa n max : (0 ≤ n ≤ max)%Z → ParseUint (itoa n) max = Ok n.
Proof.
  intros Hn. unfold itoa. destruct (n =? 0)%Z eqn:E0.
  { apply Z.eqb_eq in E0 as ->. change (ParseUint "0" max) with (if (max <? 0)%Z then Err (num_error "0" "value out of range") else Ok 0%Z).
    by rewrite (proj2 (Z.ltb_ge _ _)) by lia. }
  apply Z.eqb_neq in E0. rewrite (proj2 (Z.ltb_ge _ _)) by lia.
  set (ds := to_digits (digits_fuel n) 10 n []).
  assert (of_digits 10 ds = n) as Hds.
  { apply of_to_digits; [lia|]. split; [lia|]. apply pow_digits_fuel; lia. }
  assert (parse_digits (digits_string ds) max 0 (digits_string ds) = Ok n) as Hp.
  { rewrite parse_digits_digits.
    - by f_equal.
    - by apply to_digits_bounds.
    - lia.
    - change (fold_left _ ds 0)%Z with (of_digits 10 ds). lia. }
  destruct (digits_string ds) as [|c s] eqn:E; [|by rewrite ParseUint_cons].
  apply digits_string_nil in E. exfalso.
  apply (to_digits_nonempty 10 (Z.to_nat (Z.log2 n)) n); [lia|exact E].
Qed.

Lemma itoa_inj n m : (0 ≤ n)%Z → (0 ≤ m)%Z → itoa n = itoa m → n = m.
Proof.
  intros Hn Hm H. pose proof (ParseUint_itoa n (Z.max n m)) as H1.
  pose proof (ParseUint_itoa m (Z.max n m)) as H2. rewrite H in H1.
  rewrite H1 in H2 by lia. specialize (H2 ltac:(lia)). by injection H2.
Qed.

(** The characters of a numeral are digits: it holds none of the separators of
    the configuration strings. *)
Lemma itoa_chars n c : (0 ≤ n)%Z → c ∈ chars (itoa n) → is_digit c = true.
Proof.
  intros Hn. unfold itoa. destruct (n =? 0)%Z eqn:E0.
  { cbn. intros ->%list_elem_of_singleton. reflexivity. }
  rewrite (proj2 (Z.ltb_ge _ _)) by lia.
  unfold digits_string. rewrite chars_of_chars. intros (d & -> & Hd)%list_elem_of_fmap.
  pose proof (to_digits_bounds 10 ltac:(lia) (digits_fuel n) n) as HF.
  rewrite Forall_forall in HF. specialize (HF d Hd). cbn in HF.
  assert (d = 0 ∨ d = 1 ∨ d = 2 ∨ d = 3 ∨ d = 4 ∨ d = 5 ∨ d = 6 ∨ d = 7 ∨ d = 8 ∨ d = 9)%Z
    as [->|[->|[->|[->|[->|[->|[->|[->|[->| ->]]]]]]]]] by lia; reflexivity.
Qed.

Lemma itoa_free n c : (0 ≤ n)%Z → is_digit c = false → free c (itoa n).
Proof. intros Hn Hc H%itoa_chars; [congruence|done]. Qed.

Lemma itoa_not_nil n : (0 ≤ n)%Z → itoa n ≠ "".
Proof.
  intros Hn E. pose proof (ParseUint_itoa n n ltac:(lia)) as H. by rewrite E in H.
Qed.

(** ** Lemmas: sorting *)

Lemma Ints_perm l : Ints l ≡ₚ l.
Proof. apply merge_sort_Permutation. Qed.

Lemma Ints_sorted l : StronglySorted Z.le (Ints l).
Proof. apply Sorted_StronglySorted; [apply _|]. apply Sorted_merge_sort. apply _. Qed.
