(* ===== verification/GoFormat.v ===== *)
(** * Formatted printing: fmt without operands

    Some calls of the source pass a text that was put together as the format of
    Sprintf, Fprintf or Infof, with no operands.  Then every percent sign of the
    text starts a verb, for which an operand is missing.  Here is what fmt prints. *)
From S2P Require Import Prelude GoStrings.

(** ** UTF-8 *)

Definition byte_of (c : ascii) : Z := Z.of_N (N_of_ascii c).

(** A continuation byte between two bounds. *)
Definition between (lo hi : Z) (c : ascii) : bool := ((lo <=? byte_of c) && (byte_of c <=? hi))%Z.

(** How many bytes the UTF-8 encoded rune at the start of a text takes; 0 when
    the text does not start with a valid one. *)
Definition rune_size (l : list ascii) : nat :=
  match l with
  | [] => 0
  | c0 :: l1 =>
      let cont := between 128 191 in
      if between 0 127 c0 then 1
      else if between 194 223 c0 then
        match l1 with c1 :: _ => if cont c1 then 2 else 0 | _ => 0 end
      else if between 224 239 c0 then
        let lo := if (byte_of c0 =? 224)%Z then 160%Z else 128%Z in
        let hi := if (byte_of c0 =? 237)%Z then 159%Z else 191%Z in
        match l1 with c1 :: c2 :: _ => if between lo hi c1 && cont c2 then 3 else 0 | _ => 0 end
      else if between 240 244 c0 then
        let lo := if (byte_of c0 =? 240)%Z then 144%Z else 128%Z in
        let hi := if (byte_of c0 =? 244)%Z then 143%Z else 191%Z in
        match l1 with
        | c1 :: c2 :: c3 :: _ => if between lo hi c1 && cont c2 && cont c3 then 4 else 0
        | _ => 0
        end
      else 0
  end.

(** ** One verb

    The steps of [doPrintf] between a percent sign and the verb, for an empty list
    of operands; [l] is the rest of the format. *)

(** [parsenum]: whether there was a number, and the rest.  A number that grows past a
    million eats the whole format. *)
Fixpoint parsenum (num : Z) (isnum : bool) (l : list ascii) : bool * list ascii :=
  match l with
  | c :: l' =>
      match char_digit c with
      | Some d =>
          if (1000000 <? num)%Z then (false, []) else parsenum (num * 10 + d) true l'
      | None => (isnum, l)
      end
  | [] => (isnum, [])
  end.

(** The text up to the first closing bracket, and what follows it. *)
Fixpoint split_bracket (l : list ascii) : option (list ascii * list ascii) :=
  match l with
  | [] => None
  | c :: l' =>
      if decide (c = "]"%char) then Some ([], l')
      else prod_map (cons c) id <$> split_bracket l'
  end.

(** [argNumber]: the rest, and whether an index was there and was a number.  No index
    is good when there is no operand; [None] says that there was no index. *)
Definition argNumber (l : list ascii) : list ascii * option bool :=
  match l with
  | c :: l' =>
      if decide (c = "["%char) then
        match split_bracket l' with
        | Some (inside, l'') =>
            if (3 <=? length l)%nat then
              (l'', Some (bool_decide (parsenum 0 false inside = (true, []))))
            else (l', Some false)
        | None => (l', Some false)
        end
      else (l, None)
  | [] => (l, None)
  end.

Definition is_flag (c : ascii) : bool := bool_decide (c ∈ ["#"; "0"; "+"; "-"; " "]%char).
Fixpoint drop_flags (l : list ascii) : list ascii :=
  match l with
  | c :: l' => if is_flag c then drop_flags l' else l
  | [] => []
  end.

(** The state of a verb: the rest of the format, whether the operand's number is
    still good, whether the last item was an index, and what was printed. *)
Record verb := mkVerb {
  vb_rest : list ascii;
  vb_good : bool;
  vb_after : bool;
  vb_out : list ascii;
}.

Definition take_index (v : verb) : verb :=
  match argNumber (vb_rest v) with
  | (_, None) => mkVerb (vb_rest v) (vb_good v) false (vb_out v)
  | (rest, Some found) => mkVerb rest false found (vb_out v)
  end.

Definition take_width (v : verb) : verb :=
  match vb_rest v with
  | c :: l' =>
      if decide (c = "*"%char) then mkVerb l' (vb_good v) false (vb_out v ++ chars "%!(BADWIDTH)")
      else
        let '(present, rest) := parsenum 0 false (vb_rest v) in
        mkVerb rest (vb_good v && negb (vb_after v && present)) (vb_after v) (vb_out v)
  | [] => v
  end.

Definition take_precision (v : verb) : verb :=
  match vb_rest v with
  | c :: l' =>
      if decide (c = "."%char) then
        let v := take_index (mkVerb l' (vb_good v && negb (vb_after v)) (vb_after v) (vb_out v)) in
        match vb_rest v with
        | c' :: l'' =>
            if decide (c' = "*"%char)
            then mkVerb l'' (vb_good v) false (vb_out v ++ chars "%!(BADPREC)")
            else mkVerb (parsenum 0 false (vb_rest v)).2 (vb_good v) (vb_after v) (vb_out v)
        | [] => v
        end
      else v
  | [] => v
  end.

(** The replacement character, which an invalid byte is read as. *)
Definition rune_error : list ascii := ["239"; "191"; "189"]%char.

(** What the verb prints, and the rest of the format; [None] at its end. *)
Definition take_verb (v : verb) : list ascii * option (list ascii) :=
  match vb_rest v with
  | [] => (vb_out v ++ chars "%!(NOVERB)", None)
  | c :: l' =>
      let '(rune, rest) :=
        match rune_size (c :: l') with
        | O => (rune_error, l')
        | n => (take n (c :: l'), drop n (c :: l'))
        end in
      let text :=
        if decide (c = "%"%char) then ["%"%char]
        else if vb_good v then chars "%!" ++ rune ++ chars "(MISSING)"
        else chars "%!" ++ rune ++ chars "(BADINDEX)" in
      (vb_out v ++ text, Some rest)
  end.

Definition print_verb (l : list ascii) : list ascii * option (list ascii) :=
  let v := take_index (mkVerb (drop_flags l) true false []) in
  let v := take_precision (take_width v) in
  take_verb (if vb_after v then v else take_index v).

(** ** The whole format *)

(** Every verb takes at least its percent sign, so the length of the format is
    enough fuel. *)
Fixpoint print_format (fuel : nat) (l : list ascii) : list ascii :=
  match fuel, l with
  | S fuel', c :: l' =>
      if decide (c = "%"%char) then
        match print_verb l' with
        | (out, Some rest) => out ++ print_format fuel' rest
        | (out, None) => out
        end
      else c :: print_format fuel' l'
  | _, _ => []
  end.

(** [fmt.Sprintf(format)] *)
Definition Sprintf0 (format : string) : string :=
  of_chars (print_format (String.length format) (chars format)).

(** A text without a percent sign is printed as it is. *)
Lemma Sprintf0_plain format : free "%" format → Sprintf0 format = format.
Proof.
  intros Hf. unfold Sprintf0. rewrite <- (of_chars_chars format) at 3. f_equal.
  rewrite <- length_chars. unfold free in Hf. revert Hf.
  induction (chars format) as [|c l IH]; intros Hf; [done|]. cbn.
  rewrite decide_False by (intros ->; apply Hf; left). f_equal. apply IH.
  intros Hin. apply Hf. by right.
Qed.

Example Sprintf0_verbs :
  map Sprintf0 ["100%"; "50%% off"; "%d pods"; "%-5.2f|"; "%[1]s"; "%*d"] =
  ["100%!(NOVERB)"; "50% off"; "%!d(MISSING) pods"; "%!f(MISSING)|"; "%!s(BADINDEX)";
   "%!(BADWIDTH)%!d(MISSING)"].
Proof. vm_compute. reflexivity. Qed.
