(* ===== verification/GoMonad.v ===== *)
(** * Go control flow

    Go code that may panic, call [os.Exit] (through a fatal log line) or wait
    forever on a channel, as computations over an explicit state.  A panic keeps
    the state reached when it was raised, so that a [recover] in a deferred
    function sees the effects that were already made. *)
From S2P Require Import Prelude GoStrings.

(** ** Outcomes *)

(** How a Go function ends: it returns; it panics with a value (its text); the
    process exits; or the goroutine blocks for ever. *)
Inductive outcome (A : Type) : Type :=
  | Ret (a : A)
  | Panic (v : string)
  | Exit
  | Block.
Arguments Ret {A} _.
Arguments Panic {A} _.
Arguments Exit {A}.
Arguments Block {A}.

(** Sequencing, for outcomes alone and for stateful computations. *)
Class Sequencing (T : Type → Type) := {
  ret : ∀ {A}, A → T A;
  bind : ∀ {A B}, T A → (A → T B) → T B;
}.

Notation "x ← y ; z" := (bind y (λ x, z))
  (at level 20, y at level 100, z at level 200, only parsing) : go_scope.
Notation "' x ← y ; z" := (bind y (λ x, z))
  (at level 20, x pattern, y at level 100, z at level 200, only parsing) : go_scope.
Notation "x ;; z" := (bind x (λ _, z))
  (at level 100, z at level 200, only parsing, right associativity) : go_scope.
Open Scope go_scope.

#[export] Instance outcome_seq : Sequencing outcome := {|
  ret A a := Ret a;
  bind A B m k :=
    match m with
    | Ret a => k a
    | Panic v => Panic v
    | Exit => Exit
    | Block => Block
    end |}.

(** A text that may not parse. *)
#[export] Instance option_seq : Sequencing option := {|
  ret A a := Some a;
  bind A B m k := match m with Some a => k a | None => None end |}.

(** The runtime panics of Go. *)
Definition rt_slice : string := "runtime error: slice bounds out of range".
Definition rt_index : string := "runtime error: index out of range".
Definition rt_nil_deref : string :=
  "runtime error: invalid memory address or nil pointer dereference".
Definition rt_nil_map : string := "assignment to entry in nil map".
Definition rt_type_assert : string := "interface conversion".

(** [l\[i\]] *)
Definition index {A} (l : list A) (i : nat) : outcome A :=
  match l !! i with Some x => Ret x | None => Panic rt_index end.

(** A pointer dereference. *)
Definition deref {A} (p : option A) : outcome A :=
  match p with Some x => Ret x | None => Panic rt_nil_deref end.

(** [if err != nil { panic(err) }] *)
Definition must {A} (r : result A) : outcome A :=
  match r with Ok a => Ret a | Err e => Panic e end.

(** ** Stateful computations *)

Definition M (S A : Type) : Type := S → outcome A * S.

#[export] Instance M_seq {S} : Sequencing (M S) := {|
  ret A a := λ s, (Ret a, s);
  bind A B m k := λ s,
    match m s with
    | (Ret a, s') => k a s'
    | (Panic v, s') => (Panic v, s')
    | (Exit, s') => (Exit, s')
    | (Block, s') => (Block, s')
    end |}.

Section ops.
Context {S : Type}.

Definition lift {A} (o : outcome A) : M S A := λ s, (o, s).
Definition panic {A} (v : string) : M S A := λ s, (Panic v, s).
Definition os_exit {A} : M S A := λ s, (Exit, s).
Definition block {A} : M S A := λ s, (Block, s).
Definition gets {A} (f : S → A) : M S A := λ s, (Ret (f s), s).
Definition modify (f : S → S) : M S unit := λ s, (Ret tt, f s).
Definition skip : M S unit := ret tt.

(** [if b { m }] *)
Definition when (b : bool) (m : M S unit) : M S unit := if b then m else skip.

(** [if err != nil { panic(err) }] for an error alone. *)
Definition must_nil (e : option string) : M S unit :=
  match e with None => skip | Some v => panic v end.

(** [defer func() { if rerr := recover(); rerr != nil { h } }()] *)
Definition recovering {A} (m : M S A) (h : string → M S A) : M S A := λ s,
  match m s with
  | (Panic v, s') => h v s'
  | r => r
  end.

(** [defer f()]: runs after a return and after a panic, not after an exit. *)
Definition deferring {A} (m : M S A) (f : M S unit) : M S A := λ s,
  match m s with
  | (Ret a, s') => (f ;; ret a) s'
  | (Panic v, s') => (f ;; panic v) s'
  | r => r
  end.

(** [for _, x := range l { body }], threading the loop's variables. *)
Fixpoint for_each {X A} (l : list X) (a : A) (body : X → A → M S A) : M S A :=
  match l with
  | [] => ret a
  | x :: l' => a' ← body x a; for_each l' a' body
  end.

(** [for i := i0; i < i0 + n; i++ { body }] where the body either goes on
    ([None]) or leaves the loop with a value ([Some]). *)
Fixpoint for_retry {A} (n : nat) (i : nat) (body : nat → M S (option A)) : M S (option A) :=
  match n with
  | O => ret None
  | Datatypes.S n' =>
      r ← body i;
      match r with
      | Some a => ret (Some a)
      | None => for_retry n' (Datatypes.S i) body
      end
  end.

(** [for i := i0; i < i0 + n; i++ { body }] threading a variable; the body says
    whether it breaks out ([true]). *)
Fixpoint for_break {A} (n : nat) (i : nat) (a : A) (body : nat → A → M S (A * bool)) : M S A :=
  match n with
  | O => ret a
  | Datatypes.S n' =>
      '(a', stop) ← body i a;
      if (stop : bool) then ret a' else for_break n' (Datatypes.S i) a' body
  end.
End ops.

(** Run a computation on a part of a larger state. *)
Definition zoom {S T A} (get : T → S) (set : S → T → T) (m : M S A) : M T A := λ t,
  let '(o, s) := m (get t) in (o, set s t).

(** ** Equations of sequencing *)

Lemma bind_Ret {S A B} (m : M S A) (k : A → M S B) s a s' :
  m s = (Ret a, s') → bind m k s = k a s'.
Proof. intros H. cbn. by rewrite H. Qed.

Lemma bind_Panic {S A B} (m : M S A) (k : A → M S B) s v s' :
  m s = (Panic v, s') → bind m k s = (Panic v, s').
Proof. intros H. cbn. by rewrite H. Qed.

Lemma bind_Ret_inv {S A B} (m : M S A) (k : A → M S B) s b s' :
  bind m k s = (Ret b, s') → ∃ a s1, m s = (Ret a, s1) ∧ k a s1 = (Ret b, s').
Proof. cbn. destruct (m s) as [[a|v| |] s1]; try done. eauto. Qed.

Lemma bind_assoc {S A B C} (m : M S A) (k : A → M S B) (h : B → M S C) s :
  bind (bind m k) h s = bind m (λ a, bind (k a) h) s.
Proof. cbn. by destruct (m s) as [[a|v| |] s']. Qed.

Lemma bind_congr {S A B} (m m' : M S A) (k : A → M S B) s s' :
  m s = m' s' → bind m k s = bind m' k s'.
Proof. intros H. cbn. by rewrite H. Qed.

Lemma bind_ret_l {S A B} (a : A) (k : A → M S B) s : bind (ret a) k s = k a s.
Proof. done. Qed.

(** ** Weakest preconditions

    [wp m Q s]: running [m] from [s] ends in an outcome and a state that satisfy
    [Q].  Every computation terminates, so this is total correctness; panics,
    exits and blocking are outcomes that [Q] speaks about. *)

Definition wp {S A} (m : M S A) (Q : outcome A → S → Prop) (s : S) : Prop :=
  Q (m s).1 (m s).2.

(** The postcondition that only constrains normal returns. *)
Definition on_ret {S A} (Q : A → S → Prop) : outcome A → S → Prop :=
  λ o s, match o with Ret a => Q a s | _ => True end.

Section wp.
Context {S : Type}.
Implicit Types s : S.

Lemma wp_ret {A} (a : A) Q s : Q (Ret a) s → wp (ret a : M S A) Q s.
Proof. done. Qed.

Lemma wp_bind {A B} (m : M S A) (k : A → M S B) Q s :
  wp m (λ o s', match o with
                | Ret a => wp (k a) Q s'
                | Panic v => Q (Panic v) s'
                | Exit => Q Exit s'
                | Block => Q Block s'
                end) s →
  wp (bind m k) Q s.
Proof. unfold wp; cbn; destruct (m s) as [[a|v| |] s']; done. Qed.

Lemma wp_bind_inv {A B} (m : M S A) (k : A → M S B) Q s :
  wp (bind m k) Q s →
  wp m (λ o s', match o with
                | Ret a => wp (k a) Q s'
                | Panic v => Q (Panic v) s'
                | Exit => Q Exit s'
                | Block => Q Block s'
                end) s.
Proof. unfold wp; cbn; destruct (m s) as [[a|v| |] s']; done. Qed.

Lemma wp_mono {A} (m : M S A) (Q Q' : outcome A → S → Prop) s :
  (∀ o s', Q o s' → Q' o s') → wp m Q s → wp m Q' s.
Proof. unfold wp. auto. Qed.

Lemma wp_lift {A} (o : outcome A) Q s : Q o s → wp (lift o) Q s.
Proof. done. Qed.
Lemma wp_panic {A} v (Q : outcome A → S → Prop) s : Q (Panic v) s → wp (panic v) Q s.
Proof. done. Qed.
Lemma wp_gets {A} (f : S → A) Q s : Q (Ret (f s)) s → wp (gets f) Q s.
Proof. done. Qed.
Lemma wp_modify (f : S → S) Q s : Q (Ret tt) (f s) → wp (modify f) Q s.
Proof. done. Qed.

Lemma wp_recovering {A} (m : M S A) h Q s :
  wp m (λ o s', match o with Panic v => wp (h v) Q s' | _ => Q o s' end) s →
  wp (recovering m h) Q s.
Proof. unfold wp, recovering. destruct (m s) as [[a|v| |] s']; done. Qed.

Lemma wp_deferring {A} (m : M S A) f Q s :
  wp m (λ o s', match o with
                | Ret a => wp (f ;; ret a) Q s'
                | Panic v => wp (f ;; panic v) Q s'
                | _ => Q o s'
                end) s →
  wp (deferring m f) Q s.
Proof. unfold wp, deferring. destruct (m s) as [[a|v| |] s']; done. Qed.

(** A loop invariant; the body may also end the whole computation. *)
Lemma wp_for_each {X A} (I : list X → A → S → Prop) (l : list X) (a : A) body Q s :
  (∀ x l' a s, I (x :: l') a s →
    wp (body x a) (λ o s', match o with Ret a' => I l' a' s' | _ => Q o s' end) s) →
  (∀ a s, I [] a s → Q (Ret a) s) →
  I l a s → wp (for_each l a body) Q s.
Proof.
  intros Hbody Hend. revert a s. induction l as [|x l IH]; intros a s HI; [by apply Hend|].
  apply wp_bind. eapply wp_mono; [|by apply Hbody].
  intros [a'|v| |] s' H'; [by apply IH|done..].
Qed.

(** The same for a loop that leaves with a value or runs out of attempts. *)
Lemma wp_for_retry {A} (I : S → Prop) n i (body : nat → M S (option A)) Q s :
  (∀ j s, I s →
    wp (body j) (λ o s', match o with Ret None => I s' | _ => Q o s' end) s) →
  (∀ s, I s → Q (Ret None) s) →
  I s → wp (for_retry n i body) Q s.
Proof.
  intros Hbody Hend. revert i s. induction n as [|n IH]; intros i s HI; [by apply Hend|].
  apply wp_bind. eapply wp_mono; [|by apply Hbody].
  intros [[a|]|v| |] s' H'; [done|by apply IH|done..].
Qed.
End wp.

(** Computations that never touch what [P] observes: [keeps P m]. *)
Definition keeps {S A} (P : S → Prop) (m : M S A) : Prop := ∀ s, P s → P (m s).2.

Section keeps.
Context {S : Type} (P : S → Prop).

Lemma keeps_ret {A} (a : A) : keeps P (ret a : M S A).
Proof. by intros s. Qed.
Lemma keeps_lift {A} (o : outcome A) : keeps P (lift o).
Proof. by intros s. Qed.
Lemma keeps_panic {A} v : keeps P (panic v : M S A).
Proof. by intros s. Qed.
Lemma keeps_exit {A} : keeps P (os_exit : M S A).
Proof. by intros s. Qed.
Lemma keeps_block {A} : keeps P (block : M S A).
Proof. by intros s. Qed.
Lemma keeps_gets {A} (f : S → A) : keeps P (gets f).
Proof. by intros s. Qed.
Lemma keeps_skip : keeps P (skip : M S unit).
Proof. by intros s. Qed.
Lemma keeps_must_nil e : keeps P (must_nil e : M S unit).
Proof. destruct e as [v|]; by intros s. Qed.
Lemma keeps_when b m : keeps P m → keeps P (when b m).
Proof. destruct b; [done|]. intros _. apply keeps_skip. Qed.
Lemma keeps_modify f : (∀ s, P s → P (f s)) → keeps P (modify f).
Proof. intros H s. apply H. Qed.
Lemma keeps_bind {A B} (m : M S A) (k : A → M S B) :
  keeps P m → (∀ a, keeps P (k a)) → keeps P (bind m k).
Proof.
  intros Hm Hk s Hs. specialize (Hm s Hs). cbn.
  destruct (m s) as [[a|v| |] s']; [by apply Hk|done..].
Qed.
Lemma keeps_recovering {A} (m : M S A) h :
  keeps P m → (∀ v, keeps P (h v)) → keeps P (recovering m h).
Proof.
  intros Hm Hh s Hs. specialize (Hm s Hs). unfold recovering.
  destruct (m s) as [[a|v| |] s']; [done|by apply Hh|done..].
Qed.
Lemma keeps_deferring {A} (m : M S A) f :
  keeps P m → keeps P f → keeps P (deferring m f).
Proof.
  intros Hm Hf s Hs. specialize (Hm s Hs). unfold deferring.
  destruct (m s) as [[a|v| |] s']; [| |done..].
  - apply keeps_bind; [done|intros; apply keeps_ret|done].
  - apply keeps_bind; [done|intros; apply keeps_panic|done].
Qed.
Lemma keeps_for_each {X A} (l : list X) (a : A) body :
  (∀ x a, x ∈ l → keeps P (body x a)) → keeps P (for_each l a body).
Proof.
  revert a. induction l as [|x l IH]; intros a Hb; [apply keeps_ret|].
  cbn. apply keeps_bind; [apply Hb; left|]. intros a'. apply IH.
  intros y b Hy. apply Hb. by right.
Qed.
Lemma keeps_for_retry {A} n i (body : nat → M S (option A)) :
  (∀ j, keeps P (body j)) → keeps P (for_retry n i body).
Proof.
  revert i. induction n as [|n IH]; intros i Hb; [apply keeps_ret|].
  cbn. apply keeps_bind; [done|]. intros [a|]; [apply keeps_ret|by apply IH].
Qed.
Lemma keeps_for_break {A} n i (a : A) body :
  (∀ j b, keeps P (body j b)) → keeps P (for_break n i a body).
Proof.
  revert i a. induction n as [|n IH]; intros i a Hb; [apply keeps_ret|].
  cbn. apply keeps_bind; [done|]. intros [b []]; [apply keeps_ret|by apply IH].
Qed.
End keeps.

Lemma wp_keeps {S A} (P : S → Prop) (m : M S A) (Q : outcome A → S → Prop) s :
  keeps P m → P s → (∀ o s', P s' → Q o s') → wp m Q s.
Proof. intros Hm Hs HQ. apply HQ. by apply Hm. Qed.

Create HintDb keeps.
#[export] Hint Resolve keeps_ret keeps_lift keeps_panic keeps_exit keeps_block keeps_gets
  keeps_skip keeps_must_nil : keeps.

(** Walk down a computation whose primitive steps are known to keep [P]. *)
Ltac keeps_tac :=
  repeat first
    [ assumption
    | solve [auto with keeps]
    | apply keeps_bind; [|intros ?]
    | apply keeps_when
    | apply keeps_recovering; [|intros ?]
    | apply keeps_deferring
    | apply keeps_for_each; intros ? ? ?
    | apply keeps_for_retry; intros ?
    | apply keeps_for_break; intros ? ?
    | match goal with
      | |- keeps _ (match ?x with _ => _ end) => destruct x
      | |- keeps _ (if ?x then _ else _) => destruct x
      | |- keeps _ (let '(_, _) := ?x in _) => destruct x
      end ].

(** ** Computations that return or panic

    [tame m]: [m] neither exits the process nor waits for ever. *)

Definition settled {A} (o : outcome A) : Prop :=
  match o with Ret _ | Panic _ => True | _ => False end.

Definition tame {S A} (m : M S A) : Prop := ∀ s, settled (m s).1.

Section tame.
Context {S : Type}.

Lemma tame_ret {A} (a : A) : tame (ret a : M S A).
Proof. done. Qed.
Lemma tame_lift {A} (o : outcome A) : settled o → tame (lift o : M S A).
Proof. by intros H s. Qed.
Lemma tame_panic {A} v : tame (panic v : M S A).
Proof. done. Qed.
Lemma tame_gets {A} (f : S → A) : tame (gets f).
Proof. done. Qed.
Lemma tame_modify (f : S → S) : tame (modify f).
Proof. done. Qed.
Lemma tame_skip : tame (skip : M S unit).
Proof. done. Qed.
Lemma tame_must_nil e : tame (must_nil e : M S unit).
Proof. by destruct e. Qed.
Lemma tame_when b (m : M S unit) : tame m → tame (when b m).
Proof. by destruct b. Qed.
Lemma tame_bind {A B} (m : M S A) (k : A → M S B) :
  tame m → (∀ a, tame (k a)) → tame (bind m k).
Proof.
  intros Hm Hk s. specialize (Hm s). cbn.
  destruct (m s) as [[a|v| |] s']; [apply Hk|done..].
Qed.
Lemma tame_recovering {A} (m : M S A) h :
  tame m → (∀ v, tame (h v)) → tame (recovering m h).
Proof.
  intros Hm Hh s. specialize (Hm s). unfold recovering.
  destruct (m s) as [[a|v| |] s']; [done|apply Hh|done..].
Qed.
Lemma tame_for_each {X A} (l : list X) (a : A) (body : X → A → M S A) :
  (∀ x a, tame (body x a)) → tame (for_each l a body).
Proof.
  intros Hb. revert a. induction l as [|x l IH]; intros a; [apply tame_ret|].
  cbn. by apply tame_bind.
Qed.
Lemma tame_for_retry {A} n i (body : nat → M S (option A)) :
  (∀ j, tame (body j)) → tame (for_retry n i body).
Proof.
  intros Hb. revert i. induction n as [|n IH]; intros i; [apply tame_ret|].
  cbn. apply tame_bind; [done|]. intros [a|]; [apply tame_ret|apply IH].
Qed.
Lemma tame_for_break {A} n i (a : A) (body : nat → A → M S (A * bool)) :
  (∀ j b, tame (body j b)) → tame (for_break n i a body).
Proof.
  intros Hb. revert i a. induction n as [|n IH]; intros i a; [apply tame_ret|].
  cbn. apply tame_bind; [done|]. intros [b []]; [apply tame_ret|apply IH].
Qed.
Lemma tame_zoom {T A} (get : T → S) (set : S → T → T) (m : M S A) :
  tame m → tame (zoom get set m).
Proof. intros Hm t. specialize (Hm (get t)). unfold zoom. by destruct (m (get t)). Qed.
End tame.

Lemma wp_tame {S A} (m : M S A) (Q : outcome A → S → Prop) s :
  tame m → wp m (λ o s', settled o → Q o s') s → wp m Q s.
Proof. intros Hm HQ. apply HQ. apply Hm. Qed.

(** Whatever a tame computation does, a recover that returns makes it return. *)
Lemma recovering_returns {S A} (m : M S A) (h : string → M S A) s :
  tame m → (∀ v s', ∃ a s'', h v s' = (Ret a, s'')) → ∃ a s', recovering m h s = (Ret a, s').
Proof.
  intros Hm Hh. specialize (Hm s). unfold recovering.
  destruct (m s) as [[a|v| |] s']; [by eexists _, _|apply Hh|done..].
Qed.

(** A handler that recovers from every panic and runs a deferred call at its end. *)
Lemma recovering_skip {S} (m : M S unit) s :
  tame m → recovering m (λ _, skip) s = (Ret tt, (m s).2).
Proof.
  intros Hm. specialize (Hm s). unfold recovering.
  destruct (m s) as [[[]|v| |] s']; done.
Qed.

Lemma deferring_recovering_skip {S} (m f : M S unit) s :
  tame m → deferring (recovering m (λ _, skip)) f s = (f ;; ret tt) (m s).2.
Proof. intros Hm. unfold deferring. by rewrite recovering_skip. Qed.

(** How a handler that recovers from every panic comes to return. *)
Lemma deferring_recovering_Ret {S} (m f : M S unit) s s' :
  deferring (recovering m (λ _, skip)) f s = (Ret tt, s') →
  ∃ o s1, m s = (o, s1) ∧ settled o ∧ f s1 = (Ret tt, s').
Proof.
  unfold deferring, recovering. destruct (m s) as [[[]|v| |] s1]; try done;
    intros ([] & s2 & Hf & Hr)%bind_Ret_inv; injection Hr as ->; by eexists _, _.
Qed.

Lemma settled_bind {A B} (m : outcome A) (k : A → outcome B) :
  settled m → (∀ a, settled (k a)) → settled (bind m k).
Proof. destruct m; cbn; auto. Qed.
Lemma settled_index {A} (l : list A) i : settled (index l i).
Proof. unfold index. by destruct (l !! i). Qed.
Lemma settled_deref {A} (p : option A) : settled (deref p).
Proof. by destruct p. Qed.
Lemma settled_must {A} (r : result A) : settled (must r).
Proof. by destruct r. Qed.
Lemma settled_Ret {A} (a : A) : settled (Ret a).
Proof. done. Qed.
Lemma settled_Panic {A} v : settled (Panic v : outcome A).
Proof. done. Qed.

Create HintDb tame.
#[export] Hint Resolve tame_ret tame_panic tame_gets tame_modify tame_skip tame_must_nil
  settled_index settled_deref settled_must settled_Ret settled_Panic : tame.

(** Walk down a computation whose primitive steps are known to be tame. *)
Ltac tame_tac :=
  repeat first
    [ assumption
    | solve [auto with tame]
    | apply tame_bind; [|intros ?]
    | apply settled_bind; [|intros ?]
    | apply tame_lift
    | apply tame_when
    | apply tame_recovering; [|intros ?]
    | apply tame_for_each; intros ? ?
    | apply tame_for_retry; intros ?
    | apply tame_for_break; intros ? ?
    | apply tame_zoom
    | match goal with
      | |- tame (match ?x with _ => _ end) => destruct x
      | |- settled (match ?x with _ => _ end) => destruct x
      end ].

(** One step of symbolic execution. *)
Ltac wp_step :=
  first
    [ apply wp_ret | apply wp_lift | apply wp_gets | apply wp_modify | apply wp_panic
    | apply wp_bind | apply wp_recovering | apply wp_deferring ].
