(* ===== verification/World.v ===== *)
(** * The world outside dovesnap

    dovesnap drives programs and services it does not contain: [ovs-vsctl] and
    [ovs-ofctl], netlink, iptables, the docker daemon, the faucetconfrpc server,
    the file system.  Each interaction is a [call]; what comes back is a
    parameter, the class [Env]: a reply for every history of earlier calls.  No
    law is assumed of it here, so a theorem that holds for every [Env] holds
    whatever the outside does, errors included; the laws that some theorems need
    are classes of their own, stated where they are used. *)
From S2P Require Import Prelude GoStrings GoMonad.

(** ** The docker API's data, as far as the sources read it *)

(** [network.IPAMConfig] *)
Record IPAMConfig := mkIPAMConfig { ipam_Subnet : string; ipam_Gateway : string }.

(** [network.Inspect]; [Containers] maps a container ID to its endpoint ID. *)
Record NetInspect := mkNetInspect {
  ni_Name : string;
  ni_ID : string;
  ni_Options : option (gmap string string);
  ni_IPAM_Config : list IPAMConfig;
  ni_Containers : gmap string string;
}.

(** [network.Summary] *)
Record NetSummary := mkNetSummary { su_ID : string; su_Name : string; su_Driver : string }.

(** [network.EndpointSettings] *)
Record EndpointSettings := mkEndpointSettings {
  es_MacAddress : string;
  es_IPAddress : string;
  es_Gateway : string;
}.

(** [container.ContainerJSONBase]; [State] is a pointer. *)
Record ContainerBase := mkContainerBase {
  cb_ID : string;
  cb_Name : string;
  cb_State_Pid : option Z;
}.

(** [container.InspectResponse]: its parts are pointers, [None] is [nil].  The
    settings of a network are pointers too, and the labels may be a nil map. *)
Record InspectResponse := mkInspectResponse {
  ir_Base : option ContainerBase;
  ir_Config_Labels : option (option (gmap string string));
  ir_Networks : option (gmap string (option EndpointSettings));
}.
Definition zero_InspectResponse : InspectResponse := mkInspectResponse None None None.

(** ** Calls *)

(** Requests to the faucetconfrpc server. *)
Inductive rpc : Type :=
  | SetConfigFile (ConfigYaml : string) (Merge : bool)
  | SetPortAcl (DpName : string) (PortNo : Z) (Acls : string)
  | SetVlanOutAcl (VlanName AclOut : string)
  | DelDpInterfaces (InterfacesConfig : list (string * list Z)) (DeleteEmptyDp : bool)
  | DelDps (InterfacesConfig : list string)
  | AddPortMirror (DpName : string) (PortNo MirrorPortNo : Z)
  | SetRemoteMirrorPort (DpName : string) (PortNo TunnelVid : Z) (RemoteDpName : string)
      (RemotePortNo : Z).

(** [time.Second]: a Duration is an [int64] of nanoseconds. *)
Definition Second : Z := 1000000000.

(** A [netlink.Link]. *)
Record Link := mkLink { link_Name : string; link_HardwareAddr : list Z }.

Inductive call : Type :=
  (* exec.Command(name, args...) *)
  | CRun (cmd : string) (args : list string)
  | CStart (cmd : string) (args env : list string)
  | CKill (cmd : string) (args : list string)
  | CWait (cmd : string) (args : list string)
  (* netlink, net *)
  | CLinkByName (name : string)
  | CLinkAdd (name peer : string)
  | CLinkSetUp (name : string)
  | CLinkDel (name : string)
  | CLinkSetHardwareAddr (name : string) (mac : list Z)
  | CLinkSetMTU (name : string) (mtu : Z)
  | CAddrList (name : string)
  | CParseAddr (rawIP : string)
  | CAddrAdd (name addr : string)
  | CInterfaceByName (name : string)
  (* iptables.Raw(args...) *)
  | CIptables (args : list string)
  (* faucetconfrpc; the timeout is a Duration *)
  | CRpc (r : rpc)
  | CGetDpNames
  | CDial (addr : string) (timeout : Z)
  | CLoadX509KeyPair (crt key : string)
  | CAppendCertsFromPEM (pem : string)
  (* docker *)
  | CNewEnvClient
  | CInfo
  | CNetworkInspect (id : string)
  | CNetworkList
  | CContainerInspect (id : string)
  (* os, time, log; only the lines that the notifier prints are calls *)
  | CStat (path : string)
  | CMkdirAll (path : string)
  | CLstat (path : string)
  | CRemove (path : string)
  | CSymlink (old new : string)
  | CReadFile (path : string)
  | CHostname
  | CEnviron
  | CSleep (d : Z)
  | CTimeNow
  | CInfof (line : string)
  | CFatalf (msg : string)
  (* http.ListenAndServe(addr, nil); the plugin server's ServeUnix *)
  | CListenAndServe (addr : string)
  | CServeUnix (addr : string).

(** [os.Stat]: the modification time, or an error that [os.IsNotExist] may
    recognise. *)
Inductive stat_reply : Type :=
  | StatOk (mtime : Z)
  | StatErr (e : string) (not_exist : bool).

(** [GetDpNames]: names, or an error that may carry a gRPC status. *)
Inductive dp_names_reply : Type :=
  | DpNames (names : list string)
  | DpNamesErr (e : string) (is_status : bool).

(** A Go [error]. *)
Abbreviation error := (option string).

(** What each call returns.  [log.Fatalf] is documented to end the process; the
    environment says whether it does ([false]) or returns ([true]). *)
Definition reply (c : call) : Type :=
  match c with
  | CRun _ _ => (string * error)%type
  | CLinkByName _ => (option Link * error)%type
  | CAddrList _ => (list string * error)%type
  | CParseAddr _ => result string
  | CInterfaceByName _ => result string
  | CIptables _ => (string * error)%type
  | CGetDpNames => dp_names_reply
  | CAppendCertsFromPEM _ => bool
  | CInfo => result string
  | CNetworkInspect _ => result NetInspect
  | CNetworkList => result (list NetSummary)
  | CContainerInspect _ => result InspectResponse
  | CStat _ => stat_reply
  | CReadFile _ => result string
  | CHostname => result string
  | CEnviron => list string
  | CSleep _ => unit
  | CTimeNow => Z
  | CInfof _ => unit
  | CFatalf _ => bool
  | _ => error
  end.

(** The outside: a reply for every call after every history; the order in which
    a map is iterated (a rank of its encoded keys, for every history and every
    iteration); and the function and the alphabets of the baseconv package. *)
Class Env := {
  env_reply : list call → ∀ c : call, reply c;
  env_rank : list call → nat → positive → N;
  bc_Convert : string → string → string → string * error;
  bc_Digits36 : string;
  bc_DigitsHex : string;
  bc_DigitsDec : string;
}.

(** ** Input and output *)

Record io := mkIo { io_trace : list call; io_ticks : nat }.

Abbreviation IO := (M io).

Definition init_io : io := mkIo [] 0.

Section io.
Context `{E : Env}.

Definition ext (c : call) : IO (reply c) := λ s,
  (Ret (env_reply (io_trace s) c), mkIo (io_trace s ++ [c]) (io_ticks s)).

(** [for k, v := range m]: the entries in an order the environment picks. *)
Definition range {K V} `{Countable K} (m : gmap K V) : IO (list (K * V)) := λ s,
  (Ret (merge_sort
          (rank_le (λ kv, env_rank (io_trace s) (io_ticks s) (encode kv.1)))
          (map_to_list m)),
   mkIo (io_trace s) (S (io_ticks s))).

(** [time.Sleep] of a Duration *)
Definition Sleep (d : Z) : IO unit := ext (CSleep d).

(** [log.Fatalf] *)
Definition Fatalf (msg : string) : IO unit :=
  returns ← ext (CFatalf msg);
  if returns then skip else os_exit.
End io.

(** ** Facts about input and output *)

(** Everything a computation does outside is appended to the history. *)
Definition extends {A} (m : IO A) : Prop :=
  ∀ s, io_trace s `prefix_of` io_trace (m s).2.

Section io_facts.
Context `{E : Env}.

Lemma range_perm {K V} `{Countable K} (m : gmap K V) s l s' :
  range m s = (Ret l, s') → l ≡ₚ map_to_list m.
Proof. intros [= <- <-]. apply merge_sort_Permutation. Qed.

(** A range visits each entry of the map, and nothing else. *)
Lemma wp_range {K V} `{Countable K} (m : gmap K V) Q s :
  (∀ l, l ≡ₚ map_to_list m → Q (Ret l) (mkIo (io_trace s) (S (io_ticks s)))) →
  wp (range m) Q s.
Proof. intros HQ. apply HQ. apply merge_sort_Permutation. Qed.

Lemma wp_ext c Q s :
  Q (Ret (env_reply (io_trace s) c)) (mkIo (io_trace s ++ [c]) (io_ticks s)) →
  wp (ext c) Q s.
Proof. done. Qed.

Lemma wp_Sleep n Q s :
  Q (Ret tt) (mkIo (io_trace s ++ [CSleep n]) (io_ticks s)) → wp (Sleep n) Q s.
Proof. intros H. unfold wp. cbn. by destruct (env_reply _ _). Qed.

Lemma keeps_ext t c : keeps (λ s, t `prefix_of` io_trace s) (ext c).
Proof. intros s Hs. cbn. by apply prefix_app_r. Qed.

Lemma keeps_Sleep t n : keeps (λ s, t `prefix_of` io_trace s) (Sleep n).
Proof. exact (keeps_ext t (CSleep n)). Qed.

Lemma keeps_range {K V} `{Countable K} t (m : gmap K V) :
  keeps (λ s, t `prefix_of` io_trace s) (range m).
Proof. by intros s. Qed.

Lemma extends_keeps {A} (m : IO A) :
  (∀ t, keeps (λ s, t `prefix_of` io_trace s) m) → extends m.
Proof. intros H s. by apply H. Qed.
End io_facts.

#[export] Hint Resolve keeps_ext keeps_range keeps_Sleep : keeps.

(** A call returns, and so does an iteration; only [Fatalf] may not. *)
Lemma tame_ext `{E : Env} c : tame (ext c).
Proof. done. Qed.
Lemma tame_range `{E : Env} {K V} `{Countable K} (m : gmap K V) : tame (range m).
Proof. done. Qed.
Lemma tame_Sleep `{E : Env} n : tame (Sleep n).
Proof. done. Qed.

#[export] Hint Resolve tame_ext tame_range tame_Sleep : tame.
