(* ===== verification/Scenario.v ===== *)
(** * Concrete environments

    An [Env] that computes, for evaluating the model on concrete inputs: every
    command and call succeeds unless a [script] says otherwise, maps are iterated
    in the order of their keys' encodings, and base conversion is done digit by
    digit. *)
From S2P Require Import Prelude GoStrings GoMonad World.

Record script := mkScript {
  sc_run : list call → string → list string → string * error;
  sc_link : string → option Link * error;
  sc_addrs : string → list string * error;
  sc_iptables : list string → string * error;
  sc_rpc : rpc → error;
  sc_network : string → result NetInspect;
  sc_networks : list NetSummary;
  sc_container : string → result InspectResponse;
  sc_up : string → result string;
  sc_stat : string → stat_reply;
  sc_file : string → result string;
}.

(** Everything outside works, and knows nothing. *)
Definition quiet : script := {|
  sc_run _ _ _ := ("", None);
  sc_link name := (Some (mkLink name [2; 66; 0; 0; 0; 1]%Z), None);
  sc_addrs _ := (["192.0.2.1/24"], None);
  sc_iptables _ := ("", None);
  sc_rpc _ := None;
  sc_network _ := Err "no such network";
  sc_networks := [];
  sc_container _ := Err "no such container";
  sc_up _ := Ok "up|broadcast|multicast";
  sc_stat _ := StatErr "no such file or directory" true;
  sc_file _ := Err "no such file or directory";
|}.

Definition script_reply (sc : script) (t : list call) (c : call) : reply c :=
  match c as c return reply c with
  | CRun cmd args => sc_run sc t cmd args
  | CLinkByName name => sc_link sc name
  | CAddrList name => sc_addrs sc name
  | CParseAddr a => Ok a
  | CInterfaceByName name => sc_up sc name
  | CIptables args => sc_iptables sc args
  | CRpc r => sc_rpc sc r
  | CGetDpNames => DpNames []
  | CAppendCertsFromPEM _ => true
  | CInfo => Ok "ABCD:EFGH"
  | CNetworkInspect id => sc_network sc id
  | CNetworkList => Ok (sc_networks sc)
  | CContainerInspect id => sc_container sc id
  | CStat p => sc_stat sc p
  | CReadFile p => sc_file sc p
  | CHostname => Ok "host"
  | CEnviron => []
  | CSleep _ => tt
  | CTimeNow => 1700000000%Z
  | CInfof _ => tt
  | CFatalf _ => false
  | _ => None
  end.

(** The position of a character in an alphabet. *)
Definition alphabet_index (alphabet : string) (c : ascii) : option Z :=
  (λ p : nat * ascii, Z.of_nat p.1) <$> list_find (λ c', c = c') (chars alphabet).

Definition alphabet_char (alphabet : string) (d : Z) : ascii :=
  default "0"%char (String.get (Z.to_nat d) alphabet).

(** Base conversion: an error for a character outside the alphabet. *)
Definition convert (s from to : string) : string * error :=
  match mapM (alphabet_index from) (chars s) with
  | None => ("", Some "invalid digit")
  | Some ds =>
      let n := of_digits (len from) ds in
      (if (n =? 0)%Z then of_chars [alphabet_char to 0]
       else of_chars (map (alphabet_char to) (to_digits (digits_fuel n) (len to) n [])), None)
  end.

Definition scripted (sc : script) : Env := {|
  env_reply := script_reply sc;
  env_rank _ _ p := Npos p;
  bc_Convert := convert;
  bc_Digits36 := "0123456789abcdefghijklmnopqrstuvwxyz";
  bc_DigitsHex := "0123456789abcdef";
  bc_DigitsDec := "0123456789";
|}.

(** A script whose commands are answered by [f], the rest as in [quiet]. *)
Definition with_run (f : list call → string → list string → string * error) (sc : script) : script := {|
  sc_run := f;
  sc_link := sc_link sc; sc_addrs := sc_addrs sc; sc_iptables := sc_iptables sc;
  sc_rpc := sc_rpc sc; sc_network := sc_network sc; sc_networks := sc_networks sc;
  sc_container := sc_container sc; sc_up := sc_up sc; sc_stat := sc_stat sc;
  sc_file := sc_file sc;
|}.

(** A script whose Faucet server answers with [f]. *)
Definition with_rpc (f : rpc → error) (sc : script) : script := {|
  sc_run := sc_run sc;
  sc_link := sc_link sc; sc_addrs := sc_addrs sc; sc_iptables := sc_iptables sc;
  sc_rpc := f; sc_network := sc_network sc; sc_networks := sc_networks sc;
  sc_container := sc_container sc; sc_up := sc_up sc; sc_stat := sc_stat sc;
  sc_file := sc_file sc;
|}.

(** A script whose docker daemon knows networks and containers. *)
Definition with_docker (nets : string → result NetInspect) (conts : string → result InspectResponse)
    (sc : script) : script := {|
  sc_run := sc_run sc;
  sc_link := sc_link sc; sc_addrs := sc_addrs sc; sc_iptables := sc_iptables sc;
  sc_rpc := sc_rpc sc; sc_network := nets; sc_networks := sc_networks sc;
  sc_container := conts; sc_up := sc_up sc; sc_stat := sc_stat sc;
  sc_file := sc_file sc;
|}.
