(* ===== verification/Utils.v ===== *)
(** * Utilities: ovs/utils.go

    Number and name conversions, MAC and IP arithmetic, and the netlink helpers.
    [hash/crc32], [encoding/hex] and [net.ParseMAC] of Go's library are modelled
    here because only this file of the program uses them. *)
From S2P Require Import Prelude GoStrings GoMonad World.

(** ** Numbers *)

(** [uint32] of a string, base 10; the value is 0 when the error is set. *)
Definition ParseUint32 (value : string) : result Z := ParseUint value u32_max.

Definition defaultUint (strValue : string) (defaultValue : Z) : Z :=
  match ParseUint strValue u64_max with
  | Ok uintValue => uintValue
  | Err _ => defaultValue
  end.

(** [for digits < 6 { converted = "0" + converted; digits = len(converted) }] *)
Fixpoint pad_zeros (fuel : nat) (converted : string) : string :=
  match fuel with
  | O => converted
  | S f => if (len converted <? 6)%Z then pad_zeros f ("0" +:+ converted) else converted
  end.

Definition b62alphabet : string :=
  "0123456789abcdefghijklmnopqrstuvwxyzABCDEFGHIJKLMNOPQRSTUVWXYZ".

(** [float64(n)] of a non-negative integer: the nearest number with a 53 bit
    significand, ties to even. *)
Definition float64_of (n : Z) : Z :=
  let e := (Z.log2 n - 52)%Z in
  if (e <=? 0)%Z then n
  else
    let q := (n `div` 2 ^ e)%Z in
    let r := (n `mod` 2 ^ e)%Z in
    let half := (2 ^ (e - 1))%Z in
    let q' := if (r <? half)%Z then q
              else if (half <? r)%Z then (q + 1)%Z
              else if Z.even q then q else (q + 1)%Z in
    (q' * 2 ^ e)%Z.

(** [math.Mod] of two floats that are non-negative integers is exact. *)
Definition math_Mod (x y : Z) : Z := Z.rem x y.

Fixpoint b62_loop (fuel : nat) (n : Z) (b : list ascii) : list ascii :=
  match fuel with
  | O => b
  | S f =>
      if (0 <? n)%Z then
        let base := len b62alphabet in
        let r := math_Mod (float64_of n) (float64_of base) in
        b62_loop f (Z.quot n base)
          (default "0"%char (String.get (Z.to_nat r) b62alphabet) :: b)
      else b
  end.

(** An [int64] in base 62. *)
Definition b62Encode (n : Z) : string :=
  if (n =? 0)%Z then "0" else of_chars (b62_loop (digits_fuel n) n []).

(** ** hash/crc32: the reflected polynomial 0xEDB88320, bit by bit *)

Definition crc_poly : N := 0xEDB88320.
Definition crc_bit (c : N) : N :=
  if N.testbit c 0 then N.lxor (N.shiftr c 1) crc_poly else N.shiftr c 1.
Definition crc_byte (c : N) (x : ascii) : N :=
  Nat.iter 8 crc_bit (N.lxor c (N_of_ascii x)).

Definition ChecksumIEEE (s : string) : N :=
  N.lxor (fold_left crc_byte (chars s) 0xFFFFFFFF%N) 0xFFFFFFFF.

(** A link name as a short hash. *)
Definition patchStr (a : string) : string := b62Encode (Z.of_N (ChecksumIEEE a)).

(** ** encoding/hex and net.ParseMAC *)

Definition hex_digit (c : ascii) : option Z :=
  let n := Z.of_nat (nat_of_ascii c) in
  if ascii_in 48 57 c then Some (n - 48)%Z
  else if ascii_in 97 102 c then Some (n - 87)%Z
  else if ascii_in 65 70 c then Some (n - 55)%Z
  else None.

Definition hex_char (d : Z) : ascii :=
  default "0"%char (String.get (Z.to_nat d) "0123456789abcdef").

(** [hex.DecodeString] *)
Fixpoint hex_decode (l : list ascii) : option (list Z) :=
  match l with
  | [] => Some []
  | a :: b :: l' =>
      x ← hex_digit a; y ← hex_digit b; r ← hex_decode l'; Some ((x * 16 + y)%Z :: r)
  | [_] => None
  end%stdpp.
Definition DecodeString (s : string) : option (list Z) := hex_decode (chars s).

(** [xtoi]: the hexadecimal number at the start of a slice of at most two
    characters, stopping at the first character that is no digit. *)
Definition xtoi (l : list ascii) : option Z :=
  match l with
  | a :: l' =>
      match hex_digit a with
      | None => None
      | Some x =>
          match l' with
          | b :: _ => match hex_digit b with Some y => Some (x * 16 + y)%Z | None => Some x end
          | [] => Some x
          end
      end
  | [] => None
  end.

(** [xtoi2(s, e)]: two digits; when a third character exists it must be [e]. *)
Definition xtoi2 (l : list ascii) (e : ascii) : option Z :=
  match l !! 2%nat with
  | Some c => if decide (c = e) then xtoi (take 2 l) else None
  | None => xtoi (take 2 l)
  end.

(** The two loops of [net.ParseMAC]. *)
Fixpoint mac_colon (n : nat) (l : list ascii) (sep : ascii) : option (list Z) :=
  match n with
  | O => Some []
  | S n' => x ← xtoi2 l sep; r ← mac_colon n' (drop 3 l) sep; Some (x :: r)
  end%stdpp.
Fixpoint mac_dot (n : nat) (l : list ascii) : option (list Z) :=
  match n with
  | O => Some []
  | S n' =>
      x ← xtoi2 (take 2 l) "000"; y ← xtoi2 (drop 2 l) ".";
      r ← mac_dot n' (drop 5 l); Some (x :: y :: r)
  end%stdpp.

Definition mac_size_ok (n : nat) : bool := bool_decide (n ∈ [6; 8; 20]%nat).

Definition ParseMAC (s : string) : result (list Z) :=
  let l := chars s in
  let n := length l in
  let err := Err ("address " +:+ s +:+ ": invalid MAC address") in
  if (n <? 14)%nat then err
  else if bool_decide (l !! 2%nat = Some ":"%char ∨ l !! 2%nat = Some "-"%char) then
    let k := ((n + 1) / 3)%nat in
    if ((n + 1) mod 3 =? 0)%nat && mac_size_ok k then
      match mac_colon k l (default ":"%char (l !! 2%nat)) with Some hw => Ok hw | None => err end
    else err
  else if bool_decide (l !! 4%nat = Some "."%char) then
    let k := (2 * (n + 1) / 5)%nat in
    if ((n + 1) mod 5 =? 0)%nat && mac_size_ok k then
      match mac_dot (k / 2) l with Some hw => Ok hw | None => err end
    else err
  else err.

Definition hex_byte (b : Z) : string :=
  String (hex_char (b `div` 16)%Z) (String (hex_char (b `mod` 16)%Z) "").

(** [HardwareAddr.String] *)
Definition mac_string (hw : list Z) : string := Join (map hex_byte hw) ":".

(** [for i, b := range prefixBytes { rawMacAddress\[i\] = b }] *)
Fixpoint overwrite (i : nat) (bs : list Z) (mac : list Z) : outcome (list Z) :=
  match bs with
  | [] => Ret mac
  | b :: bs' => _ ← index mac i; overwrite (S i) bs' (<[i := b]> mac)
  end.

Definition mustPrefixMAC (macPrefix macAddress : string) : outcome string :=
  match DecodeString (RemoveAll macPrefix ":") with
  | None => Panic ("invalid MAC prefix: " +:+ macPrefix)
  | Some prefixBytes =>
      if (5 <? Z.of_nat (length prefixBytes))%Z
      then Panic ("MAC prefix too long: " +:+ macPrefix)
      else
        rawMacAddress ← must (ParseMAC macAddress);
        rawMacAddress' ← overwrite 0 prefixBytes rawMacAddress;
        Ret (mac_string rawMacAddress')
  end.

(** ** net.IP *)

(** [for xi := i + 1; xi <= 15; xi++ { networkAddr\[xi\] = 0 }] *)
Definition zero_above (i : nat) (ip : list Z) : list Z :=
  foldl (λ l xi, <[xi := 0%Z]> l) ip (seq (S i) (15 - i)).

Fixpoint ipIncrement_from (i : nat) (networkAddr : list Z) : outcome (list Z) :=
  b ← index networkAddr i;
  if (b <? 255)%Z then Ret (zero_above i (<[i := (b + 1)%Z]> networkAddr))
  else match i with O => Ret networkAddr | S i' => ipIncrement_from i' networkAddr end.

(** The next address; the slice it is given is the slice it returns. *)
Definition ipIncrement (networkAddr : list Z) : outcome (list Z) :=
  ipIncrement_from 15 networkAddr.

(** ** Conversions through the baseconv package *)

(** The two ends of a veth pair. *)
Record Veth := mkVeth { veth_Name : string; veth_PeerName : string }.

Definition ovsDovesnapPrefix : string := "ods".
Definition ovsPortPrefix : string := ovsDovesnapPrefix +:+ "ve".
Definition peerOvsPortPrefix : string := "ethc".
Definition netNsPath : string := "/var/run/netns".

(** [int(x)] of a [uint]: the same 64 bits as a signed number. *)
Definition to_int64 (x : Z) : Z :=
  if (x <? 2 ^ 63)%Z then x else (x - 2 ^ 64)%Z.

Section utils.
Context `{E : Env}.

Definition base36to16 (value : string) : string :=
  let '(converted, _) := bc_Convert (ToLower value) bc_Digits36 bc_DigitsHex in
  ToUpper (pad_zeros 6 converted).

Definition mustGetUintFromHexStr (dpid : string) : outcome Z :=
  match slice_from dpid 2 with
  | None => Panic rt_slice
  | Some tail =>
      let '(strVal, _) := bc_Convert (ToLower tail) bc_DigitsHex bc_DigitsDec in
      let uintVal := defaultUint strVal 0 in
      if (uintVal =? 0)%Z then Panic ("unable convert " +:+ strVal +:+ " to an uint")
      else Ret uintVal
  end.

(** ** netlink *)

(** The IPv4 address of an interface. *)
Definition getIfaceAddr (name : string) : IO (result string) :=
  '(_, err) ← ext (CLinkByName name);
  match err with
  | Some e => ret (Err e)
  | None =>
      '(addrs, err) ← ext (CAddrList name);
      match err, addrs with
      | Some e, _ => ret (Err e)
      | None, [] => ret (Err ("interface " +:+ name +:+ " has no IP addresses"))
      | None, a :: _ => ret (Ok a)
      end
  end.

Definition mustGetLinkByName (name : string) : IO (option Link) :=
  '(iface, err) ← ext (CLinkByName name);
  must_nil err;;
  ret iface.

Definition mustSetInterfaceMac (name macAddress : string) : IO unit :=
  mustGetLinkByName name;;
  netaddr ← lift (must (ParseMAC macAddress));
  err ← ext (CLinkSetHardwareAddr name netaddr);
  must_nil err.

Definition mustSetInterfaceMTU (name : string) (mtu : Z) : IO unit :=
  mustGetLinkByName name;;
  err ← ext (CLinkSetMTU name (to_int64 mtu));
  must_nil err.

Definition setInterfaceIP (name rawIP : string) : IO error :=
  err ← for_break 2 0 None (λ _ _,
    '(_, err) ← ext (CLinkByName name);
    match err with
    | None => ret (None, true)
    | Some e => Sleep (2 * Second);; ret (Some e, false)
    end);
  match err with
  | Some e =>
      Fatalf ("Abandoning retrieving the new OVS bridge link from netlink, Run [ ip link ] to troubleshoot the error: " +:+ e);;
      ret (Some e)
  | None =>
      addr ← ext (CParseAddr rawIP);
      match addr with
      | Err e => ret (Some e)
      | Ok addr => ext (CAddrAdd name addr)
      end
  end.

(** Whether the interface exists in the default namespace. *)
Definition validateIface (ifaceStr : string) : IO bool :=
  r ← ext (CInterfaceByName ifaceStr);
  match r with Err _ => ret false | Ok _ => ret true end.

Definition ensureDirExists (dir : string) : IO unit :=
  r ← ext (CStat dir);
  match r with
  | StatErr _ true => err ← ext (CMkdirAll dir); must_nil err
  | _ => skip
  end.

Definition createNsLink (pid : Z) (id : string) : IO unit :=
  let procPath := "/proc/" +:+ itoa pid +:+ "/ns/net" in
  let procNetNsPath := netNsPath +:+ "/" +:+ id in
  err ← ext (CLstat procNetNsPath);
  match err with
  | None => err ← ext (CRemove procNetNsPath); must_nil err
  | Some _ => skip
  end;;
  err ← ext (CSymlink procPath procNetNsPath);
  must_nil err.

Definition deleteNsLink (id : string) : IO unit :=
  ext (CRemove (netNsPath +:+ "/" +:+ id));;
  skip.

Definition vethPair (suffix : string) : Veth :=
  mkVeth (ovsPortPrefix +:+ suffix) (peerOvsPortPrefix +:+ suffix).

Definition getMacAddr (name : string) : IO string :=
  iface ← mustGetLinkByName name;
  l ← lift (deref iface);
  ret (mac_string (link_HardwareAddr l)).

(** Bring an interface up.  When the lookup fails the debug line reads the
    name of the link that was not found. *)
Definition interfaceUp (name : string) : IO error :=
  '(iface, err) ← ext (CLinkByName name);
  match err with
  | Some e => lift (deref iface);; ret (Some e)
  | None => lift (deref iface);; ext (CLinkSetUp name)
  end.

Definition delVethPair (localVethPair : Veth) : IO unit :=
  err ← ext (CLinkDel (veth_Name localVethPair));
  must_nil err.

Definition addVethPair (localVethPair : Veth) : IO unit :=
  err ← ext (CLinkAdd (veth_Name localVethPair) (veth_PeerName localVethPair));
  must_nil err;;
  err ← ext (CLinkSetUp (veth_Name localVethPair));
  must_nil err.
End utils.

(** ** Base 62 *)

Section base62.
Local Open Scope Z_scope.

Definition b62_char (d : Z) : ascii :=
  default "0"%char (String.get (Z.to_nat d) b62alphabet).

(** The reading of a base-62 numeral, for the round trip. *)
Definition b62_value (c : ascii) : Z :=
  from_option Z.of_nat 0 (fst <$> list_find (λ c', c = c') (chars b62alphabet)).
Definition b62Decode (s : string) : Z := of_digits 62 (map b62_value (chars s)).

Lemma b62_value_char d : 0 ≤ d < 62 → b62_value (b62_char d) = d.
Proof.
  intros Hd.
  assert (forallb (λ d, b62_value (b62_char d) =? d) (seqZ 0 62) = true) as HF
    by (vm_compute; reflexivity).
  rewrite forallb_forall in HF. apply Z.eqb_eq, HF, list_elem_of_In, elem_of_seqZ. lia.
Qed.

Lemma float64_of_small n : 0 ≤ n < 2 ^ 53 → float64_of n = n.
Proof.
  intros Hn. unfold float64_of.
  assert (Z.log2 n < 53) as Hl.
  { destruct (decide (n = 0)) as [->|]; [done|]. apply Z.log2_lt_pow2; lia. }
  by rewrite (proj2 (Z.leb_le _ _)) by lia.
Qed.

(** Below 2^53 the floating point remainder is the integer one, so the loop
    writes the base-62 digits. *)
Lemma b62_loop_digits fuel n acc :
  0 ≤ n < 2 ^ 53 → b62_loop fuel n acc = map b62_char (to_digits fuel 62 n []) ++ acc.
Proof.
  revert n acc. induction fuel as [|f IH]; intros n acc Hn; [done|].
  cbn -[float64_of Z.log2 b62alphabet Z.quot Z.div].
  destruct (0 <? n) eqn:E; [|done]. apply Z.ltb_lt in E.
  change (len b62alphabet) with 62. rewrite Z.quot_div_nonneg by lia.
  rewrite float64_of_small, (float64_of_small 62) by lia.
  unfold math_Mod. rewrite Z.rem_mod_nonneg by lia.
  rewrite IH by (pose proof (Z.div_lt n 62); pose proof (Z.div_pos n 62); lia).
  rewrite (to_digits_acc 62 f (n / 62) [_]), map_app, <-app_assoc. done.
Qed.

Lemma b62Encode_digits n :
  0 < n < 2 ^ 53 → b62Encode n = of_chars (map b62_char (to_digits (digits_fuel n) 62 n [])).
Proof.
  intros Hn. unfold b62Encode. rewrite (proj2 (Z.eqb_neq _ _)) by lia.
  by rewrite b62_loop_digits, app_nil_r by lia.
Qed.

Lemma b62_decode_encode n : 0 ≤ n < 2 ^ 53 → b62Decode (b62Encode n) = n.
Proof.
  intros Hn. destruct (decide (n = 0)) as [->|]; [reflexivity|].
  rewrite b62Encode_digits by lia. unfold b62Decode. rewrite chars_of_chars, map_map.
  rewrite Forall_map_id.
  - apply of_to_digits; [lia|]. split; [lia|apply pow_digits_fuel; lia].
  - eapply Forall_impl; [apply to_digits_bounds; lia|]. apply b62_value_char.
Qed.

Lemma b62Encode_length n k :
  0 ≤ n < 62 ^ Z.of_nat k → n < 2 ^ 53 → (0 < k)%nat → (String.length (b62Encode n) ≤ k)%nat.
Proof.
  intros Hn H53 Hk. destruct (decide (n = 0)) as [->|]; [cbn; lia|].
  rewrite b62Encode_digits, length_of_chars by lia.
  rewrite length_map. apply length_to_digits; lia.
Qed.

Lemma b62Encode_inj n m :
  0 ≤ n < 2 ^ 53 → 0 ≤ m < 2 ^ 53 → b62Encode n = b62Encode m → n = m.
Proof. intros Hn Hm H. by rewrite <-(b62_decode_encode n), H, b62_decode_encode. Qed.
End base62.

(** ** CRC-32 *)

Lemma N_lt_pow2_shiftr a n : (a < 2 ^ n ↔ N.shiftr a n = 0)%N.
Proof.
  rewrite N.shiftr_div_pow2. split; [by apply N.div_small|].
  intros H. apply N.div_small_iff in H; [done|]. by apply N.pow_nonzero.
Qed.

Lemma N_lxor_lt a b n : (a < 2 ^ n → b < 2 ^ n → N.lxor a b < 2 ^ n)%N.
Proof. rewrite !N_lt_pow2_shiftr, N.shiftr_lxor. by intros -> ->. Qed.

Lemma crc_bit_lt c : (c < 2 ^ 32 → crc_bit c < 2 ^ 32)%N.
Proof.
  intros Hc. unfold crc_bit.
  assert (N.shiftr c 1 < 2 ^ 32)%N as Hs.
  { rewrite N.shiftr_div_pow2. apply N.Div0.div_lt_upper_bound. lia. }
  destruct (N.testbit c 0); [|done]. by apply N_lxor_lt.
Qed.

Lemma crc_byte_lt c x : (c < 2 ^ 32 → crc_byte c x < 2 ^ 32)%N.
Proof.
  intros Hc. unfold crc_byte.
  assert (N.lxor c (N_of_ascii x) < 2 ^ 32)%N as H.
  { apply N_lxor_lt; [done|]. pose proof (N_ascii_bounded x). lia. }
  revert H. generalize (N.lxor c (N_of_ascii x)). intros d Hd.
  change (Nat.iter 8 crc_bit d)
    with (crc_bit (crc_bit (crc_bit (crc_bit (crc_bit (crc_bit (crc_bit (crc_bit d)))))))).
  by do 8 apply crc_bit_lt.
Qed.

Lemma ChecksumIEEE_lt s : (ChecksumIEEE s < 2 ^ 32)%N.
Proof.
  unfold ChecksumIEEE. apply N_lxor_lt; [|done].
  enough (∀ l c, (c < 2 ^ 32)%N → (fold_left crc_byte l c < 2 ^ 32)%N) by (by apply H).
  induction l as [|x l IH]; cbn [fold_left]; intros c Hc; [done|]. by apply IH, crc_byte_lt.
Qed.

Lemma patchStr_length a : (String.length (patchStr a) ≤ 6)%nat.
Proof.
  unfold patchStr. pose proof (ChecksumIEEE_lt a). apply b62Encode_length; lia.
Qed.

(** ** MAC addresses *)

Section mac.
Local Open Scope Z_scope.

Definition is_byte (b : Z) : Prop := 0 ≤ b < 256.
















End mac.

(** ** IP addresses *)

Section ip.
Local Open Scope Z_scope.

Lemma of_digits_app b l k :
  2 ≤ b → of_digits b (l ++ k) = of_digits b l * b ^ Z.of_nat (length k) + of_digits b k.
Proof. intros Hb. unfold of_digits at 1. rewrite fold_left_app, of_digits_acc by done. done. Qed.

Lemma of_digits_replicate_max b n : 2 ≤ b → of_digits b (replicate n (b - 1)) = b ^ Z.of_nat n - 1.
Proof.
  intros Hb. induction n as [|n IH]; [cbn; lia|].
  cbn [replicate]. rewrite of_digits_cons, IH, length_replicate, Nat2Z.inj_succ, Z.pow_succ_r by lia.
  lia.
Qed.

Lemma of_digits_replicate_0 b n : 2 ≤ b → of_digits b (replicate n 0) = 0.
Proof.
  intros Hb. induction n as [|n IH]; [done|]. cbn [replicate].
  rewrite of_digits_cons by done. lia.
Qed.

Lemma zero_above_app pre x post :
  (length post = 15 - length pre)%nat →
  zero_above (length pre) (pre ++ x :: post) = pre ++ x :: replicate (length post) 0.
Proof.
  intros Hl. unfold zero_above. rewrite <-Hl. clear Hl.
  replace (S (length pre)) with (length (pre ++ [x])) by (rewrite length_app; cbn; lia).
  replace (pre ++ x :: post) with ((pre ++ [x]) ++ post) by (by rewrite <-app_assoc).
  replace (pre ++ x :: replicate (length post) 0)
    with ((pre ++ [x]) ++ replicate (length post) 0) by (by rewrite <-app_assoc).
  generalize (pre ++ [x]). clear pre x.
  induction post as [|y post IH]; intros pre; [done|]. cbn [length seq foldl replicate].
  rewrite insert_app_r_alt, Nat.sub_diag by lia. cbn.
  replace (S (length pre)) with (length (pre ++ [0])) by (rewrite length_app; cbn; lia).
  replace (pre ++ 0 :: post) with ((pre ++ [0]) ++ post) by (by rewrite <-app_assoc).
  rewrite IH, <-app_assoc. done.
Qed.

Lemma ipIncrement_from_eq i ip :
  ipIncrement_from i ip =
    (b ← index ip i;
     if b <? 255 then Ret (zero_above i (<[i := b + 1]> ip))
     else match i with O => Ret ip | S i' => ipIncrement_from i' ip end).
Proof. by destruct i. Qed.

Lemma index_app_mid pre (x : Z) post : index (pre ++ x :: post) (length pre) = Ret x.
Proof. unfold index. by rewrite list_lookup_middle. Qed.

(** The byte that is not 255 takes the carry. *)
Lemma ipIncrement_hit pre x n :
  (S (length pre + n) = 16)%nat → x < 255 →
  ipIncrement_from (length pre) (pre ++ x :: replicate n 255) =
    Ret (pre ++ (x + 1) :: replicate n 0).
Proof.
  intros Hlen Hx. rewrite ipIncrement_from_eq, index_app_mid. cbn.
  rewrite (proj2 (Z.ltb_lt _ _)) by done.
  rewrite insert_app_r_alt, Nat.sub_diag by done. cbn.
  rewrite zero_above_app by (rewrite length_replicate; lia). by rewrite length_replicate.
Qed.

(** A byte that is 255 passes it on. *)
Lemma ipIncrement_miss pre y n :
  ipIncrement_from (length (pre ++ [y])) ((pre ++ [y]) ++ 255 :: replicate n 255) =
  ipIncrement_from (length pre) (pre ++ y :: replicate (S n) 255).
Proof.
  rewrite ipIncrement_from_eq, index_app_mid, length_app, Nat.add_1_r. cbn -[ipIncrement_from].
  by rewrite <-app_assoc.
Qed.

Lemma of_digits_carry pre x n :
  of_digits 256 (pre ++ (x + 1) :: replicate n 0) =
  of_digits 256 (pre ++ x :: replicate n 255) + 1.
Proof.
  rewrite !(of_digits_app 256 pre), !of_digits_cons by lia.
  rewrite of_digits_replicate_0 by lia.
  change (replicate n 255) with (replicate n (256 - 1)). rewrite of_digits_replicate_max by lia.
  cbn [length]. rewrite !length_replicate. lia.
Qed.

(** From byte [length pre] down, when every byte above it is 255. *)
Lemma ipIncrement_from_spec pre x n :
  (S (length pre + n) = 16)%nat → Forall is_byte (pre ++ [x]) →
  ∃ ip', ipIncrement_from (length pre) (pre ++ x :: replicate n 255) = Ret ip' ∧
    (Forall (eq 255) (pre ++ [x]) ∧ ip' = pre ++ x :: replicate n 255 ∨
     ¬ Forall (eq 255) (pre ++ [x]) ∧
     of_digits 256 ip' = of_digits 256 (pre ++ x :: replicate n 255) + 1).
Proof.
  revert x n. induction pre as [|y pre IH] using rev_ind; intros x n Hlen HF;
    (destruct (decide (x < 255)) as [Hx|Hx];
     [rewrite ipIncrement_hit by done; eexists; split; [done|]; right;
      rewrite of_digits_carry; split; [|done];
      rewrite Forall_app, Forall_singleton; intros [_ ?]; lia|]);
    rewrite Forall_app, Forall_singleton in HF; destruct HF as [HF Hb]; unfold is_byte in Hb;
    assert (x = 255) as -> by lia.
  - eexists. split; [by rewrite ipIncrement_from_eq, index_app_mid|]. left.
    split; [by apply Forall_singleton|done].
  - rewrite ipIncrement_miss. rewrite length_app in Hlen. cbn in Hlen.
    destruct (IH y (S n)) as (ip' & -> & Hv); [lia|done|].
    exists ip'. split; [done|]. rewrite (Forall_app _ (pre ++ [y])), Forall_singleton.
    replace ((pre ++ [y]) ++ 255 :: replicate n 255)
      with (pre ++ y :: replicate (S n) 255) by (by rewrite <-app_assoc).
    tauto.
Qed.
End ip.

(** ** Properties *)

(** C33: [b62Encode] writes a number that a base-62 reader reads back, for every
    number that Go converts to a float exactly (below 2^53); the checksums that
    [patchStr] encodes are all in that range. *)
Theorem b62Encode_roundtrip n :
  (0 ≤ n < 2 ^ 53)%Z → b62Decode (b62Encode n) = n.
Proof. apply b62_decode_encode. Qed.

Lemma b62Encode_roundtrip_witness :
  b62Decode (b62Encode 3421780262) = 3421780262%Z.
Proof. apply (b62Encode_roundtrip 3421780262). lia. Defined.



(** [ipIncrement] adds one to a 16 byte address read as a big-endian number;
    the all-ones address is left as it is. *)
Theorem ipIncrement_spec ip :
  length ip = 16%nat → Forall is_byte ip →
  ∃ ip', ipIncrement ip = Ret ip' ∧
    (Forall (eq 255%Z) ip ∧ ip' = ip ∨
     ¬ Forall (eq 255%Z) ip ∧ of_digits 256 ip' = (of_digits 256 ip + 1)%Z).
Proof.
  intros Hlen HF. unfold ipIncrement.
  destruct ip as [|x pre _] using rev_ind; [done|].
  rewrite length_app in Hlen. cbn in Hlen. assert (length pre = 15%nat) as Hp by lia.
  rewrite <-Hp. apply (ipIncrement_from_spec pre x 0); [lia|done].
Qed.

Lemma ipIncrement_spec_witness :
  ∃ ip', ipIncrement [0;0;0;0;0;0;0;0;0;0;255;255;10;0;0;255]%Z = Ret ip' ∧
    (Forall (eq 255%Z) [0;0;0;0;0;0;0;0;0;0;255;255;10;0;0;255]%Z ∧
       ip' = [0;0;0;0;0;0;0;0;0;0;255;255;10;0;0;255]%Z ∨
     ¬ Forall (eq 255%Z) [0;0;0;0;0;0;0;0;0;0;255;255;10;0;0;255]%Z ∧
       of_digits 256 ip' = (of_digits 256 [0;0;0;0;0;0;0;0;0;0;255;255;10;0;0;255]%Z + 1)%Z).
Proof.
  apply (ipIncrement_spec [0;0;0;0;0;0;0;0;0;0;255;255;10;0;0;255]%Z);
    [reflexivity|repeat (apply Forall_cons; split; [unfold is_byte; lia|]); apply Forall_nil; exact I].
Defined.

(** ** Which computations return or panic *)

Section utils_tame.
Context `{E : Env}.

Lemma tame_getIfaceAddr n : tame (getIfaceAddr n).
Proof. unfold getIfaceAddr; tame_tac. Qed.
Lemma tame_mustGetLinkByName n : tame (mustGetLinkByName n).
Proof. unfold mustGetLinkByName; tame_tac. Qed.
Lemma tame_createNsLink p i : tame (createNsLink p i).
Proof. unfold createNsLink; tame_tac. Qed.
Lemma tame_deleteNsLink i : tame (deleteNsLink i).
Proof. unfold deleteNsLink; tame_tac. Qed.
Lemma tame_delVethPair v : tame (delVethPair v).
Proof. unfold delVethPair; tame_tac. Qed.
Lemma tame_addVethPair v : tame (addVethPair v).
Proof. unfold addVethPair; tame_tac. Qed.
End utils_tame.

#[export] Hint Resolve tame_getIfaceAddr tame_mustGetLinkByName tame_createNsLink tame_deleteNsLink tame_delVethPair tame_addVethPair : tame.
Lemma tame_getMacAddr `{E : Env} n : tame (getMacAddr n).
Proof. unfold getMacAddr; tame_tac. Qed.
Lemma settled_overwrite i bs mac : settled (overwrite i bs mac).
Proof. revert i mac. induction bs; intros; cbn -[index]; tame_tac. Qed.
Lemma settled_mustPrefixMAC p m : settled (mustPrefixMAC p m).
Proof. unfold mustPrefixMAC; tame_tac. apply settled_overwrite. Qed.
Lemma mustGetUintFromHexStr_bounds `{E : Env} s n :
  mustGetUintFromHexStr s = Ret n → (0 < n ≤ u64_max)%Z.
Proof.
  unfold mustGetUintFromHexStr. destruct (slice_from s 2); [|done].
  destruct (bc_Convert _ _ _) as [v e]. destruct (defaultUint v 0 =? 0)%Z eqn:Hz; [done|].
  intros [= <-]. apply Z.eqb_neq in Hz. revert Hz. unfold defaultUint.
  destruct (ParseUint v u64_max) as [m|] eqn:Hm; cbn; [|done].
  apply ParseUint_bounds in Hm; [lia|done].
Qed.
Lemma settled_mustGetUintFromHexStr `{E : Env} s : settled (mustGetUintFromHexStr s).
Proof. unfold mustGetUintFromHexStr; tame_tac. Qed.
#[export] Hint Resolve tame_getMacAddr settled_mustPrefixMAC settled_mustGetUintFromHexStr : tame.
