(* ===== verification/OvsDb.v ===== *)
(** * Open vSwitch commands: ovs/ovsdb.go

    dovesnap reaches Open vSwitch by running [ovs-vsctl] and [ovs-ofctl].  The
    commands are calls of the outside world; their output and exit status are its
    replies. *)
From S2P Require Import Prelude GoStrings GoMonad World.

Definition ovsofctlPath : string := "/usr/bin/ovs-ofctl".
Definition ovsvsctlPath : string := "/usr/bin/ovs-vsctl".
Definition ovsvsctlDBPath : string := "unix:/var/run/openvswitch/db.sock".

Section ovsdb.
Context `{E : Env}.

Definition RunCmd (cmd : string) (args : list string) : IO (string * error) :=
  '(output, err) ← ext (CRun cmd args);
  ret (TrimSuffix output newline, err).

Definition VsCtl (args : list string) : IO (string * error) :=
  let all := ("--db=" +:+ ovsvsctlDBPath) :: args in
  RunCmd ovsvsctlPath all.

Definition mustVsCtl (args : list string) : IO string :=
  '(output, err) ← VsCtl args;
  must_nil err;;
  ret output.

Definition OfCtl (args : list string) : IO (string * error) :=
  RunCmd ovsofctlPath args.

Definition mustOfCtl (args : list string) : IO string :=
  '(output, err) ← OfCtl args;
  must_nil err;;
  ret output.
End ovsdb.

(** The call that a [VsCtl] makes, and the one that an [OfCtl] makes. *)
Definition vs (args : list string) : call :=
  CRun ovsvsctlPath (("--db=" +:+ ovsvsctlDBPath) :: args).
Definition ofc (args : list string) : call := CRun ovsofctlPath args.

Section ovsdb_facts.
Context `{E : Env}.

(** What a command prints, with its last newline trimmed, and its error. *)
Definition run_reply (t : list call) (cmd : string) (args : list string) : string * error :=
  let r := env_reply t (CRun cmd args) in (TrimSuffix r.1 newline, r.2).

Definition vs_reply (t : list call) (args : list string) : string * error :=
  run_reply t ovsvsctlPath (("--db=" +:+ ovsvsctlDBPath) :: args).
Definition of_reply (t : list call) (args : list string) : string * error :=
  run_reply t ovsofctlPath args.

Lemma RunCmd_eq cmd args s :
  RunCmd cmd args s =
    (Ret (run_reply (io_trace s) cmd args), mkIo (io_trace s ++ [CRun cmd args]) (io_ticks s)).
Proof. unfold RunCmd, run_reply. cbn. by destruct (env_reply _ _). Qed.

Lemma VsCtl_eq args s :
  VsCtl args s =
    (Ret (vs_reply (io_trace s) args), mkIo (io_trace s ++ [vs args]) (io_ticks s)).
Proof. apply RunCmd_eq. Qed.

Lemma OfCtl_eq args s :
  OfCtl args s =
    (Ret (of_reply (io_trace s) args), mkIo (io_trace s ++ [ofc args]) (io_ticks s)).
Proof. apply RunCmd_eq. Qed.

Lemma mustVsCtl_eq args s :
  mustVsCtl args s =
    (match (vs_reply (io_trace s) args).2 with
     | None => Ret (vs_reply (io_trace s) args).1
     | Some e => Panic e
     end, mkIo (io_trace s ++ [vs args]) (io_ticks s)).
Proof.
  unfold mustVsCtl. cbn -[VsCtl vs_reply]. rewrite VsCtl_eq.
  destruct (vs_reply _ _) as [o [e|]]; done.
Qed.

Lemma mustOfCtl_eq args s :
  mustOfCtl args s =
    (match (of_reply (io_trace s) args).2 with
     | None => Ret (of_reply (io_trace s) args).1
     | Some e => Panic e
     end, mkIo (io_trace s ++ [ofc args]) (io_ticks s)).
Proof.
  unfold mustOfCtl. cbn -[OfCtl of_reply]. rewrite OfCtl_eq.
  destruct (of_reply _ _) as [o [e|]]; done.
Qed.
End ovsdb_facts.

(** ** Which computations return or panic *)

Section ovsdb_tame.
Context `{E : Env}.

Lemma tame_RunCmd c a : tame (RunCmd c a).
Proof. unfold RunCmd; tame_tac. Qed.
Lemma tame_VsCtl a : tame (VsCtl a).
Proof. unfold VsCtl, RunCmd; tame_tac. Qed.
Lemma tame_mustVsCtl a : tame (mustVsCtl a).
Proof. unfold mustVsCtl, VsCtl, RunCmd; tame_tac. Qed.
Lemma tame_OfCtl a : tame (OfCtl a).
Proof. unfold OfCtl, RunCmd; tame_tac. Qed.
Lemma tame_mustOfCtl a : tame (mustOfCtl a).
Proof. unfold mustOfCtl, OfCtl, RunCmd; tame_tac. Qed.
End ovsdb_tame.

#[export] Hint Resolve tame_RunCmd tame_VsCtl tame_mustVsCtl tame_OfCtl tame_mustOfCtl : tame.
