(* ===== verification/OvsPort.v ===== *)
(** * Switch ports: ovs/ovs_port.go

    Port names, the scrape of [ovs-ofctl dump-ports-desc], the choice of a free
    OpenFlow port, and the commands that add and delete ports. *)
From S2P Require Import Prelude GoStrings GoMonad World Scenario Utils OvsDb.

Definition dumpPortsRetries : nat := 3.
Definition patchPrefix : string := ovsDovesnapPrefix.

(** The name of one end of the link between two bridges. *)
Definition patchName (a b : string) : outcome string :=
  let name := patchPrefix +:+ patchStr a +:+ patchStr b in
  if (15 <? len name)%Z then Panic (name +:+ " too long for ifName") else Ret name.

(** The second group of [^\s*(\d+)\((\S+)\).+$]: after the opening bracket, the
    longest run of non-space characters that is followed by a closing bracket
    and at least one more character.  [run] may be empty, [port_name] not. *)
Fixpoint match_run (s : string) : option string :=
  match s with
  | EmptyString => None
  | String c s' =>
      if is_space c then None
      else match match_run s' with
           | Some w => Some (String c w)
           | None =>
               if decide (c = ")"%char ∧ s' ≠ "") then Some "" else None
           end
  end.
Definition match_port_name (s : string) : option string :=
  match s with
  | EmptyString => None
  | String c s' => if is_space c then None else String c <$> match_run s'
  end.

(** [ofportNumberDump.FindAllStringSubmatch(line, -1)]: the two groups of the
    match, if there is one. *)
Definition match_port_line (line : string) : option (string * string) :=
  let '(_, r) := span is_space line in
  let '(ds, r) := span is_digit r in
  match ds, r with
  | EmptyString, _ => None
  | _, String "("%char r' => (λ name, (ds, name)) <$> match_port_name r'
  | _, _ => None
  end.

Definition parsePortDesc_line (portDesc : gmap Z string) (line : string) : gmap Z string :=
  match match_port_line line with
  | Some (num, name) =>
      let ofport := ok_or 0%Z (ParseUint32 num) in
      <[ofport := name]> portDesc
  | None => portDesc
  end.

Definition parsePortDesc (output : string) (portDesc : gmap Z string) : gmap Z string :=
  foldl parsePortDesc_line portDesc (Split output newline).

(** [for _, existingPort := range existingOfPorts { if existingPort !=
    intLowestFreePort { break }; intLowestFreePort++ }] *)
Fixpoint lowest_free_loop (intLowestFreePort : Z) (existingOfPorts : list Z) : Z :=
  match existingOfPorts with
  | [] => intLowestFreePort
  | existingPort :: l =>
      if (existingPort =? intLowestFreePort)%Z
      then lowest_free_loop (intLowestFreePort + 1) l
      else intLowestFreePort
  end.

Section port.
Context `{E : Env}.

(** Parse the dump of a bridge into [portDesc]; the map is left as it was when
    the command fails. *)
Definition scrapePortDesc (bridgeName : string) (portDesc : gmap Z string) :
    IO (gmap Z string * error) :=
  '(output, err) ← OfCtl ["dump-ports-desc"; bridgeName];
  match err with
  | Some _ => ret (portDesc, err)
  | None => ret (parsePortDesc output portDesc, None)
  end.

(** Attempt number [i]: the loop ends at the first success. *)
Definition scrape_attempt (bridgeName : string) (i : nat) (acc : gmap Z string * error) :
    IO (gmap Z string * error * bool) :=
  '(portDesc, err) ← scrapePortDesc bridgeName acc.1;
  match err with
  | None => ret ((portDesc, None), true)
  | Some e => Sleep (Second * (Z.of_nat i + 1));; ret ((portDesc, Some e), false)
  end.

Definition mustScrapePortDesc (bridgeName : string) (portDesc : gmap Z string) :
    IO (gmap Z string) :=
  '(portDesc', err) ← for_break (S dumpPortsRetries) 0 (portDesc, None)
    (scrape_attempt bridgeName);
  must_nil err;;
  ret portDesc'.

Definition mustLowestFreePortOnBridge (bridgeName : string) : IO Z :=
  portDesc ← mustScrapePortDesc bridgeName ∅;
  entries ← range portDesc;
  let existingOfPorts := Ints (map fst entries) in
  ret (wrap32 (lowest_free_loop 1 existingOfPorts)).

Definition addInternalPort (bridgeName portName : string) (tag : Z) :
    IO (Z * string * error) :=
  lowestFreePort ← mustLowestFreePortOnBridge bridgeName;
  let request := "ofport_request=" +:+ itoa lowestFreePort in
  if negb (tag =? 0)%Z then
    (* Go has no verb %u: Sprintf("tag=%u", tag) *)
    '(value, err) ← VsCtl ["add-port"; bridgeName; portName;
      "tag=%!u(uint=" +:+ itoa tag +:+ ")"; "--"; "set"; "Interface"; portName; request];
    ret (lowestFreePort, value, err)
  else
    '(value, err) ← VsCtl ["add-port"; bridgeName; portName;
      "--"; "set"; "Interface"; portName; request];
    ret (lowestFreePort, value, err).

Definition mustAddInternalPort (bridgeName portName : string) (tag : Z) : IO (Z * string) :=
  '(lowestFreePort, value, err) ← addInternalPort bridgeName portName tag;
  must_nil err;;
  ret (lowestFreePort, value).

Definition mustDeletePort (bridgeName portName : string) : IO unit :=
  mustVsCtl ["del-port"; bridgeName; portName];;
  skip.

Definition mustAddPatchPort (bridgeName bridgeNamePeer : string) (port portPeer : Z) :
    IO (Z * Z) :=
  port ← (if (port =? 0)%Z then mustLowestFreePortOnBridge bridgeName else ret port);
  portPeer ← (if (portPeer =? 0)%Z then mustLowestFreePortOnBridge bridgeNamePeer
              else ret portPeer);
  portName ← lift (patchName bridgeName bridgeNamePeer);
  portNamePeer ← lift (patchName bridgeNamePeer bridgeName);
  ext (CLinkAdd portName portNamePeer);;
  ext (CLinkSetUp portName);;
  ext (CLinkSetUp portNamePeer);;
  VsCtl ["add-port"; bridgeName; portName;
    "--"; "set"; "Interface"; portName; "ofport_request=" +:+ itoa port];;
  VsCtl ["add-port"; bridgeNamePeer; portNamePeer;
    "--"; "set"; "Interface"; portNamePeer; "ofport_request=" +:+ itoa portPeer];;
  ret (port, portPeer).

Definition mustDeletePatchPort (bridgeName bridgeNamePeer : string) : IO unit :=
  portName ← lift (patchName bridgeName bridgeNamePeer);
  portNamePeer ← lift (patchName bridgeNamePeer bridgeName);
  mustDeletePort bridgeName portName;;
  mustDeletePort bridgeNamePeer portNamePeer;;
  ext (CLinkDel portName);;
  skip.

Definition getOfPort (portName : string) : IO (result Z) :=
  out ← mustVsCtl ["get"; "Interface"; portName; "ofport"];
  ret (ParseUint32 out).

Definition mustGetOfPort (portName : string) : IO Z :=
  ofPort ← getOfPort portName;
  lift (must ofPort).

Definition addVxlanPort (bridgeName portName peerAddress : string) : IO (string * error) :=
  VsCtl ["add-port"; bridgeName; portName; "--"; "set"; "interface"; portName;
    "type=vxlan"; "options:remote_ip=" +:+ peerAddress].
End port.

(** ** The free port loop *)

Section lowest_free.
Local Open Scope Z_scope.

Lemma lowest_free_loop_bounds n l :
  n ≤ lowest_free_loop n l ≤ n + Z.of_nat (length l).
Proof.
  revert n. induction l as [|p l IH]; intros n; cbn -[Z.of_nat]; [lia|].
  destruct (p =? n); [|lia]. specialize (IH (n + 1)). lia.
Qed.

Lemma lowest_free_loop_spec n l :
  StronglySorted Z.le l → NoDup l → (∀ x, x ∈ l → n ≤ x) →
  (lowest_free_loop n l ∉ l) ∧ (∀ q, n ≤ q < lowest_free_loop n l → q ∈ l).
Proof.
  intros Hs. revert n. induction Hs as [|p l Hs IH Hp]; intros n Hnd Hge; cbn.
  { split; [apply not_elem_of_nil|lia]. }
  apply NoDup_cons in Hnd as [Hpl Hnd]. rewrite Forall_forall in Hp.
  destruct (p =? n) eqn:E; [apply Z.eqb_eq in E as ->|apply Z.eqb_neq in E].
  - assert (∀ x, x ∈ l → n + 1 ≤ x) as Hge'.
    { intros x Hx. specialize (Hp x Hx). assert (x ≠ n) by (by intros ->). lia. }
    destruct (IH (n + 1) Hnd Hge') as [Hout Hin].
    pose proof (lowest_free_loop_bounds (n + 1) l). split.
    + rewrite elem_of_cons. intros [?|?]; [lia|done].
    + intros q Hq. destruct (decide (q = n)) as [->|]; [left|right; apply Hin; lia].
  - assert (n < p) by (specialize (Hge p ltac:(left)); lia). split; [|lia].
    rewrite elem_of_cons. intros [?|Hn]; [lia|]. specialize (Hp n Hn). lia.
Qed.
End lowest_free.

(** The ports that a dump reports as in use. *)
Definition used (m : gmap Z string) (p : Z) : Prop := is_Some (m !! p).

Definition lowest_free (m : gmap Z string) (p : Z) : Prop :=
  (1 ≤ p)%Z ∧ ¬ used m p ∧ ∀ q, (1 ≤ q < p)%Z → used m q.

Lemma lowest_free_entries (m : gmap Z string) (l : list (Z * string)) :
  l ≡ₚ map_to_list m → (∀ p, used m p → 1 ≤ p)%Z →
  lowest_free m (lowest_free_loop 1 (Ints (map fst l))).
Proof.
  intros Hl Hpos.
  assert (∀ q, q ∈ Ints (map fst l) ↔ used m q) as Hin.
  { intros q. rewrite (Ints_perm _), Hl. unfold used. rewrite list_elem_of_fmap. split.
    - intros ([q' v] & -> & Hv%elem_of_map_to_list). by exists v.
    - intros [v Hv]. exists (q, v). by rewrite elem_of_map_to_list. }
  destruct (lowest_free_loop_spec 1 (Ints (map fst l))) as [Hout Hbelow].
  - apply Ints_sorted.
  - rewrite (Ints_perm _), Hl. apply NoDup_fst_map_to_list.
  - intros x Hx%Hin. by apply Hpos.
  - pose proof (lowest_free_loop_bounds 1 (Ints (map fst l))). split; [lia|].
    split; [by rewrite <-Hin|]. intros q Hq. rewrite <-Hin. by apply Hbelow.
Qed.

Lemma lowest_free_entries_small (m : gmap Z string) (l : list (Z * string)) :
  l ≡ₚ map_to_list m → (Z.of_nat (size m) < u32_max)%Z →
  wrap32 (lowest_free_loop 1 (Ints (map fst l))) = lowest_free_loop 1 (Ints (map fst l)).
Proof.
  intros Hl Hsz. apply wrap32_small.
  pose proof (lowest_free_loop_bounds 1 (Ints (map fst l))) as Hb.
  assert (length (Ints (map fst l)) = size m) as Hlen
    by (rewrite (Ints_perm _), length_map, Hl; apply length_map_to_list).
  rewrite Hlen in Hb. lia.
Qed.

(** ** Scraping with retries *)

Section scrape.
Context `{E : Env}.

Definition dump (br : string) : list string := ["dump-ports-desc"; br].

(** The calls of [k] failed attempts, the first of them number [i]. *)
Fixpoint failed_attempts (br : string) (i k : nat) : list call :=
  match k with
  | O => []
  | S k' => [ofc (dump br); CSleep (Second * (Z.of_nat i + 1))] ++ failed_attempts br (S i) k'
  end.

(** Every one of [k] attempts from history [t] on fails. *)
Fixpoint all_fail (br : string) (t : list call) (i k : nat) : Prop :=
  match k with
  | O => True
  | S k' =>
      is_Some (of_reply t (dump br)).2 ∧
      all_fail br (t ++ [ofc (dump br); CSleep (Second * (Z.of_nat i + 1))]) (S i) k'
  end.

Lemma scrapePortDesc_eq br m s :
  scrapePortDesc br m s =
    (Ret (match of_reply (io_trace s) (dump br) with
          | (out, None) => (parsePortDesc out m, None)
          | (_, Some e) => (m, Some e)
          end), mkIo (io_trace s ++ [ofc (dump br)]) (io_ticks s)).
Proof.
  unfold scrapePortDesc. erewrite bind_Ret by apply OfCtl_eq.
  fold (dump br). destruct (of_reply _ _) as [out [e|]]; done.
Qed.

Lemma scrape_attempt_eq br i acc s :
  scrape_attempt br i acc s =
    match of_reply (io_trace s) (dump br) with
    | (out, None) =>
        (Ret ((parsePortDesc out acc.1, None), true),
         mkIo (io_trace s ++ [ofc (dump br)]) (io_ticks s))
    | (_, Some e) =>
        (Ret ((acc.1, Some e), false),
         mkIo (io_trace s ++ [ofc (dump br); CSleep (Second * (Z.of_nat i + 1))]) (io_ticks s))
    end.
Proof.
  unfold scrape_attempt. erewrite bind_Ret by apply scrapePortDesc_eq.
  destruct (of_reply _ _) as [out [e|]]; cbn; [by rewrite <-app_assoc|done].
Qed.

(** The loop stops at the first success, or makes all its attempts. *)
Lemma scrape_loop_spec br n i m e0 s :
  (∃ k out, (k < n)%nat ∧ all_fail br (io_trace s) i k ∧
     of_reply (io_trace s ++ failed_attempts br i k) (dump br) = (out, None) ∧
     for_break n i (m, e0) (scrape_attempt br) s =
       (Ret (parsePortDesc out m, None),
        mkIo (io_trace s ++ failed_attempts br i k ++ [ofc (dump br)]) (io_ticks s))) ∨
  (all_fail br (io_trace s) i n ∧
   ∃ e, (n = 0%nat → e = e0) ∧ (n ≠ 0%nat → is_Some e) ∧
     for_break n i (m, e0) (scrape_attempt br) s =
       (Ret (m, e), mkIo (io_trace s ++ failed_attempts br i n) (io_ticks s))).
Proof.
  revert i m e0 s. induction n as [|n IH]; intros i m e0 s.
  { right. split; [done|]. exists e0. split_and!; [done..|]. cbn. rewrite app_nil_r. by destruct s. }
  cbn [for_break]. pose proof (scrape_attempt_eq br i (m, e0) s) as Ha.
  destruct (of_reply (io_trace s) (dump br)) as [out [e|]] eqn:Er; erewrite bind_Ret by exact Ha.
  - destruct (IH (S i) m (Some e)
      (mkIo (io_trace s ++ [ofc (dump br); CSleep (Second * (Z.of_nat i + 1))]) (io_ticks s)))
      as [(k & o & Hk & Hf & Ho & Hl)|(Hf & e' & He0 & He' & Hl)];
      cbn [io_trace io_ticks] in *; cbn [fst]; rewrite Hl.
    + left. exists (S k), o. cbn [failed_attempts all_fail]. rewrite Er.
      rewrite <-!app_assoc in *. cbn [app] in *. split_and!; [lia|by eexists|done..].
    + right. cbn [failed_attempts all_fail]. rewrite Er. split; [split; [by eexists|done]|].
      exists e'. rewrite <-!app_assoc. split_and!; [done| |done]. intros _.
      destruct n as [|n]; [|by apply He']. rewrite He0 by done. by eexists.
  - left. exists 0%nat, out. cbn [failed_attempts all_fail app]. rewrite app_nil_r.
    split_and!; [lia|done..].
Qed.
End scrape.

(** ** The text of a dump *)

(** A line of [dump-ports-desc]: a port, or any other line (the header, the
    configuration and state of a port, the local port). *)
Inductive desc_line : Type :=
  | PortLine (p : Z) (name rest : string)
  | OtherLine (text : string).

Definition render_line (l : desc_line) : string :=
  match l with
  | PortLine p name rest => " " +:+ itoa p +:+ "(" +:+ name +:+ "): " +:+ rest
  | OtherLine text => text
  end.

Definition no_space (s : string) : Prop := ∀ c, c ∈ chars s → is_space c = false.

Definition wf_line (l : desc_line) : Prop :=
  match l with
  | PortLine p name rest =>
      (0 ≤ p ≤ u32_max)%Z ∧ name ≠ "" ∧ no_space name ∧ free newline rest
  | OtherLine text =>
      free newline text ∧
      match (span is_space text).2 with String c _ => is_digit c = false | "" => True end
  end.

#[export] Instance no_space_dec s : Decision (no_space s).
Proof.
  destruct (decide (Forall (λ c, is_space c = false) (chars s))) as [H|H];
    [left|right]; by rewrite Forall_forall in H.
Defined.
#[export] Instance wf_line_dec l : Decision (wf_line l).
Proof.
  destruct l as [p name rest|text]; cbn; [apply _|].
  destruct (span is_space text).2; apply _.
Defined.

Definition apply_line (m : gmap Z string) (l : desc_line) : gmap Z string :=
  match l with PortLine p name _ => <[p := name]> m | OtherLine _ => m end.

Lemma no_space_cons c s : no_space (String c s) ↔ is_space c = false ∧ no_space s.
Proof.
  unfold no_space. cbn. split.
  - intros H. split; [apply H; left|]. intros c' Hc. apply H. by right.
  - intros [Hc Hs] c' [->|Hc']%elem_of_cons; auto.
Qed.

Lemma no_space_free s : no_space s → free newline s.
Proof. intros H Hn. by specialize (H _ Hn). Qed.

Lemma span_app p w r :
  (∀ c, c ∈ chars w → p c = true) →
  match r with String c _ => p c = false | "" => True end →
  span p (w +:+ r) = (w, r).
Proof.
  intros Hw Hr. induction w as [|c w IH]; rewrite ?str_app_nil_l, ?str_app_cons.
  - destruct r as [|c r]; cbn; [done|]. by rewrite Hr.
  - cbn. rewrite (Hw c) by left. rewrite IH; [done|]. intros c' Hc'. apply Hw. by right.
Qed.

Lemma match_run_name name rest :
  no_space name → match_run (name +:+ "): " +:+ rest) = Some name.
Proof.
  induction name as [|c w IH]; intros H.
  - rewrite str_app_nil_l, !str_app_cons. cbn. reflexivity.
  - apply no_space_cons in H as [Hc Hw]. rewrite str_app_cons. cbn [match_run].
    by rewrite Hc, IH.
Qed.

Lemma match_port_line_render p name rest :
  (0 ≤ p)%Z → name ≠ "" → no_space name →
  match_port_line (render_line (PortLine p name rest)) = Some (itoa p, name).
Proof.
  intros Hp Hn Hs. unfold match_port_line, render_line.
  rewrite (span_app is_space " "); [|by intros ? ->%list_elem_of_singleton|].
  2:{ pose proof (itoa_chars p) as Hd. pose proof (itoa_not_nil p Hp).
      destruct (itoa p) as [|c ?]; [done|]. rewrite str_app_cons.
      specialize (Hd c Hp ltac:(left)). unfold is_digit, ascii_in in Hd.
      unfold is_space. apply bool_decide_eq_false_2. intros Hc.
      repeat (apply elem_of_cons in Hc as [->|Hc]; [done|]). by apply not_elem_of_nil in Hc. }
  rewrite (span_app is_digit (itoa p)); [|by intros; eapply itoa_chars|done].
  pose proof (itoa_not_nil p Hp). destruct (itoa p) as [|d ds] eqn:Ei; [done|].
  rewrite str_app_cons. cbn. rewrite str_app_nil_l.
  destruct name as [|c w]; [done|]. apply no_space_cons in Hs as [Hc Hw].
  rewrite str_app_cons. cbn [match_port_name]. by rewrite Hc, match_run_name.
Qed.

Lemma match_port_line_other text :
  match (span is_space text).2 with String c _ => is_digit c = false | "" => True end →
  match_port_line text = None.
Proof.
  unfold match_port_line. destruct (span is_space text) as [w [|c r]]; cbn; [done|].
  by intros ->.
Qed.

Lemma parsePortDesc_line_render m l :
  wf_line l → parsePortDesc_line m (render_line l) = apply_line m l.
Proof.
  unfold parsePortDesc_line. destruct l as [p name rest|text].
  - intros (Hp & Hn & Hs & _). rewrite match_port_line_render by (done || lia).
    unfold ParseUint32. by rewrite ParseUint_itoa.
  - intros [_ H]. cbn [render_line]. by rewrite match_port_line_other.
Qed.

Lemma render_line_free l : wf_line l → free newline (render_line l).
Proof.
  destruct l as [p name rest|text]; [|by intros [? _]].
  intros (Hp & _ & Hs%no_space_free & Hr). cbn [render_line].
  rewrite !free_app. split_and!; [decide_now|apply itoa_free; [lia|done]|decide_now|done|decide_now|done].
Qed.

(** ** Properties *)

(** C31: two bridge names always give a link name: [patchName] never panics, and
    its result is an interface name of at most 15 characters that carries
    dovesnap's prefix. *)
Theorem patchName_total a b :
  ∃ name, patchName a b = Ret name ∧ (String.length name ≤ 15)%nat ∧
          HasPrefix name patchPrefix = true.
Proof.
  unfold patchName. exists (patchPrefix +:+ patchStr a +:+ patchStr b).
  pose proof (patchStr_length a). pose proof (patchStr_length b).
  assert (String.length (patchPrefix +:+ patchStr a +:+ patchStr b) ≤ 15)%nat as Hl.
  { rewrite !str_length_app. change (String.length patchPrefix) with 3%nat. lia. }
  unfold len. rewrite (proj2 (Z.ltb_ge _ _)) by lia. split_and!; [done|done|apply HasPrefix_app].
Qed.

(** C30: the scrape of a port dump reads what Open vSwitch printed: for a dump made
    of port lines and other lines, [parsePortDesc] adds exactly the ports of the
    port lines, a later line for a number replacing an earlier one. *)
Theorem parsePortDesc_render m lines :
  Forall wf_line lines →
  parsePortDesc (Join (map render_line lines) (String newline "")) m =
    foldl apply_line m lines.
Proof.
  intros HF. unfold parsePortDesc. destruct lines as [|l0 lines']; [done|].
  rewrite Split_Join; [|done|].
  - generalize dependent m. induction HF as [|l lines Hl HF IH]; intros m; [done|].
    cbn [map foldl]. rewrite parsePortDesc_line_render by done. apply IH.
  - apply Forall_map. eapply Forall_impl; [exact HF|]. apply render_line_free.
Qed.

Lemma parsePortDesc_render_witness :
  parsePortDesc (Join (map render_line
    [OtherLine "OFPST_PORT_DESC reply (xid=0x2):"; PortLine 1 "odsve1c5a7" "addr:0a:00:27:00:00:01";
     OtherLine "     config:     0"; PortLine 3 "eth0" "addr:52:54:00:12:34:56";
     OtherLine " LOCAL(odsbr4f2aa): addr:42"]) (String newline "")) ∅
  = <[3%Z := "eth0"]> {[1%Z := "odsve1c5a7"]}.
Proof.
  apply (parsePortDesc_render ∅
    [OtherLine "OFPST_PORT_DESC reply (xid=0x2):"; PortLine 1 "odsve1c5a7" "addr:0a:00:27:00:00:01";
     OtherLine "     config:     0"; PortLine 3 "eth0" "addr:52:54:00:12:34:56";
     OtherLine " LOCAL(odsbr4f2aa): addr:42"]).
  decide_now.
Defined.

(** C29: the port that [mustLowestFreePortOnBridge] picks is free and is the least
    such: when the dump of the bridge succeeds and lists only positive ports, the
    function returns a port that the dump does not list, and every smaller
    positive port is listed. *)
Theorem mustLowestFreePortOnBridge_lowest `{E : Env} br s out :
  of_reply (io_trace s) (dump br) = (out, None) →
  (∀ p, used (parsePortDesc out ∅) p → 1 ≤ p)%Z →
  (Z.of_nat (size (parsePortDesc out ∅)) < u32_max)%Z →
  ∃ p s', mustLowestFreePortOnBridge br s = (Ret p, s') ∧ lowest_free (parsePortDesc out ∅) p.
Proof.
  intros Hr Hpos Hsz. unfold mustLowestFreePortOnBridge, mustScrapePortDesc.
  cbn [for_break]. rewrite bind_assoc, bind_assoc.
  erewrite bind_Ret by (rewrite scrape_attempt_eq, Hr; done).
  cbn. do 2 eexists. split; [done|].
  rewrite (lowest_free_entries_small (parsePortDesc out ∅))
    by (apply merge_sort_Permutation || done).
  apply lowest_free_entries; [apply merge_sort_Permutation|done].
Qed.

(** A bridge with ports 1, 2 and 4. *)
Definition three_ports : Env := scripted (with_run
  (λ _ _ _, (" 1(a): x" +:+ String newline (" 2(b): x" +:+ String newline " 4(d): x"), None)) quiet).

Lemma mustLowestFreePortOnBridge_lowest_witness :
  ∃ p s', @mustLowestFreePortOnBridge three_ports "odsbr0" init_io = (Ret p, s') ∧
    lowest_free (parsePortDesc (@of_reply three_ports [] (dump "odsbr0")).1 ∅) p.
Proof.
  apply (@mustLowestFreePortOnBridge_lowest three_ports "odsbr0" init_io);
    [vm_compute; reflexivity| |vm_compute; reflexivity].
  change (parsePortDesc _ _) with (<[4%Z := "d"]> (<[2%Z := "b"]> {[1%Z := "a"]}) : gmap Z string).
  intros p [v Hv]. apply lookup_insert_Some in Hv as [[<- _]|[_ Hv]]; [lia|].
  apply lookup_insert_Some in Hv as [[<- _]|[_ Hv]]; [lia|].
  apply lookup_singleton_Some in Hv as [<- _]. lia.
Defined.

(** a port dump is tried at most four times, with pauses of one, two, three
    and four seconds: [mustScrapePortDesc] parses the output of the first attempt
    that succeeds and issues nothing more, and it panics only after four
    failures. *)
Theorem mustScrapePortDesc_retries `{E : Env} br m s :
  (∃ k out, (k ≤ dumpPortsRetries)%nat ∧ all_fail br (io_trace s) 0 k ∧
     of_reply (io_trace s ++ failed_attempts br 0 k) (dump br) = (out, None) ∧
     mustScrapePortDesc br m s =
       (Ret (parsePortDesc out m),
        mkIo (io_trace s ++ failed_attempts br 0 k ++ [ofc (dump br)]) (io_ticks s))) ∨
  (all_fail br (io_trace s) 0 (S dumpPortsRetries) ∧
   ∃ e, mustScrapePortDesc br m s =
     (Panic e, mkIo (io_trace s ++ failed_attempts br 0 (S dumpPortsRetries)) (io_ticks s))).
Proof.
  unfold mustScrapePortDesc.
  destruct (scrape_loop_spec br (S dumpPortsRetries) 0 m None s)
    as [(k & out & Hk & Hf & Ho & Hl)|(Hf & e & _ & He & Hl)].
  - left. exists k, out. split_and!; [lia|done|done|]. by erewrite bind_Ret by exact Hl.
  - right. split; [done|]. destruct (He ltac:(done)) as [v ->]. exists v.
    by erewrite bind_Ret by exact Hl.
Qed.

(** ** Which computations return or panic *)

Lemma settled_patchName a b : settled (patchName a b).
Proof. unfold patchName; tame_tac. Qed.
#[export] Hint Resolve settled_patchName : tame.
Lemma tame_scrapePortDesc `{E : Env} b m : tame (scrapePortDesc b m).
Proof. unfold scrapePortDesc; tame_tac. Qed.
#[export] Hint Resolve tame_scrapePortDesc : tame.
Lemma tame_mustScrapePortDesc `{E : Env} b m : tame (mustScrapePortDesc b m).
Proof. unfold mustScrapePortDesc, scrape_attempt; tame_tac. Qed.
#[export] Hint Resolve tame_mustScrapePortDesc : tame.
Lemma tame_mustLowestFreePortOnBridge `{E : Env} b : tame (mustLowestFreePortOnBridge b).
Proof. unfold mustLowestFreePortOnBridge; tame_tac. Qed.
#[export] Hint Resolve tame_mustLowestFreePortOnBridge : tame.
Lemma tame_addInternalPort `{E : Env} b p t : tame (addInternalPort b p t).
Proof. unfold addInternalPort; tame_tac. Qed.
#[export] Hint Resolve tame_addInternalPort : tame.
Lemma tame_mustAddInternalPort `{E : Env} b p t : tame (mustAddInternalPort b p t).
Proof. unfold mustAddInternalPort; tame_tac. Qed.
#[export] Hint Resolve tame_mustAddInternalPort : tame.
Lemma tame_mustDeletePort `{E : Env} b p : tame (mustDeletePort b p).
Proof. unfold mustDeletePort; tame_tac. Qed.
#[export] Hint Resolve tame_mustDeletePort : tame.
Lemma tame_mustAddPatchPort `{E : Env} b p x y : tame (mustAddPatchPort b p x y).
Proof. unfold mustAddPatchPort; tame_tac. Qed.
#[export] Hint Resolve tame_mustAddPatchPort : tame.
Lemma tame_mustDeletePatchPort `{E : Env} b p : tame (mustDeletePatchPort b p).
Proof. unfold mustDeletePatchPort; tame_tac. Qed.
#[export] Hint Resolve tame_mustDeletePatchPort : tame.
Lemma tame_getOfPort `{E : Env} p : tame (getOfPort p).
Proof. unfold getOfPort; tame_tac. Qed.
#[export] Hint Resolve tame_getOfPort : tame.
Lemma tame_mustGetOfPort `{E : Env} p : tame (mustGetOfPort p).
Proof. unfold mustGetOfPort; tame_tac. Qed.
#[export] Hint Resolve tame_mustGetOfPort : tame.
