(* ===== verification/Types.v ===== *)
(** * The driver's data and its state

    The structs of ovs/driver.go and ovs/ovs_config.go, and the state that the
    driver's goroutines share.  Go maps are references: a [NetworkState] that is
    copied still shares the three maps of its [DynamicNetworkState], so those maps
    live in a [heap] and the struct holds their location; [None] is the nil map. *)
From S2P Require Import Prelude GoStrings GoMonad World Utils.

(** ** Structs *)

Record ContainerState := mkContainerState {
  cs_Name : string;
  cs_Id : string;
  cs_OFPort : Z;
  cs_MacAddress : string;
  cs_HostIP : string;
  cs_Labels : option (gmap string string);
  cs_IfName : string;
}.

Record ExternalPortState := mkExternalPortState {
  xp_Name : string;
  xp_OFPort : Z;
  xp_MacAddress : string;
}.

Record OtherBridgePortState := mkOtherBridgePortState {
  bp_Name : string;
  bp_PeerName : string;
  bp_OFPort : Z;
  bp_PeerOFPort : Z;
  bp_PeerBridgeName : string;
}.

(** A Go map: where it is, or nil. *)
Abbreviation ref := (option positive).

Record DynamicNetworkState := mkDynamicNetworkState {
  dyn_ShortEngineId : string;
  dyn_Containers : ref;
  dyn_ExternalPorts : ref;
  dyn_OtherBridgePorts : ref;
}.

Record NetworkState := mkNetworkState {
  ns_NetworkName : string;
  ns_BridgeName : string;
  ns_BridgeDpid : string;
  ns_BridgeDpidUint : Z;
  ns_BridgeVLAN : Z;
  ns_MTU : Z;
  ns_PreAllocatePorts : Z;
  ns_Mode : string;
  ns_AddPorts : string;
  ns_AddCoproPorts : string;
  ns_Gateway : string;
  ns_GatewayMask : string;
  ns_FlatBindInterface : string;
  ns_UseDHCP : bool;
  ns_Userspace : bool;
  ns_NATAcl : string;
  ns_VLANOutAcl : string;
  ns_DefaultAcl : string;
  ns_OvsLocalMac : string;
  ns_Controller : string;
  ns_DynamicNetworkStates : DynamicNetworkState;
}.

Definition zero_DynamicNetworkState : DynamicNetworkState :=
  mkDynamicNetworkState "" None None None.

(** [NetworkState{}] *)
Definition zero_NetworkState : NetworkState :=
  mkNetworkState "" "" "" 0 0 0 0 "" "" "" "" "" "" false false "" "" "" "" ""
    zero_DynamicNetworkState.

(** [ns.NetworkName = name] *)
Definition set_NetworkName (name : string) (ns : NetworkState) : NetworkState :=
  mkNetworkState name (ns_BridgeName ns) (ns_BridgeDpid ns) (ns_BridgeDpidUint ns)
    (ns_BridgeVLAN ns) (ns_MTU ns) (ns_PreAllocatePorts ns) (ns_Mode ns) (ns_AddPorts ns)
    (ns_AddCoproPorts ns) (ns_Gateway ns) (ns_GatewayMask ns) (ns_FlatBindInterface ns)
    (ns_UseDHCP ns) (ns_Userspace ns) (ns_NATAcl ns) (ns_VLANOutAcl ns) (ns_DefaultAcl ns)
    (ns_OvsLocalMac ns) (ns_Controller ns) (ns_DynamicNetworkStates ns).

(** [ns.Controller = c] *)
Definition set_Controller (c : string) (ns : NetworkState) : NetworkState :=
  mkNetworkState (ns_NetworkName ns) (ns_BridgeName ns) (ns_BridgeDpid ns) (ns_BridgeDpidUint ns)
    (ns_BridgeVLAN ns) (ns_MTU ns) (ns_PreAllocatePorts ns) (ns_Mode ns) (ns_AddPorts ns)
    (ns_AddCoproPorts ns) (ns_Gateway ns) (ns_GatewayMask ns) (ns_FlatBindInterface ns)
    (ns_UseDHCP ns) (ns_Userspace ns) (ns_NATAcl ns) (ns_VLANOutAcl ns) (ns_DefaultAcl ns)
    (ns_OvsLocalMac ns) c (ns_DynamicNetworkStates ns).

Record StackMirrorConfig := mkStackMirrorConfig {
  smc_LbPort : Z;
  smc_TunnelVid : Z;
  smc_RemoteDpName : string;
  smc_RemoteMirrorPort : Z;
}.
Definition zero_StackMirrorConfig : StackMirrorConfig := mkStackMirrorConfig 0 0 "" 0.

(** A value of type [interface{}] as docker's JSON decodes it.  A number is a
    [float64]: [m * 2^e]. *)
Local Unset Elimination Schemes.
Inductive ivalue : Type :=
  | INil
  | IBool (b : bool)
  | INum (m e : Z)
  | IStr (s : string)
  | IArr (l : list ivalue)
  | IMap (m : list (string * ivalue)).
Local Set Elimination Schemes.

(** [m\[k\]]: nil for a missing key. *)
Fixpoint ilookup (m : list (string * ivalue)) (k : string) : ivalue :=
  match m with
  | [] => INil
  | (k', v) :: m' => if decide (k = k') then v else ilookup m' k
  end.

(** A started [exec.Cmd]. *)
Record Cmd := mkCmd { cmd_Path : string; cmd_Args : list string }.

Record OFPortContainer := mkOFPortContainer {
  oc_OFPort : Z;
  oc_containerInspect : InspectResponse;
  oc_udhcpcCmd : option Cmd;
  oc_Options : list (string * ivalue);
}.
Definition zero_OFPortContainer : OFPortContainer :=
  mkOFPortContainer 0 zero_InspectResponse None [].

Record DovesnapOpReply := mkDovesnapOpReply {
  re_NewNetworkState : NetworkState;
  re_NewOFPortContainer : OFPortContainer;
  re_NetworkStateString : string;
}.
Definition zero_DovesnapOpReply : DovesnapOpReply :=
  mkDovesnapOpReply zero_NetworkState zero_OFPortContainer "".

(** A message to the resource manager.  [Reply] is a channel, or nil. *)
Record DovesnapOp := mkDovesnapOp {
  op_Operation : string;
  op_NewNetworkState : NetworkState;
  op_NewStackMirrorConfig : StackMirrorConfig;
  op_AddPorts : string;
  op_AddCoproPorts : string;
  op_Mode : string;
  op_NetworkID : string;
  op_EndpointID : string;
  op_Options : list (string * ivalue);
  op_OFPort : Z;
  op_Reply : option nat;
}.

Record NotifyMsg := mkNotifyMsg {
  nm_NetworkState : NetworkState;
  nm_Type : string;
  nm_Operation : string;
  nm_Details : option (gmap string string);
}.

Record StackingPort := mkStackingPort {
  sp_OFPort : Z;
  sp_RemoteDP : string;
  sp_RemotePort : Z;
}.

(** [net.IPNet]: an address and a mask, as bytes. *)
Record IPNet := mkIPNet { ipn_IP : list Z; ipn_Mask : list Z }.

(** The driver: its settings, and the two maps of the networks it manages. *)
Record Driver := mkDriver {
  stackPriority1 : string;
  stackingInterfaces : list string;
  stackMirrorInterface : list string;
  stackDefaultControllers : string;
  mirrorBridgeIn : string;
  mirrorBridgeOut : string;
  lastDhcpMtime : Z;
  shortEngineId : string;
  mirrorBridgeName : string;
  loopbackBridgeName : string;
  stackDpName : string;
  networks : gmap string NetworkState;
  stackMirrorConfigs : gmap string StackMirrorConfig;
  authIPs : list IPNet;
}.

Definition set_networks (m : gmap string NetworkState) (d : Driver) : Driver :=
  mkDriver (stackPriority1 d) (stackingInterfaces d) (stackMirrorInterface d)
    (stackDefaultControllers d) (mirrorBridgeIn d) (mirrorBridgeOut d) (lastDhcpMtime d)
    (shortEngineId d) (mirrorBridgeName d) (loopbackBridgeName d) (stackDpName d)
    m (stackMirrorConfigs d) (authIPs d).
Definition set_stackMirrorConfigs (m : gmap string StackMirrorConfig) (d : Driver) : Driver :=
  mkDriver (stackPriority1 d) (stackingInterfaces d) (stackMirrorInterface d)
    (stackDefaultControllers d) (mirrorBridgeIn d) (mirrorBridgeOut d) (lastDhcpMtime d)
    (shortEngineId d) (mirrorBridgeName d) (loopbackBridgeName d) (stackDpName d)
    (networks d) m (authIPs d).
Definition set_lastDhcpMtime (t : Z) (d : Driver) : Driver :=
  mkDriver (stackPriority1 d) (stackingInterfaces d) (stackMirrorInterface d)
    (stackDefaultControllers d) (mirrorBridgeIn d) (mirrorBridgeOut d) t
    (shortEngineId d) (mirrorBridgeName d) (loopbackBridgeName d) (stackDpName d)
    (networks d) (stackMirrorConfigs d) (authIPs d).

(** ** Maps in the heap *)

Record heap := mkHeap {
  h_next : positive;
  h_containers : gmap positive (gmap string ContainerState);
  h_external : gmap positive (gmap string ExternalPortState);
  h_other : gmap positive (gmap string OtherBridgePortState);
}.
Definition empty_heap : heap := mkHeap 1 ∅ ∅ ∅.

(** Reading a map; a nil map reads as empty. *)
Definition map_get {V} (h : gmap positive (gmap string V)) (r : ref) : gmap string V :=
  match r with Some l => default ∅ (h !! l) | None => ∅ end.

(** [m\[k\] = v] through a reference; panics on a nil map. *)
Definition map_set {V} (h : gmap positive (gmap string V)) (r : ref) (k : string) (v : V) :
    outcome (gmap positive (gmap string V)) :=
  match r with
  | Some l => Ret (<[l := <[k := v]> (map_get h r)]> h)
  | None => Panic rt_nil_map
  end.

(** [delete(m, k)] through a reference; a nil map is left alone. *)
Definition map_del {V} (h : gmap positive (gmap string V)) (r : ref) (k : string) :
    gmap positive (gmap string V) :=
  match r with
  | Some l => <[l := delete k (map_get h r)]> h
  | None => h
  end.

(** ** The state *)

Record state := mkState {
  st_d : Driver;
  st_heap : heap;
  (* createDeleteNetworkWG *)
  st_wg : Z;
  (* the contents of dovesnapOpChan *)
  st_ops : list DovesnapOp;
  (* what was sent on notifyMsgChan *)
  st_notes : list NotifyMsg;
  (* the reply channels *)
  st_replies : gmap nat (list DovesnapOpReply);
  (* the local variables of resourceManager *)
  st_OFPorts : gmap string OFPortContainer;
  st_AllPortDesc : gmap string (gmap Z string);
  st_io : io;
}.

Abbreviation D := (M state).

Definition upd_d (f : Driver → Driver) (s : state) : state :=
  mkState (f (st_d s)) (st_heap s) (st_wg s) (st_ops s) (st_notes s) (st_replies s)
    (st_OFPorts s) (st_AllPortDesc s) (st_io s).
Definition set_heap (h : heap) (s : state) : state :=
  mkState (st_d s) h (st_wg s) (st_ops s) (st_notes s) (st_replies s)
    (st_OFPorts s) (st_AllPortDesc s) (st_io s).
Definition set_wg (n : Z) (s : state) : state :=
  mkState (st_d s) (st_heap s) n (st_ops s) (st_notes s) (st_replies s)
    (st_OFPorts s) (st_AllPortDesc s) (st_io s).
Definition set_ops (l : list DovesnapOp) (s : state) : state :=
  mkState (st_d s) (st_heap s) (st_wg s) l (st_notes s) (st_replies s)
    (st_OFPorts s) (st_AllPortDesc s) (st_io s).
Definition set_notes (l : list NotifyMsg) (s : state) : state :=
  mkState (st_d s) (st_heap s) (st_wg s) (st_ops s) l (st_replies s)
    (st_OFPorts s) (st_AllPortDesc s) (st_io s).
Definition set_replies (m : gmap nat (list DovesnapOpReply)) (s : state) : state :=
  mkState (st_d s) (st_heap s) (st_wg s) (st_ops s) (st_notes s) m
    (st_OFPorts s) (st_AllPortDesc s) (st_io s).
Definition set_OFPorts (m : gmap string OFPortContainer) (s : state) : state :=
  mkState (st_d s) (st_heap s) (st_wg s) (st_ops s) (st_notes s) (st_replies s)
    m (st_AllPortDesc s) (st_io s).
Definition set_AllPortDesc (m : gmap string (gmap Z string)) (s : state) : state :=
  mkState (st_d s) (st_heap s) (st_wg s) (st_ops s) (st_notes s) (st_replies s)
    (st_OFPorts s) m (st_io s).
Definition set_io (i : io) (s : state) : state :=
  mkState (st_d s) (st_heap s) (st_wg s) (st_ops s) (st_notes s) (st_replies s)
    (st_OFPorts s) (st_AllPortDesc s) i.

(** Run an input/output computation: it sees and changes nothing else. *)
Definition io_do {A} (m : IO A) : D A := zoom st_io set_io m.

Definition get_d : D Driver := gets st_d.

(** ** Channels and wait groups *)

Definition chanSize : nat := 64.
Definition replySize : nat := 2.

(** [opMsg.Reply <- r]: a send on a nil channel, or on a full one that nobody
    drains, never returns. *)
Definition send_reply (ch : option nat) (r : DovesnapOpReply) : D unit :=
  match ch with
  | None => block
  | Some c =>
      buf ← gets (λ s, default [] (st_replies s !! c));
      if (length buf <? replySize)%nat
      then modify (λ s, set_replies (<[c := buf ++ [r]]> (st_replies s)) s)
      else block
  end.

(** [d.dovesnapOpChan <- msg]: waits while the channel is full. *)
Definition send_op (msg : DovesnapOp) : D unit :=
  ops ← gets st_ops;
  if (length ops <? chanSize)%nat then modify (set_ops (ops ++ [msg])) else block.

(** [d.notifyMsgChan <- msg]: the notifier takes every message and waits for nobody, so
    that a send on a full channel goes on at last; the channel is unbounded here. *)
Definition send_note (msg : NotifyMsg) : D unit :=
  modify (λ s, set_notes (st_notes s ++ [msg]) s).

Definition wg_add : D unit := modify (λ s, set_wg (st_wg s + 1) s).

(** [Done]: a wait group below zero panics. *)
Definition wg_done : D unit :=
  modify (λ s, set_wg (st_wg s - 1) s);;
  n ← gets st_wg;
  if (n <? 0)%Z then panic "sync: negative WaitGroup counter" else skip.

(** ** Access to the shared maps of a network *)

Definition upd_containers (f : gmap positive (gmap string ContainerState) →
    gmap positive (gmap string ContainerState)) (h : heap) : heap :=
  mkHeap (h_next h) (f (h_containers h)) (h_external h) (h_other h).
Definition upd_external (f : gmap positive (gmap string ExternalPortState) →
    gmap positive (gmap string ExternalPortState)) (h : heap) : heap :=
  mkHeap (h_next h) (h_containers h) (f (h_external h)) (h_other h).
Definition upd_other (f : gmap positive (gmap string OtherBridgePortState) →
    gmap positive (gmap string OtherBridgePortState)) (h : heap) : heap :=
  mkHeap (h_next h) (h_containers h) (h_external h) (f (h_other h)).

(** [ns.DynamicNetworkStates.Containers\[k\] = v] *)
Definition put_container (ns : NetworkState) (k : string) (v : ContainerState) : D unit :=
  h ← gets st_heap;
  m ← lift (map_set (h_containers h) (dyn_Containers (ns_DynamicNetworkStates ns)) k v);
  modify (set_heap (upd_containers (λ _, m) h)).

(** [delete(ns.DynamicNetworkStates.Containers, k)] *)
Definition del_container (ns : NetworkState) (k : string) : D unit :=
  modify (λ s, set_heap (upd_containers
    (λ m, map_del m (dyn_Containers (ns_DynamicNetworkStates ns)) k) (st_heap s)) s).

(** [ns.DynamicNetworkStates.ExternalPorts\[k\] = v] *)
Definition put_external (ns : NetworkState) (k : string) (v : ExternalPortState) : D unit :=
  h ← gets st_heap;
  m ← lift (map_set (h_external h) (dyn_ExternalPorts (ns_DynamicNetworkStates ns)) k v);
  modify (set_heap (upd_external (λ _, m) h)).

(** [delete(ns.DynamicNetworkStates.ExternalPorts, k)] *)
Definition del_external (ns : NetworkState) (k : string) : D unit :=
  modify (λ s, set_heap (upd_external
    (λ m, map_del m (dyn_ExternalPorts (ns_DynamicNetworkStates ns)) k) (st_heap s)) s).

(** [ns.DynamicNetworkStates.OtherBridgePorts\[k\] = v] *)
Definition put_other (ns : NetworkState) (k : string) (v : OtherBridgePortState) : D unit :=
  h ← gets st_heap;
  m ← lift (map_set (h_other h) (dyn_OtherBridgePorts (ns_DynamicNetworkStates ns)) k v);
  modify (set_heap (upd_other (λ _, m) h)).

(** The heap with three fresh maps; each kind of map has its own address space. *)
Definition alloc (h : heap) : heap :=
  let l := h_next h in
  mkHeap (Pos.succ l) (<[l := ∅]> (h_containers h)) (<[l := ∅]> (h_external h))
    (<[l := ∅]> (h_other h)).

Definition makeDynamicNetworkState (shortEngineId : string) : D DynamicNetworkState :=
  h ← gets st_heap;
  let l := h_next h in
  modify (set_heap (alloc h));;
  ret (mkDynamicNetworkState shortEngineId (Some l) (Some l) (Some l)).

(** ** A concrete state, for evaluation *)

(** The state in which a driver starts. *)
Definition start (d : Driver) : state := mkState d empty_heap 0 [] [] ∅ ∅ ∅ init_io.

(** A driver without stacking and without a mirror bridge. *)
Definition plain_driver : Driver :=
  mkDriver "" [""] [""] "tcp:127.0.0.1:6653" "" "" 0 "0ABCDE" "odsmir0ABCDE" "odslb0ABCDE"
    "dovesnap0ABCDE" ∅ ∅ [].

(** ** What the primitives leave alone *)

(** A property of the driver's state that no call outside can change. *)
Definition blind_to_io (P : state → Prop) : Prop := ∀ i s, P s → P (set_io i s).

Section frames.
Context (P : state → Prop).

Lemma keeps_io_do {A} (m : IO A) : blind_to_io P → keeps P (io_do m).
Proof. intros HP s Hs. unfold io_do, zoom. destruct (m (st_io s)). by apply HP. Qed.

Lemma keeps_heap_step {A} (m : D A) :
  (∀ h s, P s → P (set_heap h s)) →
  (∀ s, (m s).2 = s ∨ ∃ h, (m s).2 = set_heap h s) → keeps P m.
Proof. intros HP Hm s Hs. destruct (Hm s) as [->|[h ->]]; auto. Qed.
End frames.

Lemma io_do_frame {A} (m : IO A) s : ∃ i, (io_do m s).2 = set_io i s.
Proof. unfold io_do, zoom. destruct (m (st_io s)). by eexists. Qed.

Lemma io_do_inv {A} (m : IO A) s a s' :
  io_do m s = (Ret a, s') → ∃ i, m (st_io s) = (Ret a, i) ∧ s' = set_io i s.
Proof. unfold io_do, zoom. destruct (m (st_io s)) as [o i]. intros [= -> <-]. eauto. Qed.

(** All that is known of a computation that only calls outside. *)
Lemma wp_io_do {A} (m : IO A) (Q : outcome A → state → Prop) s :
  (∀ o i, Q o (set_io i s)) → wp (io_do m) Q s.
Proof. intros HQ. unfold wp. destruct (io_do_frame m s) as [i ->]. apply HQ. Qed.

Lemma wp_io_do_spec {A} (m : IO A) (R : outcome A → Prop) (Q : outcome A → state → Prop) s :
  (∀ i, R (m i).1) → (∀ o i, R o → Q o (set_io i s)) → wp (io_do m) Q s.
Proof.
  intros HR HQ. unfold wp, io_do, zoom. specialize (HR (st_io s)).
  destruct (m (st_io s)). by apply HQ.
Qed.

Lemma wp_io_range `{E : Env} {K V} `{Countable K} (m : gmap K V)
    (Q : outcome (list (K * V)) → state → Prop) s :
  (∀ l i, l ≡ₚ map_to_list m → Q (Ret l) (set_io i s)) → wp (io_do (range m)) Q s.
Proof. intros HQ. unfold wp, io_do, zoom. cbn. apply HQ, merge_sort_Permutation. Qed.

(** A reply is sent, or the sender waits for ever. *)
Lemma wp_send_reply ch r (Q : outcome unit → state → Prop) s :
  Q Block s →
  (∀ c buf, ch = Some c → default [] (st_replies s !! c) = buf → (length buf < replySize)%nat →
     Q (Ret tt) (set_replies (<[c := buf ++ [r]]> (st_replies s)) s)) →
  wp (send_reply ch r) Q s.
Proof.
  intros HB HR. destruct ch as [c|]; [|done].
  specialize (HR c _ eq_refl eq_refl). unfold wp, send_reply. cbn -[Nat.ltb replySize].
  case_match eqn:Hl; cbn; [apply HR, Nat.ltb_lt, Hl|done].
Qed.

Lemma send_reply_room c r s buf :
  st_replies s !! c = Some buf → (length buf < replySize)%nat →
  send_reply (Some c) r s = (Ret tt, set_replies (<[c := buf ++ [r]]> (st_replies s)) s).
Proof.
  intros Hc Hl%Nat.ltb_lt. cbn -[Nat.ltb replySize]. rewrite Hc.
  cbn -[Nat.ltb replySize]. by rewrite Hl.
Qed.

(** The containers of the networks that exist stay as they are. *)
Definition heap_grows (h h' : heap) : Prop :=
  (h_next h ≤ h_next h')%positive ∧
  ∀ l, (l < h_next h)%positive → h_containers h' !! l = h_containers h !! l.

#[export] Instance heap_grows_preorder : PreOrder heap_grows.
Proof.
  split; [by intros h; split|].
  intros h1 h2 h3 [Hn1 Hc1] [Hn2 Hc2]. split; [lia|].
  intros l Hl. rewrite Hc2 by lia. by apply Hc1.
Qed.

Lemma alloc_grows h : heap_grows h (alloc h).
Proof.
  split; cbn; [lia|]. intros l Hl. rewrite lookup_insert_ne; [done|lia].
Qed.

(** The reference of the containers of a network. *)
Definition containers_of (ns : NetworkState) : ref := dyn_Containers (ns_DynamicNetworkStates ns).

Lemma wp_put_container ns k v l (Q : outcome unit → state → Prop) s :
  dyn_Containers (ns_DynamicNetworkStates ns) = Some l →
  Q (Ret tt) (set_heap (upd_containers
    (λ h, <[l := <[k := v]> (map_get h (Some l))]> h) (st_heap s)) s) →
  wp (put_container ns k v) Q s.
Proof. intros Hl HQ. unfold wp, put_container, map_set. cbn. by rewrite Hl. Qed.

Lemma put_container_nil ns k v s :
  dyn_Containers (ns_DynamicNetworkStates ns) = None →
  put_container ns k v s = (Panic rt_nil_map, s).
Proof. intros Hl. unfold put_container, map_set. cbn. by rewrite Hl. Qed.

(** The operations on the shared maps change the heap only. *)
Lemma put_container_heap ns k v s :
  (put_container ns k v s).2 = s ∨ ∃ h, (put_container ns k v s).2 = set_heap h s.
Proof.
  unfold put_container, map_set. cbn.
  destruct (dyn_Containers (ns_DynamicNetworkStates ns)); cbn; eauto.
Qed.
Lemma put_external_heap ns k v s :
  (put_external ns k v s).2 = s ∨ ∃ h, (put_external ns k v s).2 = set_heap h s.
Proof.
  unfold put_external, map_set. cbn.
  destruct (dyn_ExternalPorts (ns_DynamicNetworkStates ns)); cbn; eauto.
Qed.
Lemma put_other_heap ns k v s :
  (put_other ns k v s).2 = s ∨ ∃ h, (put_other ns k v s).2 = set_heap h s.
Proof.
  unfold put_other, map_set. cbn.
  destruct (dyn_OtherBridgePorts (ns_DynamicNetworkStates ns)); cbn; eauto.
Qed.
Lemma makeDynamicNetworkState_heap e s :
  (makeDynamicNetworkState e s).2 = s ∨ ∃ h, (makeDynamicNetworkState e s).2 = set_heap h s.
Proof. cbn. eauto. Qed.

Lemma tame_put_container ns k v : tame (put_container ns k v).
Proof. intros s. unfold put_container, map_set. cbn. by destruct (dyn_Containers _). Qed.
Lemma tame_put_external ns k v : tame (put_external ns k v).
Proof. intros s. unfold put_external, map_set. cbn. by destruct (dyn_ExternalPorts _). Qed.
Lemma tame_put_other ns k v : tame (put_other ns k v).
Proof. intros s. unfold put_other, map_set. cbn. by destruct (dyn_OtherBridgePorts _). Qed.
Lemma tame_get_d : tame get_d.
Proof. done. Qed.
Lemma tame_del_container ns k : tame (del_container ns k).
Proof. done. Qed.
Lemma tame_del_external ns k : tame (del_external ns k).
Proof. done. Qed.
Lemma tame_send_note n : tame (send_note n).
Proof. done. Qed.
Lemma tame_wg_add : tame wg_add.
Proof. done. Qed.
Lemma tame_make_dyn e : tame (makeDynamicNetworkState e).
Proof. done. Qed.
#[export] Hint Resolve tame_put_container tame_put_external tame_put_other tame_get_d
  tame_del_container tame_del_external tame_send_note tame_wg_add tame_make_dyn : tame.

(** Close the goals that the primitives leave: [P] does not read what they write. *)
Ltac frame_step :=
  match goal with
  | |- keeps _ (io_do _) => apply keeps_io_do; intros ? ?; cbn; tauto
  | |- keeps _ get_d => apply keeps_gets
  | |- keeps _ (modify _) => apply keeps_modify; intros ?; cbn; tauto
  | |- keeps _ (send_note _) => apply keeps_modify; intros ?; cbn; tauto
  | |- keeps _ (del_container _ _) => apply keeps_modify; intros ?; cbn; tauto
  | |- keeps _ (del_external _ _) => apply keeps_modify; intros ?; cbn; tauto
  | |- keeps _ (put_container _ _ _) =>
      apply keeps_heap_step; [intros ? ?; cbn; tauto|apply put_container_heap]
  | |- keeps _ (put_external _ _ _) =>
      apply keeps_heap_step; [intros ? ?; cbn; tauto|apply put_external_heap]
  | |- keeps _ (put_other _ _ _) =>
      apply keeps_heap_step; [intros ? ?; cbn; tauto|apply put_other_heap]
  | |- keeps _ (makeDynamicNetworkState _) =>
      apply keeps_heap_step; [intros ? ?; cbn; tauto|apply makeDynamicNetworkState_heap]
  end.

Ltac frame_tac := repeat first [frame_step | progress keeps_tac].

(** The history of a state has grown from [t]. *)
Definition since (t : list call) (s : state) : Prop := t `prefix_of` io_trace (st_io s).

Lemma keeps_since_io {A} t (m : IO A) :
  keeps (λ i, t `prefix_of` io_trace i) m → keeps (since t) (io_do m).
Proof.
  intros Hm s Hs. specialize (Hm (st_io s) Hs). unfold io_do, zoom.
  by destruct (m (st_io s)).
Qed.

(** Walk down a handler whose calls are unfolded; the other primitives make no call. *)
Ltac since_tac :=
  repeat first [apply keeps_since_io
    | progress keeps_tac
    | match goal with
      | |- keeps _ get_d => apply keeps_gets
      | |- keeps _ (put_external _ _ _) =>
          apply keeps_heap_step; [by intros|apply put_external_heap]
      | |- keeps _ (put_other _ _ _) =>
          apply keeps_heap_step; [by intros|apply put_other_heap]
      | |- keeps _ (makeDynamicNetworkState _) =>
          apply keeps_heap_step; [by intros|apply makeDynamicNetworkState_heap]
      end
    | apply keeps_gets | apply keeps_lift | apply keeps_ret | apply keeps_must_nil
    | apply keeps_modify; by intros].

(** ** Computations that change no container

    [steady s0 s]: since [s0] the driver's maps, the announcements, the ports and the
    containers of the networks have not changed. *)
Definition steady (s0 s : state) : Prop :=
  st_d s = st_d s0 ∧ st_notes s = st_notes s0 ∧ st_OFPorts s = st_OFPorts s0 ∧
  st_AllPortDesc s = st_AllPortDesc s0 ∧ heap_grows (st_heap s0) (st_heap s).

Lemma steady_refl s : steady s s.
Proof. by do 4 (split; [done|]). Qed.

Lemma steady_heap s0 s h : steady s0 s → heap_grows (st_heap s) h → steady s0 (set_heap h s).
Proof.
  intros (? & ? & ? & ? & Hg) Hh. do 4 (split; [done|]). by etransitivity.
Qed.

Section steady.
Context (s0 : state).

Lemma steady_io_do {A} (m : IO A) : keeps (steady s0) (io_do m).
Proof. apply keeps_io_do. by intros i s. Qed.
Lemma steady_put_external ns k v : keeps (steady s0) (put_external ns k v).
Proof.
  intros s Hs. unfold put_external, map_set. cbn.
  destruct (dyn_ExternalPorts _); cbn; [|done]. by apply steady_heap.
Qed.
Lemma steady_put_other ns k v : keeps (steady s0) (put_other ns k v).
Proof.
  intros s Hs. unfold put_other, map_set. cbn.
  destruct (dyn_OtherBridgePorts _); cbn; [|done]. by apply steady_heap.
Qed.
Lemma steady_del_external ns k : keeps (steady s0) (del_external ns k).
Proof. intros s Hs. by apply steady_heap. Qed.
Lemma steady_makeDynamicNetworkState e : keeps (steady s0) (makeDynamicNetworkState e).
Proof.
  intros s Hs. apply steady_heap; [done|]. apply alloc_grows.
Qed.
End steady.
#[export] Hint Resolve steady_io_do steady_put_external steady_put_other steady_del_external
  steady_makeDynamicNetworkState : keeps.

(** Symbolic execution of a handler's work, with the effects outside unknown. *)
Ltac wp_walk :=
  repeat first
    [ wp_step
    | apply wp_io_do; intros [?|?| |] ?
    | match goal with
      | |- wp (match ?x with _ => _ end) _ _ => destruct x
      | |- wp (when ?b _) _ _ => destruct b; cbn [when]
      | |- match ?o with Ret _ => _ | _ => _ end => destruct o eqn:?
      end ];
  try done.
