(* ===== verification/Config.v ===== *)
(** * Network options: ovs/ovs_config.go

    How the options of a [docker network create] request, and later the options
    that docker reports for the network, become a [NetworkState] and a
    [StackMirrorConfig]. *)
From S2P Require Import Prelude GoStrings GoMonad World Scenario Utils Types.

(** ** Constants *)

Definition DriverName : string := "dovesnap".

Definition genericOption : string := "com.docker.network.generic".
Definition internalOption : string := "com.docker.network.internal".
Definition portMapOption : string := "com.docker.network.portmap".

Definition bindInterfaceOption : string := "ovs.bridge.bind_interface".
Definition bridgeAddPorts : string := "ovs.bridge.add_ports".
Definition bridgeAddCoproPorts : string := "ovs.bridge.add_copro_ports".
Definition bridgeController : string := "ovs.bridge.controller".
Definition bridgeDpid : string := "ovs.bridge.dpid".
Definition bridgeLbPort : string := "ovs.bridge.lbport".
Definition bridgeNameOption : string := "ovs.bridge.name".
Definition dhcpOption : string := "ovs.bridge.dhcp".
Definition mirrorTunnelVid : string := "ovs.bridge.mirror_tunnel_vid".
Definition modeOption : string := "ovs.bridge.mode".
Definition NATAclOption : string := "ovs.bridge.nat_acl".
Definition mtuOption : string := "ovs.bridge.mtu".
Definition vlanOption : string := "ovs.bridge.vlan".
Definition userspaceOption : string := "ovs.bridge.userspace".
Definition ovsLocalMacOption : string := "ovs.bridge.ovs_local_mac".
Definition vlanOutAclOption : string := "ovs.bridge.vlan_out_acl".
Definition defaultAclOption : string := "ovs.bridge.default_acl".
Definition preAllocatePortsOption : string := "ovs.bridge.preallocate_ports".

Definition defaultLbPort : Z := 99.
Definition defaultMTU : Z := 1500.
Definition defaultTunnelVLANOffset : Z := 256.
Definition defaultVLAN : Z := 100.

Definition modeFlat : string := "flat".
Definition modeNAT : string := "nat".
Definition modeRouted : string := "routed".
Definition defaultMode : string := modeFlat.

Definition bridgePrefix : string := ovsDovesnapPrefix +:+ "br".
Definition containerEthName : string := "eth".
Definition dhcpStatePath : string := "/var/run".
Definition ofPortLocal : Z := 4294967294.
Definition stackDpidPrefix : string := "0x0E0F00".
Definition ovsStartupRetries : nat := 5.
Definition dockerRetries : nat := 5.

Definition validModes : list string := [modeNAT; modeFlat; modeRouted].

(** ** A create request *)

(** [networkplugin.IPAMData] *)
Record IPAMData := mkIPAMData { ipd_Gateway : string }.

(** [networkplugin.CreateNetworkRequest]; [Options] may be nil, and so may the
    pointers of the address data. *)
Record CreateNetworkRequest := mkCreateNetworkRequest {
  cr_NetworkID : string;
  cr_Options : option (list (string * ivalue));
  cr_IPv4Data : list (option IPAMData);
  cr_IPv6Data : list (option IPAMData);
}.

Definition mustGetInternalOption (r : CreateNetworkRequest) : outcome bool :=
  match cr_Options r with
  | None => Ret false
  | Some opts =>
      match ilookup opts internalOption with
      | IBool b => Ret b
      | _ => Panic rt_type_assert
      end
  end.

Definition getGenericOption (r : CreateNetworkRequest) (optionName : string) : string :=
  match cr_Options r with
  | None => ""
  | Some opts =>
      match ilookup opts genericOption with
      | IMap optionsMap =>
          match ilookup optionsMap optionName with
          | IStr optionValue => optionValue
          | _ => ""
          end
      | _ => ""
      end
  end.

Definition getGenericUintOption (r : CreateNetworkRequest) (optionName : string)
    (defaultOption : Z) : Z :=
  defaultUint (getGenericOption r optionName) defaultOption.

Definition mustGetBridgeVLAN (r : CreateNetworkRequest) : Z :=
  getGenericUintOption r vlanOption defaultVLAN.

Definition mustGetTunnelVid (r : CreateNetworkRequest) : Z :=
  getGenericUintOption r mirrorTunnelVid (wrap64 (mustGetBridgeVLAN r + defaultTunnelVLANOffset)).

Definition mustGetBridgeMTU (r : CreateNetworkRequest) : Z :=
  getGenericUintOption r mtuOption defaultMTU.

Definition mustGetPreAllocatePorts (r : CreateNetworkRequest) : Z :=
  getGenericUintOption r preAllocatePortsOption 0.

Definition mustGetLbPort (r : CreateNetworkRequest) : Z :=
  getGenericUintOption r bridgeLbPort defaultLbPort.

(** [id\[:5\]] *)
Definition truncateID (id : string) : outcome string :=
  match slice_to id 5 with Some t => Ret t | None => Panic rt_slice end.

Definition mustGetBridgeName (r : CreateNetworkRequest) : outcome string :=
  t ← truncateID (cr_NetworkID r);
  let bridgeName := bridgePrefix +:+ t in
  let name := getGenericOption r bridgeNameOption in
  Ret (if decide (name = "") then bridgeName else name).

Definition mustGetOvsLocalMac (r : CreateNetworkRequest) : string :=
  getGenericOption r ovsLocalMacOption.

Definition mustGetBridgeMode (r : CreateNetworkRequest) : outcome string :=
  let mode := getGenericOption r modeOption in
  if decide (mode = "") then Ret defaultMode
  else if bool_decide (mode ∈ validModes) then Ret mode
  else Panic (mode +:+ " is not a valid mode").

Definition mustGetBridgeController (r : CreateNetworkRequest) : string :=
  getGenericOption r bridgeController.
Definition mustGetBridgeDpid (r : CreateNetworkRequest) : string :=
  getGenericOption r bridgeDpid.
Definition mustGetBridgeVLANOutAcl (r : CreateNetworkRequest) : string :=
  getGenericOption r vlanOutAclOption.
Definition mustGetDefaultAcl (r : CreateNetworkRequest) : string :=
  getGenericOption r defaultAclOption.
Definition mustGetBridgeAddPorts (r : CreateNetworkRequest) : string :=
  getGenericOption r bridgeAddPorts.
Definition mustGetBridgeAddCoproPorts (r : CreateNetworkRequest) : string :=
  getGenericOption r bridgeAddCoproPorts.
Definition mustGetNATAcl (r : CreateNetworkRequest) : string :=
  getGenericOption r NATAclOption.
Definition mustGetBindInterface (r : CreateNetworkRequest) : string :=
  getGenericOption r bindInterfaceOption.

Definition mustGetGatewayIPFromData (data : list (option IPAMData)) : string :=
  match data with
  | Some d :: _ => ipd_Gateway d
  | _ => ""
  end.

(** The parts of [a/b] when both are there and not empty. *)
Definition slash_pair (s : string) : option (string * string) :=
  match Split s "/" with
  | [a; b] => if decide (a ≠ "" ∧ b ≠ "") then Some (a, b) else None
  | _ => None
  end.

(** The gateway address and mask, preferring IPv4. *)
Definition mustGetGatewayIP (r : CreateNetworkRequest) : outcome (string * string) :=
  let ipv6Gw := mustGetGatewayIPFromData (cr_IPv6Data r) in
  let ipv4Gw := mustGetGatewayIPFromData (cr_IPv4Data r) in
  let gatewayIP := if decide (ipv4Gw = "") then ipv6Gw else ipv4Gw in
  if decide (gatewayIP = "") then Ret ("", "")
  else match slash_pair gatewayIP with
       | Some p => Ret p
       | None => Panic ("cannot parse gateway IP: " +:+ gatewayIP)
       end.

Definition parseBool (optionVal : string) : bool := ok_or false (ParseBool optionVal).

Definition mustGetUseDHCP (r : CreateNetworkRequest) : bool :=
  parseBool (getGenericOption r dhcpOption).
Definition mustGetUserspace (r : CreateNetworkRequest) : bool :=
  parseBool (getGenericOption r userspaceOption).

(** ** Which features the driver's settings turn on: ovs/driver.go *)

Definition usingMirrorBridge (d : Driver) : bool := negb (len (mirrorBridgeOut d) =? 0)%Z.

Definition usingStacking (d : Driver) : outcome bool :=
  if usingMirrorBridge d then Ret false
  else
    first ← index (stackingInterfaces d) 0;
    Ret (negb (len first =? 0)%Z).

Definition usingStackMirroring (d : Driver) : outcome bool :=
  stacking ← usingStacking d;
  Ret (stacking && (1 <? length (stackMirrorInterface d))%nat).

(** ** Stacking and mirroring settings *)

Definition mustGetStackBridgeLink (d : Driver) : outcome (string * Z) :=
  name ← index (stackMirrorInterface d) 0;
  port ← index (stackMirrorInterface d) 1;
  Ret (name, wrap32 (defaultUint port 0)).

(** The end of [getStackMirrorConfig] and of its restoring twin. *)
Definition stack_mirror_config (d : Driver) (lbPort tunnelVid : Z) : outcome StackMirrorConfig :=
  mirroring ← usingStackMirroring d;
  if (mirroring : bool) then
    '(remoteDpName, mirrorPort) ← mustGetStackBridgeLink d;
    Ret (mkStackMirrorConfig (wrap32 lbPort) (wrap32 tunnelVid) remoteDpName mirrorPort)
  else Ret (mkStackMirrorConfig (wrap32 lbPort) 0 "" 0).

Definition getStackMirrorConfig (d : Driver) (r : CreateNetworkRequest) : outcome StackMirrorConfig :=
  stack_mirror_config d (mustGetLbPort r) (mustGetTunnelVid r).

Definition mustGetStackDPName (d : Driver) : string := "dovesnap" +:+ shortEngineId d.

Definition mustGetStackDP (d : Driver) : string * string :=
  (stackDpidPrefix +:+ shortEngineId d, mustGetStackDPName d).

Definition mustGetLoopbackBrName (d : Driver) : string :=
  ovsDovesnapPrefix +:+ "lb" +:+ shortEngineId d.

Definition mustGetMirrorBrName (d : Driver) : string :=
  ovsDovesnapPrefix +:+ "mir" +:+ shortEngineId d.

Definition mustGetStackingInterface (stackingInterface : string) : outcome (string * Z * string) :=
  let stackSlice := Split stackingInterface ":" in
  remoteDP ← index stackSlice 0;
  port ← index stackSlice 1;
  match ParseUint32 port with
  | Err err =>
      Panic ("unable to convert remote port to an unsigned integer because: [ " +:+ err +:+ " ]")
  | Ok remotePort =>
      localInterface ← index stackSlice 2;
      Ret (remoteDP, remotePort, localInterface)
  end.

Definition mustGetStackBridgeConfig `{E : Env} (d : Driver) : IO (string * string * Z * string) :=
  let '(dpid, dpName) := mustGetStackDP d in
  hostname ← ext CHostname;
  hostname ← lift (must hostname);
  uintDpid ← lift (mustGetUintFromHexStr dpid);
  ret (hostname, dpid, uintDpid, dpName).

(** ** Restoring from docker *)

Definition mustGetBridgeNameFromResource (r : NetInspect) : outcome string :=
  t ← truncateID (ni_ID r);
  Ret (bridgePrefix +:+ t).

Definition getStrOptionFromResource (r : NetInspect) (optionName defaultOptionValue : string) : string :=
  match ni_Options r with
  | None => defaultOptionValue
  | Some m => default defaultOptionValue (m !! optionName)
  end.

Definition getUintOptionFromResource (r : NetInspect) (optionName : string)
    (defaultOptionValue : Z) : Z :=
  defaultUint (getStrOptionFromResource r optionName "") defaultOptionValue.

Definition mustGetBridgeDpidFromResource `{E : Env} (r : NetInspect) : outcome (string * Z) :=
  let dpid := getStrOptionFromResource r bridgeDpid "" in
  uintDpid ← mustGetUintFromHexStr dpid;
  Ret (dpid, uintDpid).

Definition getGatewayFromResource (r : NetInspect) : string * string :=
  match ni_IPAM_Config r with
  | config :: _ =>
      match slash_pair (ipam_Subnet config) with
      | Some (_, mask) => (ipam_Gateway config, mask)
      | None => ("", "")
      end
  | [] => ("", "")
  end.

(** One step of [getStrForNetwork]: a pair for the network, or an entry that
    names no network, replaces what was found so far. *)
Definition str_for_network_step (networkName : string) (networkStrs : string)
    (networksStrsPairStr : string) : string :=
  match Split networksStrsPairStr ":" with
  | [v] => v
  | [n; v] => if decide (networkName = n) then v else networkStrs
  | _ => networkStrs
  end.

Definition getStrForNetwork (networkStr networkName : string) : string :=
  foldl (str_for_network_step networkName) "" (Split networkStr "/").

Section resource.
Context `{E : Env}.

(** The deferred [recover] assigns the local variable [err] of a function whose
    results have no names: after a panic Go returns the results' zero values. *)
Definition getNetworkStateFromResource (r : NetInspect) (shortEngineId : string) :
    D (NetworkState * error) :=
  recovering (
    '(dpid, uintDpid) ← lift (mustGetBridgeDpidFromResource r);
    let '(gateway, mask) := getGatewayFromResource r in
    bridgeName ← lift (mustGetBridgeNameFromResource r);
    dyn ← makeDynamicNetworkState shortEngineId;
    let ns := {|
      ns_NetworkName := ni_Name r;
      ns_BridgeName := bridgeName;
      ns_BridgeDpid := dpid;
      ns_BridgeDpidUint := uintDpid;
      ns_BridgeVLAN := getUintOptionFromResource r vlanOption defaultVLAN;
      ns_MTU := getUintOptionFromResource r mtuOption defaultMTU;
      ns_PreAllocatePorts := getUintOptionFromResource r preAllocatePortsOption 0;
      ns_Mode := getStrOptionFromResource r modeOption defaultMode;
      ns_FlatBindInterface := getStrOptionFromResource r bindInterfaceOption "";
      ns_AddPorts := getStrOptionFromResource r bridgeAddPorts "";
      ns_AddCoproPorts := getStrOptionFromResource r bridgeAddCoproPorts "";
      ns_UseDHCP := parseBool (getStrOptionFromResource r dhcpOption "");
      ns_Userspace := parseBool (getStrOptionFromResource r userspaceOption "");
      ns_Gateway := gateway;
      ns_GatewayMask := mask;
      ns_NATAcl := getStrOptionFromResource r NATAclOption "";
      ns_VLANOutAcl := getStrOptionFromResource r vlanOutAclOption "";
      ns_DefaultAcl := getStrOptionFromResource r defaultAclOption "";
      ns_OvsLocalMac := getStrOptionFromResource r ovsLocalMacOption "";
      ns_Controller := getStrOptionFromResource r bridgeController "";
      ns_DynamicNetworkStates := dyn;
    |} in
    ret (ns, None))
  (λ rerr, ret (zero_NetworkState, None)).
End resource.

Definition getStackMirrorConfigFromResource (d : Driver) (r : NetInspect) : outcome StackMirrorConfig :=
  let vlan := getUintOptionFromResource r vlanOption defaultVLAN in
  stack_mirror_config d (getUintOptionFromResource r bridgeLbPort defaultLbPort)
    (getUintOptionFromResource r mirrorTunnelVid (wrap64 (vlan + defaultTunnelVLANOffset))).

(** ** Which computations return or panic *)

Lemma settled_truncateID i : settled (truncateID i).
Proof. unfold truncateID; tame_tac. Qed.
#[export] Hint Resolve settled_truncateID : tame.
Lemma settled_usingStacking d : settled (usingStacking d).
Proof. unfold usingStacking; tame_tac. Qed.
#[export] Hint Resolve settled_usingStacking : tame.
Lemma settled_usingStackMirroring d : settled (usingStackMirroring d).
Proof. unfold usingStackMirroring; tame_tac. Qed.
#[export] Hint Resolve settled_usingStackMirroring : tame.
Lemma settled_mustGetBridgeDpidFromResource `{E : Env} r : settled (mustGetBridgeDpidFromResource r).
Proof. unfold mustGetBridgeDpidFromResource; tame_tac. Qed.
#[export] Hint Resolve settled_mustGetBridgeDpidFromResource : tame.
Lemma settled_mustGetBridgeNameFromResource r : settled (mustGetBridgeNameFromResource r).
Proof. unfold mustGetBridgeNameFromResource; tame_tac. Qed.
#[export] Hint Resolve settled_mustGetBridgeNameFromResource : tame.
Lemma tame_getNetworkStateFromResource `{E : Env} r e : tame (getNetworkStateFromResource r e).
Proof. unfold getNetworkStateFromResource; tame_tac. Qed.
#[export] Hint Resolve tame_getNetworkStateFromResource : tame.

(** ** What restoring allocates *)

Lemma getNetworkStateFromResource_spec `{E : Env} r e s :
  wp (getNetworkStateFromResource r e) (λ o s',
    match o with
    | Ret (ns, err) => err = None ∧
        ((ns = zero_NetworkState ∧ s' = s) ∨
         (containers_of ns = Some (h_next (st_heap s)) ∧ s' = set_heap (alloc (st_heap s)) s))
    | _ => False
    end) s.
Proof.
  unfold getNetworkStateFromResource. apply wp_recovering.
  pose proof (settled_mustGetBridgeDpidFromResource r) as H1.
  pose proof (settled_mustGetBridgeNameFromResource r) as H2.
  apply wp_bind, wp_lift. destruct (mustGetBridgeDpidFromResource r) as [[dpid u]|v| |]; try done;
    [|by wp_walk; auto].
  destruct (getGatewayFromResource r) as [gw mask].
  apply wp_bind, wp_lift. destruct (mustGetBridgeNameFromResource r) as [br|v| |]; try done;
    [|by wp_walk; auto].
  unfold wp. cbn. auto.
Qed.

(** The name of the state that is rebuilt from docker's report [r]: the report's name, or
    none when its options do not give a datapath ID and a bridge name. *)
Definition report_name `{E : Env} (r : NetInspect) : string :=
  match mustGetBridgeDpidFromResource r, mustGetBridgeNameFromResource r with
  | Ret _, Ret _ => ni_Name r
  | _, _ => ""
  end.

Lemma getNetworkStateFromResource_name `{E : Env} r e s :
  wp (getNetworkStateFromResource r e) (λ o _,
    match o with Ret (ns, _) => ns_NetworkName ns = report_name r | _ => False end) s.
Proof.
  unfold getNetworkStateFromResource, report_name. apply wp_recovering.
  pose proof (settled_mustGetBridgeDpidFromResource r) as H1.
  pose proof (settled_mustGetBridgeNameFromResource r) as H2.
  apply wp_bind, wp_lift. destruct (mustGetBridgeDpidFromResource r) as [[dpid u]|v| |]; try done.
  destruct (getGatewayFromResource r) as [gw mask].
  apply wp_bind, wp_lift. destruct (mustGetBridgeNameFromResource r) as [br|v| |]; done.
Qed.

(** ** Values chosen by network: getStrForNetwork

    An option such as an ACL may differ by network: [net1:acl1/net2:acl2/acl3], where an
    entry without a network is for all. *)

Record net_value := mkNetValue { nv_network : option string; nv_value : string }.

Definition render_net_value (v : net_value) : string :=
  match nv_network v with Some n => Join [n; nv_value v] ":" | None => nv_value v end.

Definition render_net_values (l : list net_value) : string := Join (map render_net_value l) "/".

Definition wf_net_value (v : net_value) : Prop :=
  (free ":" (nv_value v) ∧ free "/" (nv_value v)) ∧
  match nv_network v with Some n => free ":" n ∧ free "/" n | None => True end.

#[export] Instance wf_net_value_dec v : Decision (wf_net_value v).
Proof. unfold wf_net_value. apply and_dec; [apply _|]. destruct (nv_network v); apply _. Defined.

(** Whether an entry is for the network. *)
Definition applies (name : string) (v : net_value) : Prop :=
  match nv_network v with Some n => name = n | None => True end.
#[export] Instance applies_dec name v : Decision (applies name v).
Proof. unfold applies. destruct (nv_network v); apply _. Defined.

Section net_values.
Lemma str_for_network_step_render name acc v :
  wf_net_value v →
  str_for_network_step name acc (render_net_value v) = if decide (applies name v) then nv_value v else acc.
Proof.
  intros [[Hv _] Hn]. unfold str_for_network_step, render_net_value, applies.
  destruct v as [[n|] v]; cbn [nv_network nv_value] in *.
  - rewrite Split_Join; [done|done|]. repeat constructor; [by destruct Hn|done].
  - by rewrite Split_free.
Qed.

Lemma net_value_fold name l acc :
  Forall wf_net_value l →
  foldl (str_for_network_step name) acc (map render_net_value l) =
    default acc (last (nv_value <$> filter (applies name) l)).
Proof.
  intros HF. revert acc. induction HF as [|v l Hv _ IH]; intros acc; [done|].
  cbn [map foldl]. rewrite str_for_network_step_render, IH by done.
  rewrite filter_cons. case_decide; [|done]. cbn [fmap list_fmap].
  rewrite last_cons. by destruct (last _).
Qed.

Lemma render_net_value_free v : wf_net_value v → free "/" (render_net_value v).
Proof.
  intros [[_ Hv] Hn]. unfold render_net_value. destruct (nv_network v) as [n|]; [|done].
  cbn [Join]. rewrite !free_app. split_and!; [by destruct Hn| |done].
  by vm_compute; intros ?%list_elem_of_singleton.
Qed.

(** C32: A per-network option selects by the last entry that is for the network.  For the
    text of any list of well-formed entries, the value for a network is that of the last
    entry which names this network or no network at all, and empty when there is none. *)
Theorem getStrForNetwork_last l name :
  Forall wf_net_value l →
  getStrForNetwork (render_net_values l) name =
    default "" (last (nv_value <$> filter (applies name) l)).
Proof.
  intros HF. unfold getStrForNetwork, render_net_values.
  destruct l as [|v l]; [done|]. rewrite Split_Join; [by apply net_value_fold|done|].
  apply Forall_map. eapply Forall_impl; [exact HF|]. apply render_net_value_free.
Qed.
End net_values.

Lemma getStrForNetwork_last_witness :
  let l := [mkNetValue None "deny"; mkNetValue (Some "lan") "allow"; mkNetValue (Some "wan") "log"] in
  render_net_values l = "deny/lan:allow/wan:log" ∧
  getStrForNetwork "deny/lan:allow/wan:log" "lan" = "allow" ∧
  getStrForNetwork "deny/lan:allow/wan:log" "dmz" = "deny".
Proof.
  intros l. assert (render_net_values l = "deny/lan:allow/wan:log") as Hl by (vm_compute; reflexivity).
  rewrite <- Hl. split; [reflexivity|].
  split; rewrite (getStrForNetwork_last l); (vm_compute; reflexivity) || decide_now.
Defined.

(** ** Reports that are incomplete *)

(** C40: The error of an incomplete report is lost.  For a network whose report has no
    datapath ID (or one of fewer than two characters), the state that is returned is the zero
    state, with nil maps, and the error that comes with it is nil. *)
Theorem getNetworkStateFromResource_error_lost `{E : Env} r shortEngineId s :
  (String.length (getStrOptionFromResource r bridgeDpid "") < 2)%nat →
  getNetworkStateFromResource r shortEngineId s = (Ret (zero_NetworkState, None), s).
Proof.
  intros H. unfold getNetworkStateFromResource, mustGetBridgeDpidFromResource, mustGetUintFromHexStr.
  destruct (getStrOptionFromResource r bridgeDpid "") as [|a [|b tail]]; cbn in *; [done|done|lia].
Qed.

Lemma getNetworkStateFromResource_error_lost_witness :
  getNetworkStateFromResource (E := scripted quiet) (mkNetInspect "lan" "0123456789" (Some ∅) [] ∅) "0A0B0C"
    (start plain_driver) = (Ret (zero_NetworkState, None), start plain_driver).
Proof. apply getNetworkStateFromResource_error_lost. vm_compute. lia. Defined.
