(* ===== verification/Faucet.v ===== *)
(** * The faucetconfrpc client: ovs/ovs_faucetconfrpc.go

    The requests that change Faucet's configuration, and the YAML fragments that
    are sent with them. *)
From S2P Require Import Prelude GoStrings GoMonad World.

(** ** YAML fragments *)

Definition coproInterfaceYaml (ofport : Z) (description strategy : string) : string :=
  itoa ofport +:+ ": {description: " +:+ description +:+ ", coprocessor: {strategy: "
    +:+ strategy +:+ "}},".

Definition vlanInterfaceYaml (ofport : Z) (description : string) (vlan : Z) (acls_in : string) : string :=
  itoa ofport +:+ ": {description: " +:+ description +:+ ", native_vlan: " +:+ itoa vlan
    +:+ ", acls_in: [" +:+ acls_in +:+ "]},".

Definition localVlanInterfaceYaml (ofport : Z) (description : string) (vlan : Z) (acls_in : string) : string :=
  itoa ofport +:+ ": {opstatus_reconf: False, description: " +:+ description
    +:+ ", native_vlan: " +:+ itoa vlan +:+ ", acls_in: [" +:+ acls_in +:+ "]},".

Definition stackInterfaceYaml (ofport : Z) (remoteDpName : string) (remoteOfport : Z) : string :=
  itoa ofport +:+ ": {description: stack link to " +:+ remoteDpName +:+ ", stack: {dp: "
    +:+ remoteDpName +:+ ", port: " +:+ itoa remoteOfport +:+ "}},".

Definition mergeDpInterfacesMinimalYaml (dpName addInterfaces : string) : string :=
  dpName +:+ ": {interfaces: {" +:+ addInterfaces +:+ "}},".

Definition mergeDpInterfacesYaml (dpName : string) (uintDpid : Z) (description addInterfaces : string)
    (egressPipeline : bool) : string :=
  let egressPipelineStr := if egressPipeline then "true" else "false" in
  dpName +:+ ": {dp_id: " +:+ itoa uintDpid +:+ ", description: " +:+ description
    +:+ ", hardware: " +:+ "Open vSwitch" +:+ ", egress_pipeline: " +:+ egressPipelineStr
    +:+ ", interfaces: {" +:+ addInterfaces +:+ "}},".

Definition mergeSingleDpMinimalYaml (dpName addInterfaces : string) : string :=
  "{dps: {" +:+ mergeDpInterfacesMinimalYaml dpName addInterfaces +:+ "}}".

Definition mergeSingleDpYaml (dpName : string) (uintDpid : Z) (description addInterfaces : string)
    (egressPipeline : bool) : string :=
  "{dps: {" +:+ mergeDpInterfacesYaml dpName uintDpid description addInterfaces egressPipeline +:+ "}}".

(** ** Requests *)

Section rpcs.
Context `{E : Env}.

(** One request whose reply is only checked for an error. *)
Definition must_rpc (r : rpc) : IO unit :=
  err ← ext (CRpc r);
  must_nil err.

Definition mustSetFaucetConfigFile (config_yaml : string) : IO unit :=
  must_rpc (SetConfigFile config_yaml true).

Definition mustSetPortAcl (dpName : string) (portNo : Z) (acls : string) : IO unit :=
  must_rpc (SetPortAcl dpName portNo acls).

Definition mustSetVlanOutAcl (vlan_name acl_out : string) : IO unit :=
  must_rpc (SetVlanOutAcl vlan_name acl_out).

Definition mustDeleteDpInterface (dpName : string) (ofport : Z) : IO unit :=
  let interfaces := ofport in
  let interfacesConf := [(dpName, [interfaces])] in
  must_rpc (DelDpInterfaces interfacesConf true).

Definition mustDeleteDp (dpName : string) : IO unit :=
  must_rpc (DelDps [dpName]).

Definition mustAddPortMirror (dpName : string) (ofport mirrorofport : Z) : IO unit :=
  must_rpc (AddPortMirror dpName ofport mirrorofport).

Definition mustSetRemoteMirrorPort (dpName : string) (ofport vid : Z) (remoteDpName : string)
    (remoteofport : Z) : IO unit :=
  must_rpc (SetRemoteMirrorPort dpName ofport vid remoteDpName remoteofport).

(** The names of Faucet's datapaths; a server that answers with a gRPC error
    (an empty configuration) has none. *)
Definition getDpNames : IO (gset string) :=
  resp ← ext CGetDpNames;
  match resp with
  | DpNames names => ret (list_to_set names)
  | DpNamesErr e is_status => if is_status then ret ∅ else panic e
  end.

(** Connect, waiting longer after each failure: the loop of mustGetGRPCClient.
    The attempt that succeeds ends it.  Durations are 64 bits wide, so the arithmetic of
    the timeout and its conversion to seconds wrap. *)
Fixpoint dial_loop (retries : nat) (addr : string) (timeout : Z) : IO unit :=
  match retries with
  | O => panic "cannot connect to RPC server"
  | S n =>
      let timeout := wrap_int64 ((timeout + 1) * 2) in
      err ← ext (CDial addr (wrap_int64 (timeout * Second)));
      match err with
      | None => skip
      | Some _ => Sleep (wrap_int64 (timeout * Second));; dial_loop n addr timeout
      end
  end.

Definition mustGetGRPCClient (clientName serverName : string) (serverPort : Z) (keydir : string)
    (connRetries : nat) : IO unit :=
  let crt_file := keydir +:+ "/" +:+ clientName +:+ ".crt" in
  let key_file := keydir +:+ "/" +:+ clientName +:+ ".key" in
  let ca_file := keydir +:+ "/" +:+ serverName +:+ "-ca.crt" in
  err ← ext (CLoadX509KeyPair crt_file key_file);
  must_nil err;;
  ca ← ext (CReadFile ca_file);
  ca ← lift (must ca);
  ok ← ext (CAppendCertsFromPEM ca);
  (if (ok : bool) then skip else panic "false");;
  let addr := serverName +:+ ":" +:+ itoa serverPort in
  dial_loop connRetries addr 1.
End rpcs.

(** ** Which computations return or panic *)

Lemma tame_must_rpc `{E : Env} r : tame (must_rpc r).
Proof. unfold must_rpc; tame_tac. Qed.
#[export] Hint Resolve tame_must_rpc : tame.
Lemma tame_mustSetFaucetConfigFile `{E : Env} y : tame (mustSetFaucetConfigFile y).
Proof. unfold mustSetFaucetConfigFile, must_rpc; tame_tac. Qed.
#[export] Hint Resolve tame_mustSetFaucetConfigFile : tame.
Lemma tame_mustSetPortAcl `{E : Env} d p a : tame (mustSetPortAcl d p a).
Proof. unfold mustSetPortAcl, must_rpc; tame_tac. Qed.
#[export] Hint Resolve tame_mustSetPortAcl : tame.
Lemma tame_mustSetVlanOutAcl `{E : Env} v a : tame (mustSetVlanOutAcl v a).
Proof. unfold mustSetVlanOutAcl, must_rpc; tame_tac. Qed.
#[export] Hint Resolve tame_mustSetVlanOutAcl : tame.
Lemma tame_mustDeleteDpInterface `{E : Env} d p : tame (mustDeleteDpInterface d p).
Proof. unfold mustDeleteDpInterface, must_rpc; tame_tac. Qed.
#[export] Hint Resolve tame_mustDeleteDpInterface : tame.
Lemma tame_mustDeleteDp `{E : Env} d : tame (mustDeleteDp d).
Proof. unfold mustDeleteDp, must_rpc; tame_tac. Qed.
#[export] Hint Resolve tame_mustDeleteDp : tame.
Lemma tame_mustAddPortMirror `{E : Env} d p m : tame (mustAddPortMirror d p m).
Proof. unfold mustAddPortMirror, must_rpc; tame_tac. Qed.
#[export] Hint Resolve tame_mustAddPortMirror : tame.
Lemma tame_mustSetRemoteMirrorPort `{E : Env} d p v r q : tame (mustSetRemoteMirrorPort d p v r q).
Proof. unfold mustSetRemoteMirrorPort, must_rpc; tame_tac. Qed.
#[export] Hint Resolve tame_mustSetRemoteMirrorPort : tame.

(** ** Connecting with backoff *)

Section dialling.
Context `{E : Env}.

(** The seconds of attempt number [i] before any wrapping: 4, 10, 22, ... *)
Definition backoff (i : nat) : Z := 3 * 2 ^ (Z.of_nat i + 1) - 2.

(** The Duration of attempt number [i]. *)
Definition dial_wait (i : nat) : Z := wrap_int64 (backoff i * Second).

Lemma backoff_S i : backoff (S i) = ((backoff i + 1) * 2)%Z.
Proof.
  unfold backoff. rewrite Nat2Z.inj_succ, <- Z.add_1_r, (Z.pow_add_r 2 (Z.of_nat i + 1) 1) by lia. lia.
Qed.

Lemma dial_wait_exact i : (i ≤ 30)%nat → dial_wait i = (backoff i * Second)%Z.
Proof.
  intros Hi. apply wrap_int64_small. unfold backoff, Second.
  assert (2 ^ (Z.of_nat i + 1) ≤ 2 ^ 31)%Z by (apply Z.pow_le_mono_r; lia).
  assert (0 < 2 ^ (Z.of_nat i + 1))%Z by (apply Z.pow_pos_nonneg; lia). lia.
Qed.

(** The calls of the failed attempts [i] to [i + k - 1]. *)
Definition failed_dials (addr : string) (i k : nat) : list call :=
  flat_map (λ j, [CDial addr (dial_wait j); CSleep (dial_wait j)]) (seq i k).

(** One turn of the loop, for a timeout that leads to attempt [i]. *)
Lemma dial_loop_S addr n i t :
  wrap_int64 ((t + 1) * 2) = wrap_int64 (backoff i) →
  dial_loop (S n) addr t =
    (err ← ext (CDial addr (dial_wait i));
     match err with None => skip | Some _ => Sleep (dial_wait i);; dial_loop n addr (wrap_int64 (backoff i)) end).
Proof.
  intros Ht. cbn [dial_loop]. rewrite Ht. pose proof (wrap_int64_add_mul 0 (backoff i) Second) as Hw.
  rewrite !Z.add_0_r in Hw. by rewrite Hw.
Qed.

Lemma dial_loop_spec addr n i t s :
  wrap_int64 ((t + 1) * 2) = wrap_int64 (backoff i) →
  ∃ k, (k ≤ n)%nat ∧
    (∀ j, (j < k)%nat → ∃ e,
       env_reply (io_trace s ++ failed_dials addr i j) (CDial addr (dial_wait (i + j))) = Some e) ∧
    ∃ s', if decide (k = n)
      then dial_loop n addr t s = (Panic "cannot connect to RPC server", s') ∧
           io_trace s' = io_trace s ++ failed_dials addr i n
      else dial_loop n addr t s = (Ret tt, s') ∧
           env_reply (io_trace s ++ failed_dials addr i k) (CDial addr (dial_wait (i + k))) = None ∧
           io_trace s' = io_trace s ++ failed_dials addr i k ++ [CDial addr (dial_wait (i + k))].
Proof.
  revert i t s. induction n as [|n IH]; intros i t s Ht.
  { exists 0%nat. do 2 (split; [lia|]). exists s. rewrite app_nil_r. done. }
  rewrite (dial_loop_S _ _ _ _ Ht).
  destruct (env_reply (io_trace s) (CDial addr (dial_wait i))) as [e|] eqn:Hr.
  - set (s1 := mkIo (io_trace s ++ [CDial addr (dial_wait i); CSleep (dial_wait i)]) (io_ticks s)).
    destruct (IH (S i) (wrap_int64 (backoff i)) s1) as (k & Hk & Hf & s' & H);
      [by rewrite wrap_int64_add_mul, backoff_S|].
    assert (∀ j, io_trace s ++ failed_dials addr i (S j) = io_trace s1 ++ failed_dials addr (S i) j) as Happ.
    { intros j. cbn -[dial_wait]. by rewrite <- app_assoc. }
    assert (∀ m : IO unit, (err ← ext (CDial addr (dial_wait i));
      match err with None => skip | Some _ => Sleep (dial_wait i);; m end) s = m s1) as ->.
    { intros m. cbn -[dial_wait]. rewrite Hr. cbn -[dial_wait]. by rewrite <- app_assoc. }
    exists (S k). split; [lia|]. split.
    + intros [|j] Hj; [rewrite app_nil_r, Nat.add_0_r; eauto|].
      rewrite Happ, Nat.add_succ_r, <- Nat.add_succ_l. apply Hf. lia.
    + exists s'. rewrite !app_assoc, !Happ, Nat.add_succ_r, <- Nat.add_succ_l.
      rewrite !app_assoc in H. destruct (decide (k = n)), (decide (S k = S n)); try lia; done.
  - exists 0%nat. split; [lia|]. split; [lia|]. eexists. rewrite decide_False by lia.
    rewrite Nat.add_0_r, app_nil_r. cbn -[dial_wait]. rewrite Hr. done.
Qed.

(** C36: Connecting to Faucet backs off and gives up.  Attempt number [i] is given a time
    limit, and is followed by an equal wait when it failed; the first attempt that succeeds
    ends the loop; after the configured number of failures the driver panics, having made no
    further call.  The limit of the first 31 attempts is [3 * 2 ^ (i + 1) - 2] seconds; that of
    the next one exceeds the 64 bits of a Duration and is negative, no time at all. *)
Theorem dial_loop_backoff addr retries s :
  (∃ k, (k ≤ retries)%nat ∧
    (∀ j, (j < k)%nat → ∃ e,
       env_reply (io_trace s ++ failed_dials addr 0 j) (CDial addr (dial_wait j)) = Some e) ∧
    ∃ s', if decide (k = retries)
      then dial_loop retries addr 1 s = (Panic "cannot connect to RPC server", s') ∧
           io_trace s' = io_trace s ++ failed_dials addr 0 retries
      else dial_loop retries addr 1 s = (Ret tt, s') ∧
           env_reply (io_trace s ++ failed_dials addr 0 k) (CDial addr (dial_wait k)) = None ∧
           io_trace s' = io_trace s ++ failed_dials addr 0 k ++ [CDial addr (dial_wait k)]) ∧
  (∀ i, (i ≤ 30)%nat → dial_wait i = (3 * 2 ^ (Z.of_nat i + 1) - 2) * 1000000000)%Z ∧
  (dial_wait 31 < 0)%Z.
Proof.
  split; [by apply dial_loop_spec|]. split; [apply dial_wait_exact|reflexivity].
Qed.
End dialling.
