(* ===== verification/Iptables.v ===== *)
(** * Address translation rules: ovs/ovs_iptables.go *)
From S2P Require Import Prelude GoStrings GoMonad World Scenario.

Section iptables.
Context `{E : Env}.

Definition mustIptablesRaw (args : list string) : IO string :=
  '(output, err) ← ext (CIptables args);
  must_nil err;;
  ret output.

(** The masquerading rule of a gateway; the text of a chain error is its chain
    and the output of the command. *)
Definition natOut (cidr op : string) : IO error :=
  let masquerade := ["POSTROUTING"; "-t"; "nat"; "-s"; cidr; "-j"; "MASQUERADE"] in
  let incl := op :: masquerade in
  '(output, err) ← ext (CIptables incl);
  match err with
  | Some e => ret (Some e)
  | None =>
      if (0 <? len output)%Z
      then ret (Some ("Error iptables POSTROUTING: " +:+ output))
      else
        '(_, err) ← ext (CIptables ["-P"; "FORWARD"; "ACCEPT"]);
        ret err
  end.

(** The four rules of a published port. *)
Definition port_map_rules (op bridgeName ipProto gatewayIP hostIP hostPort port : string) :
    list (list string) :=
  let dst := hostIP +:+ ":" +:+ port in
  [ ["-t"; "nat"; op; "DOCKER"; "-p"; ipProto; "-d"; gatewayIP; "--dport"; hostPort;
     "-j"; "DNAT"; "--to-destination"; dst];
    ["-t"; "nat"; op; "OUTPUT"; "-p"; ipProto; "-d"; gatewayIP; "--dport"; hostPort;
     "-j"; "DNAT"; "--to-destination"; dst];
    ["-t"; "nat"; op; "POSTROUTING"; "-p"; ipProto; "-s"; hostIP; "-d"; hostIP;
     "--dport"; port; "-j"; "MASQUERADE"];
    ["-t"; "filter"; op; "DOCKER"; "!"; "-i"; bridgeName; "-o"; bridgeName; "-p"; "tcp";
     "-d"; hostIP; "--dport"; port; "-j"; "ACCEPT"] ].

Definition mustPortMap (op bridgeName ipProto gatewayIP hostIP hostPort port : string) : IO unit :=
  for_each (port_map_rules op bridgeName ipProto gatewayIP hostIP hostPort port) tt
    (λ rule _, mustIptablesRaw rule;; skip).

Definition mustAddGatewayPortMap (bridgeName ipProto gatewayIP hostIP hostPort port : string) : IO unit :=
  mustPortMap "-A" bridgeName ipProto gatewayIP hostIP hostPort port.

Definition mustDeleteGatewayPortMap (bridgeName ipProto gatewayIP hostIP hostPort port : string) : IO unit :=
  mustPortMap "-D" bridgeName ipProto gatewayIP hostIP hostPort port.
End iptables.

(** ** Which computations return or panic *)

Lemma tame_mustIptablesRaw `{E : Env} a : tame (mustIptablesRaw a).
Proof. unfold mustIptablesRaw; tame_tac. Qed.
#[export] Hint Resolve tame_mustIptablesRaw : tame.
Lemma tame_natOut `{E : Env} c o : tame (natOut c o).
Proof. unfold natOut; tame_tac. Qed.
#[export] Hint Resolve tame_natOut : tame.
Lemma tame_mustPortMap `{E : Env} o b i g h p q : tame (mustPortMap o b i g h p q).
Proof. unfold mustPortMap; tame_tac. Qed.
#[export] Hint Resolve tame_mustPortMap : tame.
Lemma tame_mustAddGatewayPortMap `{E : Env} b i g h p q : tame (mustAddGatewayPortMap b i g h p q).
Proof. unfold mustAddGatewayPortMap; tame_tac. Qed.
#[export] Hint Resolve tame_mustAddGatewayPortMap : tame.
Lemma tame_mustDeleteGatewayPortMap `{E : Env} b i g h p q : tame (mustDeleteGatewayPortMap b i g h p q).
Proof. unfold mustDeleteGatewayPortMap; tame_tac. Qed.
#[export] Hint Resolve tame_mustDeleteGatewayPortMap : tame.

(** ** Published ports *)

Section port_maps.
Context `{E : Env}.

Lemma mustPortMap_calls op br proto gw host hp p s s' :
  mustPortMap op br proto gw host hp p s = (Ret tt, s') →
  io_trace s' = io_trace s ++ map CIptables (port_map_rules op br proto gw host hp p).
Proof.
  unfold mustPortMap. generalize (port_map_rules op br proto gw host hp p). intros rules.
  revert s. induction rules as [|r rules IH]; intros s; cbn [for_each map].
  - intros [= <-]. by rewrite app_nil_r.
  - intros ([] & s1 & (out & s2 & Hr & [= <-])%bind_Ret_inv & H)%bind_Ret_inv.
    rewrite (IH _ H). unfold mustIptablesRaw in Hr. cbn in Hr.
    destruct (env_reply _ _) as [o [e|]]; [done|]. injection Hr as _ <-. cbn.
    by rewrite <- app_assoc.
Qed.

(** C35: Withdrawing a published port undoes publishing it: when both succeed they hand
    iptables the same four rules in the same order, which differ in one word only, [-A]
    for the one and [-D] for the other. *)
Theorem gateway_port_map_undone br proto gw host hp p s s' t t' :
  mustAddGatewayPortMap br proto gw host hp p s = (Ret tt, s') →
  mustDeleteGatewayPortMap br proto gw host hp p t = (Ret tt, t') →
  ∃ rules : list (list string * list string), length rules = 4%nat ∧
    io_trace s' = io_trace s ++ map (λ r, CIptables (r.1 ++ "-A" :: r.2)) rules ∧
    io_trace t' = io_trace t ++ map (λ r, CIptables (r.1 ++ "-D" :: r.2)) rules.
Proof.
  intros Hs%mustPortMap_calls Ht%mustPortMap_calls.
  exists (map (λ r, (take 2 r, drop 3 r)) (port_map_rules "-A" br proto gw host hp p)).
  by rewrite Hs, Ht.
Qed.
End port_maps.

Lemma gateway_port_map_undone_witness :
  ∃ rules : list (list string * list string), length rules = 4%nat ∧
    io_trace (mustAddGatewayPortMap (E := scripted quiet) "odsbr4f1d8" "tcp" "10.1.0.1" "10.1.0.2" "8080" "80" init_io).2
      = [] ++ map (λ r, CIptables (r.1 ++ "-A" :: r.2)) rules ∧
    io_trace (mustDeleteGatewayPortMap (E := scripted quiet) "odsbr4f1d8" "tcp" "10.1.0.1" "10.1.0.2" "8080" "80" init_io).2
      = [] ++ map (λ r, CIptables (r.1 ++ "-D" :: r.2)) rules.
Proof.
  apply (gateway_port_map_undone (E := scripted quiet) "odsbr4f1d8" "tcp" "10.1.0.1" "10.1.0.2" "8080" "80"
    init_io _ init_io _); vm_compute; reflexivity.
Defined.
