(* ===== verification/Docker.v ===== *)
(** * The docker client: ovs/ovs_docker.go

    Queries to the docker daemon, with their retries. *)
From S2P Require Import Prelude GoStrings GoMonad World Scenario Utils Types Config.

Section docker.
Context `{E : Env}.

Definition mustGetDockerClient : IO unit :=
  err ← ext CNewEnvClient;
  match err with
  | Some e => panic ("could not connect to docker: " +:+ e)
  | None => skip
  end.

Definition mustGetShortEngineID : IO string :=
  info ← ext CInfo;
  id ← lift (must info);
  first ← lift (index (Split id ":") 0);
  ret (base36to16 first).

(** One attempt of mustGetNetworkInspectFromID. *)
Definition inspect_attempt (NetworkID : string) (i : nat) : IO (option NetInspect) :=
  r ← ext (CNetworkInspect NetworkID);
  match r with
  | Ok netInspect => ret (Some netInspect)
  | Err _ => Sleep (1 * Second);; ret None
  end.

Definition mustGetNetworkInspectFromID (NetworkID : string) : IO NetInspect :=
  r ← for_retry dockerRetries 0 (inspect_attempt NetworkID);
  match r with
  | Some netInspect => ret netInspect
  | None => panic ("network " +:+ NetworkID +:+ " not found")
  end.

Definition mustGetNetworkNameFromID (NetworkID : string) : IO string :=
  n ← mustGetNetworkInspectFromID NetworkID;
  ret (ni_Name n).

Definition mustGetNetworkList : IO (gmap string string) :=
  networkList ← ext CNetworkList;
  match networkList with
  | Err e => panic ("could not get docker networks: " +:+ e)
  | Ok l =>
      ret (foldl (λ netlist net,
        if decide (su_Driver net = DriverName)
        then <[su_ID net := su_Name net]> netlist else netlist) ∅ l)
  end.

(** The inner loop of getContainerFromEndpoint: the first container with the
    endpoint whose inspection succeeds. *)
Fixpoint find_container (EndpointID : string) (containers : list (string * string)) :
    IO (option InspectResponse) :=
  match containers with
  | [] => ret None
  | (containerID, endpoint) :: l =>
      if decide (endpoint = EndpointID) then
        r ← ext (CContainerInspect containerID);
        match r with
        | Err _ => find_container EndpointID l
        | Ok containerInspect => ret (Some containerInspect)
        end
      else find_container EndpointID l
  end.

Definition endpoint_attempt (NetworkID EndpointID : string) (i : nat) : IO (option InspectResponse) :=
  netInspect ← mustGetNetworkInspectFromID NetworkID;
  containers ← range (ni_Containers netInspect);
  r ← find_container EndpointID containers;
  match r with
  | Some c => ret (Some c)
  | None => Sleep (2 * Second);; ret None
  end.

Definition getContainerFromEndpoint (NetworkID EndpointID : string) : IO (result InspectResponse) :=
  r ← for_retry dockerRetries 0 (endpoint_attempt NetworkID EndpointID);
  match r with
  | Some c => ret (Ok c)
  | None => ret (Err ("endpoint " +:+ EndpointID +:+ " not found"))
  end.
End docker.

(** ** Which computations return or panic *)

Lemma tame_inspect_attempt `{E : Env} n i : tame (inspect_attempt n i).
Proof. unfold inspect_attempt; tame_tac. Qed.
#[export] Hint Resolve tame_inspect_attempt : tame.
Lemma tame_mustGetNetworkInspectFromID `{E : Env} n : tame (mustGetNetworkInspectFromID n).
Proof. unfold mustGetNetworkInspectFromID; tame_tac. Qed.
#[export] Hint Resolve tame_mustGetNetworkInspectFromID : tame.
Lemma tame_find_container `{E : Env} e l : tame (find_container e l).
Proof. induction l as [|[c x] l IH]; cbn [find_container]; tame_tac. Qed.
#[export] Hint Resolve tame_find_container : tame.
Lemma tame_getContainerFromEndpoint `{E : Env} n e : tame (getContainerFromEndpoint n e).
Proof. unfold getContainerFromEndpoint, endpoint_attempt; tame_tac. Qed.
#[export] Hint Resolve tame_getContainerFromEndpoint : tame.

(** ** Retries and lookups *)

Section queries.
Context `{E : Env}.

(** The calls of [k] attempts that failed. *)
Definition failed_inspects (id : string) (k : nat) : list call :=
  concat (replicate k [CNetworkInspect id; CSleep (1 * Second)]).

Lemma failed_inspects_S id k :
  failed_inspects id (S k) = [CNetworkInspect id; CSleep (1 * Second)] ++ failed_inspects id k.
Proof. done. Qed.

(** What the attempts from history [t] see: [k] failures, then a success unless [k] is
    the number of attempts. *)
Definition inspect_run (id : string) (n : nat) (t : list call) (r : option NetInspect)
    (t' : list call) : Prop :=
  ∃ k, (∀ j, (j < k)%nat → ∃ e, env_reply (t ++ failed_inspects id j) (CNetworkInspect id) = Err e) ∧
    match r with
    | Some ni => (k < n)%nat ∧ env_reply (t ++ failed_inspects id k) (CNetworkInspect id) = Ok ni ∧
        t' = t ++ failed_inspects id k ++ [CNetworkInspect id]
    | None => k = n ∧ t' = t ++ failed_inspects id n
    end.

Lemma inspect_loop_spec id n i s :
  ∃ r s', for_retry n i (inspect_attempt id) s = (Ret r, s') ∧
    inspect_run id n (io_trace s) r (io_trace s').
Proof.
  revert i s. induction n as [|n IH]; intros i s.
  { eexists None, s. split; [done|]. exists 0%nat. split; [lia|]. by rewrite app_nil_r. }
  cbn [for_retry]. destruct (env_reply (io_trace s) (CNetworkInspect id)) as [ni|e] eqn:Hr.
  - eexists (Some ni), _. split; [unfold inspect_attempt; cbn; rewrite Hr; reflexivity|].
    exists 0%nat. split; [lia|]. cbn. rewrite app_nil_r. split; [lia|done].
  - set (s1 := mkIo (io_trace s ++ [CNetworkInspect id; CSleep (1 * Second)]) (io_ticks s)).
    assert (inspect_attempt id i s = (Ret None, s1)) as Hs1.
    { unfold inspect_attempt, s1. cbn. rewrite Hr. cbn. by rewrite <- app_assoc. }
    destruct (IH (S i) s1) as (r & s' & Hrun & k & Hk & H).
    exists r, s'. split; [by erewrite bind_Ret by exact Hs1|].
    exists (S k). split.
    + intros [|j] Hj; [rewrite app_nil_r; eauto|].
      rewrite failed_inspects_S, app_assoc. apply Hk. lia.
    + rewrite !failed_inspects_S, !app_assoc. destruct r; cbn in *;
        rewrite ?app_assoc in H; intuition (try lia; congruence).
Qed.

(** Looking a network up retries a bounded number of times.  There are at most five
    attempts, one second apart; the first that succeeds gives the result and is the last
    call; when all five fail the lookup panics. *)
Theorem mustGetNetworkInspectFromID_retries id s :
  ∃ r s', inspect_run id dockerRetries (io_trace s) r (io_trace s') ∧
    mustGetNetworkInspectFromID id s =
      (match r with Some ni => Ret ni | None => Panic ("network " +:+ id +:+ " not found") end, s').
Proof.
  destruct (inspect_loop_spec id dockerRetries 0 s) as (r & s' & H & Hr). exists r, s'.
  split; [done|]. unfold mustGetNetworkInspectFromID. erewrite bind_Ret by exact H. by destruct r.
Qed.

(** The networks of the list that are dovesnap's. *)
Definition dovesnap_nets (l : list NetSummary) : list NetSummary :=
  filter (λ n, su_Driver n = DriverName) l.

Definition put_net (netlist : gmap string string) (net : NetSummary) : gmap string string :=
  <[su_ID net := su_Name net]> netlist.

Lemma network_list_fold l (m : gmap string string) :
  foldl (λ netlist net, if decide (su_Driver net = DriverName)
    then <[su_ID net := su_Name net]> netlist else netlist) m l =
  foldl put_net m (dovesnap_nets l).
Proof.
  revert m. induction l as [|n l IH]; intros m; [done|]. unfold dovesnap_nets.
  cbn [foldl]. rewrite filter_cons. case_decide; apply IH.
Qed.

Lemma network_fold_lookup l m id name :
  foldl put_net m l !! id = Some name →
  m !! id = Some name ∨ ∃ net, net ∈ l ∧ su_ID net = id ∧ su_Name net = name.
Proof.
  revert m. induction l as [|n l IH]; intros m; cbn; [auto|].
  intros [H|(net & Hin & H)]%IH; [|right; exists net; split; [by right|done]].
  unfold put_net in H. apply lookup_insert_Some in H as [[H1 H2]|[_ H]]; [|auto].
  right. exists n. split; [by left|done].
Qed.

Lemma network_fold_dom l m id :
  (∃ net, net ∈ l ∧ su_ID net = id) ∨ is_Some (m !! id) →
  is_Some (foldl put_net m l !! id).
Proof.
  revert m. induction l as [|n l IH]; intros m; cbn.
  - intros [(net & []%not_elem_of_nil & _)|H]; done.
  - intros H. apply IH. destruct H as [(net & [->|Hin]%elem_of_cons & H)|H]; [right|left; eauto|right].
    + unfold put_net. rewrite <- H, lookup_insert_eq. eauto.
    + unfold put_net. destruct (decide (su_ID n = id)) as [<-|]; [rewrite lookup_insert_eq; eauto|].
      by rewrite lookup_insert_ne.
Qed.

Lemma network_list_names l id name :
  foldl put_net ∅ (dovesnap_nets l) !! id = Some name →
  ∃ net, net ∈ l ∧ su_Driver net = DriverName ∧ su_ID net = id ∧ su_Name net = name.
Proof.
  intros [H|(net & [Hd Hin]%list_elem_of_filter & H)]%network_fold_lookup; [done|eauto].
Qed.

Lemma network_list_ids l id :
  is_Some (foldl put_net ∅ (dovesnap_nets l) !! id) ↔
  ∃ net, net ∈ l ∧ su_Driver net = DriverName ∧ su_ID net = id.
Proof.
  split.
  - intros [name H]. destruct (network_list_names l id name H) as (net & ? & ? & ? & _). eauto.
  - intros (net & H1 & H2 & H3). apply network_fold_dom. left. exists net.
    split; [by apply list_elem_of_filter|done].
Qed.

(** What mustGetNetworkList does with docker's answer. *)
Lemma wp_mustGetNetworkList Q s :
  match env_reply (io_trace s) CNetworkList with
  | Ok l => Q (Ret (foldl put_net ∅ (dovesnap_nets l)))
              (mkIo (io_trace s ++ [CNetworkList]) (io_ticks s))
  | Err e => Q (Panic ("could not get docker networks: " +:+ e))
               (mkIo (io_trace s ++ [CNetworkList]) (io_ticks s))
  end → wp mustGetNetworkList Q s.
Proof.
  intros H. apply wp_bind, wp_ext. destruct (env_reply _ _); [|done].
  apply wp_ret. by rewrite network_list_fold.
Qed.

(** The networks to restore are exactly dovesnap's: the list holds the ID of every
    network that docker reports with the dovesnap driver, and no other network. *)
Theorem mustGetNetworkList_dovesnap l s :
  env_reply (io_trace s) CNetworkList = Ok l →
  ∃ m s', mustGetNetworkList s = (Ret m, s') ∧
    (∀ id, is_Some (m !! id) ↔ ∃ net, net ∈ l ∧ su_Driver net = DriverName ∧ su_ID net = id) ∧
    (∀ id name, m !! id = Some name →
       ∃ net, net ∈ l ∧ su_Driver net = DriverName ∧ su_ID net = id ∧ su_Name net = name).
Proof.
  intros Hl. eexists _, _. split; [unfold mustGetNetworkList; cbn; rewrite Hl; reflexivity|].
  rewrite network_list_fold. split; [apply network_list_ids|apply network_list_names].
Qed.

(** The successful lookup of a network, as a part of the history. *)
Definition inspected (id : string) (t : list call) (ni : NetInspect) : Prop :=
  ∃ t1, t = t1 ++ [CNetworkInspect id] ∧ env_reply t1 (CNetworkInspect id) = Ok ni.

Lemma mustGetNetworkInspectFromID_inspected id s :
  wp (mustGetNetworkInspectFromID id) (λ o s', io_trace s `prefix_of` io_trace s' ∧
    match o with
    | Ret ni => inspected id (io_trace s') ni
    | Panic v => v = "network " +:+ id +:+ " not found"
    | _ => False
    end) s.
Proof.
  destruct (inspect_loop_spec id dockerRetries 0 s) as (r & s' & H & k & _ & Hr).
  unfold mustGetNetworkInspectFromID. apply wp_bind. unfold wp at 1. rewrite H. cbn [fst snd].
  destruct r as [ni|].
  - destruct Hr as (_ & Hni & Ht). apply wp_ret. rewrite Ht. split; [by eexists|].
    eexists. by rewrite app_assoc.
  - destruct Hr as [_ Ht]. apply wp_panic. rewrite Ht. split; [by eexists|done].
Qed.

(** The container [c] that the last call of history [t] described is one that the network,
    as it was looked up since [t0], reported for the endpoint. *)
Definition described (id ep : string) (t0 t : list call) (c : InspectResponse) : Prop :=
  ∃ t1 ni t2 cid, inspected id t1 ni ∧ t0 `prefix_of` t1 ∧ t1 `prefix_of` t2 ∧
    ni_Containers ni !! cid = Some ep ∧
    env_reply t2 (CContainerInspect cid) = Ok c ∧ t = t2 ++ [CContainerInspect cid].

Lemma find_container_spec ep l s :
  wp (find_container ep l) (λ o s', io_trace s `prefix_of` io_trace s' ∧
    match o with
    | Ret None => True
    | Ret (Some c) => ∃ t2 cid, io_trace s `prefix_of` t2 ∧ (cid, ep) ∈ l ∧
        env_reply t2 (CContainerInspect cid) = Ok c ∧ io_trace s' = t2 ++ [CContainerInspect cid]
    | _ => False
    end) s.
Proof.
  revert s. induction l as [|[cid e] l IH]; intros s; cbn [find_container]; [done|].
  case_decide as He.
  - apply wp_bind, wp_ext. destruct (env_reply _ _) as [c|err] eqn:Hr.
    + apply wp_ret. split; [by eexists|]. exists (io_trace s), cid. subst e.
      split_and!; [done|left|done|done].
    + eapply wp_mono; [|apply IH]. cbn. intros [[c|]|v| |] s' [Hp H]; try done.
      * split; [by eapply prefix_app_l|]. destruct H as (t2 & cid' & Hp' & Hin & H).
        exists t2, cid'. split; [by eapply prefix_app_l|]. split; [by right|done].
      * split; [by eapply prefix_app_l|done].
  - eapply wp_mono; [|apply IH]. cbn. intros [[c|]|v| |] s' [Hp H]; try done. split; [done|].
    destruct H as (t2 & cid' & Hp' & Hin & H). exists t2, cid'. split; [done|]. split; [by right|done].
Qed.

(** C23: A container is found by its endpoint, or not at all.  The lookup always ends.  When
    it succeeds, its result is what docker said last, about a container which the network,
    looked up before that in the same request, reported for this very endpoint. *)
Theorem getContainerFromEndpoint_described id ep s :
  wp (getContainerFromEndpoint id ep) (λ o s',
    match o with
    | Ret (Ok c) => described id ep (io_trace s) (io_trace s') c
    | Ret (Err e) => e = "endpoint " +:+ ep +:+ " not found"
    | Panic v => v = "network " +:+ id +:+ " not found"
    | _ => False
    end) s.
Proof.
  unfold getContainerFromEndpoint. apply wp_bind.
  apply (wp_for_retry (λ s1, io_trace s `prefix_of` io_trace s1)); [|by intros|done].
  intros i s1 Hs1. unfold endpoint_attempt. apply wp_bind.
  eapply wp_mono; [|apply mustGetNetworkInspectFromID_inspected].
  intros [ni|v| |] s2 [Hp H]; try done. apply wp_bind, wp_range. intros l Hl.
  apply wp_bind. eapply wp_mono; [|apply find_container_spec].
  intros [[c|]|v| |] s3 [Hp3 H3]; try done.
  - apply wp_ret. cbn beta iota. destruct H3 as (t2 & cid & Hp2 & Hin & Hc & Ht). cbn in *.
    exists (io_trace s2), ni, t2, cid. split_and!; try done; [by etrans|].
    rewrite Hl in Hin. by apply elem_of_map_to_list.
  - apply wp_bind, wp_Sleep, wp_ret. cbn in *. apply prefix_app_r. by etrans; [|etrans].
Qed.
End queries.

(** docker with one network of ours and one of its own. *)
Definition two_networks : Env := scripted (mkScript (sc_run quiet) (sc_link quiet) (sc_addrs quiet)
  (sc_iptables quiet) (sc_rpc quiet) (sc_network quiet)
  [mkNetSummary "4f1d8f0e3a" "testnet" "dovesnap"; mkNetSummary "77aa77aa77" "bridge" "bridge"]
  (sc_container quiet) (sc_up quiet) (sc_stat quiet) (sc_file quiet)).

Lemma mustGetNetworkList_dovesnap_witness :
  ∃ m s', mustGetNetworkList (E := two_networks) init_io = (Ret m, s') ∧ is_Some (m !! "4f1d8f0e3a").
Proof.
  destruct (mustGetNetworkList_dovesnap (E := two_networks) _ init_io eq_refl) as (m & s' & H & Hd & _).
  exists m, s'. split; [exact H|]. apply Hd. eexists. split; [left|]. split; reflexivity.
Defined.
