(* ===== verification/OvsBridge.v ===== *)
(** * Bridges: ovs/ovs_bridge.go

    The [add_ports] option, and the commands that create, configure and delete
    Open vSwitch bridges. *)
From S2P Require Import Prelude GoStrings GoMonad World Scenario Utils OvsDb OvsPort Types Config Iptables.

(** ** The add_ports option *)

(** What parseAddPorts fills in: the port numbers; the ACLs by port number and
    the VLANs by port name, each only when the caller passes a map for it. *)
Record added := mkAdded {
  ad_ports : gmap string Z;
  ad_acls : option (gmap Z string);
  ad_vlans : option (gmap string Z);
}.

(** A port's VLAN parameter. *)
Definition parse_vlan (add_port param : string) : outcome Z :=
  match ParseUint32 param with
  | Err err => Panic ("invalid VLAN for port " +:+ add_port +:+ ": " +:+ err)
  | Ok vlan =>
      if ((vlan <? 1) || (4094 <? vlan))%Z
      then Panic ("VLAN " +:+ itoa vlan +:+ " for port " +:+ add_port +:+ " out of range (1-4094)")
      else Ret vlan
  end.

(** [len(params) >= n && params\[n-1\] != ""] *)
Definition param (params : list string) (i : nat) : option string :=
  match params !! i with
  | Some p => if decide (p = "") then None else Some p
  | None => None
  end.

(** The fourth parameter, looked at in both branches of the loop body. *)
Definition parse_vlan_param (add_port : string) (params : list string) (a : added) : outcome added :=
  match param params 3, ad_vlans a with
  | Some p3, Some vlans =>
      vlan ← parse_vlan add_port p3;
      Ret (mkAdded (ad_ports a) (ad_acls a) (Some (<[add_port := vlan]> vlans)))
  | _, _ => Ret a
  end.

(** One element of the comma separated list. *)
Definition parse_add_port (a : added) (add_port_params_str : string) : outcome added :=
  let params := Split add_port_params_str "/" in
  add_port ← index params 0;
  match param params 1 with
  | Some p1 =>
      port_no ← must (ParseUint32 p1);
      let acls :=
        match param params 2, ad_acls a with
        | Some p2, Some acls => Some (<[port_no := p2]> acls)
        | _, acls => acls
        end in
      parse_vlan_param add_port params
        (mkAdded (<[add_port := port_no]> (ad_ports a)) acls (ad_vlans a))
  | None =>
      parse_vlan_param add_port params
        (mkAdded (<[add_port := 0%Z]> (ad_ports a)) (ad_acls a) (ad_vlans a))
  end.

Fixpoint parse_add_ports_list (a : added) (l : list string) : outcome added :=
  match l with
  | [] => Ret a
  | p :: l' => a' ← parse_add_port a p; parse_add_ports_list a' l'
  end.

Definition parseAddPorts (add_ports : string) (a : added) : outcome added :=
  if decide (add_ports = "") then Ret a else parse_add_ports_list a (Split add_ports ",").

(** ** Bridges *)

Section bridge.
Context `{E : Env}.

Definition show : IO (string * error) := VsCtl ["show"].

Definition waitForOvs : IO unit :=
  for_break ovsStartupRetries 0 tt (λ _ _,
    '(_, err) ← show;
    match err with
    | None => ret (tt, true)
    | Some _ => Sleep (5 * Second);; ret (tt, false)
    end);;
  '(_, err) ← show;
  match err with
  | Some _ => panic "could not connect to open vswitch"
  | None => skip
  end.

Definition ifUp (ifName : string) : IO bool :=
  byNameInterface ← ext (CInterfaceByName ifName);
  match byNameInterface with
  | Err _ => ret false
  | Ok flags => if Contains flags "up" then ret true else ret false
  end.

Definition bridgeExists (bridgeName : string) : IO (string * error) :=
  VsCtl ["br-exists"; bridgeName].

Definition addBridge (bridgeName : string) : IO (string * error) :=
  VsCtl ["--if-exists"; "del-br"; bridgeName];;
  VsCtl ["add-br"; bridgeName; "--"; "set"; "Bridge"; bridgeName; "stp_enable=false"].

Definition addBridgeExists (bridgeName : string) : IO (string * error) :=
  VsCtl ["--may-exist"; "add-br"; bridgeName; "--"; "set"; "Bridge"; bridgeName; "stp_enable=false"].

Definition mustDeleteBridge (bridgeName : string) : IO string :=
  mustVsCtl ["del-br"; bridgeName].

Definition makeMirrorBridge (bridgeName : string) (mirrorBridgeOutPort : Z) : IO unit :=
  mustOfCtl ["del-flows"; bridgeName];;
  mustOfCtl ["add-flow"; bridgeName; "priority=0,actions=drop"];;
  mustOfCtl ["add-flow"; bridgeName; "priority=1,actions=output:" +:+ itoa mirrorBridgeOutPort];;
  skip.

Definition makeLoopbackBridge (bridgeName : string) : IO error :=
  recovering (
    mustOfCtl ["del-flows"; bridgeName];;
    mustOfCtl ["add-flow"; bridgeName; "priority=0,actions=drop"];;
    mustOfCtl ["add-flow"; bridgeName; "priority=1,actions=output:in_port"];;
    ret None)
  (λ rerr, ret (Some ("cannot makeLoopbackBridge: " +:+ rerr))).

(** The configuration commands of createBridge, before its ports. *)
Definition bridge_config_cmds (bridgeName controller dpid : string) (userspace : bool)
    (ovsLocalMac : string) : list (list string) :=
  (if userspace then [["set"; "bridge"; bridgeName; "datapath_type=netdev"]] else []) ++
  (if decide (ovsLocalMac = "") then []
   else [["set"; "bridge"; bridgeName;
          "other-config:hwaddr=" +:+ String dquote (ovsLocalMac +:+ String dquote "")]]) ++
  (if decide (dpid = "") then []
   else [["set"; "bridge"; bridgeName; "other-config:datapath-id=" +:+ dpid]]) ++
  (if decide (controller = "") then []
   else [["set"; "bridge"; bridgeName; "fail-mode=secure"];
         ["set-controller"; bridgeName] ++ Split controller ","]).

Definition add_port_cmd (bridgeName : string) (p : string * Z) : list string :=
  let '(add_port, number) := p in
  if (0 <? number)%Z
  then ["add-port"; bridgeName; add_port; "--"; "set"; "Interface"; add_port;
        "ofport_request=" +:+ itoa number]
  else ["add-port"; bridgeName; add_port].

(** [for _, cmd := range ovsConfigCmds]: the first command that fails deletes
    the bridge and ends createBridge with its error. *)
Fixpoint run_config_cmds (bridgeName : string) (cmds : list (list string)) : IO error :=
  match cmds with
  | [] => ret None
  | cmd :: cmds' =>
      '(_, err) ← VsCtl cmd;
      match err with
      | Some e => VsCtl ["del-br"; bridgeName];; ret (Some e)
      | None => run_config_cmds bridgeName cmds'
      end
  end.

(** [for add_port := range addPorts]: likewise for a port without a number. *)
Fixpoint check_added_ports (bridgeName : string) (ports : list (string * Z)) : IO error :=
  match ports with
  | [] => ret None
  | (add_port, _) :: ports' =>
      r ← getOfPort add_port;
      match r with
      | Err e => VsCtl ["del-br"; bridgeName];; ret (Some e)
      | Ok _ => check_added_ports bridgeName ports'
      end
  end.

Definition createBridge (bridgeName controller dpid add_ports : string) (exists_ userspace : bool)
    (ovsLocalMac : string) : IO error :=
  '(_, err) ← (if exists_ then addBridgeExists bridgeName else addBridge bridgeName);
  match err with
  | Some e => ret (Some e)
  | None =>
      addPorts ← lift (parseAddPorts add_ports (mkAdded ∅ None None));
      cmd_order ← range (ad_ports addPorts);
      let ovsConfigCmds :=
        bridge_config_cmds bridgeName controller dpid userspace ovsLocalMac ++
        map (add_port_cmd bridgeName) cmd_order in
      err ← run_config_cmds bridgeName ovsConfigCmds;
      match err with
      | Some e => ret (Some e)
      | None =>
          check_order ← range (ad_ports addPorts);
          err ← check_added_ports bridgeName check_order;
          match err with
          | Some e => ret (Some e)
          | None =>
              (if decide (controller = "") then skip
               else mustOfCtl ["del-flows"; bridgeName];; skip);;
              err ← interfaceUp bridgeName;
              match err with
              | Some e => VsCtl ["del-br"; bridgeName];; ret (Some e)
              | None => ret None
              end
          end
      end
  end.

(** Set up the bridge of a network, with its gateway address and its
    masquerading rule when the mode asks for them. *)
Definition initBridge (ns : NetworkState) (controller dpid add_ports : string) (userspace : bool)
    (ovsLocalMac : string) : IO error :=
  let bridgeName := ns_BridgeName ns in
  err ← createBridge bridgeName controller dpid add_ports false userspace ovsLocalMac;
  match err with
  | Some e => ret (Some e)
  | None =>
      if decide (ns_Mode ns = modeNAT ∨ ns_Mode ns = modeRouted) then
        let gatewayIP := ns_Gateway ns +:+ "/" +:+ ns_GatewayMask ns in
        setInterfaceIP bridgeName gatewayIP;;
        addr ← getIfaceAddr bridgeName;
        match addr with
        | Err e =>
            Fatalf ("No IP address found on bridge " +:+ bridgeName);;
            ret (Some e)
        | Ok _ =>
            if decide (ns_Mode ns = modeNAT) then
              err ← natOut gatewayIP "-I";
              match err with
              | Some e =>
                  Fatalf ("Could not set NAT rules for bridge " +:+ bridgeName +:+ " because " +:+ e);;
                  ret (Some e)
              | None => ret None
              end
            else ret None
        end
      else ret None
  end.
End bridge.

(** ** Which computations return or panic *)

Lemma settled_parse_vlan_param p l a : settled (parse_vlan_param p l a).
Proof. unfold parse_vlan_param, parse_vlan; tame_tac. Qed.
#[export] Hint Resolve settled_parse_vlan_param : tame.
Lemma settled_parse_add_port a p : settled (parse_add_port a p).
Proof. unfold parse_add_port; tame_tac. Qed.
#[export] Hint Resolve settled_parse_add_port : tame.
Lemma settled_parseAddPorts p a : settled (parseAddPorts p a).
Proof.
  unfold parseAddPorts. tame_tac. generalize (Split p ","). intros l.
  revert a. induction l as [|x l IH]; intros a; cbn; tame_tac.
Qed.
#[export] Hint Resolve settled_parseAddPorts : tame.

(** ** The add_ports option as a language

    An entry [name/port/acl/vlan]: the parts after the name may be empty. *)

Record port_spec := mkPortSpec {
  ps_name : string;
  ps_port : option Z;
  ps_acl : option string;
  ps_vlan : option Z;
}.

Definition render_num (n : option Z) : string := match n with Some n => itoa n | None => "" end.

Definition render_port (p : port_spec) : string :=
  Join [ps_name p; render_num (ps_port p); default "" (ps_acl p); render_num (ps_vlan p)] "/".

Definition render_ports (l : list port_spec) : string := Join (map render_port l) ",".

Definition clean (s : string) : Prop := s ≠ "" ∧ free "/" s ∧ free "," s.

Definition wf_port (p : port_spec) : Prop :=
  clean (ps_name p) ∧
  match ps_port p with Some n => 0 ≤ n ≤ u32_max | None => True end%Z ∧
  match ps_acl p with Some a => clean a | None => True end ∧
  match ps_vlan p with Some v => 1 ≤ v ≤ 4094 | None => True end%Z.

#[export] Instance clean_dec s : Decision (clean s).
Proof. unfold clean. apply _. Defined.
#[export] Instance wf_port_dec p : Decision (wf_port p).
Proof.
  unfold wf_port. repeat apply and_dec; try apply _.
  - destruct (ps_port p); apply _.
  - destruct (ps_acl p); apply _.
  - destruct (ps_vlan p); apply _.
Defined.

(** What an entry means: the port's number, 0 for any; the ACL of that number, when
    there is one; the VLAN of the port. *)
Definition apply_port (a : added) (p : port_spec) : added :=
  mkAdded (<[ps_name p := default 0%Z (ps_port p)]> (ad_ports a))
    (match ps_port p, ps_acl p, ad_acls a with
     | Some n, Some acl, Some m => Some (<[n := acl]> m)
     | _, _, m => m
     end)
    (match ps_vlan p, ad_vlans a with
     | Some v, Some m => Some (<[ps_name p := v]> m)
     | _, m => m
     end).

Section add_ports.
Lemma render_num_free n c :
  match n with Some n => 0 ≤ n | None => True end%Z → is_digit c = false → free c (render_num n).
Proof. destruct n; intros; [by apply itoa_free|apply free_nil]. Qed.

Lemma render_port_parts p : wf_port p →
  Split (render_port p) "/" =
    [ps_name p; render_num (ps_port p); default "" (ps_acl p); render_num (ps_vlan p)].
Proof.
  intros ((_ & Hn & _) & Hp & Ha & Hv). apply Split_Join; [done|].
  repeat constructor; [done|apply render_num_free; [|done]| |apply render_num_free; [|done]].
  - destruct (ps_port p); [lia|done].
  - destruct (ps_acl p); [by destruct Ha as (_ & ? & _)|apply free_nil].
  - destruct (ps_vlan p); [lia|done].
Qed.

Lemma render_port_no_comma p : wf_port p → free "," (render_port p).
Proof.
  intros ((_ & _ & Hn) & Hp & Ha & Hv). unfold render_port. cbn [Join].
  assert (free "," "/") by (by vm_compute; intros ?%list_elem_of_singleton).
  rewrite !free_app. split_and!; try done.
  - apply render_num_free; [|done]. destruct (ps_port p); [lia|done].
  - destruct (ps_acl p); [by destruct Ha as (_ & _ & ?)|apply free_nil].
  - apply render_num_free; [|done]. destruct (ps_vlan p); [lia|done].
Qed.

Lemma param_render_num n rest l : l !! rest = Some (render_num n) →
  match n with Some n => 0 ≤ n | None => True end%Z → param l rest = itoa <$> n.
Proof.
  intros Hl Hn. unfold param. rewrite Hl. destruct n as [n|]; [|done]. cbn.
  rewrite decide_False; [done|]. by apply itoa_not_nil.
Qed.

Lemma parse_vlan_ok port v : (1 ≤ v ≤ 4094)%Z → parse_vlan port (itoa v) = Ret v.
Proof.
  intros Hv. unfold parse_vlan, ParseUint32. rewrite ParseUint_itoa by (unfold u32_max; lia).
  destruct ((v <? 1) || (4094 <? v))%Z eqn:E; [|done].
  apply orb_true_iff in E as [E%Z.ltb_lt|E%Z.ltb_lt]; lia.
Qed.

Lemma parse_add_port_render a p : wf_port p → parse_add_port a (render_port p) = Ret (apply_port a p).
Proof.
  intros Hwf. unfold parse_add_port. rewrite render_port_parts by done.
  destruct Hwf as (_ & Hp & Ha & Hv). set (params := [_; _; _; _]).
  change (index params 0) with (Ret (ps_name p)). cbn [outcome_seq bind].
  rewrite (param_render_num (ps_port p) 1) by (done || (destruct (ps_port p); [lia|done])).
  assert (param params 2 = ps_acl p) as Ha2.
  { unfold param, params. cbn. destruct (ps_acl p) as [acl|]; [|done]. cbn.
    by rewrite decide_False by apply Ha. }
  assert (∀ a', parse_vlan_param (ps_name p) params a' =
    Ret (mkAdded (ad_ports a') (ad_acls a') (match ps_vlan p, ad_vlans a' with
      | Some v, Some m => Some (<[ps_name p := v]> m) | _, m => m end))) as Hvlan.
  { intros a'. unfold parse_vlan_param.
    rewrite (param_render_num (ps_vlan p) 3) by (done || (destruct (ps_vlan p); [lia|done])).
    destruct (ps_vlan p) as [v|]; cbn; [|by destruct a' as [? ? []]].
    destruct a' as [? ? [m|]]; cbn; [|done]. by rewrite parse_vlan_ok. }
  unfold apply_port. destruct (ps_port p) as [n|]; cbn -[parse_vlan_param params param].
  - unfold ParseUint32. rewrite ParseUint_itoa by done. cbn -[parse_vlan_param params param].
    rewrite Ha2, Hvlan. cbn. destruct (ps_acl p), (ad_acls a); done.
  - rewrite Hvlan. done.
Qed.

Lemma parse_list_render a l :
  Forall wf_port l → parse_add_ports_list a (map render_port l) = Ret (foldl apply_port a l).
Proof.
  intros HF. revert a. induction HF as [|p l Hp _ IH]; intros a; [done|].
  cbn -[parse_add_port render_port]. rewrite parse_add_port_render by done. apply IH.
Qed.

(** C27: The add_ports option is read back as it was written: parsing the text of a list of
    well-formed entries gives, for every entry in order, its port number (0 when it has
    none), the ACL of its number and its VLAN, whichever parts are left out. *)
Theorem parseAddPorts_render l a :
  Forall wf_port l → parseAddPorts (render_ports l) a = Ret (foldl apply_port a l).
Proof.
  intros HF. unfold parseAddPorts, render_ports. case_decide as He.
  - destruct l as [|p l]; [done|]. exfalso. inversion_clear HF as [|? ? Hp _].
    assert (render_port p ≠ "") as Hne.
    { unfold render_port. destruct Hp as ((Hn & _) & _). cbn [Join].
      destruct (ps_name p); [done|]. by rewrite str_app_cons. }
    destruct l as [|p' l]; cbn -[render_port] in He; [done|].
    destruct (render_port p); [done|]. by rewrite str_app_cons in He.
  - rewrite Split_Join; [by apply parse_list_render|by destruct l|].
    apply Forall_map. eapply Forall_impl; [exact HF|]. apply render_port_no_comma.
Qed.
End add_ports.

Lemma parseAddPorts_render_witness :
  let l := [mkPortSpec "eth0" (Some 3) (Some "allow") None; mkPortSpec "eth1" None None (Some 20)]%Z in
  render_ports l = "eth0/3/allow/,eth1///20" ∧
  parseAddPorts (render_ports l) (mkAdded ∅ (Some ∅) (Some ∅)) =
    Ret (mkAdded (<["eth1" := 0%Z]> {["eth0" := 3%Z]}) (Some {[3%Z := "allow"]}) (Some {["eth1" := 20%Z]})).
Proof.
  intros l. split; [vm_compute; reflexivity|].
  rewrite (parseAddPorts_render l); [reflexivity|]. decide_now.
Defined.

(** ** Bounds of what is parsed *)

(** Port numbers are 32 bits wide and VLANs are valid. *)
Definition in_range (a : added) : Prop :=
  map_Forall (λ _ n, 0 ≤ n ≤ u32_max)%Z (ad_ports a) ∧
  match ad_vlans a with Some m => map_Forall (λ _ v, 1 ≤ v ≤ 4094)%Z m | None => True end.

Section bounds.
Lemma parse_vlan_bounds p t v : parse_vlan p t = Ret v → (1 ≤ v ≤ 4094)%Z.
Proof.
  unfold parse_vlan. destruct (ParseUint32 t) as [n|]; [|done].
  destruct ((n <? 1) || (4094 <? n))%Z eqn:E; [done|].
  apply orb_false_iff in E as [E1%Z.ltb_ge E2%Z.ltb_ge]. intros [= <-]. lia.
Qed.

Lemma parse_vlan_param_range p l a a' :
  in_range a → parse_vlan_param p l a = Ret a' → in_range a'.
Proof.
  intros Ha. unfold parse_vlan_param. destruct (param l 3) as [t|]; [|by intros [= <-]].
  destruct (ad_vlans a) as [m|] eqn:Hm; [|by intros [= <-]].
  destruct (parse_vlan p t) as [v| | |] eqn:Hv; [|done..]. intros [= <-].
  destruct Ha as [Hp Hvl]. rewrite Hm in Hvl. split; [done|]. cbn.
  apply map_Forall_insert_2; [by eapply parse_vlan_bounds|done].
Qed.

Lemma in_range_insert a n p acls :
  (0 ≤ n ≤ u32_max)%Z → in_range a → in_range (mkAdded (<[p := n]> (ad_ports a)) acls (ad_vlans a)).
Proof. intros Hn [Hp Hv]. split; [by apply map_Forall_insert_2|done]. Qed.

Lemma parse_add_port_range a t a' : in_range a → parse_add_port a t = Ret a' → in_range a'.
Proof.
  intros Ha. unfold parse_add_port. destruct (index (Split t "/") 0) as [p| | |]; [|done..].
  cbn -[parse_vlan_param param]. destruct (param (Split t "/") 1) as [w|].
  - destruct (ParseUint32 w) as [n|] eqn:Hn; [|done]. cbn -[parse_vlan_param param].
    apply parse_vlan_param_range, in_range_insert; [|done]. by eapply ParseUint_bounds.
  - apply parse_vlan_param_range, in_range_insert; [|done]. unfold u32_max. lia.
Qed.

(** C28: Whatever text an add_ports option holds, what it parses to is within bounds: every
    port number fits 32 bits and every VLAN that is recorded is between 1 and 4094. *)
Theorem parseAddPorts_bounds text a a' :
  in_range a → parseAddPorts text a = Ret a' → in_range a'.
Proof.
  unfold parseAddPorts. case_decide; [by intros ? [= <-]|]. generalize (Split text ",").
  intros l. revert a. induction l as [|t l IH]; intros a Ha; cbn -[parse_add_port].
  - by intros [= <-].
  - destruct (parse_add_port a t) as [a1| | |] eqn:H1; [|done..].
    apply IH. by eapply parse_add_port_range.
Qed.
End bounds.

Lemma parseAddPorts_bounds_witness :
  in_range (mkAdded {["eth0" := 4294967295%Z]} (Some ∅) (Some {["eth0" := 4094%Z]})).
Proof.
  apply (parseAddPorts_bounds "eth0/4294967295//4094" (mkAdded ∅ (Some ∅) (Some ∅)));
    [split; apply map_Forall_empty|vm_compute; reflexivity].
Defined.

(** ** The commands of createBridge *)

Section create_bridge.
Context `{E : Env}.

Definition del_br (br : string) : call := vs ["del-br"; br].
Definition add_br_args (exists_ : bool) (br : string) : list string :=
  (if exists_ then ["--may-exist"] else []) ++
  ["add-br"; br; "--"; "set"; "Bridge"; br; "stp_enable=false"].

(** The calls that make the bridge, before its configuration. *)
Definition add_br_calls (exists_ : bool) (br : string) : list call :=
  (if exists_ then [] else [vs ["--if-exists"; "del-br"; br]]) ++ [vs (add_br_args exists_ br)].

(** The error of the command that makes the bridge, run after the history [t]. *)
Definition add_br_error (exists_ : bool) (br : string) (t : list call) : error :=
  (vs_reply (t ++ (if exists_ then [] else [vs ["--if-exists"; "del-br"; br]]))
    (add_br_args exists_ br)).2.

(** After a failure: the last call deleted the bridge. *)
Definition cleaned (br : string) (s : io) : Prop := last (io_trace s) = Some (del_br br).

Lemma add_br_spec (exists_ : bool) br s :
  wp (if exists_ then addBridgeExists br else addBridge br)
    (λ o s', (∃ out, o = Ret (out, add_br_error exists_ br (io_trace s))) ∧
      io_trace s' = io_trace s ++ add_br_calls exists_ br) s.
Proof.
  destruct exists_; unfold wp, addBridgeExists, addBridge.
  - rewrite VsCtl_eq. cbn [fst snd io_trace]. unfold add_br_error. rewrite app_nil_r.
    split; [|done]. eexists. by rewrite <- surjective_pairing.
  - erewrite bind_Ret by apply VsCtl_eq. rewrite VsCtl_eq. cbn [fst snd io_trace].
    split; [|by rewrite <- app_assoc]. eexists. unfold add_br_error. by rewrite <- surjective_pairing.
Qed.

Lemma run_config_cmds_spec br cmds s :
  wp (run_config_cmds br cmds) (λ o s', match o with
    | Ret None => io_trace s' = io_trace s ++ map vs cmds
    | Ret (Some _) => cleaned br s'
    | _ => False
    end) s.
Proof.
  revert s. induction cmds as [|cmd cmds IH]; intros s; cbn [run_config_cmds].
  - apply wp_ret. by rewrite app_nil_r.
  - unfold wp. erewrite bind_Ret by apply VsCtl_eq.
    destruct (vs_reply _ _) as [out [e|]].
    + erewrite bind_Ret by apply VsCtl_eq. cbn. apply last_snoc.
    + eapply wp_mono; [|apply IH]. intros [[e|]| | |] s'; try done. cbn.
      intros ->. by rewrite <- app_assoc.
Qed.

Definition get_ofport (p : string * Z) : call := vs ["get"; "Interface"; p.1; "ofport"].

Lemma check_added_ports_spec br ports s :
  wp (check_added_ports br ports) (λ o s', match o with
    | Ret None => io_trace s' = io_trace s ++ map get_ofport ports
    | Ret (Some _) => cleaned br s'
    | Panic _ => True
    | _ => False
    end) s.
Proof.
  revert s. induction ports as [|[p n] ports IH]; intros s; cbn [check_added_ports].
  - apply wp_ret. by rewrite app_nil_r.
  - unfold getOfPort. apply wp_bind, wp_bind. unfold wp. rewrite mustVsCtl_eq. cbn [fst snd].
    destruct (vs_reply _ _) as [out [e|]]; [done|]. cbn [fst snd]. unfold wp. cbn -[VsCtl ParseUint32].
    destruct (ParseUint32 out) as [v|e].
    + eapply wp_mono; [|apply IH]. intros [[e|]| | |] s'; try done. cbn.
      intros ->. by rewrite <- app_assoc.
    + rewrite VsCtl_eq. cbn. apply last_snoc.
Qed.

Lemma interfaceUp_spec br s :
  wp (interfaceUp br) (λ o s', match o with
    | Ret None => io_trace s' = io_trace s ++ [CLinkByName br; CLinkSetUp br]
    | Ret (Some _) | Panic _ => True
    | _ => False
    end) s.
Proof.
  unfold interfaceUp, wp. cbn. destruct (env_reply _ (CLinkByName br)) as [[l|] [e|]]; cbn; try done.
  destruct (env_reply _ _); [done|]. by rewrite <- app_assoc.
Qed.

(** The calls of a createBridge that succeeds. *)
Definition bridge_calls (br controller dpid : string) (ex us : bool) (mac : string)
    (order1 order2 : list (string * Z)) : list call :=
  add_br_calls ex br ++
  map vs (bridge_config_cmds br controller dpid us mac ++ map (add_port_cmd br) order1) ++
  map get_ofport order2 ++
  (if decide (controller = "") then [] else [ofc ["del-flows"; br]]) ++
  [CLinkByName br; CLinkSetUp br].

Lemma mustOfCtl_spec args s :
  wp (mustOfCtl args) (λ o s', io_trace s' = io_trace s ++ [ofc args] ∧ settled o) s.
Proof.
  unfold wp. rewrite mustOfCtl_eq. cbn [fst snd io_trace].
  by destruct (of_reply _ _) as [out [e|]].
Qed.

Lemma createBridge_tail br (controller : string) s :
  wp ((if decide (controller = "") then skip else mustOfCtl ["del-flows"; br];; skip);;
      err ← interfaceUp br;
      match err with
      | Some e => VsCtl ["del-br"; br];; ret (Some e)
      | None => ret None
      end)
    (λ o s', match o with
      | Ret None => io_trace s' = io_trace s ++
          (if decide (controller = "") then [] else [ofc ["del-flows"; br]]) ++
          [CLinkByName br; CLinkSetUp br]
      | Ret (Some _) => cleaned br s'
      | Panic _ => True
      | _ => False
      end) s.
Proof.
  assert (∀ s, wp (err ← interfaceUp br;
      match err with Some e => VsCtl ["del-br"; br];; ret (Some e) | None => ret None end)
    (λ o s', match o with
      | Ret None => io_trace s' = io_trace s ++ [CLinkByName br; CLinkSetUp br]
      | Ret (Some _) => cleaned br s'
      | Panic _ => True
      | _ => False
      end) s) as Hup.
  { intros s1. apply wp_bind. eapply wp_mono; [|apply interfaceUp_spec].
    intros [[e|]| | |] s2 H; try done. unfold wp.
    erewrite bind_Ret by apply VsCtl_eq. cbn. apply last_snoc. }
  apply wp_bind. case_decide; [apply Hup|].
  apply wp_bind. eapply wp_mono; [|apply mustOfCtl_spec].
  intros [out|v| |] s1 [H1 Hs1]; [|done..]. apply wp_ret.
  eapply wp_mono; [|apply Hup]. intros [[e|]| | |] s2; try done. cbn.
  intros ->. by rewrite H1, <- app_assoc.
Qed.

Lemma createBridge_spec br controller dpid ports ex us mac s :
  wp (createBridge br controller dpid ports ex us mac) (λ o s', match o with
    | Ret None => ∃ a order1 order2, parseAddPorts ports (mkAdded ∅ None None) = Ret a ∧
        order1 ≡ₚ map_to_list (ad_ports a) ∧ order2 ≡ₚ map_to_list (ad_ports a) ∧
        io_trace s' = io_trace s ++ bridge_calls br controller dpid ex us mac order1 order2
    | Ret (Some e) =>
        (add_br_error ex br (io_trace s) = None ∧ cleaned br s') ∨
        (add_br_error ex br (io_trace s) = Some e ∧ io_trace s' = io_trace s ++ add_br_calls ex br)
    | Panic _ => True
    | _ => False
    end) s.
Proof.
  unfold createBridge. apply wp_bind. eapply wp_mono; [|apply add_br_spec].
  intros o s1 [[out ->] H1]. destruct (add_br_error _ _ _) as [e|] eqn:Hmade; [by right|].
  pose proof (settled_parseAddPorts ports (mkAdded ∅ None None)) as Hset.
  apply wp_bind, wp_lift. destruct (parseAddPorts _ _) as [a| | |] eqn:Ha; try done.
  apply wp_bind, wp_range. intros order1 Ho1. apply wp_bind.
  eapply wp_mono; [|apply run_config_cmds_spec]. intros [[e|]| | |] s2 H2; try done; [by left|].
  apply wp_bind, wp_range. intros order2 Ho2. apply wp_bind.
  eapply wp_mono; [|apply check_added_ports_spec]. intros [[e|]| | |] s3 H3; try done; [by left|].
  eapply wp_mono; [|apply createBridge_tail]. intros [[e|]| | |] s4 H4; try done; [by left|].
  exists a, order1, order2. do 3 (split; [done|]). cbn in *.
  rewrite H4, H3, H2, H1. unfold bridge_calls. by rewrite <- !app_assoc.
Qed.

(** C6: A bridge that cannot be configured is not left behind.  When createBridge returns an
    error, then either the command that makes the bridge succeeded and the last command that
    was run deletes the bridge, or the command that makes the bridge failed, with the error
    that is returned, and nothing was run after it. *)
Theorem createBridge_cleans_up br controller dpid ports ex us mac s e s' :
  createBridge br controller dpid ports ex us mac s = (Ret (Some e), s') →
  (add_br_error ex br (io_trace s) = None ∧ last (io_trace s') = Some (del_br br)) ∨
  (add_br_error ex br (io_trace s) = Some e ∧ io_trace s' = io_trace s ++ add_br_calls ex br).
Proof.
  intros H. pose proof (createBridge_spec br controller dpid ports ex us mac s) as Hs.
  unfold wp in Hs. by rewrite H in Hs.
Qed.

(** The commands in plain terms, from the options.  The settings of the bridge record: *)
Definition bridge_settings (controller dpid : string) (us : bool) (mac : string) : list string :=
  concat [ if us then ["datapath_type=netdev"] else [];
           if decide (mac = "") then []
           else ["other-config:hwaddr=" +:+ String dquote mac +:+ String dquote ""];
           if decide (dpid = "") then [] else ["other-config:datapath-id=" +:+ dpid];
           if decide (controller = "") then [] else ["fail-mode=secure"] ].

(** The arguments that ask for a port's number, when there is one. *)
Definition number_request (p : string * Z) : list string :=
  if decide (p.2 ≤ 0)%Z then []
  else ["--"; "set"; "Interface"; p.1; "ofport_request=" +:+ itoa p.2].

Definition bridge_script (br controller dpid : string) (ex us : bool) (mac : string)
    (order1 order2 : list (string * Z)) : list call :=
  (if ex then [vs (["--may-exist"; "add-br"; br; "--"; "set"; "Bridge"; br; "stp_enable=false"])]
   else [vs ["--if-exists"; "del-br"; br];
         vs ["add-br"; br; "--"; "set"; "Bridge"; br; "stp_enable=false"]]) ++
  map (λ setting, vs ["set"; "bridge"; br; setting]) (bridge_settings controller dpid us mac) ++
  (if decide (controller = "") then [] else [vs ("set-controller" :: br :: Split controller ",")]) ++
  map (λ p, vs (["add-port"; br; p.1] ++ number_request p)) order1 ++
  map (λ p, vs ["get"; "Interface"; p.1; "ofport"]) order2 ++
  (if decide (controller = "") then [] else [ofc ["del-flows"; br]]) ++
  [CLinkByName br; CLinkSetUp br].

Lemma bridge_calls_script br controller dpid ex us mac order1 order2 :
  bridge_calls br controller dpid ex us mac order1 order2 =
  bridge_script br controller dpid ex us mac order1 order2.
Proof.
  unfold bridge_calls, bridge_script. f_equal; [by destruct ex|].
  rewrite map_app, <- app_assoc, (app_assoc (map _ (bridge_settings _ _ _ _))). f_equal.
  - unfold bridge_config_cmds, bridge_settings.
    by destruct us, (decide (mac = "")), (decide (dpid = "")), (decide (controller = "")).
  - f_equal. rewrite map_map. apply map_ext. intros [name n]. unfold add_port_cmd, number_request.
    cbn [fst snd]. destruct (Z.ltb_spec 0 n); [rewrite decide_False by lia|rewrite decide_True by lia];
      done.
Qed.

(** C7: When createBridge returns no error it has run exactly these commands: make the
    bridge; set its datapath type, hardware address, datapath ID, fail mode and controllers,
    as far as they are given, in this order; add every port of the option once, with
    its requested number; read every port's number back; delete the default flows when
    there is a controller; and bring the interface up. *)
Theorem createBridge_commands br controller dpid ports ex us mac s s' :
  createBridge br controller dpid ports ex us mac s = (Ret None, s') →
  ∃ a order1 order2, parseAddPorts ports (mkAdded ∅ None None) = Ret a ∧
    order1 ≡ₚ map_to_list (ad_ports a) ∧ order2 ≡ₚ map_to_list (ad_ports a) ∧
    io_trace s' = io_trace s ++ bridge_script br controller dpid ex us mac order1 order2.
Proof.
  intros H. pose proof (createBridge_spec br controller dpid ports ex us mac s) as Hs.
  unfold wp in Hs. rewrite H in Hs. destruct Hs as (a & o1 & o2 & H1 & H2 & H3 & H4).
  rewrite bridge_calls_script in H4. eauto 10.
Qed.
End create_bridge.

(** An Open vSwitch that knows the port it is asked about; and one that refuses to add ports. *)
Definition good_ovs : Env := scripted (with_run (λ _ _ args,
  if bool_decide ("get" ∈ args) then ("7" +:+ String newline "", None) else ("", None)) quiet).
Definition portless_ovs : Env := scripted (with_run (λ _ _ args,
  if bool_decide ("add-port" ∈ args) then ("", Some "exit status 1") else ("", None)) quiet).

Lemma createBridge_cleans_up_witness :
  let r := createBridge (E := portless_ovs) "odsbr4f1d8" "" "0x620" "eth0/3" false false "" init_io in
  (add_br_error (E := portless_ovs) false "odsbr4f1d8" [] = None ∧
   last (io_trace r.2) = Some (del_br "odsbr4f1d8")) ∨
  (add_br_error (E := portless_ovs) false "odsbr4f1d8" [] = Some "exit status 1" ∧
   io_trace r.2 = [] ++ add_br_calls false "odsbr4f1d8").
Proof.
  intros r. apply (createBridge_cleans_up (E := portless_ovs) "odsbr4f1d8" "" "0x620" "eth0/3" false
    false "" init_io "exit status 1"). vm_compute. reflexivity.
Defined.

Lemma createBridge_commands_witness :
  let r := createBridge (E := good_ovs) "odsbr4f1d8" "tcp:127.0.0.1:6653" "0x620" "eth0/3" false false "" init_io in
  ∃ a order1 order2, parseAddPorts "eth0/3" (mkAdded ∅ None None) = Ret a ∧
    order1 ≡ₚ map_to_list (ad_ports a) ∧ order2 ≡ₚ map_to_list (ad_ports a) ∧
    io_trace r.2 = [] ++ bridge_script "odsbr4f1d8" "tcp:127.0.0.1:6653" "0x620" false false "" order1 order2.
Proof.
  intros r. apply (createBridge_commands (E := good_ovs) "odsbr4f1d8" "tcp:127.0.0.1:6653" "0x620"
    "eth0/3" false false "" init_io). vm_compute. reflexivity.
Defined.
