(* ===== verification/Driver.v ===== *)
(** * The driver's operations: ovs/driver.go

    The requests that docker makes of the plugin, which prepare the system and
    queue a message, and the handlers that the resource manager runs for each
    message.  Every handler is whole: its calls outside in order, its updates of
    the driver's maps, and what its deferred function does. *)
From S2P Require Import Prelude GoStrings GoMonad World Scenario Utils OvsDb OvsPort Types Config Iptables Faucet Docker OvsBridge.

(** ** Bridges of the driver *)

Section bridges.
Context `{E : Env}.

Definition createLoopbackBridge (d : Driver) : IO error :=
  '(_, err) ← addBridgeExists (loopbackBridgeName d);
  match err with
  | Some e => ret (Some e)
  | None =>
      err ← makeLoopbackBridge (loopbackBridgeName d);
      match err with Some e => ret (Some e) | None => ret None end
  end.

Definition createMirrorBridge (d : Driver) : IO unit :=
  '(_, err) ← bridgeExists (mirrorBridgeName d);
  match err with
  | None => skip
  | Some _ =>
      let add_ports :=
        if (0 <? len (mirrorBridgeIn d))%Z
        then mirrorBridgeOut d +:+ "," +:+ mirrorBridgeIn d else mirrorBridgeOut d in
      err ← createBridge (mirrorBridgeName d) "" "" add_ports true false "";
      must_nil err;;
      out ← mustGetOfPort (mirrorBridgeOut d);
      makeMirrorBridge (mirrorBridgeName d) out
  end.

(** [for _, stackingInterface := range d.stackingInterfaces]: the YAML of the
    remote ends, and the local ends. *)
Definition stacking_step (d : Driver) (dpName stackingInterface : string)
    (acc : string * list StackingPort) : IO (string * list StackingPort) :=
  let '(remoteStackingConfig, stackingPorts) := acc in
  '(remoteDP, remotePort, localInterface) ← lift (mustGetStackingInterface stackingInterface);
  '(ofPort, _) ← mustAddInternalPort dpName localInterface 0;
  let stackConfig :=
    if decide (stackPriority1 d = remoteDP) then "stack: {priority: 1}," else "" in
  ret (remoteStackingConfig +:+ remoteDP +:+ ": {" +:+ stackConfig +:+ " interfaces: {"
         +:+ stackInterfaceYaml remotePort dpName ofPort +:+ "}},",
       stackingPorts ++ [mkStackingPort ofPort remoteDP remotePort]).

Definition createStackingBridge (d : Driver) : IO error :=
  '(hostname, dpid, intDpid, dpName) ← mustGetStackBridgeConfig d;
  if decide (stackDefaultControllers d = "")
  then panic "default OF controllers must be defined for stacking"
  else
    '(_, err) ← bridgeExists dpName;
    match err with
    | None => ret None
    | Some _ =>
        createBridge dpName (stackDefaultControllers d) dpid "" true false "";;
        '(remoteStackingConfig, stackingPorts) ←
          for_each (stackingInterfaces d) ("", []) (stacking_step d dpName);
        let localStackingConfig := foldl (λ acc sp,
          acc +:+ stackInterfaceYaml (sp_OFPort sp) (sp_RemoteDP sp) (sp_RemotePort sp))
          "" stackingPorts in
        let localStackingConfig := mergeDpInterfacesYaml dpName intDpid
          ("Dovesnap Stacking Bridge for " +:+ hostname) localStackingConfig false in
        let stackingConfig :=
          "{dps: {" +:+ localStackingConfig +:+ " " +:+ remoteStackingConfig +:+ "}}" in
        mustSetFaucetConfigFile stackingConfig;;
        ret None
    end.

(** Create the bridge of a network and link it to the mirror, stacking and
    loopback bridges that the settings ask for. *)
Definition InitBridge (d : Driver) (ns : NetworkState) (sc : StackMirrorConfig) : IO unit :=
  let ports :=
    (if decide (ns_AddPorts ns = "") then [] else [ns_AddPorts ns]) ++
    (if decide (ns_AddCoproPorts ns = "") then [] else [ns_AddCoproPorts ns]) in
  let all_added_ports := Join ports "," in
  err ← initBridge ns (ns_Controller ns) (ns_BridgeDpid ns) all_added_ports (ns_Userspace ns)
    (ns_OvsLocalMac ns);
  must_nil err;;
  when (usingMirrorBridge d) (
    mustAddPatchPort (ns_BridgeName ns) (mirrorBridgeName d) (smc_LbPort sc) 0;;
    mirrorPortName ← lift (patchName (mirrorBridgeName d) (ns_BridgeName ns));
    mirrorOfPort ← mustGetOfPort mirrorPortName;
    let flowStr := "priority=2,in_port=" +:+ itoa mirrorOfPort
      +:+ ",dl_vlan=0xffff,actions=mod_vlan_vid:" +:+ itoa (ns_BridgeVLAN ns) +:+ ",output:1" in
    mustOfCtl ["add-flow"; mirrorBridgeName d; flowStr];; skip);;
  stacking ← lift (usingStacking d);
  when stacking (mustAddPatchPort (ns_BridgeName ns) (stackDpName d) 0 0;; skip);;
  mirroring ← lift (usingStackMirroring d);
  when mirroring (
    mustAddPatchPort (ns_BridgeName ns) (loopbackBridgeName d) (smc_LbPort sc) 0;; skip).

Definition mustDeleteBridgeAndPorts (d : Driver) (bridgeName : string) : IO unit :=
  when (usingMirrorBridge d) (mustDeletePatchPort bridgeName (mirrorBridgeName d));;
  stacking ← lift (usingStacking d);
  when stacking (
    mustDeletePatchPort bridgeName (stackDpName d);;
    mirroring ← lift (usingStackMirroring d);
    when mirroring (mustDeletePatchPort bridgeName (loopbackBridgeName d)));;
  mustDeleteBridge bridgeName;;
  skip.
End bridges.

(** ** Requests from docker *)

(** The zero message, and the messages that name a network, an endpoint and a
    reply channel only. *)
Definition mkOp (operation networkID endpointID : string) (options : list (string * ivalue))
    (reply : option nat) : DovesnapOp :=
  mkDovesnapOp operation zero_NetworkState zero_StackMirrorConfig "" "" "" networkID endpointID
    options 0 reply.

(** A fresh reply channel. *)
Definition make_reply : D nat :=
  c ← gets (λ s, fresh (dom (st_replies s)));
  modify (λ s, set_replies (<[c := []]> (st_replies s)) s);;
  ret c.

(** [networkplugin.CreateEndpointRequest]; the interface is the MAC address that docker asks
    for, behind a pointer. *)
Record CreateEndpointRequest := mkCreateEndpointRequest {
  ce_NetworkID : string;
  ce_EndpointID : string;
  ce_Interface : option string;
}.

Section requests.
Context `{E : Env}.

(** The network state that a create request asks for, and the checks that it
    must pass: the first part of ReOrCreateNetwork. *)
Definition request_network_state (d : Driver) (r : CreateNetworkRequest) : D NetworkState :=
  bridgeName ← lift (mustGetBridgeName r);
  let mtu := mustGetBridgeMTU r in
  let preAllocatePorts := mustGetPreAllocatePorts r in
  mode ← lift (mustGetBridgeMode r);
  let bindInterface := mustGetBindInterface r in
  let controller := mustGetBridgeController r in
  let controller := if decide (controller = "") then stackDefaultControllers d else controller in
  let dpid := mustGetBridgeDpid r in
  let vlan := mustGetBridgeVLAN r in
  let add_ports := mustGetBridgeAddPorts r in
  let add_copro_ports := mustGetBridgeAddCoproPorts r in
  '(gateway, mask) ← lift (mustGetGatewayIP r);
  let useDHCP := mustGetUseDHCP r in
  let useUserspace := mustGetUserspace r in
  let natAcl := mustGetNATAcl r in
  let ovsLocalMac := mustGetOvsLocalMac r in
  let vlanOutAcl := mustGetBridgeVLANOutAcl r in
  let defaultAcl := mustGetDefaultAcl r in
  when useDHCP (
    when (bool_decide (mode ≠ "flat")) (panic "network must be flat when DHCP in use");;
    when (bool_decide (gateway ≠ "")) (panic "network must not have IP config when DHCP in use");;
    internal ← lift (mustGetInternalOption r);
    when (negb internal) (panic "network must be internal when DHCP in use"));;
  uintDpid ← lift (mustGetUintFromHexStr dpid);
  dyn ← makeDynamicNetworkState (shortEngineId d);
  ret {|
    ns_NetworkName := "";
    ns_BridgeName := bridgeName;
    ns_BridgeDpid := dpid;
    ns_BridgeDpidUint := uintDpid;
    ns_BridgeVLAN := vlan;
    ns_MTU := mtu;
    ns_PreAllocatePorts := preAllocatePorts;
    ns_Mode := mode;
    ns_AddPorts := add_ports;
    ns_AddCoproPorts := add_copro_ports;
    ns_Gateway := gateway;
    ns_GatewayMask := mask;
    ns_FlatBindInterface := bindInterface;
    ns_UseDHCP := useDHCP;
    ns_Userspace := useUserspace;
    ns_NATAcl := natAcl;
    ns_VLANOutAcl := vlanOutAcl;
    ns_DefaultAcl := defaultAcl;
    ns_OvsLocalMac := ovsLocalMac;
    ns_Controller := controller;
    ns_DynamicNetworkStates := dyn;
  |}.

(** The message that ReOrCreateNetwork queues. *)
Definition create_msg (operation : string) (r : CreateNetworkRequest) (ns : NetworkState)
    (sc : StackMirrorConfig) : DovesnapOp :=
  mkDovesnapOp operation ns sc (ns_AddPorts ns) (ns_AddCoproPorts ns) (ns_Mode ns)
    (cr_NetworkID r) (ns_BridgeName ns) [] 0 None.

Definition ReOrCreateNetwork (r : CreateNetworkRequest) (operation : string) : D error :=
  recovering (
    d ← get_d;
    ns ← request_network_state d r;
    added ← lift (parseAddPorts (ns_AddPorts ns) (mkAdded ∅ (Some ∅) None));
    lift (parseAddPorts (ns_AddCoproPorts ns) added);;
    stackMirrorConfig ← lift (getStackMirrorConfig d r);
    when (bool_decide (operation = "create")) (io_do (InitBridge d ns stackMirrorConfig));;
    io_do (mustSetInterfaceMTU (ns_BridgeName ns) (ns_MTU ns));;
    wg_add;;
    send_op (create_msg operation r ns stackMirrorConfig);;
    ret None)
  (λ rerr, ret (Some ("cannot create network: " +:+ rerr))).

Definition CreateNetwork (r : CreateNetworkRequest) : D error := ReOrCreateNetwork r "create".

(** DeleteNetwork up to its wait for the reply on the channel it returns. *)
Definition DeleteNetwork_send (networkID : string) : D nat :=
  reply ← make_reply;
  wg_add;;
  send_op (mkOp "delete" networkID "" [] (Some reply));;
  ret reply.

(** Leave up to its wait for the reply. *)
Definition Leave_send (networkID endpointID : string) : D nat :=
  reply ← make_reply;
  send_op (mkOp "leave" networkID endpointID [] (Some reply));;
  ret reply.

(** [<-msg.Reply]: the request returns when the reply is there. *)
Definition receive_reply (reply : nat) : D DovesnapOpReply :=
  buf ← gets (λ s, default [] (st_replies s !! reply));
  match buf with
  | r :: buf' => modify (λ s, set_replies (<[reply := buf']> (st_replies s)) s);; ret r
  | [] => block
  end.

(** The MAC address of the response: empty when docker chose it. *)
Definition CreateEndpoint (r : CreateEndpointRequest) : D string :=
  t ← lift (truncateID (ce_EndpointID r));
  let localVethPair := vethPair t in
  io_do (addVethPair localVethPair);;
  let vethName := veth_PeerName localVethPair in
  macAddress ← lift (deref (ce_Interface r));
  macAddress ← (if decide (macAddress = "") then io_do (getMacAddr vethName)
                else io_do (mustSetInterfaceMac vethName macAddress);; ret "");
  reply ← make_reply;
  send_op (mkOp "reserveport" (ce_NetworkID r) (ce_EndpointID r) [] (Some reply));;
  ret macAddress.

(** Join: the name of the container's interface, its prefix, and the gateway. *)
Definition Join_send (networkID endpointID : string) (options : list (string * ivalue)) :
    D (string * string * string) :=
  wg ← gets st_wg;
  if (wg =? 0)%Z then
    d ← get_d;
    let ns := default zero_NetworkState (networks d !! networkID) in
    t ← lift (truncateID endpointID);
    let localVethPair := vethPair t in
    send_op (mkOp "join" networkID endpointID options None);;
    ret (veth_PeerName localVethPair, containerEthName, ns_Gateway ns)
  else block.
End requests.

(** ** Requests with a constant answer

    docker's other requests are acknowledged and change nothing. *)

(** [CapabilitiesResponse]: the scope. *)
Definition GetCapabilities : result string := Ok "local".
Definition ProgramExternalConnectivity (networkID endpointID : string) : error := None.
Definition RevokeExternalConnectivity (networkID endpointID : string) : error := None.
Definition FreeNetwork (networkID : string) : error := None.
Definition DiscoverNew (discoveryType : Z) : error := None.
Definition DiscoverDelete (discoveryType : Z) : error := None.
Definition DeleteEndpoint (networkID endpointID : string) : error := None.
(** [AllocateNetworkResponse]: the options. *)
Definition AllocateNetwork (networkID : string) : result (gmap string string) := Ok ∅.
(** [InfoResponse]: the values. *)
Definition EndpointInfo (networkID endpointID : string) : result (gmap string string) := Ok ∅.

(** ** What the requests change

    A request touches the driver only through the queue, the wait group, a fresh
    reply channel and fresh maps. *)

Section request_facts.
Context `{E : Env}.

Lemma request_network_state_spec d r s :
  wp (request_network_state d r) (λ o s',
    match o with
    | Ret ns => containers_of ns = Some (h_next (st_heap s)) ∧ s' = set_heap (alloc (st_heap s)) s
    | _ => s' = s
    end) s.
Proof.
  unfold request_network_state. wp_walk.
Qed.

(** A message is queued, or the request waits for room. *)
Lemma wp_send_op msg (Q : outcome unit → state → Prop) s :
  Q Block s → Q (Ret tt) (set_ops (st_ops s ++ [msg]) s) → wp (send_op msg) Q s.
Proof.
  intros HB HR. unfold wp, send_op. cbn -[Nat.ltb chanSize].
  case_match; [exact HR|exact HB].
Qed.

(** The rest of the driver is as it was. *)
Definition aside (s s' : state) : Prop :=
  st_d s' = st_d s ∧ st_notes s' = st_notes s ∧ st_OFPorts s' = st_OFPorts s ∧
  st_AllPortDesc s' = st_AllPortDesc s.

Lemma reorcreate_spec r operation s :
  wp (ReOrCreateNetwork r operation) (λ o s',
    aside s s' ∧ st_replies s' = st_replies s ∧ heap_grows (st_heap s) (st_heap s') ∧
    match o with
    | Ret None => st_wg s' = (st_wg s + 1)%Z ∧ ∃ msg, st_ops s' = st_ops s ++ [msg] ∧
        op_Operation msg = operation ∧ op_NetworkID msg = cr_NetworkID r ∧ op_Reply msg = None ∧
        containers_of (op_NewNetworkState msg) = Some (h_next (st_heap s)) ∧
        st_heap s' = alloc (st_heap s)
    | Ret (Some _) => st_wg s' = st_wg s ∧ st_ops s' = st_ops s
    | Panic _ => False
    | Exit | Block => st_ops s' = st_ops s
    end) s.
Proof.
  unfold ReOrCreateNetwork. apply wp_recovering, wp_bind, wp_gets, wp_bind.
  eapply wp_mono; [|apply request_network_state_spec].
  pose proof (alloc_grows (st_heap s)) as Hg.
  intros [ns|v| |] s1; [intros [Hns ->]|intros ->..]; [|by wp_walk..].
  wp_walk; cbn; do 4 (split; [done|]); eauto 10.
Qed.

(** C24: A create request either is refused with an error and leaves the queue and the wait
    group alone, or returns no error after queuing exactly one message, for the
    network it names, carrying maps that nothing else refers to, with the wait group one
    higher.  It never panics, and the networks and containers are untouched. *)
Theorem ReOrCreateNetwork_queues r operation s :
  wp (ReOrCreateNetwork r operation) (λ o s',
    aside s s' ∧ st_replies s' = st_replies s ∧ heap_grows (st_heap s) (st_heap s') ∧
    match o with
    | Ret None => st_wg s' = (st_wg s + 1)%Z ∧ ∃ msg, st_ops s' = st_ops s ++ [msg] ∧
        op_Operation msg = operation ∧ op_NetworkID msg = cr_NetworkID r ∧ op_Reply msg = None ∧
        containers_of (op_NewNetworkState msg) = Some (h_next (st_heap s)) ∧
        st_heap s' = alloc (st_heap s)
    | Ret (Some _) => st_wg s' = st_wg s ∧ st_ops s' = st_ops s
    | Panic _ => False
    | Exit | Block => st_ops s' = st_ops s
    end) s.
Proof. apply reorcreate_spec. Qed.
End request_facts.

(** ** A restart finds the network it created

    docker keeps the options of a network and reports them later; dovesnap builds its
    state from the request when the network is created, and from the report when it is
    restarted. *)

(** How docker reports the addresses of a request: the gateway [g/mask] as the gateway [g]
    and a subnet [net/mask]. *)
Definition gateway_reported (r : CreateNetworkRequest) (n : NetInspect) : Prop :=
  (cr_IPv4Data r = [] ∧ cr_IPv6Data r = [] ∧ ni_IPAM_Config n = []) ∨
  ∃ g mask net v4 rest,
    (g ≠ "" ∧ free "/" g) ∧ (mask ≠ "" ∧ free "/" mask) ∧ (net ≠ "" ∧ free "/" net) ∧
    cr_IPv4Data r = Some (mkIPAMData (g +:+ "/" +:+ mask)) :: v4 ∧
    ni_IPAM_Config n = mkIPAMConfig (net +:+ "/" +:+ mask) g :: rest.

(** docker's report [n] of the network that request [r] created with options [m]. *)
Record reports (r : CreateNetworkRequest) (n : NetInspect) (m : gmap string string) : Prop := {
  rp_id : ni_ID n = cr_NetworkID r;
  rp_report : ni_Options n = Some m;
  rp_request : ∃ rest, cr_Options r =
    Some ((genericOption, IMap (prod_map id IStr <$> map_to_list m)) :: rest);
  rp_gateway : gateway_reported r n;
}.

Section restart.
Context `{E : Env}.

Lemma ilookup_strings l k :
  ilookup (prod_map id IStr <$> l) k =
    match (list_to_map l : gmap string string) !! k with Some v => IStr v | None => INil end.
Proof.
  induction l as [|[k' v] l IH]; [done|]. cbn. case_decide as Hk.
  - subst. by rewrite lookup_insert_eq.
  - by rewrite lookup_insert_ne, IH.
Qed.

Lemma generic_option_reported r n m k :
  reports r n m → getGenericOption r k = default "" (m !! k).
Proof.
  intros H. destruct (rp_request _ _ _ H) as [rest Hr]. unfold getGenericOption. rewrite Hr.
  cbn [ilookup]. rewrite decide_True by done. cbn beta iota.
  rewrite ilookup_strings, list_to_map_to_list. by destruct (m !! k).
Qed.

Lemma resource_option_reported r n m k :
  reports r n m → getStrOptionFromResource n k "" = getGenericOption r k.
Proof.
  intros H. erewrite generic_option_reported by done.
  unfold getStrOptionFromResource. by rewrite (rp_report _ _ _ H).
Qed.

Lemma resource_uint_reported r n m k d :
  reports r n m → getUintOptionFromResource n k d = getGenericUintOption r k d.
Proof.
  intros H. unfold getUintOptionFromResource, getGenericUintOption.
  by erewrite resource_option_reported.
Qed.

Lemma slash_pair_render a b :
  a ≠ "" → free "/" a → b ≠ "" → free "/" b → slash_pair (a +:+ "/" +:+ b) = Some (a, b).
Proof.
  intros. unfold slash_pair. change (a +:+ "/" +:+ b) with (Join [a; b] "/").
  rewrite Split_Join; [by rewrite decide_True|done|by repeat constructor].
Qed.

Lemma gateway_agrees r n :
  gateway_reported r n → mustGetGatewayIP r = Ret (getGatewayFromResource n).
Proof.
  unfold mustGetGatewayIP, getGatewayFromResource.
  intros [(Hr4 & Hr6 & Hn)|(g & mask & net & v4 & rest & [Hg1 Hg2] & [Hm1 Hm2] & [Hn1 Hn2] & Hr4 & Hn)].
  - by rewrite Hr4, Hr6, Hn.
  - rewrite Hr4, Hn. cbn [mustGetGatewayIPFromData ipd_Gateway ipam_Subnet ipam_Gateway].
    assert (g +:+ "/" +:+ mask ≠ "") as Hne.
    { destruct g; [done|]. by rewrite str_app_cons. }
    rewrite !decide_False by (rewrite ?decide_False; done).
    by rewrite !slash_pair_render.
Qed.

(** The mode and the bridge's name, as they were requested. *)
Lemma mode_requested r n m mode :
  reports r n m → mustGetBridgeMode r = Ret mode →
  mode = if decide (m !! modeOption = Some "") then defaultMode else default defaultMode (m !! modeOption).
Proof.
  intros H. unfold mustGetBridgeMode. erewrite generic_option_reported by done.
  destruct (m !! modeOption) as [v|]; cbn; [|by intros [= <-]].
  destruct (decide (v = "")) as [->|Hv]; [by intros [= <-]|]. rewrite decide_False by congruence.
  case_match; congruence.
Qed.

Lemma mode_reported r n m :
  reports r n m → getStrOptionFromResource n modeOption defaultMode = default defaultMode (m !! modeOption).
Proof. intros H. unfold getStrOptionFromResource. rewrite (rp_report _ _ _ H). by destruct (m !! _). Qed.

Lemma bridge_name_requested r n m br :
  reports r n m → mustGetBridgeName r = Ret br →
  ∃ short, mustGetBridgeNameFromResource n = Ret (bridgePrefix +:+ short) ∧ truncateID (ni_ID n) = Ret short ∧
    let name := default "" (m !! bridgeNameOption) in
    br = if decide (name = "") then bridgePrefix +:+ short else name.
Proof.
  intros H. unfold mustGetBridgeNameFromResource, mustGetBridgeName.
  erewrite generic_option_reported, (rp_id _ _ _ H) by done.
  destruct (truncateID (cr_NetworkID r)) as [short|v| |]; cbn; intros [= <-]. by exists short.
Qed.

(** A state with another bridge and another mode. *)
Definition set_bridge (bridgeName mode : string) (ns : NetworkState) : NetworkState :=
  mkNetworkState (ns_NetworkName ns) bridgeName (ns_BridgeDpid ns) (ns_BridgeDpidUint ns)
    (ns_BridgeVLAN ns) (ns_MTU ns) (ns_PreAllocatePorts ns) mode (ns_AddPorts ns)
    (ns_AddCoproPorts ns) (ns_Gateway ns) (ns_GatewayMask ns) (ns_FlatBindInterface ns)
    (ns_UseDHCP ns) (ns_Userspace ns) (ns_NATAcl ns) (ns_VLANOutAcl ns) (ns_DefaultAcl ns)
    (ns_OvsLocalMac ns) (ns_Controller ns) (ns_DynamicNetworkStates ns).

(** What restoreNetworks makes of a state that was read from a report. *)
Definition with_controllers (d : Driver) (ns : NetworkState) : NetworkState :=
  if decide (ns_Controller ns = "") then set_Controller (stackDefaultControllers d) ns else ns.

(** C25: A restarted driver recovers the state it created a network with, up to the two
    options that are read differently then.  Let docker report a network's ID and options as
    they were requested, and its addresses as one gateway with its subnet, or none.  The
    state built from the report, with the default controllers filled in the way
    restoreNetworks does, is the state built from the request under the network's name, except
    that the bridge's name is always the one derived from the ID, and that a mode given
    as an empty text stays empty.  Without a bridge name among the options, and with no empty
    mode, the two states are the same. *)
Theorem restored_state_agrees d r n m s ns s1 :
  reports r n m → request_network_state d r s = (Ret ns, s1) →
  ∃ ns' short, truncateID (ni_ID n) = Ret short ∧
    getNetworkStateFromResource n (shortEngineId d) s = (Ret (ns', None), s1) ∧
    with_controllers d ns' = set_NetworkName (ni_Name n)
      (set_bridge (bridgePrefix +:+ short) (default defaultMode (m !! modeOption)) ns) ∧
    (let name := default "" (m !! bridgeNameOption) in
     ns_BridgeName ns = if decide (name = "") then bridgePrefix +:+ short else name) ∧
    ns_Mode ns =
      (if decide (m !! modeOption = Some "") then defaultMode else default defaultMode (m !! modeOption)) ∧
    (m !! bridgeNameOption = None → m !! modeOption ≠ Some "" →
       with_controllers d ns' = set_NetworkName (ni_Name n) ns).
Proof.
  intros H Hr. unfold request_network_state in Hr.
  apply bind_Ret_inv in Hr as (br & ? & [= Hbr <-] & Hr).
  apply bind_Ret_inv in Hr as (mode & ? & [= Hmode <-] & Hr).
  apply bind_Ret_inv in Hr as ([gw mask] & ? & [= Hgw <-] & Hr).
  apply bind_Ret_inv in Hr as (u & s2 & Hw & Hr).
  assert (s2 = s) as ->.
  { match type of Hw with ?m s = _ => assert (keeps (λ s', s' = s) m) as Hk by keeps_tac end.
    specialize (Hk s eq_refl). by rewrite Hw in Hk. }
  apply bind_Ret_inv in Hr as (uint & ? & [= Hu <-] & Hr).
  apply bind_Ret_inv in Hr as (dyn & s3 & Hd & [= <- <-]).
  erewrite gateway_agrees in Hgw by apply H. injection Hgw as Hgw.
  injection Hd as <- <-.
  destruct (bridge_name_requested r n m br H Hbr) as (short & Hshort & Hid & Hname).
  pose proof (mode_requested r n m mode H Hmode) as Hm.
  unfold getNetworkStateFromResource, recovering, mustGetBridgeDpidFromResource.
  erewrite (resource_option_reported r n m bridgeDpid) by done.
  unfold mustGetBridgeDpid in Hu. rewrite Hgw, Hshort.
  cbn -[getStrOptionFromResource getUintOptionFromResource set_Controller bridgePrefix]. rewrite Hu.
  cbn -[getStrOptionFromResource getUintOptionFromResource set_Controller bridgePrefix].
  eexists _, short. split; [done|]. split; [reflexivity|].
  rewrite (mode_reported r n m) by done.
  rewrite !(resource_uint_reported r n m), !(resource_option_reported r n m) by done.
  unfold mustGetBridgeController, with_controllers. cbn [ns_Controller ns_BridgeName ns_Mode].
  split_and!; [by destruct (decide (getGenericOption r bridgeController = ""))|done..|].
  intros Hnone Hne. rewrite decide_False in Hm by done. rewrite Hnone in Hname. cbn in Hname.
  rewrite Hm, Hname. by destruct (decide (getGenericOption r bridgeController = "")).
Qed.
End restart.

(** ** A network with a gateway, as requested and as reported *)

Module Gateway.
Definition options : gmap string string :=
  <["ovs.bridge.dpid" := "0x620"]> (<["ovs.bridge.mode" := "nat"]> {["ovs.bridge.vlan" := "200"]}).
Definition request : CreateNetworkRequest :=
  mkCreateNetworkRequest "4f1d8f0e3a"
    (Some [(genericOption, IMap (prod_map id IStr <$> map_to_list options))])
    [Some (mkIPAMData "10.1.0.1/16")] [].
Definition inspect : NetInspect :=
  mkNetInspect "testnet" "4f1d8f0e3a" (Some options) [mkIPAMConfig "10.1.0.0/16" "10.1.0.1"] ∅.

(** What the request makes, with everything outside working. *)
Definition result : outcome NetworkState * state :=
  request_network_state (E := scripted quiet) plain_driver request (start plain_driver).
Definition ns : NetworkState :=
  match result.1 with Ret ns => ns | _ => zero_NetworkState end.

Lemma reported : reports request inspect options.
Proof.
  split; try reflexivity; [by exists []|].
  right. exists "10.1.0.1", "16", "10.1.0.0", [], []. split_and!; (reflexivity || decide_now).
Qed.
End Gateway.

Lemma restored_state_agrees_witness :
  ns_BridgeVLAN Gateway.ns = 200%Z ∧
  ∃ ns', getNetworkStateFromResource (E := scripted quiet) Gateway.inspect "0ABCDE" (start plain_driver)
      = (Ret (ns', None), Gateway.result.2) ∧
    with_controllers plain_driver ns' = set_NetworkName "testnet" Gateway.ns.
Proof.
  split; [vm_compute; reflexivity|].
  destruct (restored_state_agrees (E := scripted quiet) plain_driver Gateway.request Gateway.inspect
    Gateway.options (start plain_driver) Gateway.ns Gateway.result.2 Gateway.reported)
    as (ns' & short & _ & Hrun & _ & _ & _ & H); [vm_compute; reflexivity|].
  exists ns'. split; [exact Hrun|]. apply H; vm_compute; [reflexivity|discriminate].
Defined.

(** ** What a request is checked for *)

Section validation.
Context `{E : Env}.

(** C26: A create request that is accepted is consistent: its mode is one of the three that
    dovesnap knows, its datapath ID is a non-zero number, and a network that uses DHCP is
    flat, has no gateway address and is internal. *)
Theorem accepted_request_valid d r s ns s1 :
  request_network_state d r s = (Ret ns, s1) →
  ns_Mode ns ∈ validModes ∧ (0 < ns_BridgeDpidUint ns ≤ u64_max)%Z ∧
  (ns_UseDHCP ns = true →
     ns_Mode ns = modeFlat ∧ ns_Gateway ns = "" ∧ mustGetInternalOption r = Ret true).
Proof.
  intros Hr. unfold request_network_state in Hr.
  apply bind_Ret_inv in Hr as (br & ? & [= Hbr <-] & Hr).
  apply bind_Ret_inv in Hr as (mode & ? & [= Hmode <-] & Hr).
  apply bind_Ret_inv in Hr as ([gw mask] & ? & [= Hgw <-] & Hr).
  apply bind_Ret_inv in Hr as (u & s2 & Hw & Hr).
  apply bind_Ret_inv in Hr as (uint & ? & [= Hu <-] & Hr).
  apply bind_Ret_inv in Hr as (dyn & s3 & Hd & [= <- <-]). cbn [ns_Mode ns_BridgeDpidUint ns_UseDHCP ns_Gateway].
  split_and!.
  - unfold mustGetBridgeMode in Hmode. case_decide; [injection Hmode as <-; vm_compute; set_solver|].
    destruct (bool_decide _) eqn:Hm; [|done]. injection Hmode as <-. by apply bool_decide_eq_true_1 in Hm.
  - by eapply mustGetUintFromHexStr_bounds.
  - by eapply mustGetUintFromHexStr_bounds.
  - intros Hdhcp. rewrite Hdhcp in Hw. cbn [when] in Hw.
    apply bind_Ret_inv in Hw as ([] & s4 & H1 & Hw). apply bind_Ret_inv in Hw as ([] & s5 & H2 & Hw).
    apply bind_Ret_inv in Hw as (internal & s6 & [= H3 <-] & Hw).
    destruct (bool_decide (mode ≠ "flat")) eqn:E1; [done|].
    destruct (bool_decide (gw ≠ "")) eqn:E2; [done|]. destruct internal; [|done].
    apply bool_decide_eq_false_1, dec_stable in E1. apply bool_decide_eq_false_1, dec_stable in E2. done.
Qed.
End validation.

Lemma accepted_request_valid_witness :
  ns_Mode Gateway.ns ∈ validModes ∧ (0 < ns_BridgeDpidUint Gateway.ns ≤ u64_max)%Z.
Proof.
  destruct (accepted_request_valid (E := scripted quiet) plain_driver Gateway.request
    (start plain_driver) Gateway.ns Gateway.result.2) as (Hm & Hu & _); [vm_compute; reflexivity|].
  split; [exact Hm|exact Hu].
Defined.
