(* ===== verification/Links.v ===== *)
(** * Links between bridges

    The bridge of a network is linked to the mirror, stacking and loopback bridges, which
    all networks share.  Here the commands of a history are read as what they do to the
    ports of a bridge: what creating and deleting the bridge of a network adds and removes. *)
From S2P Require Import Prelude GoStrings GoMonad World Scenario Utils OvsDb OvsPort Types Config Iptables Faucet Docker OvsBridge Driver.

(** ** The effects of a history *)

Section effects.
Context `{E : Env}.

(** A command, run after the history [t], is carried out. *)
Definition carried_out (t : list call) (c : call) : bool :=
  match c with
  | CRun cmd args => bool_decide ((env_reply t (CRun cmd args)).2 = None)
  | CIptables args => bool_decide ((env_reply t (CIptables args)).2 = None)
  | _ => true
  end.

(** What the calls [t], made after the history [past], turn [a] into. *)
Fixpoint replay {A} (effect : A → call → A) (past : list call) (a : A) (t : list call) : A :=
  match t with
  | [] => a
  | c :: t' => replay effect (past ++ [c]) (if carried_out past c then effect a c else a) t'
  end.

Lemma replay_snoc {A} (effect : A → call → A) past a t c :
  replay effect past a (t ++ [c]) =
    if carried_out (past ++ t) c then effect (replay effect past a t) c else replay effect past a t.
Proof.
  revert past a. induction t as [|c' t IH]; intros past a; cbn [app replay].
  - by rewrite app_nil_r.
  - rewrite IH. by rewrite <- app_assoc.
Qed.
End effects.

(** ** The ports of a bridge *)

(** What an ovs-vsctl command does to the ports of a bridge. *)
Definition vs_effect (B : string) (args : list string) (ports : gset string) : gset string :=
  match args with
  | [op; b] => if decide (op = "del-br" ∧ b = B) then ∅ else ports
  | op :: b :: p :: _ =>
      if decide (op = "add-port" ∧ b = B) then {[p]} ∪ ports
      else if decide (op = "del-port" ∧ b = B) then ports ∖ {[p]}
      else if decide (op = "--if-exists" ∧ b = "del-br" ∧ p = B) then ∅
      else ports
  | _ => ports
  end.

Definition call_effect (B : string) (ports : gset string) (c : call) : gset string :=
  match c with
  | CRun cmd (_ :: args) => if decide (cmd = ovsvsctlPath) then vs_effect B args ports else ports
  | _ => ports
  end.

(** A command that does not touch the ports of a bridge. *)
Definition harmless (B : string) (args : list string) : Prop := ∀ ports, vs_effect B args ports = ports.

Section links.
Context `{E : Env}.
Implicit Types (B br peer : string).

(** The ports that the commands of a history leave on a bridge. *)
Definition ports_of B (t : list call) : gset string := replay (call_effect B) [] ∅ t.

Lemma ports_of_snoc B t c :
  ports_of B (t ++ [c]) = if carried_out t c then call_effect B (ports_of B t) c else ports_of B t.
Proof. apply replay_snoc. Qed.

Definition has_ports B (v : gset string) (i : io) : Prop := ports_of B (io_trace i) = v.

Lemma keeps_call B v c : (∀ ports, call_effect B ports c = ports) → keeps (has_ports B v) (ext c).
Proof. intros Hc i Hi. change (ports_of B (io_trace i ++ [c]) = v). rewrite ports_of_snoc, Hc. by destruct (carried_out _ _). Qed.

Lemma keeps_VsCtl B v args : harmless B args → keeps (has_ports B v) (VsCtl args).
Proof.
  intros Ha. unfold VsCtl, RunCmd. apply keeps_bind; [|intros []; by intros i].
  apply keeps_call. intros ports. cbn [call_effect]. rewrite decide_True by done. apply Ha.
Qed.

Lemma keeps_mustVsCtl B v args : harmless B args → keeps (has_ports B v) (mustVsCtl args).
Proof.
  intros Ha. unfold mustVsCtl. apply keeps_bind; [by apply keeps_VsCtl|]. intros []. keeps_tac.
Qed.

Lemma keeps_OfCtl B v args : keeps (has_ports B v) (OfCtl args).
Proof.
  unfold OfCtl, RunCmd. apply keeps_bind; [|intros []; by intros i]. apply keeps_call.
  intros ports. unfold call_effect. destruct args; [done|]. by rewrite decide_False.
Qed.

Lemma keeps_mustOfCtl B v args : keeps (has_ports B v) (mustOfCtl args).
Proof. unfold mustOfCtl. apply keeps_bind; [apply keeps_OfCtl|]. intros []. keeps_tac. Qed.

Lemma keeps_ports_range {K V} `{Countable K} B v (m : gmap K V) : keeps (has_ports B v) (range m).
Proof. by intros i. Qed.

Lemma keeps_ports_Sleep B v n : keeps (has_ports B v) (Sleep n).
Proof. by apply keeps_call. Qed.

#[local] Hint Resolve keeps_VsCtl keeps_mustVsCtl keeps_OfCtl keeps_mustOfCtl keeps_ports_range
  keeps_ports_Sleep : keeps.

(** Commands on another bridge are harmless, and so are those that change no port. *)
Lemma harmless_bridge B br op rest : B ≠ br → op ≠ "--if-exists" → harmless B (op :: br :: rest).
Proof.
  intros Hne Hop ports. unfold vs_effect. destruct rest.
  - by rewrite decide_False by (intros []; congruence).
  - by rewrite !decide_False by (intros []; congruence).
Qed.

Lemma harmless_if_exists B br : B ≠ br → harmless B ["--if-exists"; "del-br"; br].
Proof. intros Hne ports. unfold vs_effect. by rewrite !decide_False by (intros (? & ? & ?) || intros []; congruence). Qed.

Lemma harmless_verb B op rest :
  op ∉ ["add-port"; "del-port"; "del-br"; "--if-exists"] → harmless B (op :: rest).
Proof.
  rewrite !not_elem_of_cons. intros (H1 & H2 & H3 & H4 & _) ports. unfold vs_effect.
  destruct rest as [|b [|p rest]]; [done|..]; by rewrite !decide_False by (intros []; congruence).
Qed.

(** A word that is none of the verbs. *)
Ltac other_verb := apply harmless_verb; rewrite !not_elem_of_cons; split_and!; try discriminate; apply not_elem_of_nil.

Lemma harmless_add_port_cmd B br p : B ≠ br → harmless B (add_port_cmd br p).
Proof. intros Hne. destruct p as [name n]. unfold add_port_cmd. by case_match; apply harmless_bridge. Qed.

Lemma harmless_bridge_config B br controller dpid userspace mac :
  Forall (harmless B) (bridge_config_cmds br controller dpid userspace mac).
Proof.
  unfold bridge_config_cmds. rewrite !Forall_app. split_and!; repeat case_match;
    repeat apply Forall_cons_2; try apply Forall_nil_2; other_verb.
Qed.

Lemma keeps_run_config_cmds B v br cmds : B ≠ br → Forall (harmless B) cmds →
  keeps (has_ports B v) (run_config_cmds br cmds).
Proof.
  intros Hne. induction 1 as [|cmd cmds Hc _ IH]; cbn [run_config_cmds]; [keeps_tac|].
  apply keeps_bind; [by apply keeps_VsCtl|]. intros [out [e|]]; [|exact IH].
  apply keeps_bind; [by apply keeps_VsCtl, harmless_bridge|]. keeps_tac.
Qed.

Lemma keeps_check_added_ports B v br ports : B ≠ br → keeps (has_ports B v) (check_added_ports br ports).
Proof.
  intros Hne. induction ports as [|[name n] ports IH]; cbn [check_added_ports]; [keeps_tac|].
  apply keeps_bind; [|intros [p|e]; [exact IH|]].
  - unfold getOfPort. apply keeps_bind; [apply keeps_mustVsCtl; other_verb|]. keeps_tac.
  - apply keeps_bind; [by apply keeps_VsCtl, harmless_bridge|]. keeps_tac.
Qed.

(** The bridge of a network is created with commands on that bridge alone. *)
Lemma keeps_createBridge B v br controller dpid add_ports userspace mac : B ≠ br →
  keeps (has_ports B v) (createBridge br controller dpid add_ports false userspace mac).
Proof.
  intros Hne. unfold createBridge, addBridge, interfaceUp.
  apply keeps_bind.
  { apply keeps_bind; [by apply keeps_VsCtl, harmless_if_exists|]. intros _.
    apply keeps_VsCtl; other_verb. }
  intros [out [e|]]; [keeps_tac|]. apply keeps_bind; [keeps_tac|]. intros added.
  apply keeps_bind; [apply keeps_ports_range|]. intros order. apply keeps_bind.
  { apply keeps_run_config_cmds; [done|]. apply Forall_app. split; [apply harmless_bridge_config|].
    apply Forall_map, Forall_forall. intros p _. by apply harmless_add_port_cmd. }
  intros [e|]; [keeps_tac|]. apply keeps_bind; [apply keeps_ports_range|]. intros check.
  apply keeps_bind; [by apply keeps_check_added_ports|]. intros [e|]; [keeps_tac|].
  apply keeps_bind; [keeps_tac|]. intros _. apply keeps_bind.
  { apply keeps_bind; [by apply keeps_call|]. intros [iface [e|]]; keeps_tac. by apply keeps_call. }
  intros [e|]; [|keeps_tac]. apply keeps_bind; [by apply keeps_VsCtl, harmless_bridge|]. keeps_tac.
Qed.

Lemma keeps_initBridge B v ns controller dpid add_ports userspace mac : B ≠ ns_BridgeName ns →
  keeps (has_ports B v) (initBridge ns controller dpid add_ports userspace mac).
Proof.
  intros Hne. unfold initBridge, setInterfaceIP, getIfaceAddr, natOut, Fatalf.
  apply keeps_bind; [by apply keeps_createBridge|].
  intros [e|]; keeps_tac; by apply keeps_call.
Qed.

Lemma keeps_lowest_free B v br : keeps (has_ports B v) (mustLowestFreePortOnBridge br).
Proof.
  unfold mustLowestFreePortOnBridge, mustScrapePortDesc, scrape_attempt, scrapePortDesc. keeps_tac.
Qed.

Lemma keeps_mustGetOfPort B v name : keeps (has_ports B v) (mustGetOfPort name).
Proof.
  unfold mustGetOfPort, getOfPort. apply keeps_bind; [|keeps_tac].
  apply keeps_bind; [apply keeps_mustVsCtl; other_verb|]. keeps_tac.
Qed.

(** What returns keeps the ports that it was shown to keep. *)
Lemma keeps_ports_Ret {A} B (m : IO A) i a i' :
  (∀ v, keeps (has_ports B v) m) → m i = (Ret a, i') →
  ports_of B (io_trace i') = ports_of B (io_trace i).
Proof. intros Hm H. specialize (Hm _ i eq_refl). rewrite H in Hm. exact Hm. Qed.

Lemma VsCtl_ports B args i out err i' : VsCtl args i = (Ret (out, err), i') →
  ports_of B (io_trace i') =
    if decide (err = None) then vs_effect B args (ports_of B (io_trace i)) else ports_of B (io_trace i).
Proof.
  rewrite VsCtl_eq. unfold vs_reply, run_reply. intros [= _ <- <-]. cbn [io_trace]. unfold vs.
  rewrite ports_of_snoc. cbn [call_effect carried_out]. rewrite decide_True by done.
  case_decide; [by rewrite bool_decide_eq_true_2|by rewrite bool_decide_eq_false_2].
Qed.

Lemma add_port_effect B b p rest ports :
  vs_effect B ("add-port" :: b :: p :: rest) ports = if decide (b = B) then {[p]} ∪ ports else ports.
Proof.
  unfold vs_effect. destruct (decide (b = B)); [by rewrite decide_True|].
  by rewrite !decide_False by (intros []; congruence).
Qed.

Lemma del_port_effect B b p ports :
  vs_effect B ["del-port"; b; p] ports = if decide (b = B) then ports ∖ {[p]} else ports.
Proof.
  unfold vs_effect. rewrite decide_False by (intros []; congruence).
  destruct (decide (b = B)); [by rewrite decide_True|]. by rewrite !decide_False by (intros []; congruence).
Qed.

(** The port of the link on the other bridge; whether it could be added is not checked. *)
Lemma mustAddPatchPort_ports B br peer p1 p2 i r i' : B ≠ br →
  mustAddPatchPort br peer p1 p2 i = (Ret r, i') →
  ∃ name, patchName peer br = Ret name ∧
    (ports_of B (io_trace i') = ports_of B (io_trace i) ∨
     peer = B ∧ ports_of B (io_trace i') = {[name]} ∪ ports_of B (io_trace i)).
Proof.
  intros Hne H.
  apply bind_Ret_inv in H as (q1 & i1 & H1 & H). apply bind_Ret_inv in H as (q2 & i2 & H2 & H).
  assert (ports_of B (io_trace i2) = ports_of B (io_trace i)) as Hi2.
  { transitivity (ports_of B (io_trace i1)); eapply keeps_ports_Ret; try eassumption;
      intros v; destruct (_ =? _)%Z; keeps_tac; apply keeps_lowest_free. }
  apply bind_Ret_inv in H as (n1 & i3 & [= _ <-] & H). apply bind_Ret_inv in H as (n2 & i4 & [= Hn <-] & H).
  apply bind_Ret_inv in H as (e1 & i5 & H5 & H). apply bind_Ret_inv in H as (e2 & i6 & H6 & H).
  apply bind_Ret_inv in H as (e3 & i7 & H7 & H).
  assert (ports_of B (io_trace i7) = ports_of B (io_trace i2)) as Hi7.
  { transitivity (ports_of B (io_trace i6)); [|transitivity (ports_of B (io_trace i5))];
      eapply keeps_ports_Ret; try eassumption; intros v; by apply keeps_call. }
  apply bind_Ret_inv in H as ([o1 f1] & i8 & H8%(VsCtl_ports B) & H).
  apply bind_Ret_inv in H as ([o2 f2] & i9 & H9%(VsCtl_ports B) & [= _ <-]).
  exists n2. split; [done|]. rewrite H9, H8, !add_port_effect, Hi7, Hi2.
  rewrite (decide_False (P := br = B)) by congruence.
  destruct (decide (f1 = None)), (decide (f2 = None)), (decide (peer = B)); auto.
Qed.

Lemma mustVsCtl_ports B args i r i' : mustVsCtl args i = (Ret r, i') →
  ports_of B (io_trace i') = vs_effect B args (ports_of B (io_trace i)).
Proof.
  intros ([out err] & i1 & H1%(VsCtl_ports B) & H)%bind_Ret_inv.
  apply bind_Ret_inv in H as ([] & i2 & H2 & [= _ <-]). destruct err; [done|]. injection H2 as <-.
  by rewrite decide_True in H1.
Qed.

Lemma mustDeletePatchPort_ports B br peer i i' : B ≠ br →
  mustDeletePatchPort br peer i = (Ret tt, i') →
  ∃ name, patchName peer br = Ret name ∧
    ports_of B (io_trace i') =
      if decide (peer = B) then ports_of B (io_trace i) ∖ {[name]} else ports_of B (io_trace i).
Proof.
  intros Hne H. apply bind_Ret_inv in H as (n1 & i1 & [= _ <-] & H).
  apply bind_Ret_inv in H as (n2 & i2 & [= Hn <-] & H). apply bind_Ret_inv in H as ([] & i3 & H3 & H).
  apply bind_Ret_inv in H3 as (o3 & j3 & H3%(mustVsCtl_ports B) & [= <-]).
  apply bind_Ret_inv in H as ([] & i4 & H4 & H).
  apply bind_Ret_inv in H4 as (o4 & j4 & H4%(mustVsCtl_ports B) & [= <-]).
  apply bind_Ret_inv in H as (e & i5 & H5 & [= <-]). apply (keeps_ports_Ret B) in H5;
    [|intros v; by apply keeps_call].
  exists n2. split; [done|]. rewrite H5, H4, H3, !del_port_effect.
  by rewrite (decide_False (P := br = B)) by congruence.
Qed.

(** ** The bridge of a network *)

(** The shared bridges that the settings link a network's bridge to. *)
Definition linked (d : Driver) B : Prop :=
  (usingMirrorBridge d = true ∧ mirrorBridgeName d = B) ∨
  (usingStacking d = Ret true ∧ stackDpName d = B) ∨
  (usingStackMirroring d = Ret true ∧ loopbackBridgeName d = B).

(** One of the links: what it adds, and what its removal takes away. *)
Lemma link_step B br peer (on : bool) (m : IO unit) i i' name :
  (∀ i', m i = (Ret tt, i') → ∃ name, patchName peer br = Ret name ∧
    (ports_of B (io_trace i') = ports_of B (io_trace i) ∨
     peer = B ∧ ports_of B (io_trace i') = {[name]} ∪ ports_of B (io_trace i))) →
  when on m i = (Ret tt, i') → patchName B br = Ret name →
  ports_of B (io_trace i') = ports_of B (io_trace i) ∨
  (on = true ∧ peer = B) ∧ ports_of B (io_trace i') = {[name]} ∪ ports_of B (io_trace i).
Proof.
  intros Hm H Hn. destruct on; [|injection H as <-; by left].
  destruct (Hm _ H) as (name' & Hn' & [->|[-> ->]]); [by left|right].
  by assert (name' = name) as -> by congruence.
Qed.

Lemma unlink_step B br peer (on : bool) (m : IO unit) i i' name :
  (∀ i', m i = (Ret tt, i') → ∃ name, patchName peer br = Ret name ∧ ports_of B (io_trace i') =
    if decide (peer = B) then ports_of B (io_trace i) ∖ {[name]} else ports_of B (io_trace i)) →
  when on m i = (Ret tt, i') → patchName B br = Ret name →
  ports_of B (io_trace i') =
    ports_of B (io_trace i) ∖ (if decide (on = true ∧ peer = B) then {[name]} else ∅).
Proof.
  intros Hm H Hn. destruct on.
  - destruct (Hm _ H) as (name' & Hn' & ->). case_decide as Hp.
    + subst peer. rewrite decide_True by done. by assert (name' = name) as -> by congruence.
    + rewrite decide_False by (intros []; congruence). by rewrite difference_empty_L.
  - injection H as <-. rewrite decide_False by (intros []; congruence). by rewrite difference_empty_L.
Qed.

Lemma elem_of_if P `{Decision P} (p name : string) :
  p ∈ (if decide P then {[name]} else ∅ : gset string) ↔ P ∧ p = name.
Proof. case_decide; rewrite ?elem_of_singleton, ?elem_of_empty; tauto. Qed.

Lemma Ret_iff {A} (a b : A) : Ret a = Ret b ↔ a = b.
Proof. split; congruence. Qed.

(** The links of a network's bridge, on a shared bridge. *)
Lemma InitBridge_links d ns sc B name i i' : B ≠ ns_BridgeName ns →
  patchName B (ns_BridgeName ns) = Ret name → InitBridge d ns sc i = (Ret tt, i') →
  ports_of B (io_trace i') = ports_of B (io_trace i) ∨
  linked d B ∧ ports_of B (io_trace i') = {[name]} ∪ ports_of B (io_trace i).
Proof.
  intros Hne Hn H. set (br := ns_BridgeName ns) in *.
  apply bind_Ret_inv in H as (err & i1 & H1 & H).
  apply (keeps_ports_Ret B) in H1; [|intros v; by apply keeps_initBridge].
  apply bind_Ret_inv in H as ([] & i2 & H2 & H). destruct err; [done|]. injection H2 as <-.
  apply bind_Ret_inv in H as ([] & i3 & H3 & H).
  eapply (link_step B br (mirrorBridgeName d) _ _ _ _ name) in H3; [|clear H3 i3 H|done].
  2: { intros i3 H. apply bind_Ret_inv in H as (q & j1 & Hadd & H).
       apply (mustAddPatchPort_ports B) in Hadd as (n' & Hn' & Hadd); [|done]. exists n'. split; [done|].
       apply bind_Ret_inv in H as (m & j2 & [= _ <-] & H). apply bind_Ret_inv in H as (p & j3 & Hp & H).
       apply (keeps_ports_Ret B) in Hp; [|intros v; apply keeps_mustGetOfPort].
       apply bind_Ret_inv in H as (o & j4 & Ho & [= <-]).
       apply (keeps_ports_Ret B) in Ho; [|intros v; apply keeps_mustOfCtl]. congruence. }
  apply bind_Ret_inv in H as (stacking & i4 & [= Hst <-] & H).
  apply bind_Ret_inv in H as ([] & i5 & H5 & H).
  eapply (link_step B br (stackDpName d) _ _ _ _ name) in H5; [|clear H5 i5 H|done].
  2: { intros i5 H. apply bind_Ret_inv in H as (q & j1 & Hadd & [= <-]).
       by apply (mustAddPatchPort_ports B) in Hadd. }
  apply bind_Ret_inv in H as (mirroring & i6 & [= Hmi <-] & H6).
  eapply (link_step B br (loopbackBridgeName d) _ _ _ _ name) in H6; [|clear H6|done].
  2: { intros i6 H. apply bind_Ret_inv in H as (q & j1 & Hadd & [= <-]).
       by apply (mustAddPatchPort_ports B) in Hadd. }
  unfold linked. rewrite Hst, Hmi, !Ret_iff, <- H1.
  destruct H6 as [->|[? ->]], H5 as [->|[? ->]], H3 as [->|[? ->]]; auto;
    right; (split; [tauto|]); by rewrite ?(assoc_L (∪)), ?(idemp_L (∪)).
Qed.

Lemma mustDeleteBridgeAndPorts_links d br B name i i' : B ≠ br →
  patchName B br = Ret name → mustDeleteBridgeAndPorts d br i = (Ret tt, i') →
  ∀ p, p ∈ ports_of B (io_trace i') ↔ p ∈ ports_of B (io_trace i) ∧ ¬ (linked d B ∧ p = name).
Proof.
  intros Hne Hn H. apply bind_Ret_inv in H as ([] & i1 & H1 & H).
  eapply (unlink_step B br (mirrorBridgeName d) _ _ _ _ name) in H1;
    [|intros j Hj; by apply (mustDeletePatchPort_ports B) in Hj|done].
  apply bind_Ret_inv in H as (stacking & i2 & [= Hst <-] & H).
  apply bind_Ret_inv in H as ([] & i3 & H3 & H).
  apply bind_Ret_inv in H as (o & i4 & H4%(mustVsCtl_ports B) & [= <-]).
  rewrite (harmless_bridge B br) in H4 by done. intros p. rewrite H4. clear H4.
  destruct stacking; cbn [when] in H3.
  - apply bind_Ret_inv in H3 as ([] & j1 & Hj1 & H3).
    eapply (unlink_step B br (stackDpName d) true _ _ _ name) in Hj1;
      [|intros j Hj; by apply (mustDeletePatchPort_ports B) in Hj|done].
    apply bind_Ret_inv in H3 as (mirroring & j2 & [= Hmi <-] & H3).
    eapply (unlink_step B br (loopbackBridgeName d) _ _ _ _ name) in H3;
      [|intros j Hj; by apply (mustDeletePatchPort_ports B) in Hj|done].
    rewrite H3, Hj1, H1, !elem_of_difference, !elem_of_if. unfold linked.
    rewrite Hst, Hmi, !Ret_iff. tauto.
  - injection H3 as <-. rewrite H1, elem_of_difference, elem_of_if. unfold linked, usingStackMirroring.
    rewrite Hst. cbn. rewrite !Ret_iff. intuition congruence.
Qed.

(** The bridge's own ports are gone with it. *)
Lemma mustDeleteBridgeAndPorts_own d br i i' :
  mustDeleteBridgeAndPorts d br i = (Ret tt, i') → ports_of br (io_trace i') = ∅.
Proof.
  intros ([] & j1 & _ & H)%bind_Ret_inv. apply bind_Ret_inv in H as (st & j2 & _ & H).
  apply bind_Ret_inv in H as ([] & j3 & _ & H).
  apply bind_Ret_inv in H as (o & j4 & H%(mustVsCtl_ports br) & [= <-]).
  rewrite H. unfold vs_effect. by rewrite decide_True.
Qed.
End links.
