(* ===== verification/Handlers.v ===== *)
(** * The resource manager's handlers: ovs/driver.go

    One definition for each [mustHandle...] function and for the two reconcilers,
    and the loop that dispatches messages to them. *)
From S2P Require Import Prelude GoStrings GoFormat GoMonad World Scenario Utils OvsDb OvsPort Types Config Iptables Faucet Docker OvsBridge Driver.

Section handlers.
Context `{E : Env}.

(** [d.networks\[id\]]: the zero state for an unknown network. *)
Definition network_of (d : Driver) (id : string) : NetworkState :=
  default zero_NetworkState (networks d !! id).
Definition mirror_of (d : Driver) (id : string) : StackMirrorConfig :=
  default zero_StackMirrorConfig (stackMirrorConfigs d !! id).

Definition getExternalPortState (ifName : string) (ofPort : Z) : IO ExternalPortState :=
  mac ← getMacAddr ifName;
  ret (mkExternalPortState ifName ofPort mac).

(** ** Delete *)

(** The body of mustHandleDeleteNetwork; its deferred functions are added below. *)
Definition delete_work (opMsg : DovesnapOp) : D unit :=
  d ← get_d;
  let ns := network_of d (op_NetworkID opMsg) in
  io_do (mustDeleteDp (ns_NetworkName ns));;
  when (bool_decide (ns_Mode ns = modeNAT)) (
    let gatewayIP := ns_Gateway ns +:+ "/" +:+ ns_GatewayMask ns in
    err ← io_do (natOut gatewayIP "-D");
    match err with
    | Some e =>
        io_do (Fatalf ("Could not delete NAT rules for bridge " +:+ ns_BridgeName ns
          +:+ " because " +:+ e));;
        panic e
    | None => skip
    end);;
  io_do (mustDeleteBridgeAndPorts d (ns_BridgeName ns));;
  modify (upd_d (λ d, set_networks (delete (op_NetworkID opMsg) (networks d)) d));;
  modify (upd_d (λ d,
    set_stackMirrorConfigs (delete (op_NetworkID opMsg) (stackMirrorConfigs d)) d));;
  send_reply (op_Reply opMsg) zero_DovesnapOpReply;;
  send_note (mkNotifyMsg ns "NETWORK" "DELETE" None).

Definition mustHandleDeleteNetwork (opMsg : DovesnapOp) : D unit :=
  deferring (recovering (delete_work opMsg) (λ rerr, skip)) wg_done.

(** ** Create *)

(** [for add_port := range addPorts] over the ordinary ports. *)
Definition add_port_step (ns : NetworkState) (vlans : gmap string Z) (p : string * Z)
    (add_interfaces : string) : D string :=
  let '(add_port, _) := p in
  ofPort ← io_do (mustGetOfPort add_port);
  let portVlan := default (ns_BridgeVLAN ns) (vlans !! add_port) in
  let add_interfaces :=
    add_interfaces +:+ vlanInterfaceYaml ofPort ("Physical interface " +:+ add_port) portVlan "" in
  xp ← io_do (getExternalPortState add_port ofPort);
  put_external ns add_port xp;;
  ret add_interfaces.

(** The same loop over the coprocessor ports. *)
Definition add_copro_port_step (ns : NetworkState) (p : string * Z) (add_interfaces : string) :
    D string :=
  let '(add_port, _) := p in
  ofPort ← io_do (mustGetOfPort add_port);
  let add_interfaces :=
    add_interfaces +:+ coproInterfaceYaml ofPort ("Physical interface " +:+ add_port) "vlan_vid" in
  xp ← io_do (getExternalPortState add_port ofPort);
  put_external ns add_port xp;;
  ret add_interfaces.

(** [for prePort := uint(0); prePort < ns.PreAllocatePorts; prePort++] *)
Fixpoint preallocate (n : nat) (nextPrePort : Z) (vlan : Z) (acl : string)
    (add_interfaces : string) : string :=
  match n with
  | O => add_interfaces
  | S n' =>
      preallocate n' (wrap32 (nextPrePort + 1)) vlan acl
        (add_interfaces +:+ vlanInterfaceYaml nextPrePort "preallocated port" vlan acl)
  end.

(** [for port_no, acls := range addPortsAcls] *)
Definition port_acl_step (ns : NetworkState) (p : Z * string) (_ : unit) : D unit :=
  let '(port_no, acls) := p in
  let networkAcls := getStrForNetwork acls (ns_NetworkName ns) in
  when (bool_decide (networkAcls ≠ ""))
    (io_do (mustSetPortAcl (ns_NetworkName ns) port_no networkAcls)).

(** The physical and coprocessor ports: their YAML, and the ACLs to set. *)
Definition create_added_ports (ns : NetworkState) (add_ports add_copro_ports : string) :
    D (string * gmap Z string) :=
  '(add_interfaces, acls) ←
    (if decide (add_ports = "") then ret ("", ∅)
     else
       added ← lift (parseAddPorts add_ports (mkAdded ∅ (Some ∅) (Some ∅)));
       entries ← io_do (range (ad_ports added));
       add_interfaces ← for_each entries "" (add_port_step ns (default ∅ (ad_vlans added)));
       ret (add_interfaces, default ∅ (ad_acls added)));
  if decide (add_copro_ports = "") then ret (add_interfaces, acls)
  else
    added ← lift (parseAddPorts add_copro_ports (mkAdded ∅ (Some acls) None));
    entries ← io_do (range (ad_ports added));
    add_interfaces ← for_each entries add_interfaces (add_copro_port_step ns);
    ret (add_interfaces, default ∅ (ad_acls added)).

(** The port of the network's own bridge, for a network with a gateway. *)
Definition create_gateway_port (ns : NetworkState) (mode inspectBridgeName add_interfaces : string) :
    D string :=
  if decide (mode = "nat" ∨ mode = "routed") then
    let netAcl := getStrForNetwork (ns_NATAcl ns) (ns_NetworkName ns) in
    let add_interfaces := add_interfaces +:+
      localVlanInterfaceYaml ofPortLocal "OVS Port default gateway" (ns_BridgeVLAN ns) netAcl in
    xp ← io_do (getExternalPortState inspectBridgeName ofPortLocal);
    put_external ns inspectBridgeName xp;;
    ret add_interfaces
  else ret add_interfaces.

(** The link to the mirror bridge. *)
Definition create_mirror_port (d : Driver) (ns : NetworkState) (sc : StackMirrorConfig)
    (add_interfaces : string) : D string :=
  if usingMirrorBridge d then
    mirrorPortName ← lift (patchName (ns_BridgeName ns) (mirrorBridgeName d));
    peerMirrorPortName ← lift (patchName (mirrorBridgeName d) (ns_BridgeName ns));
    let ofPort := smc_LbPort sc in
    peerOfPort ← io_do (mustGetOfPort peerMirrorPortName);
    put_other ns mirrorPortName (mkOtherBridgePortState mirrorPortName peerMirrorPortName
      ofPort peerOfPort (mirrorBridgeName d));;
    ret (add_interfaces +:+ itoa ofPort +:+ ": {description: mirror, output_only: true},")
  else ret add_interfaces.

(** The configuration that is sent: the datapath alone, or with its link to the
    stacking bridge. *)
Definition create_config_yaml (d : Driver) (ns : NetworkState) (add_interfaces : string)
    (egressPipeline : bool) : D string :=
  stacking ← lift (usingStacking d);
  if stacking then
    ofPortName ← lift (patchName (ns_BridgeName ns) (stackDpName d));
    peerOfPortName ← lift (patchName (stackDpName d) (ns_BridgeName ns));
    ofPort ← io_do (mustGetOfPort ofPortName);
    peerOfPort ← io_do (mustGetOfPort peerOfPortName);
    put_other ns ofPortName (mkOtherBridgePortState ofPortName peerOfPortName ofPort peerOfPort
      (stackDpName d));;
    let localDpYaml := mergeDpInterfacesYaml (ns_NetworkName ns) (ns_BridgeDpidUint ns)
      ("OVS Bridge " +:+ ns_BridgeName ns)
      (add_interfaces +:+ stackInterfaceYaml ofPort (stackDpName d) peerOfPort) egressPipeline in
    let remoteDpYaml := stackDpName d +:+ ": {interfaces: {"
      +:+ stackInterfaceYaml peerOfPort (ns_NetworkName ns) ofPort +:+ "}}" in
    ret ("{dps: {" +:+ localDpYaml +:+ " " +:+ remoteDpYaml +:+ "}}")
  else
    ret (mergeSingleDpYaml (ns_NetworkName ns) (ns_BridgeDpidUint ns)
      ("OVS Bridge " +:+ ns_BridgeName ns) add_interfaces egressPipeline).

(** The first part of mustHandleCreateNetwork: learn the network's name from docker
    and register the network; also the name of the bridge in docker's view. *)
Definition create_register (opMsg : DovesnapOp) : D (NetworkState * string) :=
  d ← get_d;
  netInspect ← io_do (mustGetNetworkInspectFromID (op_NetworkID opMsg));
  '(inspectNs, err) ← getNetworkStateFromResource netInspect (shortEngineId d);
  must_nil err;;
  modify (upd_d (λ d, set_stackMirrorConfigs
    (<[op_NetworkID opMsg := op_NewStackMirrorConfig opMsg]> (stackMirrorConfigs d)) d));;
  let ns := set_NetworkName (ns_NetworkName inspectNs) (op_NewNetworkState opMsg) in
  modify (upd_d (λ d, set_networks (<[op_NetworkID opMsg := ns]> (networks d)) d));;
  ret (ns, ns_BridgeName inspectNs).

(** The second part: describe the network's ports to Faucet. *)
Definition create_configure (opMsg : DovesnapOp) (ns : NetworkState) (inspectBridgeName : string) :
    D unit :=
  let egressPipeline := bool_decide (ns_VLANOutAcl ns ≠ "") in
  '(add_interfaces, addPortsAcls) ←
    create_added_ports ns (op_AddPorts opMsg) (op_AddCoproPorts opMsg);
  nextPrePort ← io_do (mustLowestFreePortOnBridge (ns_BridgeName ns));
  let defaultAcl :=
    if (0 <? len (ns_DefaultAcl ns))%Z
    then getStrForNetwork (ns_DefaultAcl ns) (ns_NetworkName ns) else "" in
  let add_interfaces := preallocate (Z.to_nat (ns_PreAllocatePorts ns)) nextPrePort
    (ns_BridgeVLAN ns) defaultAcl add_interfaces in
  add_interfaces ← create_gateway_port ns (op_Mode opMsg) inspectBridgeName add_interfaces;
  d ← get_d;
  let stackMirrorConfig := mirror_of d (op_NetworkID opMsg) in
  add_interfaces ← create_mirror_port d ns stackMirrorConfig add_interfaces;
  configYaml ← create_config_yaml d ns add_interfaces egressPipeline;
  io_do (mustSetFaucetConfigFile configYaml);;
  let vlanOutAcl := getStrForNetwork (ns_VLANOutAcl ns) (ns_NetworkName ns) in
  when (bool_decide (vlanOutAcl ≠ ""))
    (io_do (mustSetVlanOutAcl (itoa (ns_BridgeVLAN ns)) vlanOutAcl));;
  mirroring ← lift (usingStackMirroring d);
  when mirroring (
    io_do (mustSetRemoteMirrorPort (ns_NetworkName ns) (smc_LbPort stackMirrorConfig)
      (smc_TunnelVid stackMirrorConfig) (smc_RemoteDpName stackMirrorConfig)
      (smc_RemoteMirrorPort stackMirrorConfig)));;
  acls ← io_do (range addPortsAcls);
  for_each acls tt (port_acl_step ns).

(** The body of mustHandleCreateNetwork. *)
Definition create_work (opMsg : DovesnapOp) : D unit :=
  '(ns, inspectBridgeName) ← create_register opMsg;
  create_configure opMsg ns inspectBridgeName;;
  send_note (mkNotifyMsg ns "NETWORK" "CREATE" None).

Definition mustHandleCreateNetwork (opMsg : DovesnapOp) : D unit :=
  deferring (recovering (create_work opMsg) (λ rerr, skip)) wg_done.

(** ** Containers *)

(** [int(x)] of a float: truncation; out of range it is the least [int64]. *)
Definition float_to_int (m e : Z) : Z :=
  let v := if (0 <=? e)%Z then (m * 2 ^ e)%Z else Z.quot m (2 ^ (- e)) in
  if ((- 2 ^ 63 <=? v) && (v <? 2 ^ 63))%Z then v else (- 2 ^ 63)%Z.

(** [x.(float64)] and then [int]. *)
Definition int_of (v : ivalue) : outcome Z :=
  match v with INum m e => Ret (float_to_int m e) | _ => Panic rt_type_assert end.

Definition mustGetPortMap (portMapRaw : ivalue) : outcome (string * string * string) :=
  match portMapRaw with
  | IMap portMap =>
      hostPort ← int_of (ilookup portMap "HostPort");
      port ← int_of (ilookup portMap "Port");
      ipProto ← int_of (ilookup portMap "Proto");
      let ipProtoName := if (ipProto =? 17)%Z then "udp" else "tcp" in
      Ret (itoa hostPort, itoa port, ipProtoName)
  | _ => Panic rt_type_assert
  end.

(** [options\[portMapOption\].(\[\]interface{})] *)
Definition port_maps (options : list (string * ivalue)) : outcome (list ivalue) :=
  match ilookup options portMapOption with IArr l => Ret l | _ => Panic rt_type_assert end.

(** [inspect.NetworkSettings.Networks\[name\]], and then a field of it. *)
Definition net_settings (c : InspectResponse) (name : string) : outcome EndpointSettings :=
  nets ← deref (ir_Networks c);
  deref (mjoin (nets !! name)).

Definition mustHandleGetNetwork (opMsg : DovesnapOp) : D unit :=
  d ← get_d;
  let ns := network_of d (op_NetworkID opMsg) in
  send_reply (op_Reply opMsg) (mkDovesnapOpReply ns zero_OFPortContainer "").

(** The body of mustHandleReservePort. *)
Definition reserve_work (opMsg : DovesnapOp) : D unit :=
  d ← get_d;
  let ns := network_of d (op_NetworkID opMsg) in
  t ← lift (truncateID (op_EndpointID opMsg));
  let vethName := veth_Name (vethPair t) in
  '(ofPort, _) ← io_do (mustAddInternalPort (ns_BridgeName ns) vethName 0);
  modify (λ s, set_OFPorts (<[op_EndpointID opMsg :=
    mkOFPortContainer ofPort zero_InspectResponse None []]> (st_OFPorts s)) s).

Definition mustHandleReservePort (opMsg : DovesnapOp) : D unit :=
  recovering (reserve_work opMsg) (λ rerr, skip).

(** The ACL of a container's port: its label when it has one, or the network's
    default. *)
Definition container_acl (labels : gmap string string) (ns : NetworkState) : string :=
  match labels !! "dovesnap.faucet.portacl" with
  | Some portAcl =>
      if (0 <? len portAcl)%Z then getStrForNetwork portAcl (ns_NetworkName ns)
      else if (0 <? len (ns_DefaultAcl ns))%Z
           then getStrForNetwork (ns_DefaultAcl ns) (ns_NetworkName ns) else portAcl
  | None =>
      if (0 <? len (ns_DefaultAcl ns))%Z
      then getStrForNetwork (ns_DefaultAcl ns) (ns_NetworkName ns) else ""
  end.

(** A command in the container's network namespace that must succeed. *)
Definition must_netns (id : string) (args : list string) : IO unit :=
  '(_, err) ← ext (CRun "ip" (["netns"; "exec"; id] ++ args));
  must_nil err.

Definition udhcpc_args (id : string) : list string :=
  ["netns"; "exec"; id; "/sbin/udhcpc"; "-f"; "-R"; "-i"; "eth0"; "-s"; "/udhcpclog.sh"].

(** Publish the ports of a container, one rule set after the other. *)
Definition publish (add : bool) (bridgeName gatewayIP hostIP : string) (portMapRaw : ivalue)
    (_ : unit) : IO unit :=
  '(hostPort, port, ipProto) ← lift (mustGetPortMap portMapRaw);
  if add then mustAddGatewayPortMap bridgeName ipProto gatewayIP hostIP hostPort port
  else mustDeleteGatewayPortMap bridgeName ipProto gatewayIP hostIP hostPort port.

(** The prefix of the MAC address that the label asks for.  The new address is a
    variable of the inner block only: the rest of the handler sees the old one. *)
Definition apply_mac_prefix (labels : gmap string string) (id macAddress : string) : IO unit :=
  match labels !! "dovesnap.faucet.mac_prefix" with
  | Some macPrefix =>
      when (0 <? len macPrefix)%Z (
        macAddress ← lift (mustPrefixMAC macPrefix macAddress);
        must_netns id ["ip"; "link"; "set"; "eth0"; "address"; macAddress])
  | None => skip
  end.

Definition mirror_container (d : Driver) (ns : NetworkState) (sc : StackMirrorConfig)
    (labels : gmap string string) (ofPort : Z) : IO unit :=
  match labels !! "dovesnap.faucet.mirror" with
  | Some mirror =>
      when (parseBool (getStrForNetwork mirror (ns_NetworkName ns))) (
        stackMirroring ← lift (usingStackMirroring d);
        when (stackMirroring || usingMirrorBridge d)
          (mustAddPortMirror (ns_NetworkName ns) ofPort (smc_LbPort sc)))
  | None => skip
  end.

Definition start_udhcpc (ns : NetworkState) (id : string) : IO (option Cmd) :=
  env ← ext CEnviron;
  let env := env ++ ["CONTAINER_ID=" +:+ id] in
  if ns_UseDHCP ns then
    err ← ext (CStart "ip" (udhcpc_args id) env);
    must_nil err;;
    ret (Some (mkCmd "ip" (udhcpc_args id)))
  else ret None.

(** The body of mustHandleJoinContainer. *)
Definition join_work (opMsg : DovesnapOp) : D unit :=
  ofPort ← gets (λ s,
    oc_OFPort (default zero_OFPortContainer (st_OFPorts s !! op_EndpointID opMsg)));
  d ← get_d;
  let ns := network_of d (op_NetworkID opMsg) in
  c ← io_do (getContainerFromEndpoint (op_NetworkID opMsg) (op_EndpointID opMsg));
  c ← lift (must c);
  base ← lift (deref (ir_Base c));
  pid ← lift (deref (cb_State_Pid base));
  settings ← lift (net_settings c (ns_NetworkName ns));
  let macAddress := es_MacAddress settings in
  io_do (createNsLink pid (cb_ID base));;
  configLabels ← lift (deref (ir_Config_Labels c));
  let labels := default ∅ configLabels in
  io_do (apply_mac_prefix labels (cb_ID base) macAddress);;
  when (ns_Userspace ns)
    (io_do (must_netns (cb_ID base) ["/sbin/ethtool"; "-K"; "eth0"; "tx"; "off"]));;
  let hostIP := es_IPAddress settings in
  let gatewayIP := es_Gateway settings in
  maps ← lift (port_maps (op_Options opMsg));
  io_do (for_each maps tt (publish true (ns_BridgeName ns) gatewayIP hostIP));;
  let portAcl := container_acl labels ns in
  shortID ← lift (truncateID (cb_ID base));
  let add_interfaces := vlanInterfaceYaml ofPort (cb_Name base +:+ " " +:+ shortID)
    (ns_BridgeVLAN ns) portAcl in
  io_do (mustSetFaucetConfigFile (mergeSingleDpMinimalYaml (ns_NetworkName ns) add_interfaces));;
  io_do (mirror_container d ns (mirror_of d (op_NetworkID opMsg)) labels ofPort);;
  udhcpcCmd ← io_do (start_udhcpc ns (cb_ID base));
  modify (λ s, set_OFPorts (<[op_EndpointID opMsg :=
    mkOFPortContainer ofPort c udhcpcCmd (op_Options opMsg)]> (st_OFPorts s)) s);;
  put_container ns (op_EndpointID opMsg) {|
    cs_Name := cb_Name base;
    cs_Id := cb_ID base;
    cs_OFPort := ofPort;
    cs_HostIP := hostIP;
    cs_MacAddress := macAddress;
    cs_Labels := configLabels;
    cs_IfName := "eth0";
  |};;
  send_note (mkNotifyMsg ns "CONTAINER" "JOIN"
    (Some (<["name" := cb_Name base]> (<["id" := cb_ID base]> (<["port" := itoa ofPort]>
      (<["mac" := macAddress]> (<["ip" := hostIP]> ∅))))))).

Definition mustHandleJoinContainer (opMsg : DovesnapOp) : D unit :=
  recovering (join_work opMsg) (λ rerr, skip).

Definition stop_udhcpc (cmd : option Cmd) : IO unit :=
  match cmd with
  | Some c => ext (CKill (cmd_Path c) (cmd_Args c));; ext (CWait (cmd_Path c) (cmd_Args c));; skip
  | None => skip
  end.

(** The body of mustHandleLeaveContainer. *)
Definition leave_work (opMsg : DovesnapOp) : D unit :=
  o ← gets (λ s, st_OFPorts s !! op_EndpointID opMsg);
  match o with
  | None => panic ("endpoint " +:+ op_EndpointID opMsg +:+ " was not Join()d")
  | Some containerMap =>
      io_do (stop_udhcpc (oc_udhcpcCmd containerMap));;
      t ← lift (truncateID (op_EndpointID opMsg));
      let portID := Sprintf0 (ovsPortPrefix +:+ t) in
      ofPort ← io_do (mustGetOfPort portID);
      io_do (delVethPair (vethPair t));;
      d ← get_d;
      let ns := network_of d (op_NetworkID opMsg) in
      io_do (mustDeletePort (ns_BridgeName ns) portID);;
      io_do (mustDeleteDpInterface (ns_NetworkName ns) ofPort);;
      settings ← lift (net_settings (oc_containerInspect containerMap) (ns_NetworkName ns));
      let hostIP := es_IPAddress settings in
      let gatewayIP := es_Gateway settings in
      maps ← lift (port_maps (oc_Options containerMap));
      io_do (for_each maps tt (publish false (ns_BridgeName ns) gatewayIP hostIP));;
      modify (λ s, set_OFPorts (delete (op_EndpointID opMsg) (st_OFPorts s)) s);;
      del_container ns (op_EndpointID opMsg);;
      base ← lift (deref (ir_Base (oc_containerInspect containerMap)));
      io_do (deleteNsLink (cb_ID base));;
      send_note (mkNotifyMsg ns "CONTAINER" "LEAVE"
        (Some (<["name" := cb_Name base]> (<["id" := cb_ID base]> (<["port" := itoa ofPort]> ∅)))))
  end.

Definition mustHandleLeaveContainer (opMsg : DovesnapOp) : D unit :=
  deferring (recovering (leave_work opMsg) (λ rerr, skip)) (send_reply (op_Reply opMsg) zero_DovesnapOpReply).
End handlers.

(** ** The handlers return

    Every panic of a handler is recovered, so that a handler returns whatever the
    outside answers, unless it waits on a channel or ends the process. *)

Section handlers_return.
Context `{E : Env}.

Lemma tame_getExternalPortState i p : tame (getExternalPortState i p).
Proof. unfold getExternalPortState; tame_tac. Qed.
Hint Resolve tame_getExternalPortState : tame.

Lemma tame_create_added_ports ns a c : tame (create_added_ports ns a c).
Proof. unfold create_added_ports, add_port_step, add_copro_port_step; tame_tac. Qed.
Lemma tame_create_gateway_port ns m b a : tame (create_gateway_port ns m b a).
Proof. unfold create_gateway_port; tame_tac. Qed.
Lemma tame_create_mirror_port d ns sc a : tame (create_mirror_port d ns sc a).
Proof. unfold create_mirror_port; tame_tac. Qed.
Lemma tame_create_config_yaml d ns a e : tame (create_config_yaml d ns a e).
Proof. unfold create_config_yaml; tame_tac. Qed.
Lemma settled_int_of v : settled (int_of v).
Proof. by destruct v. Qed.
Hint Resolve settled_int_of : tame.
Lemma settled_mustGetPortMap v : settled (mustGetPortMap v).
Proof. unfold mustGetPortMap; tame_tac. Qed.
Hint Resolve settled_mustGetPortMap : tame.
Lemma tame_publish a b g h v u : tame (publish a b g h v u).
Proof. unfold publish; tame_tac. Qed.
Lemma settled_port_maps o : settled (port_maps o).
Proof. unfold port_maps; tame_tac. Qed.
Lemma settled_net_settings c n : settled (net_settings c n).
Proof. unfold net_settings; tame_tac. Qed.
Lemma tame_must_netns i a : tame (must_netns i a).
Proof. unfold must_netns; tame_tac. Qed.
End handlers_return.
#[export] Hint Resolve tame_getExternalPortState tame_create_added_ports tame_create_gateway_port
  tame_create_mirror_port tame_create_config_yaml settled_mustGetPortMap tame_publish
  settled_port_maps settled_net_settings tame_must_netns : tame.

Section works_return.
Context `{E : Env}.

Lemma tame_create_work op : tame (create_work op).
Proof. unfold create_work, create_register, create_configure, port_acl_step; tame_tac. Qed.
Lemma tame_reserve_work op : tame (reserve_work op).
Proof. unfold reserve_work; tame_tac. Qed.
Lemma tame_join_work op : tame (join_work op).
Proof. unfold join_work, apply_mac_prefix, mirror_container, start_udhcpc; tame_tac. Qed.
Lemma tame_leave_work op : tame (leave_work op).
Proof. unfold leave_work, stop_udhcpc; tame_tac. Qed.
End works_return.
#[export] Hint Resolve tame_create_work tame_reserve_work tame_join_work tame_leave_work : tame.

(** ** What the handlers leave alone *)

(** The channels and the wait group, which only the ends of a handler touch. *)
Definition chans (wg : Z) (ops : list DovesnapOp) (replies : gmap nat (list DovesnapOpReply))
    (s : state) : Prop :=
  st_wg s = wg ∧ st_ops s = ops ∧ st_replies s = replies.

Section works_frames.
Context `{E : Env} (wg : Z) (ops : list DovesnapOp) (replies : gmap nat (list DovesnapOpReply)).
Abbreviation P := (chans wg ops replies).

Lemma chans_create_work op : keeps P (create_work op).
Proof.
  unfold create_work, create_register, create_configure, getNetworkStateFromResource,
    create_added_ports, add_port_step,
    add_copro_port_step, create_gateway_port, create_mirror_port, create_config_yaml,
    port_acl_step.
  frame_tac.
Qed.
Lemma chans_reserve_work op : keeps P (reserve_work op).
Proof. unfold reserve_work. frame_tac. Qed.
Lemma chans_join_work op : keeps P (join_work op).
Proof. unfold join_work. frame_tac. Qed.
Lemma chans_leave_work op : keeps P (leave_work op).
Proof. unfold leave_work. frame_tac. Qed.
End works_frames.

Section deletion.
Context `{E : Env}.

(** A network is deleted, its request answered and the deletion announced. *)
Definition deleted (op : DovesnapOp) (s s' : state) : Prop :=
  let id := op_NetworkID op in
  st_d s' = set_stackMirrorConfigs (delete id (stackMirrorConfigs (st_d s)))
              (set_networks (delete id (networks (st_d s))) (st_d s)) ∧
  (∃ c buf, op_Reply op = Some c ∧ default [] (st_replies s !! c) = buf ∧
     st_replies s' = <[c := buf ++ [zero_DovesnapOpReply]]> (st_replies s)) ∧
  st_notes s' = st_notes s ++ [mkNotifyMsg (network_of (st_d s) id) "NETWORK" "DELETE" None].

(** Nothing of it happened. *)
Definition untouched (s s' : state) : Prop :=
  st_d s' = st_d s ∧ st_replies s' = st_replies s ∧ st_notes s' = st_notes s.

Lemma delete_work_spec op s :
  wp (delete_work op) (λ o s',
    st_wg s' = st_wg s ∧ st_heap s' = st_heap s ∧ st_OFPorts s' = st_OFPorts s ∧
    st_ops s' = st_ops s ∧
    match o with
    | Ret _ => deleted op s s'
    | Panic _ => untouched s s'
    | _ => True
    end) s.
Proof.
  unfold delete_work. wp_walk;
    (apply wp_send_reply; [done|]; intros c buf Hc Hb _; unfold wp; cbn;
     repeat split; eauto 6).
Qed.

Lemma wg_done_Ret s u s' :
  wg_done s = (Ret u, s') → (1 ≤ st_wg s)%Z ∧ s' = set_wg (st_wg s - 1) s.
Proof. cbn. case_match eqn:Hn; [done|]. apply Z.ltb_ge in Hn. intros [= _ <-]. by split; [lia|]. Qed.

Lemma wg_done_pos s : (1 ≤ st_wg s)%Z → wg_done s = (Ret tt, set_wg (st_wg s - 1) s).
Proof. intros H. cbn. case_match eqn:Hn; [apply Z.ltb_lt in Hn; lia|done]. Qed.

Lemma delete_handler_spec op s s' :
  mustHandleDeleteNetwork op s = (Ret tt, s') →
  st_wg s' = (st_wg s - 1)%Z ∧ st_heap s' = st_heap s ∧ st_OFPorts s' = st_OFPorts s ∧
  st_ops s' = st_ops s ∧ (deleted op s s' ∨ untouched s s').
Proof.
  intros (o & s1 & Hw & Ho & Hd)%deferring_recovering_Ret.
  pose proof (delete_work_spec op s) as H. unfold wp in H. rewrite Hw in H. cbn [fst snd] in H.
  destruct H as (Hwg & Hh & Hp & Hq & H). apply wg_done_Ret in Hd as [_ ->]. cbn.
  rewrite Hwg, Hh, Hp, Hq. repeat split. by destruct o; [left|right| |].
Qed.

(** C4: Deleting a network is all or nothing.  When the handler of a delete message
    returns, either the network and its mirror settings have left the driver's maps,
    exactly one reply was put on the requester's channel and the deletion was announced;
    or the maps, the reply channels and the announcements are as they were.  In both
    cases the containers' maps, the ports and the queue are untouched and the wait group
    went down by one. *)
Theorem mustHandleDeleteNetwork_atomic op s s' :
  mustHandleDeleteNetwork op s = (Ret tt, s') →
  st_wg s' = (st_wg s - 1)%Z ∧ st_heap s' = st_heap s ∧ st_OFPorts s' = st_OFPorts s ∧
  st_ops s' = st_ops s ∧ (deleted op s s' ∨ untouched s s').
Proof. apply delete_handler_spec. Qed.

(** C38: A failed deletion is never answered.  When Faucet refuses to remove the datapath
    of a network, the handler recovers and returns, the network stays, and the reply
    that DeleteNetwork waits for was not sent: its receive blocks. *)
Theorem mustHandleDeleteNetwork_no_reply op c e s :
  op_Reply op = Some c → st_replies s !! c = Some [] → (1 ≤ st_wg s)%Z →
  env_reply (io_trace (st_io s))
    (CRpc (DelDps [ns_NetworkName (network_of (st_d s) (op_NetworkID op))])) = Some e →
  ∃ s', mustHandleDeleteNetwork op s = (Ret tt, s') ∧
    networks (st_d s') = networks (st_d s) ∧ receive_reply c s' = (Block, s').
Proof.
  intros Hc Hb Hwg He.
  assert (∃ i, delete_work op s = (Panic e, set_io i s)) as [i Hi].
  { unfold delete_work, mustDeleteDp, must_rpc, io_do, zoom. cbn. rewrite He. cbn. eauto. }
  exists (set_wg (st_wg s - 1) (set_io i s)).
  unfold mustHandleDeleteNetwork, deferring, recovering. rewrite Hi. cbn [skip ret M_seq].
  erewrite bind_Ret by (by apply wg_done_pos). cbn. rewrite Hb. done.
Qed.
End deletion.

(** A Faucet server that refuses to remove datapaths. *)
Definition stubborn_faucet : Env := scripted (with_rpc (λ r,
  match r with DelDps _ => Some "rpc error: code = Unavailable" | _ => None end) quiet).

Definition one_delete : DovesnapOp := mkOp "delete" "4f1d8f0e3a" "" [] (Some 0%nat).
Definition waiting_for_delete : state :=
  set_wg 1 (set_replies {[0%nat := []]} (start plain_driver)).

Lemma mustHandleDeleteNetwork_no_reply_witness :
  ∃ s', mustHandleDeleteNetwork (E := stubborn_faucet) one_delete waiting_for_delete = (Ret tt, s') ∧
    networks (st_d s') = ∅ ∧ receive_reply 0 s' = (Block, s').
Proof.
  apply (mustHandleDeleteNetwork_no_reply (E := stubborn_faucet) one_delete 0
    "rpc error: code = Unavailable" waiting_for_delete); [reflexivity..|vm_compute; done|reflexivity].
Defined.

Lemma mustHandleDeleteNetwork_atomic_witness :
  let E := scripted quiet in
  let s' := (mustHandleDeleteNetwork one_delete waiting_for_delete).2 in
  st_wg s' = 0%Z ∧ (deleted one_delete waiting_for_delete s' ∨ untouched waiting_for_delete s').
Proof.
  intros E s'.
  destruct (mustHandleDeleteNetwork_atomic one_delete waiting_for_delete s') as (Hwg & _ & _ & _ & H).
  { vm_compute. reflexivity. }
  split; [exact Hwg|exact H].
Defined.

Section containers.
Context `{E : Env}.

(** A container has joined: its port, its place in the network's shared map, and
    the announcement agree. *)
Definition joined (op : DovesnapOp) (l : positive) (s s' : state) : Prop :=
  let ep := op_EndpointID op in
  let port := oc_OFPort (default zero_OFPortContainer (st_OFPorts s !! ep)) in
  ∃ oc cs note,
    oc_OFPort oc = port ∧ is_Some (ir_Base (oc_containerInspect oc)) ∧ oc_Options oc = op_Options op ∧
    st_OFPorts s' = <[ep := oc]> (st_OFPorts s) ∧
    cs_OFPort cs = port ∧ cs_IfName cs = "eth0" ∧
    st_heap s' = upd_containers (λ h, <[l := <[ep := cs]> (map_get h (Some l))]> h) (st_heap s) ∧
    nm_Type note = "CONTAINER" ∧ nm_Operation note = "JOIN" ∧
    nm_NetworkState note = network_of (st_d s) (op_NetworkID op) ∧
    (∃ details, nm_Details note = Some details ∧ details !! "port" = Some (itoa port) ∧
      details !! "id" = Some (cs_Id cs) ∧ details !! "mac" = Some (cs_MacAddress cs) ∧
      details !! "ip" = Some (cs_HostIP cs)) ∧
    st_notes s' = st_notes s ++ [note].

(** Nothing of it happened. *)
Definition unmoved (s s' : state) : Prop :=
  st_OFPorts s' = st_OFPorts s ∧ st_heap s' = st_heap s ∧ st_notes s' = st_notes s.

Lemma join_work_spec op l s :
  containers_of (network_of (st_d s) (op_NetworkID op)) = Some l →
  wp (join_work op) (λ o s',
    st_d s' = st_d s ∧ st_AllPortDesc s' = st_AllPortDesc s ∧
    match o with Ret _ => joined op l s s' | _ => unmoved s s' end) s.
Proof.
  intros Hl. unfold join_work. wp_walk.
  all: unfold containers_of in Hl;
    match goal with H : map_set _ _ _ _ = _ |- _ => rewrite Hl in H; cbn in H end; simplify_eq.
  all: repeat split; eexists (mkOFPortContainer _ _ _ _), (mkContainerState _ _ _ _ _ _ _),
      (mkNotifyMsg _ _ _ _); repeat split; try reflexivity;
      try match goal with |- ex _ => eexists; repeat split end.
  all: cbn; match goal with H : deref ?x = Ret _ |- is_Some ?x => destruct x; [eauto|discriminate] end.
Qed.

(** A container has left: its port is free, it is gone from the network's shared
    map, and the departure is announced. *)
Definition departed (op : DovesnapOp) (s s' : state) : Prop :=
  let ep := op_EndpointID op in
  let ns := network_of (st_d s) (op_NetworkID op) in
  st_OFPorts s' = delete ep (st_OFPorts s) ∧
  st_heap s' = upd_containers (λ h, map_del h (containers_of ns) ep) (st_heap s) ∧
  ∃ note, nm_Operation note = "LEAVE" ∧ nm_NetworkState note = ns ∧
    st_notes s' = st_notes s ++ [note].

(** A port is as reserved, or as joined with the container's data. *)
Definition sound_port (oc : OFPortContainer) : Prop :=
  oc_containerInspect oc = zero_InspectResponse ∨ is_Some (ir_Base (oc_containerInspect oc)).

Lemma leave_work_spec op s :
  (∀ oc, st_OFPorts s !! op_EndpointID op = Some oc → sound_port oc) →
  wp (leave_work op) (λ o s',
    st_d s' = st_d s ∧ st_AllPortDesc s' = st_AllPortDesc s ∧
    match o with Ret _ => departed op s s' | _ => unmoved s s' end) s.
Proof.
  intros Hs. unfold leave_work. apply wp_bind, wp_gets.
  destruct (st_OFPorts s !! op_EndpointID op) as [oc|] eqn:Ho; [|done].
  destruct (Hs oc eq_refl) as [Hz|[b Hb]].
  - unfold net_settings. rewrite Hz. wp_walk.
  - rewrite Hb. wp_walk. repeat split. eexists (mkNotifyMsg _ _ _ _); repeat split; reflexivity.
Qed.

(** A network is registered under the name that docker gives it. *)
Definition created (op : DovesnapOp) (name : string) (s s' : state) : Prop :=
  let id := op_NetworkID op in
  st_d s' = set_networks (<[id := set_NetworkName name (op_NewNetworkState op)]> (networks (st_d s)))
    (set_stackMirrorConfigs
      (<[id := op_NewStackMirrorConfig op]> (stackMirrorConfigs (st_d s))) (st_d s)).

(** [name] is the name by which docker, when it was asked since [s] and before [s'],
    knew the message's network. *)
Definition docker_name (op : DovesnapOp) (name : string) (s s' : state) : Prop :=
  ∃ t r, io_trace (st_io s) `prefix_of` t ∧ inspected (op_NetworkID op) t r ∧ since t s' ∧
    name = report_name r.

(** What is left of a join on a network without maps. *)
Lemma join_work_nil op s :
  containers_of (network_of (st_d s) (op_NetworkID op)) = None →
  wp (join_work op) (λ _ s', st_d s' = st_d s ∧ st_heap s' = st_heap s ∧
    st_notes s' = st_notes s ∧
    (st_OFPorts s' = st_OFPorts s ∨
     ∃ oc, is_Some (ir_Base (oc_containerInspect oc)) ∧
       st_OFPorts s' = <[op_EndpointID op := oc]> (st_OFPorts s))) s.
Proof.
  intros Hl. unfold join_work. wp_walk; cbn; auto.
  all: unfold containers_of in Hl;
    match goal with H : map_set _ _ _ _ = _ |- _ => rewrite Hl in H; cbn in H end; simplify_eq.
  all: split_and!; try reflexivity; right; eexists; split; [|reflexivity]; cbn;
    match goal with H : deref ?x = Ret _ |- is_Some ?x => destruct x; [eauto|discriminate] end.
Qed.

Lemma steady_create_configure s0 op ns br : keeps (steady s0) (create_configure op ns br).
Proof.
  unfold create_configure, create_added_ports, add_port_step, add_copro_port_step,
    create_gateway_port, create_mirror_port, create_config_yaml, port_acl_step.
  frame_tac.
Qed.

Lemma since_create_configure t op ns br : keeps (since t) (create_configure op ns br).
Proof.
  unfold create_configure, create_added_ports, add_port_step, add_copro_port_step,
    create_gateway_port, create_mirror_port, create_config_yaml, port_acl_step, getExternalPortState,
    getMacAddr, mustGetOfPort, getOfPort, mustLowestFreePortOnBridge, mustSetFaucetConfigFile,
    mustSetVlanOutAcl, mustSetRemoteMirrorPort, mustSetPortAcl, must_rpc, VsCtl, RunCmd.
  since_tac.
Qed.

Lemma inspect_steady id s :
  wp (io_do (mustGetNetworkInspectFromID id)) (λ o s', steady s s' ∧
    match o with
    | Ret r => ∃ t, io_trace (st_io s) `prefix_of` t ∧ inspected id t r ∧ since t s'
    | _ => True
    end) s.
Proof.
  pose proof (mustGetNetworkInspectFromID_inspected id (st_io s)) as H.
  pose proof (steady_io_do s (mustGetNetworkInspectFromID id) s (steady_refl s)) as Hs.
  unfold wp, io_do, zoom in *. destruct (mustGetNetworkInspectFromID id (st_io s)) as [o i].
  split; [exact Hs|]. destruct H as [H1 H2]. destruct o; [|done..]. exists (io_trace i).
  split; [exact H1|]. split; [exact H2|]. unfold since. cbn. reflexivity.
Qed.

Lemma create_register_spec op s :
  wp (create_register op) (λ o s',
    st_OFPorts s' = st_OFPorts s ∧ st_AllPortDesc s' = st_AllPortDesc s ∧
    heap_grows (st_heap s) (st_heap s') ∧
    match o with
    | Ret (ns, _) => ∃ name, ns = set_NetworkName name (op_NewNetworkState op) ∧
        created op name s s' ∧ docker_name op name s s' ∧ st_notes s' = st_notes s
    | _ => st_d s' = st_d s ∧ st_notes s' = st_notes s
    end) s.
Proof.
  unfold create_register. apply wp_bind, wp_gets, wp_bind.
  eapply wp_mono; [|apply inspect_steady].
  intros [r|v| |] s1 [Hs1 Hr]; [|unfold steady in Hs1; tauto..].
  destruct Hr as (t & Hpre & Hins & Ht). apply wp_bind.
  assert (keeps (since t) (getNetworkStateFromResource r (shortEngineId (st_d s)))) as Hsince.
  { unfold getNetworkStateFromResource. since_tac. }
  assert (keeps (steady s) (getNetworkStateFromResource r (shortEngineId (st_d s)))) as Hsteady.
  { unfold getNetworkStateFromResource. frame_tac. }
  specialize (Hsince s1 Ht). specialize (Hsteady s1 Hs1).
  pose proof (getNetworkStateFromResource_name r (shortEngineId (st_d s)) s1) as Hname.
  unfold wp in *. destruct (getNetworkStateFromResource _ _ _) as [[[ns err]|v| |] s2]; [|done..].
  cbn [fst snd] in *. destruct Hsteady as (Hd & Hn & Ho & Ha & Hh).
  destruct err as [e|]; cbn; unfold created, docker_name; cbn; rewrite ?Hd, ?Hn, ?Ho, ?Ha, ?Hname;
    [by auto|]. eauto 15.
Qed.

Lemma create_work_spec op s :
  wp (create_work op) (λ o s',
    st_OFPorts s' = st_OFPorts s ∧ st_AllPortDesc s' = st_AllPortDesc s ∧
    heap_grows (st_heap s) (st_heap s') ∧
    match o with
    | Ret _ => ∃ name, created op name s s' ∧ docker_name op name s s' ∧ st_notes s' = st_notes s ++
        [mkNotifyMsg (set_NetworkName name (op_NewNetworkState op)) "NETWORK" "CREATE" None]
    | _ => (st_d s' = st_d s ∨ ∃ name, created op name s s' ∧ docker_name op name s s') ∧
        st_notes s' = st_notes s
    end) s.
Proof.
  unfold create_work. apply wp_bind. eapply wp_mono; [|apply create_register_spec].
  intros [[ns br]|v| |] s1 (Ho & Ha & Hh & H); [|by destruct H as [Hd Hn]; cbn; auto 8..].
  destruct H as (name & -> & Hc & (t & r & Hpre & Hins & Ht & Hname) & Hn). apply wp_bind.
  pose proof (since_create_configure t op (set_NetworkName name (op_NewNetworkState op)) br s1 Ht) as Ht2.
  pose proof (steady_create_configure s1 op (set_NetworkName name (op_NewNetworkState op)) br s1
    (steady_refl s1)) as (Hd2 & Hn2 & Ho2 & Ha2 & Hh2).
  assert (created op name s (create_configure op (set_NetworkName name (op_NewNetworkState op)) br s1).2)
    as Hc2 by (unfold created; by rewrite Hd2).
  assert (docker_name op name s (create_configure op (set_NetworkName name (op_NewNetworkState op)) br s1).2)
    as Hd by (exists t, r; auto).
  unfold wp. destruct (create_configure _ _ _ _) as [[[]|v| |] s2]; cbn [fst snd] in *.
  { change (st_OFPorts (send_note (mkNotifyMsg (set_NetworkName name (op_NewNetworkState op))
      "NETWORK" "CREATE" None) s2).2) with (st_OFPorts s2). cbn.
    rewrite Hn2, Ho2, Ha2, Hn. split_and!; [done..|by etransitivity|by exists name]. }
  all: rewrite Hn2, Ho2, Ha2, Hn; split_and!; [done..|by etransitivity|eauto|done].
Qed.
End containers.

(** ** The properties of the container handlers *)

Section container_properties.
Context `{E : Env}.

(** C3: Joining a container is all or nothing, whatever docker, Faucet, iptables or the
    namespaces answer.  The handler always returns.  Either the port that was reserved
    for the endpoint now carries the container, the container is in the map that every
    copy of the network's state shares, with that port, and a JOIN announcement says the
    same; or ports, containers and announcements are as they were.  The networks and
    the channels are untouched.  On a network without maps (one that is not registered, or
    that was registered with the zero state) a join never succeeds: no container is
    recorded or announced, and at most the endpoint's port is left with the container. *)
Theorem mustHandleJoinContainer_atomic op s :
  ∃ s', mustHandleJoinContainer op s = (Ret tt, s') ∧ st_d s' = st_d s ∧
    chans (st_wg s) (st_ops s) (st_replies s) s' ∧
    match containers_of (network_of (st_d s) (op_NetworkID op)) with
    | Some l => joined op l s s' ∨ unmoved s s'
    | None => st_heap s' = st_heap s ∧ st_notes s' = st_notes s ∧
        (st_OFPorts s' = st_OFPorts s ∨
         ∃ oc, is_Some (ir_Base (oc_containerInspect oc)) ∧
           st_OFPorts s' = <[op_EndpointID op := oc]> (st_OFPorts s))
    end.
Proof.
  exists (join_work op s).2. split; [apply recovering_skip, tame_join_work|].
  destruct (containers_of _) as [l|] eqn:Hl.
  - destruct (join_work_spec op l s Hl) as (Hd & _ & H). split; [done|].
    split; [by apply chans_join_work|]. destruct ((join_work op s).1); auto.
  - destruct (join_work_nil op s Hl) as (Hd & H). split; [done|].
    split; [by apply chans_join_work|done].
Qed.

(** C9: A leave is always answered, exactly once.  The handler returns whatever happens,
    with one more reply on the requester's channel; and either the container's port, its
    entry in the network's map and its presence are gone and the departure announced, or
    ports, containers and announcements are as they were. *)
Theorem mustHandleLeaveContainer_replies op c buf s :
  op_Reply op = Some c → st_replies s !! c = Some buf → (length buf < replySize)%nat →
  (∀ oc, st_OFPorts s !! op_EndpointID op = Some oc → sound_port oc) →
  ∃ s', mustHandleLeaveContainer op s = (Ret tt, s') ∧ st_d s' = st_d s ∧
    chans (st_wg s) (st_ops s) (<[c := buf ++ [zero_DovesnapOpReply]]> (st_replies s)) s' ∧
    (departed op s s' ∨ unmoved s s').
Proof.
  intros Hc Hb Hl Hs. set (s1 := (leave_work op s).2).
  assert (chans (st_wg s) (st_ops s) (st_replies s) s1) as (Hwg & Hops & Hr).
  { by apply chans_leave_work. }
  destruct (leave_work_spec op s Hs) as (Hd & _ & H). fold s1 in Hd, H.
  unfold mustHandleLeaveContainer. rewrite deferring_recovering_skip by apply tame_leave_work.
  fold s1. rewrite Hc.
  erewrite bind_Ret by (apply send_reply_room; [by rewrite Hr|done]).
  eexists; split; [reflexivity|]. rewrite Hr. split; [done|]. split; [done|].
  destruct ((leave_work op s).1); auto.
Qed.

(** C8: The handler of a create message always returns when the wait group counts at least
    one, and takes exactly one from the count.  It changes the driver only by registering the
    message's network, with the message's mirror settings, under the name in the report that
    docker gave of it while the handler ran (or under no name, when the options in that report
    give no datapath ID or no bridge name); when it does not, nothing is announced; and it
    never changes a container of a network that already exists. *)
Theorem mustHandleCreateNetwork_spec op s :
  (1 ≤ st_wg s)%Z →
  ∃ s', mustHandleCreateNetwork op s = (Ret tt, s') ∧
    chans (st_wg s - 1) (st_ops s) (st_replies s) s' ∧
    st_OFPorts s' = st_OFPorts s ∧ heap_grows (st_heap s) (st_heap s') ∧
    ((st_d s' = st_d s ∧ st_notes s' = st_notes s) ∨
     ∃ name, docker_name op name s s' ∧ created op name s s' ∧
       (st_notes s' = st_notes s ∨ st_notes s' = st_notes s ++
         [mkNotifyMsg (set_NetworkName name (op_NewNetworkState op)) "NETWORK" "CREATE" None])).
Proof.
  intros Hwg. set (s1 := (create_work op s).2).
  assert (chans (st_wg s) (st_ops s) (st_replies s) s1) as (Hwg1 & Hops & Hr).
  { by apply chans_create_work. }
  destruct (create_work_spec op s) as (Ho & _ & Hh & H). fold s1 in Ho, Hh, H.
  unfold mustHandleCreateNetwork. rewrite deferring_recovering_skip by apply tame_create_work.
  fold s1. erewrite bind_Ret by (apply wg_done_pos; by rewrite Hwg1).
  eexists; split; [reflexivity|]. rewrite Hwg1. split; [done|]. split; [done|]. split; [done|].
  destruct ((create_work op s).1).
  { destruct H as (name & Hc & Hname & Hn). right. exists name. auto. }
  all: destruct H as [[Hd|(name & Hc & Hname)] Hn]; [by auto|]; right; exists name; auto.
Qed.
End container_properties.

(** ** A concrete network with one container *)

Module Lab.
Definition net_id : string := "4f1d8f0e3a".
Definition endpoint : string := "a9c27e51b0".

(** What docker says of the network and of the container. *)
Definition inspect : NetInspect :=
  mkNetInspect "testnet" net_id (Some {["ovs.bridge.dpid" := "0x620"]})
    [mkIPAMConfig "10.1.0.0/16" "10.1.0.1"] {["c0ffee0000" := endpoint]}.
Definition container : InspectResponse :=
  mkInspectResponse (Some (mkContainerBase "c0ffee0000" "/web" (Some 42%Z))) (Some (Some ∅))
    (Some {["testnet" := Some (mkEndpointSettings "02:42:0a:01:00:02" "10.1.0.2" "10.1.0.1")]}).

Definition env : Env := scripted (with_docker (λ _, Ok inspect) (λ _, Ok container)
  (with_run (λ _ _ args,
    if bool_decide ("get" ∈ args) then ("7" +:+ String newline "", None) else ("", None)) quiet)).

(** The network's state, with its maps at location 1. *)
Definition net : NetworkState :=
  mkNetworkState "testnet" "odsbr4f1d8" "0x620" 1568 100 1500 0 "flat" "" "" "" "" "" false false
    "" "" "" "" "" (mkDynamicNetworkState "0ABCDE" (Some 1%positive) (Some 1%positive) (Some 1%positive)).
Definition heap1 : heap := mkHeap 2 {[1%positive := ∅]} {[1%positive := ∅]} {[1%positive := ∅]}.

Definition options : list (string * ivalue) := [(portMapOption, IArr [])].
Definition join_op : DovesnapOp := mkOp "join" net_id endpoint options None.
Definition leave_op : DovesnapOp := mkOp "leave" net_id endpoint [] (Some 0%nat).

(** The endpoint's port is reserved; the container is about to join. *)
Definition reserved : state :=
  set_heap heap1 (set_OFPorts {[endpoint := mkOFPortContainer 7 zero_InspectResponse None []]}
    (start (set_networks {[net_id := net]} plain_driver))).
Definition after_join : state := (mustHandleJoinContainer (E := env) join_op reserved).2.
Definition about_to_leave : state := set_replies {[0%nat := []]} after_join.
End Lab.

(** The join succeeds here: the container is in the network's map at port 7. *)
Example lab_join_succeeds :
  let s' := Lab.after_join in
  cs_OFPort <$> (h_containers (st_heap s') !! 1%positive ≫= (.!! Lab.endpoint)) = Some 7%Z ∧
  nm_Operation <$> st_notes s' = ["JOIN"].
Proof. vm_compute. done. Qed.

Lemma mustHandleJoinContainer_atomic_witness :
  ∃ s', mustHandleJoinContainer (E := Lab.env) Lab.join_op Lab.reserved = (Ret tt, s') ∧
    (joined Lab.join_op 1 Lab.reserved s' ∨ unmoved Lab.reserved s').
Proof.
  destruct (mustHandleJoinContainer_atomic (E := Lab.env) Lab.join_op Lab.reserved)
    as (s' & H & _ & _ & H').
  exists s'. split; [exact H|exact H'].
Defined.

Lemma mustHandleLeaveContainer_replies_witness :
  ∃ s', mustHandleLeaveContainer (E := Lab.env) Lab.leave_op Lab.about_to_leave = (Ret tt, s') ∧
    st_replies s' = {[0%nat := [zero_DovesnapOpReply]]}.
Proof.
  destruct (mustHandleLeaveContainer_replies (E := Lab.env) Lab.leave_op 0 [] Lab.about_to_leave)
    as (s' & H & _ & (_ & _ & Hr) & _); [reflexivity|reflexivity|vm_compute; lia| |].
  { intros oc Hoc. right. vm_compute in Hoc. injection Hoc as <-. vm_compute. eauto. }
  exists s'. split; [exact H|]. rewrite Hr. reflexivity.
Defined.

(** The create message of the lab's network. *)
Definition lab_create : DovesnapOp :=
  mkDovesnapOp "create" Lab.net (mkStackMirrorConfig 99 0 "" 0) "" "" "flat" Lab.net_id
    "odsbr4f1d8" [] 0 None.

Lemma mustHandleCreateNetwork_spec_witness :
  ∃ s', mustHandleCreateNetwork (E := Lab.env) lab_create
      (set_wg 1 (set_heap Lab.heap1 (start plain_driver))) = (Ret tt, s') ∧ st_wg s' = 0%Z.
Proof.
  destruct (mustHandleCreateNetwork_spec (E := Lab.env) lab_create
      (set_wg 1 (set_heap Lab.heap1 (start plain_driver))))
    as (s' & H & (Hwg & _) & _); [vm_compute; done|].
  exists s'. split; [exact H|exact Hwg].
Defined.

Example lab_create_registers :
  let s' := (mustHandleCreateNetwork (E := Lab.env) lab_create
    (set_wg 1 (set_heap Lab.heap1 (start plain_driver)))).2 in
  bool_decide (is_Some (networks (st_d s') !! Lab.net_id)) = true ∧
  nm_Operation <$> st_notes s' = ["CREATE"].
Proof. vm_compute. done. Qed.
