(* ===== verification/FaucetView.v ===== *)
(** * What Faucet is told

    The driver keeps a record of the containers that it connected; Faucet keeps the
    configuration of the ports.  Here the two are compared, through the requests of
    the history. *)
From S2P Require Import Prelude GoStrings GoMonad World Scenario Utils OvsDb OvsPort Types Config Iptables Faucet Docker OvsBridge Driver Handlers.

(** ** Requests in the history *)

(** A request that was made. *)
Definition told (r : rpc) (s : state) : Prop := CRpc r ∈ io_trace (st_io s).

Section told.
Context `{E : Env}.

Lemma wp_must_rpc_told r (Q : outcome unit → state → Prop) s :
  (∀ i, CRpc r ∈ io_trace i → Q (Ret tt) (set_io i s)) →
  (∀ e i, Q (Panic e) (set_io i s)) →
  wp (io_do (must_rpc r)) Q s.
Proof.
  intros HR HP. unfold wp, io_do, zoom, must_rpc. cbn.
  destruct (env_reply (io_trace (st_io s)) (CRpc r)) as [e|]; cbn; [apply HP|].
  apply HR. cbn. apply elem_of_app. right. left.
Qed.

(** What was said stays said. *)
Lemma wp_io_do_told {A} r (m : IO A) (Q : outcome A → state → Prop) s :
  (∀ t, keeps (λ i, t `prefix_of` io_trace i) m) → told r s →
  (∀ o i, CRpc r ∈ io_trace i → Q o (set_io i s)) → wp (io_do m) Q s.
Proof.
  intros Hm Hr HQ. specialize (Hm (io_trace (st_io s)) (st_io s) (reflexivity _)).
  unfold wp, io_do, zoom. destruct (m (st_io s)) as [o i]. apply HQ.
  destruct Hm as [t Ht]. cbn in Ht. rewrite Ht. apply elem_of_app. by left.
Qed.

Lemma grows_mirror_container t d ns sc labels p :
  keeps (λ i, t `prefix_of` io_trace i) (mirror_container d ns sc labels p).
Proof. unfold mirror_container, mustAddPortMirror, must_rpc. keeps_tac. Qed.

Lemma grows_start_udhcpc t ns id : keeps (λ i, t `prefix_of` io_trace i) (start_udhcpc ns id).
Proof. unfold start_udhcpc. keeps_tac. Qed.
End told.

(** Run a handler up to its next request for a configuration, the answers before that
    being whatever they are. *)
Ltac to_request :=
  repeat lazymatch goal with
  | |- wp (bind (io_do (mustSetFaucetConfigFile _)) _) _ _ =>
      apply wp_bind, wp_must_rpc_told; [|by intros]
  | |- wp (bind ?m _) _ _ => apply wp_bind
  | |- wp get_d _ _ => apply wp_gets
  | |- wp (gets _) _ _ => apply wp_gets
  | |- wp (lift ?x) _ _ => apply wp_lift; destruct x eqn:?; try done
  | |- wp (when ?b _) _ _ => destruct b; cbn [when]
  | |- wp skip _ _ => apply wp_ret
  | |- wp (io_do _) _ _ => apply wp_io_do; intros [?|?| |] ?; try done
  end.

(** ** Containers *)

(** The request that connects a container as it is recorded. *)
Definition connects (ns : NetworkState) (cs : ContainerState) (shortID : string) : rpc :=
  SetConfigFile (mergeSingleDpMinimalYaml (ns_NetworkName ns)
    (vlanInterfaceYaml (cs_OFPort cs) (cs_Name cs +:+ " " +:+ shortID) (ns_BridgeVLAN ns)
      (container_acl (default ∅ (cs_Labels cs)) ns))) true.

(** A container is recorded, and Faucet was told of it as it is recorded. *)
Definition connected (ns : NetworkState) (l : positive) (ep : string) (s : state) : Prop :=
  ∃ cs shortID, map_get (h_containers (st_heap s)) (Some l) !! ep = Some cs ∧
    truncateID (cs_Id cs) = Ret shortID ∧ told (connects ns cs shortID) s.

Section joins.
Context `{E : Env}.

Lemma join_work_connects op l s :
  let ns := network_of (st_d s) (op_NetworkID op) in
  containers_of ns = Some l →
  wp (join_work op) (λ o s', match o with
    | Ret _ => connected ns l (op_EndpointID op) s'
    | _ => st_notes s' = st_notes s
    end) s.
Proof.
  intros ns Hl. unfold join_work.
  to_request.
  all: intros j1 Hi1; apply wp_bind; eapply wp_io_do_told;
    [intros; apply grows_mirror_container|exact Hi1|]; intros [[]|v1| |] j2 Hi2; try done.
  all: apply wp_bind; eapply wp_io_do_told;
    [intros; apply grows_start_udhcpc|exact Hi2|]; intros [cmd|v2| |] j3 Hi3; try done.
  all: apply wp_bind, wp_modify, wp_bind; eapply wp_put_container; [exact Hl|]; apply wp_modify.
  all: eexists _, _; split; [cbn; rewrite lookup_insert_eq; cbn; by rewrite lookup_insert_eq|].
  all: cbn; split; [eassumption|exact Hi3].
Qed.

(** C14: Faucet is told what is recorded.  After a join that was announced, the record of the
    endpoint holds a container, and Faucet was asked to configure exactly the recorded port of
    the network, on the network's VLAN, described by the recorded name and identifier, and with
    the ACL that the recorded labels and the network's default select. *)
Theorem join_connects op l s :
  let ns := network_of (st_d s) (op_NetworkID op) in
  containers_of ns = Some l →
  wp (mustHandleJoinContainer op) (λ o s', o = Ret tt ∧
    (st_notes s' = st_notes s ∨ connected ns l (op_EndpointID op) s')) s.
Proof.
  intros ns Hl. apply wp_recovering.
  pose proof (tame_join_work op s) as Ht. pose proof (join_work_connects op l s Hl) as Hw.
  unfold wp in *. destruct (join_work op s) as [[[]|v| |] s1]; try done; cbn in *; auto.
Qed.
End joins.

Lemma join_connects_witness :
  connected Lab.net 1 Lab.endpoint Lab.after_join.
Proof.
  destruct (join_connects (E := Lab.env) Lab.join_op 1%positive Lab.reserved eq_refl) as [_ [H|H]].
  - vm_compute in H. discriminate.
  - exact H.
Defined.
