(* ===== verification/NetworkView.v ===== *)
(** * What Faucet is told of a network

    When a network is created, the driver records the ports of its bridge and describes
    them to Faucet as a text.  Here the record and the text are compared. *)
From S2P Require Import Prelude GoStrings GoMonad World Scenario Utils OvsDb OvsPort Types Config Iptables Faucet Docker OvsBridge Driver Handlers FaucetView.

(** ** Texts *)

(** A text with a clause in it. *)
Definition mentions (text clause : string) : Prop := ∃ a b, text = a +:+ clause +:+ b.

Lemma mentions_refl clause : mentions clause clause.
Proof. exists "", "". by rewrite str_app_nil_l, str_app_nil_r. Qed.

Lemma mentions_app_l text t clause : mentions text clause → mentions (text +:+ t) clause.
Proof. intros (a & b & ->). exists a, (b +:+ t). by rewrite !str_app_assoc. Qed.

Lemma mentions_app_r text t clause : mentions text clause → mentions (t +:+ text) clause.
Proof. intros (a & b & ->). exists (t +:+ a), b. by rewrite !str_app_assoc. Qed.

Lemma mentions_trans t1 t2 t3 : mentions t1 t2 → mentions t2 t3 → mentions t1 t3.
Proof. intros (a & b & ->) H. by apply mentions_app_r, mentions_app_l. Qed.

(** Clauses are only added to a text. *)
Lemma preallocate_mentions n p vlan acl text : mentions (preallocate n p vlan acl text) text.
Proof.
  revert p text. induction n as [|n IH]; intros p text; cbn; [apply mentions_refl|].
  eapply mentions_trans; [apply IH|]. apply mentions_app_l, mentions_refl.
Qed.

Create HintDb mentions.
#[export] Hint Resolve mentions_refl mentions_app_l mentions_app_r preallocate_mentions : mentions.

(** ** Ports *)

(** The record of the ports at a location. *)
Definition ext_map (l : positive) (s : state) : gmap string ExternalPortState :=
  map_get (h_external (st_heap s)) (Some l).

(** Every port of a list of names is recorded under its name, and the text has one of the
    clauses for its record. *)
Definition shown (clauses : ExternalPortState → string → Prop) (names : list string) (l : positive)
    (text : string) (s : state) : Prop :=
  ∀ name, name ∈ names → ∃ xp clause, ext_map l s !! name = Some xp ∧ xp_Name xp = name ∧
    clauses xp clause ∧ mentions text clause.

Lemma shown_mono C C' names l text text' s s' :
  (∀ xp c, C xp c → C' xp c) → mentions text' text → ext_map l s' = ext_map l s →
  shown C names l text s → shown C' names l text' s'.
Proof.
  intros HC Ht Hm H name (xp & c & Hx & Hn & Hc & Hmen)%H. exists xp, c. rewrite Hm.
  split_and!; auto. by eapply mentions_trans.
Qed.

(** Recording one more port, with its clause. *)
Lemma shown_insert C names l text text' s s' name xp clause :
  ext_map l s' = <[name := xp]> (ext_map l s) → xp_Name xp = name → C xp clause →
  mentions text' clause → mentions text' text →
  shown C names l text s → shown C (name :: names) l text' s'.
Proof.
  intros Hm Hn HC Hc Ht H name' Hin. destruct (decide (name' = name)) as [->|Hne].
  - exists xp, clause. by rewrite Hm, lookup_insert_eq.
  - apply elem_of_cons in Hin as [->|Hin]; [done|]. destruct (H name' Hin) as (xp' & c & Hx & Hn' & HC' & Hc').
    exists xp', c. rewrite Hm, lookup_insert_ne by done. split_and!; auto. by eapply mentions_trans.
Qed.

Section ports.
Context `{E : Env}.
Implicit Types (ns : NetworkState) (l : positive).

Definition external_of ns : ref := dyn_ExternalPorts (ns_DynamicNetworkStates ns).

Lemma put_external_Ret ns l name xp s s' : external_of ns = Some l →
  put_external ns name xp s = (Ret tt, s') →
  ext_map l s' = <[name := xp]> (ext_map l s) ∧ st_io s' = st_io s ∧ st_d s' = st_d s.
Proof.
  unfold external_of, put_external, map_set, ext_map. intros Hl. cbn. rewrite Hl. cbn.
  intros [= <-]. cbn. by rewrite lookup_insert_eq.
Qed.

Lemma put_other_Ret ns name p l s s' : put_other ns name p s = (Ret tt, s') →
  ext_map l s' = ext_map l s ∧ st_io s' = st_io s ∧ st_d s' = st_d s.
Proof.
  unfold put_other, map_set, ext_map. cbn. destruct (dyn_OtherBridgePorts _); cbn; [|done].
  by intros [= <-].
Qed.

(** One port of the option: its number is read, and it is described and recorded. *)
Definition port_step ns (clause : Z → string → string) (p : string * Z) (text : string) : D string :=
  let '(name, _) := p in
  ofPort ← io_do (mustGetOfPort name);
  let text := text +:+ clause ofPort name in
  xp ← io_do (getExternalPortState name ofPort);
  put_external ns name xp;;
  ret text.

Definition vlan_clause ns (vlans : gmap string Z) (port : Z) (name : string) : string :=
  vlanInterfaceYaml port ("Physical interface " +:+ name) (default (ns_BridgeVLAN ns) (vlans !! name)) "".
Definition copro_clause (port : Z) (name : string) : string :=
  coproInterfaceYaml port ("Physical interface " +:+ name) "vlan_vid".

Lemma getExternalPortState_Ret name port i xp i' :
  getExternalPortState name port i = (Ret xp, i') → xp_Name xp = name ∧ xp_OFPort xp = port.
Proof. intros (mac & i1 & _ & [= <- _])%bind_Ret_inv. done. Qed.

Lemma port_step_Ret C ns l clause name v text names s text' s' :
  external_of ns = Some l → (∀ xp, xp_Name xp = name → C xp (clause (xp_OFPort xp) name)) →
  shown C names l text s → port_step ns clause (name, v) text s = (Ret text', s') →
  shown C (name :: names) l text' s' ∧ mentions text' text ∧ st_d s' = st_d s ∧
  ∀ n, n ≠ name → ext_map l s' !! n = ext_map l s !! n.
Proof.
  intros Hl HC Hs H. apply bind_Ret_inv in H as (port & s1 & (i1 & _ & ->)%io_do_inv & H). cbv zeta in H.
  apply bind_Ret_inv in H as (xp & s2 & (i2 & [Hn Hp]%getExternalPortState_Ret & ->)%io_do_inv & H).
  apply bind_Ret_inv in H as ([] & s3 & (Hm & _ & Hd)%(put_external_Ret _ l) & [= <- <-]); [|done].
  split_and!; [|auto with mentions|done|].
  - eapply (shown_insert C names l text _ _ _ name xp (clause (xp_OFPort xp) name)); try done; auto with mentions.
    rewrite Hp. auto with mentions.
  - intros n Hne. by rewrite Hm, lookup_insert_ne.
Qed.

Lemma port_loop_Ret C ns l clause entries text names s text' s' :
  external_of ns = Some l →
  (∀ xp, xp_Name xp ∈ entries.*1 → C xp (clause (xp_OFPort xp) (xp_Name xp))) →
  shown C names l text s → for_each entries text (port_step ns clause) s = (Ret text', s') →
  shown C (names ++ entries.*1) l text' s' ∧ st_d s' = st_d s.
Proof.
  intros Hl. revert names text s. induction entries as [|[name v] entries IH]; intros names text s HC Hs H.
  { injection H as <- <-. by rewrite app_nil_r. }
  apply bind_Ret_inv in H as (text1 & s1 & H1 & H2).
  eapply (port_step_Ret C) in H1 as (Hs1 & _ & Hd & _); [|done| |done].
  2: { intros xp <-. apply HC. left. }
  apply (IH (name :: names)) in H2 as [H2 Hd2]; [|intros xp Hx; apply HC; by right|done].
  split; [|congruence]. intros n Hn. apply H2. rewrite fmap_cons in Hn. cbn [fst] in Hn.
  revert Hn. cbn [app]. rewrite !elem_of_app, !elem_of_cons, !elem_of_app. tauto.
Qed.

Lemma add_port_step_eq ns vlans p text :
  add_port_step ns vlans p text = port_step ns (vlan_clause ns vlans) p text.
Proof. by destruct p. Qed.
Lemma add_copro_port_step_eq ns p text :
  add_copro_port_step ns p text = port_step ns copro_clause p text.
Proof. by destruct p. Qed.

Lemma for_each_ext {X A} (entries : list X) (a : A) (f g : X → A → D A) s :
  (∀ x a, f x a = g x a) → for_each entries a f s = for_each entries a g s.
Proof.
  intros Hfg. revert a s. induction entries as [|x entries IH]; intros a s; [done|].
  cbn [for_each]. rewrite Hfg. cbn. destruct (g x a s) as [[a'|v| |] s1]; auto.
Qed.

(** What the options ask for: the ordinary ports, and the coprocessor ports with all ACLs. *)
Definition planned (text : string) : outcome added :=
  if decide (text = "") then Ret (mkAdded ∅ (Some ∅) (Some ∅))
  else parseAddPorts text (mkAdded ∅ (Some ∅) (Some ∅)).
Definition planned_copro (text : string) (ports : added) : outcome added :=
  let acls := default ∅ (ad_acls ports) in
  if decide (text = "") then Ret (mkAdded ∅ (Some acls) None)
  else parseAddPorts text (mkAdded ∅ (Some acls) None).

(** The clauses for a port. *)
Definition port_clauses ns (mode : string) (ports copro : added) (xp : ExternalPortState) (c : string) :
    Prop :=
  (xp_Name xp ∈ dom (ad_ports ports) ∧
     c = vlan_clause ns (default ∅ (ad_vlans ports)) (xp_OFPort xp) (xp_Name xp)) ∨
  (xp_Name xp ∈ dom (ad_ports copro) ∧ c = copro_clause (xp_OFPort xp) (xp_Name xp)) ∨
  ((mode = "nat" ∨ mode = "routed") ∧ xp_OFPort xp = ofPortLocal ∧
     c = localVlanInterfaceYaml (xp_OFPort xp) "OVS Port default gateway" (ns_BridgeVLAN ns)
           (getStrForNetwork (ns_NATAcl ns) (ns_NetworkName ns))).

(** The names of the ports in an option. *)
Definition names_of (ports : added) : list string := elements (dom (ad_ports ports)).

Lemma range_names {V} (m : gmap string V) i entries i' name :
  range m i = (Ret entries, i') → name ∈ entries.*1 ↔ name ∈ dom m.
Proof.
  intros ->%range_perm. rewrite list_elem_of_fmap. split.
  - intros ([k v] & -> & Hin%elem_of_map_to_list). by apply elem_of_dom_2 in Hin.
  - intros [v Hv]%elem_of_dom. exists (name, v). by rewrite elem_of_map_to_list.
Qed.

(** A loop over the ports of an option. *)
Lemma ports_loop_Ret C ns l clause (ports : added) text names s text' s' :
  external_of ns = Some l →
  (∀ xp, xp_Name xp ∈ dom (ad_ports ports) → C xp (clause (xp_OFPort xp) (xp_Name xp))) →
  shown C names l text s →
  (entries ← io_do (range (ad_ports ports)); for_each entries text (port_step ns clause)) s =
    (Ret text', s') →
  shown C (names ++ names_of ports) l text' s' ∧ st_d s' = st_d s.
Proof.
  intros Hl HC Hs H. apply bind_Ret_inv in H as (entries & s1 & (i & Hr & ->)%io_do_inv & H).
  eapply (port_loop_Ret C) in H as [H Hd]; [|done| |exact Hs].
  2: { intros xp Hx. apply HC. by eapply range_names in Hx. }
  split; [|done]. intros n Hn. apply H. revert Hn. rewrite !elem_of_app. intros [Hn|Hn]; [by left|right].
  unfold names_of in Hn. by rewrite elem_of_elements, <- (range_names _ _ _ _ n Hr) in Hn.
Qed.

(** The two halves of create_added_ports: what an option adds to the text. *)
Definition added_ports ns (clause : added → Z → string → string) (plan : outcome added) (skip : bool)
    (text : string) : D (string * added) :=
  ports ← lift plan;
  if skip then ret (text, ports)
  else
    text ← (entries ← io_do (range (ad_ports ports)); for_each entries text (port_step ns (clause ports)));
    ret (text, ports).

Lemma added_ports_plan ns clause plan (skip : bool) text s text' ports s' :
  added_ports ns clause plan skip text s = (Ret (text', ports), s') → plan = Ret ports.
Proof.
  intros (ports' & s1 & [= -> <-] & H)%bind_Ret_inv. f_equal. destruct skip; [by injection H|].
  by apply bind_Ret_inv in H as (? & ? & _ & [= _ -> _]).
Qed.

Lemma added_ports_Ret C ns l clause plan (skip : bool) text names s text' ports s' :
  external_of ns = Some l →
  (skip = true → ad_ports ports = ∅) →
  (∀ xp, xp_Name xp ∈ dom (ad_ports ports) → C xp (clause ports (xp_OFPort xp) (xp_Name xp))) →
  shown C names l text s → added_ports ns clause plan skip text s = (Ret (text', ports), s') →
  st_d s' = st_d s ∧ shown C (names ++ names_of ports) l text' s'.
Proof.
  intros Hl Hskip HC Hs H. apply bind_Ret_inv in H as (ports' & s1 & [= Hp <-] & H).
  destruct skip.
  - injection H as <- <- <-. split; [done|]. unfold names_of.
    rewrite (Hskip eq_refl), dom_empty_L, elements_empty. by rewrite app_nil_r.
  - apply bind_Ret_inv in H as (text1 & s2 & H & [= <- <- <-]).
    eapply (ports_loop_Ret C) in H as [H Hd]; [done|done|auto|done].
Qed.

(** An option of create_added_ports, as such a half. *)
Lemma option_half {B} ns clause step plan text (skip : bool) (f : added → B) s text' b s' :
  (∀ ports p text, step ports p text = port_step ns (clause ports) p text) →
  (if skip then ports ← lift plan; ret (text, f ports)
   else ports ← lift plan;
        entries ← io_do (range (ad_ports ports));
        text ← for_each entries text (step ports);
        ret (text, f ports)) s = (Ret (text', b), s') →
  ∃ ports, added_ports ns clause plan skip text s = (Ret (text', ports), s') ∧ b = f ports.
Proof.
  intros Hstep H. destruct skip.
  - apply bind_Ret_inv in H as (ports & s1 & [= -> <-] & [= <- <- <-]). by exists ports.
  - apply bind_Ret_inv in H as (ports & s1 & [= -> <-] & H).
    apply bind_Ret_inv in H as (entries & s2 & H2 & H). apply bind_Ret_inv in H as (text2 & s3 & H3 & [= <- <- <-]).
    rewrite (for_each_ext _ _ _ _ _ (Hstep ports)) in H3. exists ports. split; [|done]. unfold added_ports.
    erewrite bind_Ret by reflexivity. erewrite bind_Ret; cycle 1.
    { erewrite bind_Ret by exact H2. exact H3. }
    reflexivity.
Qed.

Lemma create_added_ports_Ret ns l mode t1 t2 s text acls s' :
  external_of ns = Some l → create_added_ports ns t1 t2 s = (Ret (text, acls), s') →
  ∃ ports copro, planned t1 = Ret ports ∧ planned_copro t2 ports = Ret copro ∧
    acls = default ∅ (ad_acls copro) ∧ st_d s' = st_d s ∧
    shown (port_clauses ns mode ports copro) (names_of ports ++ names_of copro) l text s'.
Proof.
  intros Hl H. apply bind_Ret_inv in H as ([text1 acls1] & s1 & H1 & H2).
  assert (∃ ports, added_ports ns (λ p, vlan_clause ns (default ∅ (ad_vlans p))) (planned t1)
    (bool_decide (t1 = "")) "" s = (Ret (text1, ports), s1) ∧ acls1 = default ∅ (ad_acls ports))
    as (ports & Ha & ->).
  { eapply (option_half ns _ (λ ports, add_port_step ns (default ∅ (ad_vlans ports))));
      [intros; apply add_port_step_eq|].
    unfold planned. destruct (decide (t1 = "")) as [Ht|Ht];
      [rewrite bool_decide_eq_true_2 by done|rewrite bool_decide_eq_false_2 by done]; exact H1. }
  assert (∃ copro, added_ports ns (λ _, copro_clause) (planned_copro t2 ports)
    (bool_decide (t2 = "")) text1 s1 = (Ret (text, copro), s') ∧ acls = default ∅ (ad_acls copro))
    as (copro & Hb & ->).
  { eapply (option_half ns _ (λ _, add_copro_port_step ns));
      [intros; apply add_copro_port_step_eq|].
    unfold planned_copro. destruct (decide (t2 = "")) as [Ht|Ht];
      [rewrite bool_decide_eq_true_2 by done|rewrite bool_decide_eq_false_2 by done]; exact H2. }
  pose proof (added_ports_plan _ _ _ _ _ _ _ _ _ Ha) as Hp.
  pose proof (added_ports_plan _ _ _ _ _ _ _ _ _ Hb) as Hc.
  exists ports, copro. set (C := port_clauses ns mode ports copro).
  eapply (added_ports_Ret C _ _ _ _ _ _ []) in Ha as [Hd1 Hs1]; [|done|..|by intros ? ?%not_elem_of_nil].
  2: { intros H%bool_decide_eq_true. unfold planned in Hp. rewrite decide_True in Hp by done.
       by injection Hp as <-. }
  2: { intros xp Hx. by left. }
  eapply (added_ports_Ret C) in Hb as [Hd2 Hs2]; [|done|..|exact Hs1].
  2: { intros H%bool_decide_eq_true. unfold planned_copro in Hc. rewrite decide_True in Hc by done.
       by injection Hc as <-. }
  2: { intros xp Hx. right. by left. }
  split_and!; [done..|congruence|exact Hs2].
Qed.

(** ** The rest of the description *)

Lemma create_gateway_port_Ret ns l mode br C names text s text' s' :
  external_of ns = Some l →
  (∀ xp, mode = "nat" ∨ mode = "routed" → xp_OFPort xp = ofPortLocal →
    C xp (localVlanInterfaceYaml (xp_OFPort xp) "OVS Port default gateway" (ns_BridgeVLAN ns)
           (getStrForNetwork (ns_NATAcl ns) (ns_NetworkName ns)))) →
  shown C names l text s → create_gateway_port ns mode br text s = (Ret text', s') →
  shown C names l text' s' ∧ st_d s' = st_d s.
Proof.
  intros Hl HC Hs. unfold create_gateway_port. destruct (decide _) as [Hm|Hm]; [|by intros [= <- <-]].
  intros (xp & s1 & (i & [Hn Hp]%getExternalPortState_Ret & ->)%io_do_inv & H)%bind_Ret_inv.
  apply bind_Ret_inv in H as ([] & s2 & (Hx & _ & Hd)%(put_external_Ret _ l) & [= <- <-]); [|done].
  split; [|done]. intros name Hin.
  eapply (shown_insert C names l text _ (set_io i s) _ br xp
    (localVlanInterfaceYaml (xp_OFPort xp) "OVS Port default gateway" (ns_BridgeVLAN ns)
      (getStrForNetwork (ns_NATAcl ns) (ns_NetworkName ns)))); try done; auto with mentions.
  - rewrite Hp. auto with mentions.
  - by right.
Qed.

Lemma create_mirror_port_Ret d ns sc l text s text' s' :
  create_mirror_port d ns sc text s = (Ret text', s') →
  mentions text' text ∧ ext_map l s' = ext_map l s ∧ st_d s' = st_d s.
Proof.
  unfold create_mirror_port. destruct (usingMirrorBridge d); [|intros [= <- <-]; auto with mentions].
  intros (n1 & s1 & [= _ <-] & H)%bind_Ret_inv. apply bind_Ret_inv in H as (n2 & s2 & [= _ <-] & H).
  apply bind_Ret_inv in H as (p & s3 & (i & _ & ->)%io_do_inv & H).
  apply bind_Ret_inv in H as ([] & s4 & (Hx & _ & Hd)%(put_other_Ret _ _ _ l) & [= <- <-]).
  auto with mentions.
Qed.

(** The datapath of a network, as Faucet's configuration names it. *)
Definition datapath_clause ns : string :=
  ns_NetworkName ns +:+ ": {dp_id: " +:+ itoa (ns_BridgeDpidUint ns) +:+ ", description: "
    +:+ ("OVS Bridge " +:+ ns_BridgeName ns) +:+ ", hardware: ".

Lemma merge_mentions ns text egress :
  let yaml := mergeDpInterfacesYaml (ns_NetworkName ns) (ns_BridgeDpidUint ns)
    ("OVS Bridge " +:+ ns_BridgeName ns) text egress in
  mentions yaml (datapath_clause ns) ∧ mentions yaml text.
Proof.
  cbn zeta. unfold mergeDpInterfacesYaml, datapath_clause. split; [|auto 20 with mentions].
  eexists "", _. rewrite str_app_nil_l, !str_app_assoc. reflexivity.
Qed.

Lemma create_config_yaml_Ret d ns l text egress s yaml s' :
  create_config_yaml d ns text egress s = (Ret yaml, s') →
  mentions yaml (datapath_clause ns) ∧ mentions yaml text ∧
  ext_map l s' = ext_map l s ∧ st_d s' = st_d s.
Proof.
  intros (stacking & s0 & [= _ <-] & H)%bind_Ret_inv. destruct stacking.
  - apply bind_Ret_inv in H as (n1 & s1 & [= _ <-] & H). apply bind_Ret_inv in H as (n2 & s2 & [= _ <-] & H).
    apply bind_Ret_inv in H as (p1 & s3 & (i3 & _ & ->)%io_do_inv & H).
    apply bind_Ret_inv in H as (p2 & s4 & (i4 & _ & ->)%io_do_inv & H).
    apply bind_Ret_inv in H as ([] & s5 & (Hx & _ & Hd)%(put_other_Ret _ _ _ l) & [= <- <-]).
    destruct (merge_mentions ns (text +:+ stackInterfaceYaml p1 (stackDpName d) p2) egress) as [H1 H2].
    split_and!; [auto with mentions| |done|done].
    apply mentions_app_r, mentions_app_l. eapply mentions_trans; [exact H2|auto with mentions].
  - injection H as <- <-. destruct (merge_mentions ns text egress) as [H1 H2]. unfold mergeSingleDpYaml.
    split_and!; auto with mentions.
Qed.

Lemma must_rpc_Ret r s s' : io_do (must_rpc r) s = (Ret tt, s') →
  told r s' ∧ (∀ r', told r' s → told r' s') ∧ st_heap s' = st_heap s ∧ st_d s' = st_d s.
Proof.
  unfold io_do, zoom, must_rpc, told. cbn. destruct (env_reply _ _) as [e|]; [done|]. intros [= <-]. cbn.
  split_and!; [|intros r' Hr|done|done]; apply elem_of_app; [right; left|by left].
Qed.

Lemma acl_loop_Ret ns acls s s' : for_each acls tt (port_acl_step ns) s = (Ret tt, s') →
  (∀ r, told r s → told r s') ∧ st_heap s' = st_heap s ∧ st_d s' = st_d s ∧
  ∀ port a, (port, a) ∈ acls → getStrForNetwork a (ns_NetworkName ns) ≠ "" →
    told (SetPortAcl (ns_NetworkName ns) port (getStrForNetwork a (ns_NetworkName ns))) s'.
Proof.
  revert s. induction acls as [|[port a] acls IH]; intros s H.
  { injection H as <-. split_and!; [done..|]. by intros ? ? ?%not_elem_of_nil. }
  apply bind_Ret_inv in H as ([] & s1 & H1 & (Ht & Hh & Hd & Hall)%IH). cbn in H1.
  destruct (decide (getStrForNetwork a (ns_NetworkName ns) = "")) as [He|Hne].
  - rewrite bool_decide_eq_false_2 in H1 by tauto. injection H1 as <-. split_and!; [done..|].
    intros port' a' [[= -> ->]|Hin]%elem_of_cons Hne; [done|by apply Hall].
  - rewrite bool_decide_eq_true_2 in H1 by done.
    apply must_rpc_Ret in H1 as (H1 & Hm & Hh1 & Hd1). split_and!; [auto|congruence..|].
    intros port' a' [[= -> ->]|Hin]%elem_of_cons Hne'; [by apply Ht|by apply Hall].
Qed.

(** ** Networks *)

(** Faucet was told of a network as it is recorded: its datapath, and every port that the
    options ask for; and of the ACLs of its VLAN and of its ports. *)
Definition introduced (op : DovesnapOp) ns l (s : state) : Prop :=
  ∃ ports copro yaml,
    planned (op_AddPorts op) = Ret ports ∧ planned_copro (op_AddCoproPorts op) ports = Ret copro ∧
    told (SetConfigFile yaml true) s ∧ mentions yaml (datapath_clause ns) ∧
    shown (port_clauses ns (op_Mode op) ports copro) (names_of ports ++ names_of copro) l yaml s ∧
    (getStrForNetwork (ns_VLANOutAcl ns) (ns_NetworkName ns) ≠ "" →
      told (SetVlanOutAcl (itoa (ns_BridgeVLAN ns)) (getStrForNetwork (ns_VLANOutAcl ns) (ns_NetworkName ns))) s) ∧
    (∀ port a, default ∅ (ad_acls copro) !! port = Some a →
      getStrForNetwork a (ns_NetworkName ns) ≠ "" →
      told (SetPortAcl (ns_NetworkName ns) port (getStrForNetwork a (ns_NetworkName ns))) s).

(** What follows the configuration: the ACLs and the mirror, with nothing unsaid. *)
Lemma create_acls_Ret ns sc (mirroring : outcome bool) (acls : gmap Z string) s s' :
  let vlanOutAcl := getStrForNetwork (ns_VLANOutAcl ns) (ns_NetworkName ns) in
  (when (bool_decide (vlanOutAcl ≠ "")) (io_do (mustSetVlanOutAcl (itoa (ns_BridgeVLAN ns)) vlanOutAcl));;
   mirroring ← lift mirroring;
   when mirroring (io_do (mustSetRemoteMirrorPort (ns_NetworkName ns) (smc_LbPort sc) (smc_TunnelVid sc)
     (smc_RemoteDpName sc) (smc_RemoteMirrorPort sc)));;
   entries ← io_do (range acls);
   for_each entries tt (port_acl_step ns)) s = (Ret tt, s') →
  (∀ r, told r s → told r s') ∧ st_heap s' = st_heap s ∧ st_d s' = st_d s ∧
  (vlanOutAcl ≠ "" → told (SetVlanOutAcl (itoa (ns_BridgeVLAN ns)) vlanOutAcl) s') ∧
  ∀ port a, acls !! port = Some a → getStrForNetwork a (ns_NetworkName ns) ≠ "" →
    told (SetPortAcl (ns_NetworkName ns) port (getStrForNetwork a (ns_NetworkName ns))) s'.
Proof.
  cbv zeta. set (acl := getStrForNetwork (ns_VLANOutAcl ns) _).
  intros ([] & s1 & H1 & H)%bind_Ret_inv. apply bind_Ret_inv in H as (m & s2 & [= _ <-] & H).
  apply bind_Ret_inv in H as ([] & s3 & H3 & H).
  apply bind_Ret_inv in H as (entries & s4 & (i & Hr & ->)%io_do_inv & (Ht & Hh & Hd & Hall)%acl_loop_Ret).
  pose proof (range_perm _ _ _ _ Hr) as Hperm. injection Hr as _ <-.
  assert (∀ r, told r s3 → told r s') as Ht3 by (intros r Hr; by apply Ht).
  assert ((∀ r, told r s → told r s1) ∧ st_heap s1 = st_heap s ∧ st_d s1 = st_d s ∧
    (acl ≠ "" → told (SetVlanOutAcl (itoa (ns_BridgeVLAN ns)) acl) s1)) as (Ht1 & Hh1 & Hd1 & Hacl).
  { destruct (decide (acl = "")) as [He|Hne].
    - rewrite bool_decide_eq_false_2 in H1 by tauto. by injection H1 as <-.
    - rewrite bool_decide_eq_true_2 in H1 by done. apply must_rpc_Ret in H1 as (? & ? & ? & ?). auto. }
  assert ((∀ r, told r s1 → told r s3) ∧ st_heap s3 = st_heap s1 ∧ st_d s3 = st_d s1) as (Ht2 & Hh2 & Hd2).
  { destruct m; [|by injection H3 as <-]. apply must_rpc_Ret in H3 as (? & ? & ? & ?). auto. }
  cbn in Hh, Hd. split_and!; [auto|congruence..|auto|].
  intros port a Hp. apply Hall. by rewrite Hperm, elem_of_map_to_list.
Qed.

Lemma create_configure_Ret op ns br l s s' :
  external_of ns = Some l → create_configure op ns br s = (Ret tt, s') →
  introduced op ns l s' ∧ st_d s' = st_d s.
Proof.
  intros Hl H. apply bind_Ret_inv in H as ([text acls] & s1 & H1 & H).
  eapply (create_added_ports_Ret _ _ (op_Mode op)) in H1 as (ports & copro & Hp & Hc & -> & Hd1 & Hs); [|done].
  apply bind_Ret_inv in H as (pre & s2 & (i2 & _ & ->)%io_do_inv & H). cbv zeta in H.
  set (C := port_clauses _ _ _ _) in Hs. set (names := _ ++ _) in Hs.
  apply bind_Ret_inv in H as (text3 & s3 & H3 & H).
  eapply (create_gateway_port_Ret _ l _ _ C names) in H3 as [Hs3 Hd3]; [|done| |].
  2: { intros xp Hm Hx. right. right. by rewrite Hx. }
  2: { eapply shown_mono; [|apply preallocate_mentions|reflexivity|exact Hs]. done. }
  apply bind_Ret_inv in H as (d & s4 & [= _ <-] & H).
  apply bind_Ret_inv in H as (text5 & s5 & (Hm5 & Hx5 & Hd5)%(create_mirror_port_Ret _ _ _ l) & H).
  apply bind_Ret_inv in H as (yaml & s6 & (Hdp & Hm6 & Hx6 & Hd6)%(create_config_yaml_Ret _ _ l) & H).
  apply bind_Ret_inv in H as ([] & s7 & (Htold & _ & Hh7 & Hd7)%must_rpc_Ret & H).
  apply create_acls_Ret in H as (Ht & Hh & Hd & Hacl & Hall).
  split; [|cbn in *; congruence]. exists ports, copro, yaml. split_and!; auto.
  eapply (shown_mono C C names l text3); [done| | |exact Hs3].
  - by eapply mentions_trans.
  - rewrite <- Hx5, <- Hx6. unfold ext_map. by rewrite Hh, Hh7.
Qed.

Lemma create_work_introduces op l s :
  external_of (op_NewNetworkState op) = Some l →
  wp (create_work op) (λ o s', match o with
    | Ret _ => ∃ ns, networks (st_d s') !! op_NetworkID op = Some ns ∧ introduced op ns l s'
    | _ => st_notes s' = st_notes s
    end) s.
Proof.
  intros Hl. pose proof (create_work_spec op s) as Hspec. unfold wp in *.
  destruct (create_work op s) as [[[]|v| |] s1] eqn:Hw; [clear Hspec|apply Hspec..].
  apply bind_Ret_inv in Hw as ([ns br] & s2 & Hreg & Hw).
  apply bind_Ret_inv in Hw as ([] & s3 & Hconf & [= <-]).
  pose proof (create_register_spec op s) as Hr. unfold wp in Hr. rewrite Hreg in Hr. cbn [fst snd] in Hr.
  destruct Hr as (_ & _ & _ & name & -> & Hcr & _).
  eapply (create_configure_Ret _ _ _ l) in Hconf as [Hi Hd]; [|exact Hl].
  eexists. split; [|exact Hi]. cbn. rewrite Hd, Hcr. apply lookup_insert_eq.
Qed.

(** C5: Faucet is told of a network as it is recorded.  After a creation that was announced,
    the network is registered, and Faucet was sent a configuration of its datapath in which
    every port that the options name has a clause with the number under which it is recorded
    (its VLAN or coprocessor clause, or the gateway's when it is the bridge itself), and was
    asked for the ACLs of the network's VLAN and of each of the ports. *)
Theorem create_introduces op l s :
  external_of (op_NewNetworkState op) = Some l →
  wp (mustHandleCreateNetwork op) (λ o s',
    st_notes s' = st_notes s ∨
    ∃ ns, networks (st_d s') !! op_NetworkID op = Some ns ∧ introduced op ns l s') s.
Proof.
  intros Hl. unfold mustHandleCreateNetwork. apply wp_deferring, wp_recovering.
  eapply wp_mono; [|by apply (create_work_introduces op l)].
  intros [[]|v| |] s1 H; [right|left..]; unfold wp; cbn; try exact H.
  all: destruct (_ <? 0)%Z; exact H.
Qed.
End ports.

(** A network with one port of its own and an ACL for it. *)
Definition port_create : DovesnapOp :=
  mkDovesnapOp "create" Lab.net (mkStackMirrorConfig 99 0 "" 0) "eth9/7/allowall" "" "flat" Lab.net_id
    "odsbr4f1d8" [] 0 None.

Definition port_start : state := set_wg 1 (set_heap Lab.heap1 (start plain_driver)).
Definition port_created : state := (mustHandleCreateNetwork (E := Lab.env) port_create port_start).2.

(** The port is recorded with the number that Open vSwitch gave it, and its ACL was set. *)
Example port_is_recorded :
  (xp_OFPort <$> ext_map 1 port_created !! "eth9") = Some 7%Z ∧
  omap (λ c, match c with CRpc (SetPortAcl dp port acl) => Some (dp, port, acl) | _ => None end)
    (io_trace (st_io port_created)) = [("testnet", 7%Z, "allowall")].
Proof. vm_compute. done. Qed.

Lemma create_introduces_witness :
  ∃ ns, networks (st_d port_created) !! Lab.net_id = Some ns ∧ introduced port_create ns 1 port_created.
Proof.
  destruct (create_introduces (E := Lab.env) port_create 1%positive port_start eq_refl) as [H|H].
  - vm_compute in H. discriminate.
  - exact H.
Defined.
