(* ===== verification/Json.v ===== *)
(** * The status document: encoding/json on the driver's networks

    The status page of ovs/driver.go prints [json.Marshal(d.networks)].  The
    encoder writes a struct's fields in their order and a map's keys sorted, a nil
    map as [null], and a string with the characters that are special in JSON or in
    HTML escaped. *)
From S2P Require Import Prelude GoStrings GoFormat GoMonad World Utils Types.

Local Unset Elimination Schemes.
Inductive json : Type :=
  | JNull
  | JBool (b : bool)
  | JNum (n : Z)
  | JStr (s : string)
  | JObj (fields : list (string * json)).
Local Set Elimination Schemes.

(** ** Strings *)

Definition backslash : ascii := "092"%char.

(** The characters that are not written as they are. *)
Definition json_unsafe (c : ascii) : bool :=
  ((byte_of c <? 32) || bool_decide (c ∈ [dquote; backslash; "<"; ">"; "&"]%char))%Z.

(** The escape of an unsafe ASCII character. *)
Definition json_escape (c : ascii) : list ascii :=
  if decide (c = dquote ∨ c = backslash) then [backslash; c]
  else if (byte_of c =? 8)%Z then [backslash; "b"%char]
  else if (byte_of c =? 9)%Z then [backslash; "t"%char]
  else if (byte_of c =? 10)%Z then [backslash; "n"%char]
  else if (byte_of c =? 12)%Z then [backslash; "f"%char]
  else if (byte_of c =? 13)%Z then [backslash; "r"%char]
  else [backslash; "u"; "0"; "0"]%char ++
       [hex_char (byte_of c / 16); hex_char (byte_of c mod 16)].

(** The line and paragraph separators U+2028 and U+2029. *)
Definition is_separator (r : list ascii) : option ascii :=
  if decide (r = ["226"; "128"; "168"]%char) then Some "8"%char
  else if decide (r = ["226"; "128"; "169"]%char) then Some "9"%char
  else None.

Fixpoint escape_chars (fuel : nat) (l : list ascii) : list ascii :=
  match fuel, l with
  | S fuel', c :: l' =>
      match rune_size l with
      | O => [backslash; "u"; "f"; "f"; "f"; "d"]%char ++ escape_chars fuel' l'
      | 1 => (if json_unsafe c then json_escape c else [c]) ++ escape_chars fuel' l'
      | n =>
          (match is_separator (take n l) with
           | Some d => [backslash; "u"; "2"; "0"; "2"]%char ++ [d]
           | None => take n l
           end) ++ escape_chars fuel' (drop n l)
      end
  | _, _ => []
  end.

Definition json_string (s : string) : string :=
  String dquote (of_chars (escape_chars (String.length s) (chars s)) +:+ String dquote "").

(** ** Values *)

Fixpoint Marshal (j : json) : string :=
  match j with
  | JNull => "null"
  | JBool b => if b then "true" else "false"
  | JNum n => itoa n
  | JStr s => json_string s
  | JObj fields =>
      "{" +:+ Join (map (λ kv, json_string kv.1 +:+ ":" +:+ Marshal kv.2) fields) "," +:+ "}"
  end.

(** A map: [null] when it is nil, its keys sorted otherwise. *)
Definition sorted_entries {V} (m : gmap string V) : list (string * V) :=
  merge_sort (λ a b : string * V, String.le a.1 b.1) (map_to_list m).

Definition json_map {V} (f : V → json) (m : gmap string V) : json :=
  JObj (prod_map id f <$> sorted_entries m).

Definition json_opt {V} (f : V → json) (m : option (gmap string V)) : json :=
  match m with None => JNull | Some m => json_map f m end.

Definition json_ref {V} (f : V → json) (h : gmap positive (gmap string V)) (r : ref) : json :=
  match r with None => JNull | Some _ => json_map f (map_get h r) end.

Definition json_ContainerState (c : ContainerState) : json :=
  JObj [("Name", JStr (cs_Name c)); ("Id", JStr (cs_Id c)); ("OFPort", JNum (cs_OFPort c));
        ("MacAddress", JStr (cs_MacAddress c)); ("HostIP", JStr (cs_HostIP c));
        ("Labels", json_opt JStr (cs_Labels c)); ("IfName", JStr (cs_IfName c))].

Definition json_ExternalPortState (x : ExternalPortState) : json :=
  JObj [("Name", JStr (xp_Name x)); ("OFPort", JNum (xp_OFPort x));
        ("MacAddress", JStr (xp_MacAddress x))].

Definition json_OtherBridgePortState (b : OtherBridgePortState) : json :=
  JObj [("Name", JStr (bp_Name b)); ("PeerName", JStr (bp_PeerName b));
        ("OFPort", JNum (bp_OFPort b)); ("PeerOFPort", JNum (bp_PeerOFPort b));
        ("PeerBridgeName", JStr (bp_PeerBridgeName b))].

Definition json_DynamicNetworkState (h : heap) (dyn : DynamicNetworkState) : json :=
  JObj [("ShortEngineId", JStr (dyn_ShortEngineId dyn));
        ("Containers", json_ref json_ContainerState (h_containers h) (dyn_Containers dyn));
        ("ExternalPorts", json_ref json_ExternalPortState (h_external h) (dyn_ExternalPorts dyn));
        ("OtherBridgePorts",
          json_ref json_OtherBridgePortState (h_other h) (dyn_OtherBridgePorts dyn))].

Definition json_NetworkState (h : heap) (ns : NetworkState) : json :=
  JObj [("NetworkName", JStr (ns_NetworkName ns)); ("BridgeName", JStr (ns_BridgeName ns));
        ("BridgeDpid", JStr (ns_BridgeDpid ns)); ("BridgeDpidUint", JNum (ns_BridgeDpidUint ns));
        ("BridgeVLAN", JNum (ns_BridgeVLAN ns)); ("MTU", JNum (ns_MTU ns));
        ("PreAllocatePorts", JNum (ns_PreAllocatePorts ns)); ("Mode", JStr (ns_Mode ns));
        ("AddPorts", JStr (ns_AddPorts ns)); ("AddCoproPorts", JStr (ns_AddCoproPorts ns));
        ("Gateway", JStr (ns_Gateway ns)); ("GatewayMask", JStr (ns_GatewayMask ns));
        ("FlatBindInterface", JStr (ns_FlatBindInterface ns)); ("UseDHCP", JBool (ns_UseDHCP ns));
        ("Userspace", JBool (ns_Userspace ns)); ("NATAcl", JStr (ns_NATAcl ns));
        ("VLANOutAcl", JStr (ns_VLANOutAcl ns)); ("DefaultAcl", JStr (ns_DefaultAcl ns));
        ("OvsLocalMac", JStr (ns_OvsLocalMac ns)); ("Controller", JStr (ns_Controller ns));
        ("DynamicNetworkStates", json_DynamicNetworkState h (ns_DynamicNetworkStates ns))].

Definition json_networks (h : heap) (m : gmap string NetworkState) : json :=
  json_map (json_NetworkState h) m.
