(* ===== verification/JsonText.v ===== *)
(** * Reading JSON back

    A reader for the compact JSON that encoding/json writes, and the proof that it
    reads back every document that [Marshal] prints, as long as its strings are
    UTF-8 text and its numbers are unsigned integers. *)
From S2P Require Import Prelude GoStrings GoFormat GoMonad World Utils Types Json.

(** ** The reader *)

(** The bytes of a rune of the basic plane. *)
Definition utf8_encode (n : Z) : list ascii :=
  let byte b := ascii_of_nat (Z.to_nat b) in
  if (n <? 128)%Z then [byte n]
  else if (n <? 2048)%Z then [byte (192 + n / 64); byte (128 + n mod 64)]%Z
  else [byte (224 + n / 4096); byte (128 + (n / 64) mod 64); byte (128 + n mod 64)]%Z.

Definition hex4 (a b c d : ascii) : option Z :=
  a ← hex_digit a; b ← hex_digit b; c ← hex_digit c; d ← hex_digit d;
  Some (((a * 16 + b) * 16 + c) * 16 + d)%Z.

Definition short_escape (c : ascii) : option ascii :=
  if decide (c = dquote ∨ c = backslash) then Some c
  else if decide (c = "b"%char) then Some "008"%char
  else if decide (c = "t"%char) then Some "009"%char
  else if decide (c = "n"%char) then Some "010"%char
  else if decide (c = "f"%char) then Some "012"%char
  else if decide (c = "r"%char) then Some "013"%char
  else None.

(** The rest of a string, after its opening quote. *)
Fixpoint read_chars (l : list ascii) : option (list ascii * list ascii) :=
  match l with
  | [] => None
  | c :: l1 =>
      if decide (c = dquote) then Some ([], l1)
      else if decide (c = backslash) then
        match l1 with
        | [] => None
        | e :: l2 =>
            if decide (e = "u"%char) then
              match l2 with
              | h1 :: h2 :: h3 :: h4 :: l3 =>
                  n ← hex4 h1 h2 h3 h4; prod_map (app (utf8_encode n)) id <$> read_chars l3
              | _ => None
              end
            else x ← short_escape e; prod_map (cons x) id <$> read_chars l2
        end
      else if (byte_of c <? 32)%Z then None
      else prod_map (cons c) id <$> read_chars l1
  end.

Definition read_string (l : list ascii) : option (string * list ascii) :=
  match l with
  | c :: l1 => if decide (c = dquote) then prod_map of_chars id <$> read_chars l1 else None
  | [] => None
  end.

(** A number of at most 64 bits. *)
Definition read_number (l : list ascii) : option (json * list ascii) :=
  let '(ds, rest) := list_span is_digit l in
  match ParseUint (of_chars ds) u64_max with
  | Ok n => Some (JNum n, rest)
  | Err _ => None
  end.

(** What follows a given word. *)
Fixpoint after_word (w l : list ascii) : option (list ascii) :=
  match w, l with
  | [], _ => Some l
  | c :: w', d :: l' => if decide (c = d) then after_word w' l' else None
  | _ :: _, [] => None
  end.

(** A value, and the members of an object after its opening brace; the fuel bounds the
    number of values. *)
Fixpoint read_value (fuel : nat) (l : list ascii) : option (json * list ascii) :=
  match fuel with
  | O => None
  | S fuel' =>
      match l with
      | [] => None
      | c :: l1 =>
          if decide (c = dquote) then prod_map JStr id <$> read_string l
          else if decide (c = "{"%char) then
            match l1 with
            | d :: l2 =>
                if decide (d = "}"%char) then Some (JObj [], l2)
                else prod_map JObj id <$> read_members fuel' l1
            | [] => None
            end
          else if decide (c = "n"%char) then pair JNull <$> after_word (chars "null") l
          else if decide (c = "t"%char) then pair (JBool true) <$> after_word (chars "true") l
          else if decide (c = "f"%char) then pair (JBool false) <$> after_word (chars "false") l
          else read_number l
      end
  end
with read_members (fuel : nat) (l : list ascii) : option (list (string * json) * list ascii) :=
  match fuel with
  | O => None
  | S fuel' =>
      '(k, l1) ← read_string l;
      l2 ← after_word [":"%char] l1;
      '(v, l3) ← read_value fuel' l2;
      match l3 with
      | c :: l4 =>
          if decide (c = ","%char) then prod_map (cons (k, v)) id <$> read_members fuel' l4
          else if decide (c = "}"%char) then Some ([(k, v)], l4)
          else None
      | [] => None
      end
  end.

Definition Unmarshal (s : string) : option json :=
  match read_value (S (String.length s)) (chars s) with
  | Some (j, []) => Some j
  | _ => None
  end.

(** ** Strings *)

(** UTF-8 text: a sequence of valid runes. *)
Fixpoint utf8_chars (fuel : nat) (l : list ascii) : bool :=
  match fuel, l with
  | S fuel', _ :: _ =>
      match rune_size l with
      | O => false
      | n => utf8_chars fuel' (drop n l)
      end
  | O, _ :: _ => false
  | _, [] => true
  end.
Definition valid_utf8 (s : string) : bool := utf8_chars (String.length s) (chars s).

Lemma between_spec lo hi c : between lo hi c = true ↔ (lo ≤ byte_of c ≤ hi)%Z.
Proof. unfold between. rewrite andb_true_iff, !Z.leb_le. done. Qed.

Lemma read_chars_ascii c tail : (byte_of c < 128)%Z →
  read_chars ((if json_unsafe c then json_escape c else [c]) ++ tail) =
  prod_map (cons c) id <$> read_chars tail.
Proof. destruct c as [[] [] [] [] [] [] [] []]; intros Hc; [done || reflexivity..]. Qed.

Lemma read_chars_raw r tail : Forall (λ c, 128 ≤ byte_of c)%Z r →
  read_chars (r ++ tail) = prod_map (app r) id <$> read_chars tail.
Proof.
  induction 1 as [|c r Hc _ IH]; cbn [app].
  - by destruct (read_chars tail) as [[]|].
  - cbn [read_chars]. rewrite decide_False by (intros ->; by vm_compute in Hc).
    rewrite decide_False by (intros ->; by vm_compute in Hc).
    destruct (Z.ltb_spec (byte_of c) 32); [lia|]. rewrite IH.
    by destruct (read_chars tail) as [[]|].
Qed.

(** A rune of more than one byte has no ASCII byte. *)
Lemma rune_size_raw l n : rune_size l = S (S n) → Forall (λ c, 128 ≤ byte_of c)%Z (take (S (S n)) l).
Proof.
  destruct l as [|c0 l1]; [done|]. cbn [rune_size].
  destruct (between 0 127 c0); [done|].
  destruct (between 194 223 c0) eqn:E2; [|destruct (between 224 239 c0) eqn:E3;
    [|destruct (between 240 244 c0) eqn:E4; [|done]]].
  all: repeat match goal with
    | |- context [match ?l with [] => _ | _ :: _ => _ end] => destruct l; [done|]
    end.
  all: repeat case_match; try done; intros [= <-]; cbn [take].
  all: repeat match goal with H : _ && _ = true |- _ => apply andb_prop in H as [? ?] end.
  all: repeat match goal with H : between _ _ _ = true |- _ => apply between_spec in H end.
  all: repeat constructor; repeat case_match; lia.
Qed.

Lemma rune_size_one c l : rune_size (c :: l) = 1%nat → (byte_of c < 128)%Z.
Proof.
  cbn [rune_size]. destruct (between 0 127 c) eqn:E; [apply between_spec in E; lia|].
  repeat case_match; done.
Qed.

Lemma is_separator_spec r d tail : is_separator r = Some d →
  read_chars ([backslash; "u"; "2"; "0"; "2"]%char ++ [d] ++ tail) =
  prod_map (app r) id <$> read_chars tail.
Proof.
  unfold is_separator. intros Hs. case_decide; [|case_decide; [|done]].
  all: injection Hs as <-; subst r; reflexivity.
Qed.

Lemma read_chars_escape fuel l rest : utf8_chars fuel l = true →
  read_chars (escape_chars fuel l ++ dquote :: rest) = Some (l, rest).
Proof.
  revert l. induction fuel as [|fuel IH]; intros [|c l] Hl; try done.
  cbn [utf8_chars escape_chars] in *.
  destruct (rune_size (c :: l)) as [|[|n]] eqn:E; [done|..].
  - rewrite <- app_assoc, read_chars_ascii by (by eapply rune_size_one).
    rewrite IH by done. done.
  - rewrite <- app_assoc. destruct (is_separator _) eqn:Es.
    + rewrite <- app_assoc. rewrite (is_separator_spec _ _ _ Es), IH by done.
      cbn -[take drop]. by rewrite take_drop.
    + rewrite read_chars_raw, IH by (done || by apply rune_size_raw).
      cbn -[take drop]. by rewrite take_drop.
Qed.

Lemma chars_cons c s : chars (String c s) = c :: chars s.
Proof. done. Qed.

Lemma chars_json_string s :
  chars (json_string s) = dquote :: escape_chars (String.length s) (chars s) ++ [dquote].
Proof. unfold json_string. by rewrite chars_cons, chars_app, chars_of_chars. Qed.

Lemma read_json_string s rest : valid_utf8 s = true →
  read_string (chars (json_string s) ++ rest) = Some (s, rest).
Proof.
  intros Hs. rewrite chars_json_string. cbn [app read_string]. rewrite decide_True by done.
  rewrite <- app_assoc. cbn [app]. rewrite read_chars_escape by done. cbn.
  by rewrite of_chars_chars.
Qed.

(** ** Values *)

(** Induction on documents: an object's fields satisfy the claim. *)
Lemma json_ind (P : json → Prop) :
  P JNull → (∀ b, P (JBool b)) → (∀ n, P (JNum n)) → (∀ s, P (JStr s)) →
  (∀ fields, Forall (λ kv, P kv.2) fields → P (JObj fields)) → ∀ j, P j.
Proof.
  intros Hnull Hbool Hnum Hstr Hobj. fix go 1. intros [|b|n|s|fields]; [exact Hnull|apply Hbool|apply Hnum|apply Hstr|].
  apply Hobj. induction fields as [|kv fields IH]; constructor; [apply go|exact IH].
Qed.

(** Documents that can be read back: their texts are UTF-8 and their numbers are unsigned
    and of 64 bits; [text] says more of the texts. *)
Fixpoint json_texts (text : string → bool) (j : json) : bool :=
  match j with
  | JNull | JBool _ => true
  | JNum n => bool_decide (0 ≤ n ≤ u64_max)%Z
  | JStr s => text s
  | JObj fields => forallb (λ kv, text kv.1 && json_texts text kv.2) fields
  end.
Abbreviation wf_json := (json_texts valid_utf8).

Lemma json_texts_mono (text text' : string → bool) j :
  (∀ t, text t = true → text' t = true) → json_texts text j = true → json_texts text' j = true.
Proof.
  intros Ht. induction j as [| | | |fields IH] using json_ind; cbn [json_texts]; auto.
  induction IH as [|kv fields Hkv _ IHf]; cbn [forallb]; [done|].
  rewrite !andb_true_iff. intros [[H1 H2] H3]. auto.
Qed.

(** The nesting of values and members that the reader goes through. *)
Fixpoint json_depth (j : json) : nat :=
  match j with
  | JObj fields => S (foldr (λ kv n, S (Nat.max (json_depth kv.2) n)) O fields)
  | _ => 1
  end.

Definition member (kv : string * json) : string := json_string kv.1 +:+ ":" +:+ Marshal kv.2.
Definition members_text (fields : list (string * json)) : string := Join (map member fields) ",".

Lemma Marshal_obj fields : Marshal (JObj fields) = "{" +:+ members_text fields +:+ "}".
Proof. done. Qed.

Lemma members_text_cons kv fields :
  members_text (kv :: fields) =
  member kv +:+ match fields with [] => "" | _ => "," +:+ members_text fields end.
Proof.
  unfold members_text. destruct fields as [|kv' fields]; [by rewrite str_app_nil_r|].
  cbn [map]. by rewrite Join_cons.
Qed.

Lemma wf_obj text fields : json_texts text (JObj fields) = true ↔
  Forall (λ kv, text kv.1 = true ∧ json_texts text kv.2 = true) fields.
Proof.
  cbn [json_texts]. induction fields as [|kv fields IH]; cbn [forallb]; [by rewrite Forall_nil|].
  by rewrite Forall_cons, !andb_true_iff, IH.
Qed.

Lemma Marshal_depth j : wf_json j = true → (json_depth j ≤ String.length (Marshal j))%nat.
Proof.
  induction j as [|[]|n|s|fields IH] using json_ind; intros Hj; try (cbn; lia).
  - apply bool_decide_eq_true in Hj. cbn [json_depth Marshal].
    pose proof (itoa_not_nil n (proj1 Hj)). destruct (itoa n); [done|cbn; lia].
  - apply wf_obj in Hj. rewrite Marshal_obj, !str_length_app. cbn [json_depth String.length].
    enough (foldr (λ kv n, S (json_depth kv.2 `max` n)) O fields ≤ String.length (members_text fields))%nat by lia.
    induction fields as [|kv fields IHf]; [cbn; lia|].
    apply Forall_cons in IH as [IH1 IH2]. apply Forall_cons in Hj as [[Hk Hv] Hj].
    rewrite members_text_cons. unfold member. rewrite !str_length_app. cbn [foldr String.length].
    specialize (IH1 Hv). specialize (IHf IH2 Hj).
    assert (2 ≤ String.length (json_string kv.1))%nat.
    { rewrite <- length_chars, chars_json_string. cbn. rewrite length_app. cbn. lia. }
    destruct fields; [cbn in *; lia|]. rewrite str_length_app. cbn [String.length]. lia.
Qed.

(** A text that does not go on with a digit. *)
Definition no_digit (l : list ascii) : Prop :=
  match l with c :: _ => is_digit c = false | [] => True end.

Lemma list_span_digits ds rest : Forall (λ c, is_digit c = true) ds → no_digit rest →
  list_span is_digit (ds ++ rest) = (ds, rest).
Proof.
  intros Hds Hr. destruct rest as [|c rest]; [|by apply list_span_app].
  rewrite app_nil_r. induction Hds as [|c ds Hc _ IH]; cbn; [done|]. by rewrite Hc, IH.
Qed.

Lemma read_itoa fuel n rest : (0 ≤ n ≤ u64_max)%Z → no_digit rest →
  read_value (S fuel) (chars (itoa n) ++ rest) = Some (JNum n, rest).
Proof.
  intros Hn Hr.
  assert (Forall (λ c, is_digit c = true) (chars (itoa n))) as Hd.
  { apply Forall_forall. intros c Hc. eapply itoa_chars; [|done]. lia. }
  assert (read_number (chars (itoa n) ++ rest) = Some (JNum n, rest)) as Hread.
  { unfold read_number. rewrite list_span_digits by done.
    by rewrite of_chars_chars, ParseUint_itoa. }
  pose proof (itoa_not_nil n ltac:(lia)) as Hne.
  destruct (itoa n) as [|c s] eqn:E; [done|]. rewrite chars_cons in *. cbn [app read_value] in *.
  apply Forall_inv in Hd.
  repeat (rewrite decide_False by (intros ->; done)). done.
Qed.

Lemma after_word_app w rest : after_word w (w ++ rest) = Some rest.
Proof. induction w as [|c w IH]; cbn; [done|]. by rewrite decide_True. Qed.

(** The members of an object are read back, when each of their values is. *)
Lemma read_members_text fields fuel rest :
  fields ≠ [] →
  Forall (λ kv, valid_utf8 kv.1 = true ∧ ∀ fuel rest, (json_depth kv.2 ≤ fuel)%nat → no_digit rest →
    read_value fuel (chars (Marshal kv.2) ++ rest) = Some (kv.2, rest)) fields →
  (foldr (λ kv n, S (json_depth kv.2 `max` n)) O fields ≤ fuel)%nat →
  read_members fuel (chars (members_text fields) ++ "}"%char :: rest) = Some (fields, rest).
Proof.
  intros Hne HF. revert fuel. induction HF as [|[k v] fields [Hk Hv] HF IH]; intros fuel Hfuel; [done|].
  cbn [foldr fst snd] in *. destruct fuel as [|fuel]; [lia|].
  rewrite members_text_cons. unfold member. cbn [fst snd]. rewrite !chars_app, <- !app_assoc.
  cbn [read_members]. rewrite read_json_string by done. cbn [bind option_seq].
  cbn [chars String.list_ascii_of_string app after_word]. rewrite decide_True by done. cbn beta iota.
  destruct fields as [|kv' fields].
  - rewrite Hv by (done || lia). cbn. done.
  - rewrite Hv by (done || lia). rewrite chars_app. cbn [chars String.list_ascii_of_string app].
    rewrite decide_True by done. fold chars. by rewrite IH by (done || lia).
Qed.

Lemma read_value_Marshal j fuel rest : wf_json j = true → (json_depth j ≤ fuel)%nat → no_digit rest →
  read_value fuel (chars (Marshal j) ++ rest) = Some (j, rest).
Proof.
  revert fuel rest. induction j as [|[]|n|s|fields IH] using json_ind; intros fuel rest Hj Hf Hr;
    (destruct fuel as [|fuel]; [cbn in Hf; lia|]); try done.
  - apply bool_decide_eq_true in Hj. by apply read_itoa.
  - cbn [Marshal]. pose proof (read_json_string s rest Hj) as Hs.
    rewrite chars_json_string in *. cbn [app read_value] in *. by rewrite Hs.
  - rewrite Marshal_obj, !chars_app, <- !app_assoc.
    cbn [chars String.list_ascii_of_string app read_value].
    rewrite decide_False, decide_True by done. destruct fields as [|kv fields]; [done|].
    assert (∃ c l, chars (members_text (kv :: fields)) = c :: l ∧ c ≠ "}"%char) as (c & l & Hc & Hne).
    { rewrite members_text_cons. unfold member. rewrite !chars_app, chars_json_string. by eexists _, _. }
    pose proof (read_members_text (kv :: fields) fuel rest) as Hm.
    rewrite Hc in *. cbn [app] in *. rewrite decide_False by done.
    rewrite Hm; [done|done| |cbn [json_depth] in Hf; lia].
    apply wf_obj in Hj. eapply Forall_impl; [apply (conj IH), Forall_and in Hj; exact Hj|].
    cbn beta. intros kv' (H1 & H2 & H3). split; [done|]. auto.
Qed.

(** A document is read back from its text. *)
Lemma Unmarshal_Marshal j : wf_json j = true → Unmarshal (Marshal j) = Some j.
Proof.
  intros Hj. unfold Unmarshal. pose proof (Marshal_depth j Hj).
  rewrite <- (app_nil_r (chars (Marshal j))). by rewrite read_value_Marshal by (done || lia).
Qed.

(** ** Texts without a percent sign *)

Definition no_percent (s : string) : bool := bool_decide ("%"%char ∉ chars s).

Lemma json_escape_percent c : "%"%char ∈ json_escape c → (byte_of c < 128)%Z → False.
Proof.
  intros Hin Hc. assert (bool_decide ("%"%char ∈ json_escape c) = false) as Hf; cycle 1.
  { by apply bool_decide_eq_false in Hf. }
  destruct c as [[] [] [] [] [] [] [] []]; [done || reflexivity..].
Qed.

Lemma escape_percent fuel l : "%"%char ∈ escape_chars fuel l → "%"%char ∈ l.
Proof.
  revert l. induction fuel as [|fuel IH]; intros [|c l]; try (by intros ?%not_elem_of_nil).
  cbn [escape_chars]. destruct (rune_size (c :: l)) as [|[|n]] eqn:E.
  - intros [H|H]%elem_of_app; [|right; by apply IH].
    repeat (apply elem_of_cons in H as [H|H]; [discriminate H|]). by apply not_elem_of_nil in H.
  - intros [H|H]%elem_of_app; [|right; by apply IH]. destruct (json_unsafe c).
    + exfalso. eapply json_escape_percent; [done|]. by eapply rune_size_one.
    + apply list_elem_of_singleton in H as <-. left.
  - intros [H|H]%elem_of_app; cycle 1.
    { rewrite <- (take_drop (S (S n)) (c :: l)). apply elem_of_app. right. by apply IH. }
    unfold is_separator in H. repeat case_decide.
    1,2: repeat (apply elem_of_cons in H as [H|H]; [discriminate H|]); by apply not_elem_of_nil in H.
    rewrite <- (take_drop (S (S n)) (c :: l)). apply elem_of_app. by left.
Qed.

Lemma json_string_percent s : no_percent s = true → free "%" (json_string s).
Proof.
  intros Hs%bool_decide_eq_true. unfold free. rewrite chars_json_string.
  intros [H|[H|H]%elem_of_app]%elem_of_cons; [discriminate H| |].
  - by apply Hs, (escape_percent (String.length s)).
  - by apply list_elem_of_singleton in H.
Qed.

Lemma Marshal_percent j : json_texts no_percent j = true → free "%" (Marshal j).
Proof.
  induction j as [|[]|n|s|fields IH] using json_ind; intros Hj.
  1-3: decide_now.
  - apply bool_decide_eq_true in Hj. apply itoa_free; [lia|done].
  - by apply json_string_percent.
  - apply wf_obj in Hj. rewrite Marshal_obj, !free_app.
    split; [decide_now|]. split; [|unfold free; decide_now].
    induction fields as [|kv fields IHf]; [apply free_nil|].
    apply Forall_cons in IH as [IH1 IH2]. apply Forall_cons in Hj as [[Hk Hv] Hj].
    rewrite members_text_cons. unfold member. rewrite !free_app. split_and!; auto.
    + by apply json_string_percent.
    + decide_now.
    + destruct fields; [apply free_nil|]. rewrite free_app.
      split; [decide_now|]. by apply IHf.
Qed.

Definition plain_text (t : string) : bool := valid_utf8 t && no_percent t.

(** A document whose texts are UTF-8 and have no percent sign: printed as a format without
    operands, it is read back. *)
Lemma Unmarshal_Sprintf0 j : json_texts plain_text j = true →
  Unmarshal (Sprintf0 (Marshal j)) = Some j.
Proof.
  intros Hj.
  assert (wf_json j = true ∧ json_texts no_percent j = true) as [Hwf Hp].
  { split; (eapply json_texts_mono; [|exact Hj]); intros t; unfold plain_text;
      rewrite andb_true_iff; tauto. }
  rewrite Sprintf0_plain by by apply Marshal_percent. by apply Unmarshal_Marshal.
Qed.

Example read_back :
  let j := JObj [("a", JObj []); ("b", JObj [("say", JStr "<hi> &"); ("n", JNum 42)]); ("c", JNull)] in
  Unmarshal (Sprintf0 (Marshal j)) = Some j.
Proof. vm_compute. reflexivity. Qed.

Example percent_is_garbled :
  Sprintf0 (Marshal (JObj [("load", JNum 100); ("note", JStr "100% of 5")])) ≠
  Marshal (JObj [("load", JNum 100); ("note", JStr "100% of 5")]).
Proof. vm_compute. discriminate. Qed.
