(* ===== verification/Manager.v ===== *)
(** * The resource manager: ovs/driver.go

    One goroutine owns the driver's networks: it takes messages from a channel,
    runs the handler of each, and reconciles its view with Open vSwitch and with
    the DHCP clients when it has waited three seconds. *)
From S2P Require Import Prelude GoStrings GoMonad World Scenario Utils OvsDb OvsPort Types Config Iptables Faucet Docker OvsBridge Driver Handlers Json.

Section reconcile.
Context `{E : Env}.

(** ** Addresses of DHCP clients *)

(** [container.HostIP = ip], in a copy of the struct. *)
Definition set_HostIP (ip : string) (c : ContainerState) : ContainerState :=
  mkContainerState (cs_Name c) (cs_Id c) (cs_OFPort c) (cs_MacAddress c) ip (cs_Labels c)
    (cs_IfName c).

Definition dhcp_container_step (ns : NetworkState) (p : string * ContainerState) (_ : unit) :
    D unit :=
  let '(containerid, container) := p in
  let ipFile := dhcpStatePath +:+ "/" +:+ cs_Id container +:+ "-ipv4.txt" in
  content ← io_do (ext (CReadFile ipFile));
  match content with
  | Err _ => skip
  | Ok content =>
      put_container ns containerid
        (set_HostIP (Trim content (String " " (String newline ""))) container)
  end.

Definition dhcp_network_step (p : string * NetworkState) (_ : unit) : D unit :=
  let '(_, ns) := p in
  if ns_UseDHCP ns then
    containers ← gets (λ s,
      map_get (h_containers (st_heap s)) (dyn_Containers (ns_DynamicNetworkStates ns)));
    entries ← io_do (range containers);
    for_each entries tt (dhcp_container_step ns)
  else skip.

Definition reconcileDhcpIp : D unit :=
  stat ← io_do (ext (CStat (dhcpStatePath +:+ "/udhcpc.updated")));
  match stat with
  | StatErr _ _ => skip
  | StatOk mtime =>
      d ← get_d;
      if decide (mtime = lastDhcpMtime d) then skip
      else
        modify (upd_d (set_lastDhcpMtime mtime));;
        entries ← io_do (range (networks d));
        for_each entries tt dhcp_network_step
  end.

(** ** Ports of the bridges *)

(** [for ofPort, desc := range portDesc]: a port that has gone. *)
Definition stale_port_step (ns : NetworkState) (newPortDesc : gmap Z string) (p : Z * string)
    (_ : unit) : D unit :=
  let '(ofPort, desc) := p in
  match newPortDesc !! ofPort with
  | Some _ => skip
  | None =>
      if HasPrefix desc ovsPortPrefix then skip
      else
        io_do (mustDeleteDpInterface (ns_NetworkName ns) ofPort);;
        del_external ns desc
  end.

(** Whether a port is neither dovesnap's own nor added when the network was. *)
Definition foreign_port (sc : StackMirrorConfig) (addPorts : gmap string Z) (ofPort : Z)
    (desc : string) : bool :=
  negb ((ofPort =? ofPortLocal) || (ofPort =? smc_LbPort sc))%Z &&
  negb (HasPrefix desc ovsPortPrefix || HasPrefix desc patchPrefix) &&
  negb (bool_decide (is_Some (addPorts !! desc))).

(** [for ofPort, desc := range newPortDesc]: a port to adopt. *)
Definition new_port_step (ns : NetworkState) (sc : StackMirrorConfig) (addPorts : gmap string Z)
    (p : Z * string) (add_interfaces : string) : D string :=
  let '(ofPort, desc) := p in
  if foreign_port sc addPorts ofPort desc then
    let add_interfaces := add_interfaces +:+
      vlanInterfaceYaml ofPort ("Physical interface " +:+ desc) (ns_BridgeVLAN ns) "" in
    xp ← io_do (getExternalPortState desc ofPort);
    put_external ns desc xp;;
    ret add_interfaces
  else ret add_interfaces.

(** The adoption of the ports that are there, and the record of what was seen. *)
Definition adopt_ports (id : string) (ns : NetworkState) (sc : StackMirrorConfig)
    (addPorts : gmap string Z) (newPortDesc : gmap Z string) : D unit :=
  entries ← io_do (range newPortDesc);
  add_interfaces ← for_each entries "" (new_port_step ns sc addPorts);
  when (bool_decide (add_interfaces ≠ ""))
    (io_do (mustSetFaucetConfigFile
      (mergeSingleDpMinimalYaml (ns_NetworkName ns) add_interfaces)));;
  modify (λ s, set_AllPortDesc (<[id := newPortDesc]> (st_AllPortDesc s)) s).

(** The body of the loop over the networks. *)
Definition reconcile_network (p : string * NetworkState) (_ : unit) : D unit :=
  let '(id, ns) := p in
  d ← get_d;
  let stackMirrorConfig := mirror_of d id in
  '(newPortDesc, err) ← io_do (scrapePortDesc (ns_BridgeName ns) ∅);
  match err with
  | Some _ => skip
  | None =>
      addPorts ← lift (parseAddPorts (ns_AddPorts ns) (mkAdded ∅ None None));
      addPorts ← lift (parseAddPorts (ns_AddCoproPorts ns) addPorts);
      portDesc ← gets (λ s, st_AllPortDesc s !! id);
      match portDesc with
      | Some portDesc =>
          if decide (newPortDesc = portDesc) then skip
          else
            entries ← io_do (range portDesc);
            for_each entries tt (stale_port_step ns newPortDesc);;
            adopt_ports id ns stackMirrorConfig (ad_ports addPorts) newPortDesc
      | None => adopt_ports id ns stackMirrorConfig (ad_ports addPorts) newPortDesc
      end
  end.

Definition reconcileOvs : D unit :=
  d ← get_d;
  entries ← io_do (range (networks d));
  for_each entries tt reconcile_network.
End reconcile.

(** The operations that the switch of resourceManager knows. *)
Inductive operation :=
  | ORecreateBadBridge | ORecreateDownBridge | OCreate | ODelete | OJoin | OLeave
  | OReservePort | OGetNetwork | ONetworks | OQuit | OUnknown.

#[export] Instance operation_eq_dec : EqDecision operation.
Proof. solve_decision. Defined.

Section manager.
Context `{E : Env}.

Definition mustHandleNetworks (opMsg : DovesnapOp) : D unit :=
  d ← get_d;
  h ← gets st_heap;
  let encodedMsg := Marshal (json_networks h (networks d)) in
  send_reply (op_Reply opMsg) (mkDovesnapOpReply zero_NetworkState zero_OFPortContainer encodedMsg).

Definition operation_of (s : string) : operation :=
  if decide (s = "recreatebadbridge") then ORecreateBadBridge
  else if decide (s = "recreatedownbridge") then ORecreateDownBridge
  else if decide (s = "create") then OCreate
  else if decide (s = "delete") then ODelete
  else if decide (s = "join") then OJoin
  else if decide (s = "leave") then OLeave
  else if decide (s = "reserveport") then OReservePort
  else if decide (s = "getnetwork") then OGetNetwork
  else if decide (s = "networks") then ONetworks
  else if decide (s = "quit") then OQuit
  else OUnknown.

Definition reinit_bridge (opMsg : DovesnapOp) : D unit :=
  d ← get_d;
  io_do (InitBridge d (op_NewNetworkState opMsg) (op_NewStackMirrorConfig opMsg)).

(** One message; the result is whether the manager returns. *)
Definition handle_op (opMsg : DovesnapOp) : D bool :=
  match operation_of (op_Operation opMsg) with
  | ORecreateBadBridge =>
      d ← get_d;
      io_do (mustDeleteBridgeAndPorts d (op_EndpointID opMsg));;
      reinit_bridge opMsg;;
      mustHandleCreateNetwork opMsg;; ret false
  | ORecreateDownBridge =>
      mustHandleDeleteNetwork opMsg;;
      reinit_bridge opMsg;;
      mustHandleCreateNetwork opMsg;; ret false
  | OCreate => mustHandleCreateNetwork opMsg;; ret false
  | ODelete => mustHandleDeleteNetwork opMsg;; ret false
  | OJoin => mustHandleJoinContainer opMsg;; ret false
  | OLeave => mustHandleLeaveContainer opMsg;; ret false
  | OReservePort => mustHandleReservePort opMsg;; ret false
  | OGetNetwork => mustHandleGetNetwork opMsg;; ret false
  | ONetworks =>
      reconcileOvs;;
      reconcileDhcpIp;;
      mustHandleNetworks opMsg;; ret false
  | OQuit => ret true
  | OUnknown => ret false
  end.

(** One turn of the loop: the first message of the channel, or the timeout when
    there is none. *)
Definition manager_turn : D bool :=
  ops ← gets st_ops;
  match ops with
  | opMsg :: ops' => modify (set_ops ops');; handle_op opMsg
  | [] => reconcileOvs;; reconcileDhcpIp;; ret false
  end.

(** ** Restoring networks *)

(** The message that restores a network; an OVS that lost the bridge's address
    or its interface has it recreated. *)
Definition restore_msg (operation id : string) (ns : NetworkState) (sc : StackMirrorConfig) :
    DovesnapOp :=
  mkDovesnapOp operation ns sc (ns_AddPorts ns) "" (ns_Mode ns) id (ns_BridgeName ns) [] 0 None.

Definition restore_operation (bridgeName : string) : IO string :=
  up ← ifUp bridgeName;
  if (up : bool) then
    addr ← getIfaceAddr bridgeName;
    match addr with
    | Err _ => ret "recreatebadbridge"
    | Ok _ => ret "create"
    end
  else ret "recreatedownbridge".

Definition restore_network (p : string * string) (_ : unit) : D unit :=
  let '(id, _) := p in
  d ← get_d;
  netInspect ← io_do (mustGetNetworkInspectFromID id);
  '(ns, err) ← getNetworkStateFromResource netInspect (shortEngineId d);
  must_nil err;;
  sc ← lift (getStackMirrorConfigFromResource d netInspect);
  modify (upd_d (λ d, set_stackMirrorConfigs (<[id := sc]> (stackMirrorConfigs d)) d));;
  let ns := if decide (ns_Controller ns = "")
            then set_Controller (stackDefaultControllers d) ns else ns in
  operation ← io_do (restore_operation (ns_BridgeName ns));
  wg_add;;
  send_op (restore_msg operation id ns sc).

(** The entries that restoreNetworks goes through: the networks of docker's list.  Its loop
    runs beside the manager, one [restore_network] after the other. *)
Definition restoreNetworks_entries : D (list (string * string)) :=
  netlist ← io_do mustGetNetworkList;
  io_do (range netlist).

(** Quit up to its wait for the manager. *)
Definition Quit_send : D unit := send_op (mkOp "quit" "" "" [] None).
End manager.

(** ** The manager goes on *)

Section progress.
Context `{E : Env}.

(** A requester's channel with room for the answer. *)
Definition answerable (op : DovesnapOp) (s : state) : Prop :=
  ∃ c buf, op_Reply op = Some c ∧ st_replies s !! c = Some buf ∧ (length buf < replySize)%nat.

(** What the handler of a message relies on. *)
Definition ready (op : DovesnapOp) (s : state) : Prop :=
  match operation_of (op_Operation op) with
  | OCreate => (1 ≤ st_wg s)%Z
  | OLeave | OGetNetwork => answerable op s
  | OJoin | OReservePort | OQuit | OUnknown => True
  | _ => False
  end.

Lemma leave_handler_returns op c buf s :
  op_Reply op = Some c → st_replies s !! c = Some buf → (length buf < replySize)%nat →
  ∃ s', mustHandleLeaveContainer op s = (Ret tt, s') ∧
    chans (st_wg s) (st_ops s) (<[c := buf ++ [zero_DovesnapOpReply]]> (st_replies s)) s'.
Proof.
  intros Hc Hb Hl.
  destruct (chans_leave_work (st_wg s) (st_ops s) (st_replies s) op s) as (Hw & Hq & Hr); [done|].
  unfold mustHandleLeaveContainer. rewrite deferring_recovering_skip by apply tame_leave_work.
  rewrite Hc. erewrite bind_Ret by (apply send_reply_room; [by rewrite Hr|done]).
  rewrite Hr. by eexists.
Qed.

(** Whose answer a message waits for. *)
Definition awaits (op : DovesnapOp) : option nat :=
  match operation_of (op_Operation op) with OLeave | OGetNetwork => op_Reply op | _ => None end.

(** A turn of an ordinary message takes a creation from the wait group and writes to the
    channel that waits for it, and to no other. *)
Definition spends (op : DovesnapOp) (s s' : state) : Prop :=
  st_wg s' = (st_wg s - if decide (operation_of (op_Operation op) = OCreate) then 1 else 0)%Z ∧
  st_ops s' = st_ops s ∧
  ∀ c, awaits op ≠ Some c → st_replies s' !! c = st_replies s !! c.

Lemma chans_spends op s s' : operation_of (op_Operation op) ≠ OCreate →
  chans (st_wg s) (st_ops s) (st_replies s) s' → spends op s s'.
Proof.
  intros Hc (Hw & Hq & Hr). split_and!; [rewrite decide_False by done; lia|done|].
  intros c _. by rewrite Hr.
Qed.

Lemma handle_op_ready op s :
  ready op s →
  ∃ s', handle_op op s = (Ret (bool_decide (operation_of (op_Operation op) = OQuit)), s') ∧ spends op s s'.
Proof.
  unfold ready, handle_op. destruct (operation_of (op_Operation op)) eqn:Eop; intros H; try done.
  - destruct (chans_create_work (st_wg s) (st_ops s) (st_replies s) op s) as (Hw & Hq & Hr); [done|].
    unfold mustHandleCreateNetwork. erewrite bind_Ret.
    2: { rewrite deferring_recovering_skip by apply tame_create_work.
         erewrite bind_Ret by (apply wg_done_pos; by rewrite Hw). reflexivity. }
    eexists. split; [reflexivity|]. unfold spends. rewrite Eop.
    clear H. generalize dependent ((create_work op s).2). intros s1 Hw Hq Hr. cbn.
    by rewrite Hw, Hq, Hr.
  - erewrite bind_Ret by (apply recovering_skip, tame_join_work). eexists. split; [reflexivity|].
    apply chans_spends; [by rewrite Eop|by apply chans_join_work].
  - destruct H as (c & buf & Hc & Hb & Hl).
    destruct (leave_handler_returns op c buf s Hc Hb Hl) as (s' & Hs & Hw & Hq & Hr).
    erewrite bind_Ret by exact Hs. exists s'. split; [done|]. unfold spends, awaits. rewrite Eop, Hr, Hc.
    split_and!; [rewrite decide_False by done; lia|done|]. intros c' Hne. by rewrite lookup_insert_ne by congruence.
  - erewrite bind_Ret by (apply recovering_skip, tame_reserve_work). eexists. split; [reflexivity|].
    apply chans_spends; [by rewrite Eop|by apply chans_reserve_work].
  - destruct H as (c & buf & Hc & Hb & Hl). unfold mustHandleGetNetwork. rewrite Hc.
    erewrite bind_Ret by (erewrite bind_Ret by reflexivity; by apply send_reply_room).
    eexists. split; [reflexivity|]. unfold spends, awaits. rewrite Eop, Hc.
    split_and!; [rewrite decide_False by done; cbn; lia|done|]. intros c' Hne. cbn. by rewrite lookup_insert_ne by congruence.
  - exists s. split; [done|]. by apply chans_spends; [rewrite Eop|].
  - exists s. split; [done|]. by apply chans_spends; [rewrite Eop|].
Qed.

(** C10: The messages of docker's ordinary life never stop the manager.  Whatever docker,
    Open vSwitch, Faucet, iptables or the namespaces answer, the turn of a create, join,
    leave, reserve or query message returns, neither panicking nor waiting for ever, as
    long as a create is counted in the wait group and a requester that waits for an
    answer has a channel with room. *)
Theorem handle_op_returns op s :
  ready op s →
  ∃ s', handle_op op s = (Ret (bool_decide (operation_of (op_Operation op) = OQuit)), s') ∧
    st_ops s' = st_ops s.
Proof. intros (s' & Hs & _ & Hq & _)%handle_op_ready. eauto. Qed.

(** C11: A leave request completes.  Sent to an idle manager, its message is handled in the
    next turn, which returns, and the requester then receives its answer, whatever goes
    wrong outside. *)
Theorem Leave_completes id ep s :
  st_ops s = [] →
  ∃ c s1 s2 s3, Leave_send id ep s = (Ret c, s1) ∧ manager_turn s1 = (Ret false, s2) ∧
    receive_reply c s2 = (Ret zero_DovesnapOpReply, s3) ∧ st_ops s3 = [].
Proof.
  intros Hq. set (c := fresh (dom (st_replies s))).
  set (op := mkOp "leave" id ep [] (Some c)).
  set (s1 := set_replies (<[c := []]> (st_replies s)) s).
  destruct (leave_handler_returns op c [] (set_ops [] s1)) as (s2 & Hs2 & _ & Hq2 & Hr2);
    [done|apply lookup_insert_eq|unfold replySize; cbn; lia|].
  exists c, (set_ops [op] s1), s2, (set_replies (<[c := []]> (st_replies s2)) s2). split_and!.
  - unfold Leave_send, send_op. cbn. rewrite Hq. done.
  - change (handle_op op (set_ops [] s1) = (Ret false, s2)).
    change (handle_op op) with (mustHandleLeaveContainer op;; ret false).
    by erewrite bind_Ret by exact Hs2.
  - unfold receive_reply. erewrite bind_Ret by reflexivity.
    replace (default [] (st_replies s2 !! c)) with [zero_DovesnapOpReply]; [done|].
    by rewrite Hr2, lookup_insert_eq.
  - done.
Qed.
End progress.

Lemma handle_op_returns_witness :
  ∃ s', handle_op (E := Lab.env) Lab.leave_op Lab.about_to_leave = (Ret false, s') ∧ st_ops s' = [].
Proof.
  apply (handle_op_returns (E := Lab.env) Lab.leave_op Lab.about_to_leave).
  exists 0%nat, []. split; [reflexivity|]. split; [reflexivity|]. vm_compute. lia.
Defined.

Lemma Leave_completes_witness :
  ∃ c s1 s2 s3, Leave_send Lab.net_id Lab.endpoint Lab.after_join = (Ret c, s1) ∧
    manager_turn (E := Lab.env) s1 = (Ret false, s2) ∧
    receive_reply c s2 = (Ret zero_DovesnapOpReply, s3) ∧ st_ops s3 = [].
Proof. apply (Leave_completes (E := Lab.env)). reflexivity. Defined.
