(* ===== verification/Reconcile.v ===== *)
(** * Reconciliation with Open vSwitch

    reconcileOvs of ovs/driver.go compares the ports of a network's bridge with
    those of the last time: ports that are gone are removed from the record of
    external ports and from Faucet, and ports that an operator added are adopted.
    Here is what one pass over one network leaves behind. *)
From S2P Require Import Prelude GoStrings GoMonad World Scenario Utils OvsDb OvsPort Types Config Iptables Faucet Docker OvsBridge Driver Handlers Json Manager.

(** ** The record of external ports *)

(** The external ports of a network: the OpenFlow port of every name. *)
Definition external_ports (ns : NetworkState) (s : state) : gmap string Z :=
  xp_OFPort <$> map_get (h_external (st_heap s)) (dyn_ExternalPorts (ns_DynamicNetworkStates ns)).

(** A port that was there, is not any more, and is not a container's. *)
Definition gone (old new : gmap Z string) (p : Z) (desc : string) : Prop :=
  old !! p = Some desc ∧ new !! p = None ∧ HasPrefix desc ovsPortPrefix = false.

(** A port that is there and is to be adopted. *)
Definition adopted (sc : StackMirrorConfig) (addPorts : gmap string Z) (new : gmap Z string)
    (p : Z) (desc : string) : Prop :=
  new !! p = Some desc ∧ foreign_port sc addPorts p desc = true.

(** The effect of one turn of each loop on the record. *)
Definition forget_port (new : gmap Z string) (e : gmap string Z) (x : Z * string) : gmap string Z :=
  if decide (new !! x.1 = None ∧ HasPrefix x.2 ovsPortPrefix = false) then delete x.2 e else e.
Definition adopt_port (sc : StackMirrorConfig) (addPorts : gmap string Z) (e : gmap string Z)
    (x : Z * string) : gmap string Z :=
  if foreign_port sc addPorts x.1 x.2 then <[x.2 := x.1]> e else e.

Lemma forget_ports_lookup new l e desc :
  let P x := new !! x.1 = None ∧ HasPrefix x.2 ovsPortPrefix = false ∧ x.2 = desc in
  (Exists P l ∧ foldl (forget_port new) e l !! desc = None) ∨
  (¬ Exists P l ∧ foldl (forget_port new) e l !! desc = e !! desc).
Proof.
  cbn. revert e. induction l as [|x l IH]; intros e; cbn [foldl].
  { right. split; [by intros ?%Exists_nil|done]. }
  rewrite Exists_cons. destruct (IH (forget_port new e x)) as [[HE H]|[HE H]]; [left; auto|].
  rewrite H. unfold forget_port. case_decide as Hx.
  - destruct (decide (x.2 = desc)) as [<-|Hd].
    + left. split; [tauto|apply lookup_delete_eq].
    + right. rewrite lookup_delete_ne by done. split; [tauto|done].
  - right. split; [tauto|done].
Qed.

Lemma adopt_ports_lookup sc addPorts l e desc :
  let P x := foreign_port sc addPorts x.1 x.2 = true ∧ x.2 = desc in
  let e' := foldl (adopt_port sc addPorts) e l in
  (∃ p, (p, desc) ∈ l ∧ foreign_port sc addPorts p desc = true ∧ e' !! desc = Some p) ∨
  (¬ Exists P l ∧ e' !! desc = e !! desc).
Proof.
  cbn. revert e. induction l as [|x l IH]; intros e; cbn [foldl].
  { right. split; [by intros ?%Exists_nil|done]. }
  rewrite Exists_cons.
  destruct (IH (adopt_port sc addPorts e x)) as [(p & Hin & Hf & H)|[HE H]].
  { left. exists p. split; [by right|done]. }
  rewrite H. unfold adopt_port. destruct (foreign_port sc addPorts x.1 x.2) eqn:Hx.
  - destruct (decide (x.2 = desc)) as [<-|Hd].
    + left. exists x.1. rewrite lookup_insert_eq. split; [destruct x; left|done].
    + right. rewrite lookup_insert_ne by done. split; [tauto|done].
  - right. split; [by intros [[? _]|?]; [congruence|]|done].
Qed.

(** The record after a pass: the names that were adopted or were there and are not gone,
    each under a port of the bridge or as it was. *)
Definition reconciled (sc : StackMirrorConfig) (addPorts : gmap string Z) (old new : gmap Z string)
    (before after : gmap string Z) : Prop :=
  (∀ desc, is_Some (after !! desc) ↔
    (∃ p, adopted sc addPorts new p desc) ∨
    (is_Some (before !! desc) ∧ ¬ ∃ p, gone old new p desc)) ∧
  (∀ desc p, after !! desc = Some p →
    adopted sc addPorts new p desc ∨ before !! desc = Some p).

Lemma forget_all old new before l desc :
  l ≡ₚ map_to_list old →
  let after := foldl (forget_port new) before l in
  (after !! desc = None ∧ ∃ p, gone old new p desc) ∨
  (after !! desc = before !! desc ∧ ¬ ∃ p, gone old new p desc).
Proof.
  intros Hl. assert (∀ p, (p, desc) ∈ l ↔ old !! p = Some desc) as Hold
    by (intros p; rewrite Hl; apply elem_of_map_to_list).
  cbn. destruct (forget_ports_lookup new l before desc) as [[HE H]|[HE H]]; [left|right];
    (split; [done|]).
  - apply Exists_exists in HE as ([p d] & Hin & Hn & Hx & Hd). cbn in *. subst d.
    exists p. by split; [apply Hold|].
  - intros (p & Ho & Hn & Hx). apply HE, Exists_exists. exists (p, desc). by split; [apply Hold|].
Qed.

Lemma adopt_all sc addPorts new before l desc :
  l ≡ₚ map_to_list new →
  let after := foldl (adopt_port sc addPorts) before l in
  (∃ p, adopted sc addPorts new p desc ∧ after !! desc = Some p) ∨
  (after !! desc = before !! desc ∧ ¬ ∃ p, adopted sc addPorts new p desc).
Proof.
  intros Hl. assert (∀ p, (p, desc) ∈ l ↔ new !! p = Some desc) as Hnew
    by (intros p; rewrite Hl; apply elem_of_map_to_list).
  cbn. destruct (adopt_ports_lookup sc addPorts l before desc)
    as [(p & Hin & Hx & H)|[HE H]]; [left|right].
  - exists p. by split; [split; [apply Hnew|]|].
  - split; [done|]. intros (p & Hn & Hx). apply HE, Exists_exists. exists (p, desc).
    by split; [apply Hnew|].
Qed.

Lemma reconciled_folds sc addPorts old new before l1 l2 :
  l1 ≡ₚ map_to_list old → l2 ≡ₚ map_to_list new →
  reconciled sc addPorts old new before
    (foldl (adopt_port sc addPorts) (foldl (forget_port new) before l1) l2).
Proof.
  intros H1 H2. split; intros desc.
  - destruct (adopt_all sc addPorts new (foldl (forget_port new) before l1) l2 desc H2)
      as [(p & Hp & ->)|[-> Hn]]; [by split; eauto|].
    destruct (forget_all old new before l1 desc H1) as [[-> Hg]|[-> Hg]].
    + split; [by intros [? ?]|]. by intros [?|[_ ?]].
    + split; [auto|]. by intros [?|[? _]].
  - intros p. destruct (adopt_all sc addPorts new (foldl (forget_port new) before l1) l2 desc H2)
      as [(q & Hq & ->)|[-> Hn]]; [by intros [= ->]; left|].
    destruct (forget_all old new before l1 desc H1) as [[-> Hg]|[-> Hg]]; [done|auto].
Qed.

(** ** One pass over a network *)

(** What no loop of the pass changes. *)
Definition same_record (s s' : state) : Prop :=
  st_AllPortDesc s' = st_AllPortDesc s ∧ st_d s' = st_d s ∧ st_OFPorts s' = st_OFPorts s.

Section pass.
Context `{E : Env} (ns : NetworkState) (l : positive).
(** Faucet accepts what it is told, and the kernel knows the interfaces. *)
Context (faucet_accepts : ∀ t r, env_reply t (CRpc r) = None).
Context (links_exist : ∀ t name, ∃ k, env_reply t (CLinkByName name) = (Some k, None)).
Context (Hl : dyn_ExternalPorts (ns_DynamicNetworkStates ns) = Some l).

Lemma wp_must_rpc r Q s : (∀ i, Q (Ret tt) (set_io i s)) → wp (io_do (must_rpc r)) Q s.
Proof.
  intros HQ. unfold wp, io_do, zoom, must_rpc. cbn. rewrite faucet_accepts. apply HQ.
Qed.

Lemma getExternalPortState_known name p s :
  ∃ mac i, io_do (getExternalPortState name p) s = (Ret (mkExternalPortState name p mac), set_io i s).
Proof.
  destruct (links_exist (io_trace (st_io s)) name) as [k Hk].
  unfold io_do, zoom, getExternalPortState, getMacAddr, mustGetLinkByName. cbn. rewrite Hk. cbn. eauto.
Qed.

Lemma stale_port_step_spec new x s :
  wp (stale_port_step ns new x tt) (λ o s', o = Ret tt ∧ same_record s s' ∧
    external_ports ns s' = forget_port new (external_ports ns s) x) s.
Proof.
  destruct x as [p desc]. unfold stale_port_step, forget_port. cbn [fst snd].
  destruct (new !! p) as [d|]; [by rewrite decide_False by (intros [? ?]; done)|].
  destruct (HasPrefix desc ovsPortPrefix); [by rewrite decide_False by (intros [? ?]; done)|].
  rewrite decide_True by done. apply wp_bind, wp_must_rpc. intros i. unfold del_external.
  apply wp_modify.
  split; [done|]. split; [done|]. unfold external_ports. cbn. rewrite Hl. cbn.
  rewrite lookup_insert_eq. cbn [default from_option id]. by rewrite fmap_delete.
Qed.

Lemma new_port_step_spec sc addPorts x a s :
  wp (new_port_step ns sc addPorts x a) (λ o s', (∃ a', o = Ret a') ∧ same_record s s' ∧
    external_ports ns s' = adopt_port sc addPorts (external_ports ns s) x) s.
Proof.
  destruct x as [p desc]. unfold new_port_step, adopt_port. cbn [fst snd].
  destruct (foreign_port sc addPorts p desc); [|by split; [eexists|]].
  destruct (getExternalPortState_known desc p s) as (mac & i & Hx).
  apply wp_bind. unfold wp at 1. rewrite Hx. cbn [fst snd].
  unfold put_external, wp. cbn. rewrite Hl. cbn. split; [by eexists|]. split; [done|].
  unfold external_ports. cbn. rewrite Hl. cbn. rewrite lookup_insert_eq. cbn [default from_option id].
  by rewrite fmap_insert.
Qed.

Lemma stale_ports_spec new entries s :
  wp (for_each entries tt (stale_port_step ns new)) (λ o s', o = Ret tt ∧ same_record s s' ∧
    external_ports ns s' = foldl (forget_port new) (external_ports ns s) entries) s.
Proof.
  apply (wp_for_each (λ rest a s1, a = tt ∧ same_record s s1 ∧
    foldl (forget_port new) (external_ports ns s1) rest =
    foldl (forget_port new) (external_ports ns s) entries)); [|by intros a s1 (-> & ? & ?)|done].
  intros x rest a s1 (-> & Hsame & Hf). eapply wp_mono; [|apply stale_port_step_spec].
  cbn. intros o s2 (-> & Hsame2 & He). split; [done|]. split; [|rewrite He; exact Hf].
  unfold same_record in *. intuition congruence.
Qed.

Lemma new_ports_spec sc addPorts entries a s :
  wp (for_each entries a (new_port_step ns sc addPorts)) (λ o s', (∃ a', o = Ret a') ∧
    same_record s s' ∧
    external_ports ns s' = foldl (adopt_port sc addPorts) (external_ports ns s) entries) s.
Proof.
  apply (wp_for_each (λ rest _ s1, same_record s s1 ∧
    foldl (adopt_port sc addPorts) (external_ports ns s1) rest =
    foldl (adopt_port sc addPorts) (external_ports ns s) entries)); [|by intros b s1 (? & ?); eauto|done].
  intros x rest b s1 (Hsame & Hf). eapply wp_mono; [|apply new_port_step_spec].
  cbn. intros o s2 ([a' ->] & Hsame2 & He). split; [|rewrite He; exact Hf].
  unfold same_record in *. intuition congruence.
Qed.

Lemma adopt_ports_spec id sc addPorts new s :
  wp (adopt_ports id ns sc addPorts new) (λ o s', o = Ret tt ∧ st_d s' = st_d s ∧
    st_OFPorts s' = st_OFPorts s ∧ st_AllPortDesc s' = <[id := new]> (st_AllPortDesc s) ∧
    ∃ entries, entries ≡ₚ map_to_list new ∧
      external_ports ns s' = foldl (adopt_port sc addPorts) (external_ports ns s) entries) s.
Proof.
  unfold adopt_ports. apply wp_bind, wp_io_range. intros entries i Hperm. apply wp_bind.
  eapply wp_mono; [|apply new_ports_spec]. cbn. intros o s1 ([a ->] & (Ha & Hd & Ho) & He).
  apply wp_bind. unfold when. destruct (bool_decide (a ≠ "")).
  - apply wp_must_rpc. intros j. apply wp_modify. cbn in *. rewrite Ha. eauto 10.
  - apply wp_ret, wp_modify. cbn in *. rewrite Ha. eauto 10.
Qed.

(** C15: A pass makes the record of external ports agree with the bridge, when nothing it
    relies on fails: the network has its map of external ports, the bridge's ports can be read,
    the network's two port options parse, Faucet accepts every request, and the kernel knows
    every interface it is asked about.  (Otherwise the pass may panic, and nothing recovers it.)
    Then the pass returns and remembers the ports it saw.  If they are those of the last
    pass it has done nothing else.  Otherwise the record holds a name exactly if the bridge has
    a port of that name to adopt, or the name was recorded and its port has not gone; and
    every name that is adopted is recorded with a port of the bridge that carries it. *)
Theorem reconcile_network_agrees id s out a1 a2 :
  of_reply (io_trace (st_io s)) (dump (ns_BridgeName ns)) = (out, None) →
  parseAddPorts (ns_AddPorts ns) (mkAdded ∅ None None) = Ret a1 →
  parseAddPorts (ns_AddCoproPorts ns) a1 = Ret a2 →
  let new := parsePortDesc out ∅ in
  let sc := mirror_of (st_d s) id in
  wp (reconcile_network (id, ns) tt) (λ o s', o = Ret tt ∧
    st_d s' = st_d s ∧ st_OFPorts s' = st_OFPorts s ∧
    st_AllPortDesc s' = <[id := new]> (st_AllPortDesc s) ∧
    if decide (st_AllPortDesc s !! id = Some new)
    then st_heap s' = st_heap s ∧
         io_trace (st_io s') = io_trace (st_io s) ++ [ofc (dump (ns_BridgeName ns))]
    else reconciled sc (ad_ports a2) (default ∅ (st_AllPortDesc s !! id)) new
           (external_ports ns s) (external_ports ns s')) s.
Proof.
  intros Hout H1 H2 new sc. unfold reconcile_network. apply wp_bind, wp_gets. fold sc.
  set (s0 := set_io (mkIo (io_trace (st_io s) ++ [ofc (dump (ns_BridgeName ns))])
    (io_ticks (st_io s))) s).
  assert (io_do (scrapePortDesc (ns_BridgeName ns) ∅) s = (Ret (new, None), s0)) as Hscrape
    by (unfold io_do, zoom; by rewrite scrapePortDesc_eq, Hout).
  apply wp_bind. unfold wp at 1. rewrite Hscrape. cbn [fst snd].
  apply wp_bind, wp_lift. rewrite H1. apply wp_bind, wp_lift. rewrite H2. apply wp_bind, wp_gets.
  change (st_AllPortDesc s0) with (st_AllPortDesc s).
  destruct (st_AllPortDesc s !! id) as [old|] eqn:Hold; cbn [default from_option].
  - destruct (decide (new = old)) as [<-|Hne].
    + apply wp_ret. rewrite decide_True by done. cbn. by rewrite insert_id.
    + apply wp_bind, wp_io_range. intros l1 i Hl1. apply wp_bind.
      eapply wp_mono; [|apply stale_ports_spec]. cbn. intros o s1 (-> & (Ha & Hd & Ho) & He).
      eapply wp_mono; [|apply adopt_ports_spec]. cbn. intros o s2 (-> & Hd2 & Ho2 & Ha2 & l2 & Hl2 & He2).
      cbn in *. rewrite decide_False by congruence. split_and!; try congruence.
      rewrite He2, He. by apply reconciled_folds.
  - eapply wp_mono; [|apply adopt_ports_spec]. cbn. intros o s2 (-> & Hd2 & Ho2 & Ha2 & l2 & Hl2 & He2).
    rewrite decide_False by done. split_and!; try done. rewrite He2.
    by apply (reconciled_folds _ _ ∅ _ _ []).
Qed.
End pass.

(** ** A concrete pass *)

(** The bridge has an operator's port, a container's and its own. *)
Definition operator_ports : Env := scripted (with_run (λ _ _ _,
  (" 3(eth5): addr:aa" +:+ String newline (" 4(odsvea9c27): addr:aa" +:+ String newline
   " LOCAL(odsbr4f1d8): addr:aa"), None)) quiet).
Definition before_pass : state :=
  set_heap (mkHeap 2 {[1%positive := ∅]} {[1%positive := {["eth6" := mkExternalPortState "eth6" 9 ""]}]}
    {[1%positive := ∅]})
    (set_AllPortDesc {[Lab.net_id := {[9%Z := "eth6"]}]} (start plain_driver)).

Lemma reconcile_network_agrees_witness :
  wp (reconcile_network (E := operator_ports) (Lab.net_id, Lab.net) tt) (λ o s', o = Ret tt ∧
    external_ports Lab.net s' = {["eth5" := 3%Z]} ∧
    reconciled zero_StackMirrorConfig ∅ {[9%Z := "eth6"]} {[3%Z := "eth5"; 4%Z := "odsvea9c27"]}
      {["eth6" := 9%Z]} {["eth5" := 3%Z]}) before_pass.
Proof.
  pose proof (reconcile_network_agrees (E := operator_ports) Lab.net 1%positive
    ltac:(intros; reflexivity) ltac:(intros; eexists; reflexivity) eq_refl Lab.net_id before_pass
    _ _ _ eq_refl eq_refl eq_refl) as H.
  unfold wp in *. destruct H as (Ho & _ & _ & _ & H). rewrite decide_False in H by (vm_compute; discriminate).
  split; [exact Ho|]. split; [vm_compute; reflexivity|]. exact H.
Defined.
