(* ===== verification/Web.v ===== *)
(** * The status page: ovs/driver.go

    Who may read the state of the networks over HTTP, with what package net does
    for it: addresses, prefixes and host:port pairs. *)
From S2P Require Import Prelude GoStrings GoFormat GoMonad World Scenario Utils Types Driver.

(** ** Addresses: net.ParseIP *)

(** An address as 4 or 16 bytes. *)
Abbreviation IP := (list Z).

(** One field of a dotted address: no leading zero, at most 255. *)
Definition parse_octet (w : string) : option Z :=
  match chars w with
  | [] => None
  | c :: rest =>
      if decide (c = "0"%char ∧ rest ≠ []) then None
      else match ParseUint w 255 with Ok v => Some v | Err _ => None end
  end.

Definition parseIPv4 (s : string) : option IP :=
  match Split s "." with
  | [a; b; c; d] => mapM parse_octet [a; b; c; d]
  | _ => None
  end.

(** The hexadecimal digits at the start of a text: at most four, or the field
    is too long. *)
Definition hex_field (l : list ascii) : option (Z * list ascii) :=
  let '(ds, rest) := list_span (λ c, bool_decide (is_Some (hex_digit c))) l in
  if ((1 <=? length ds) && (length ds <=? 4))%nat
  then Some (of_digits 16 (omap hex_digit ds), rest) else None.

(** The fields of an IPv6 address: the bytes so far and where the [::] was. *)
Fixpoint ipv6_fields (fuel : nat) (l : list ascii) (ip : IP) (ellipsis : option nat) :
    option (IP * option nat) :=
  match fuel with
  | O => None
  | S fuel' =>
      match hex_field l with
      | None => None
      | Some (acc, []) => Some (ip ++ [acc / 256; acc mod 256]%Z, ellipsis)
      | Some (acc, c :: rest) =>
          if decide (c = "."%char) then
            if (match ellipsis with None => bool_decide (length ip ≠ 12%nat) | Some _ => false end)
               || (16 <? length ip + 4)%nat
            then None
            else match parseIPv4 (of_chars l) with
                 | Some v4 => Some (ip ++ v4, ellipsis)
                 | None => None
                 end
          else
            let ip := ip ++ [acc / 256; acc mod 256]%Z in
            let more l' e := if (length ip <? 16)%nat then ipv6_fields fuel' l' ip e else None in
            if decide (c = ":"%char) then
              match rest with
              | [] => None
              | c' :: rest' =>
                  if decide (c' = ":"%char) then
                    match ellipsis, rest' with
                    | Some _, _ => None
                    | None, [] => Some (ip, Some (length ip))
                    | None, _ => more rest' (Some (length ip))
                    end
                  else more rest ellipsis
              end
            else None
      end
  end.

(** The bytes with the zeros that the [::] stands for, at least one field. *)
Definition expand_ellipsis (ip : IP) (ellipsis : option nat) : option IP :=
  if (length ip <? 16)%nat then
    match ellipsis with
    | None => None
    | Some e => Some (take e ip ++ replicate (16 - length ip) 0%Z ++ drop e ip)
    end
  else match ellipsis with None => Some ip | Some _ => None end.

(** An IPv6 address without a zone. *)
Definition parseIPv6 (l : list ascii) : option IP :=
  match l with
  | [":"; ":"]%char => Some (replicate 16 0%Z)
  | ":"%char :: ":"%char :: l' =>
      match ipv6_fields 9 l' [] (Some 0%nat) with
      | Some (ip, e) => expand_ellipsis ip e
      | None => None
      end
  | _ =>
      match ipv6_fields 9 l [] None with
      | Some (ip, e) => expand_ellipsis ip e
      | None => None
      end
  end.

(** [netip.ParseAddr] of an address without a zone: the first separator says
    which kind it is.  A zone makes package net refuse the address. *)
Definition ParseAddr (s : string) : option IP :=
  match list_find (λ c, c ∈ ["."; ":"; "%"]%char) (chars s) with
  | Some (_, c) =>
      if decide (c = "."%char) then parseIPv4 s
      else if decide (c = ":"%char) then
        if bool_decide ("%"%char ∈ chars s) then None else parseIPv6 (chars s)
      else None
  | None => None
  end.

Definition v4InV6Prefix : IP := replicate 10 0%Z ++ [255; 255]%Z.

Definition To16 (ip : IP) : IP := if (length ip =? 4)%nat then v4InV6Prefix ++ ip else ip.

(** [net.ParseIP]: always 16 bytes. *)
Definition ParseIP (s : string) : option IP := To16 <$> ParseAddr s.

(** [ip.To4()]: nil when it is not an IPv4 address. *)
Definition To4 (ip : IP) : option IP :=
  if (length ip =? 4)%nat then Some ip
  else if (length ip =? 16)%nat && bool_decide (take 12 ip = v4InV6Prefix) then Some (drop 12 ip)
  else None.

(** ** Prefixes: net.ParseCIDR and IPNet.Contains *)

Definition mask_byte (ones : Z) : Z := (256 - 2 ^ (8 - Z.max 0 (Z.min 8 ones)))%Z.

(** [net.CIDRMask] *)
Definition CIDRMask (ones : Z) (bytes : nat) : list Z :=
  map (λ i, mask_byte (ones - 8 * Z.of_nat i)) (seq 0 bytes).

Definition and_bytes (a b : list Z) : list Z := zip_with Z.land a b.

(** [dtoi] on a whole text: digits below 0xFFFFFF. *)
Definition dtoi (s : string) : option Z :=
  match ParseUint s 16777214 with Ok n => Some n | Err _ => None end.

Definition ParseCIDR (s : string) : result IPNet :=
  let '(addr, rest) := list_span (λ c, bool_decide (c ≠ "/"%char)) (chars s) in
  let invalid := Err ("invalid CIDR address: " +:+ s) in
  match rest with
  | [] => invalid
  | _ :: mask =>
      match ParseAddr (of_chars addr), dtoi (of_chars mask) with
      | Some ip, Some n =>
          if (8 * Z.of_nat (length ip) <? n)%Z then invalid
          else
            let m := CIDRMask n (length ip) in
            Ok (mkIPNet (and_bytes ip m) m)
      | _, _ => invalid
      end
  end.

(** [networkNumberAndMask]; nil is the empty list. *)
Definition networkNumberAndMask (n : IPNet) : IP * list Z :=
  let ip := default (ipn_IP n) (To4 (ipn_IP n)) in
  let m := ipn_Mask n in
  if negb ((length ip =? 4)%nat || (length ip =? 16)%nat) then ([], [])
  else if (length m =? 4)%nat then if (length ip =? 4)%nat then (ip, m) else ([], [])
  else if (length m =? 16)%nat then if (length ip =? 4)%nat then (ip, drop 12 m) else (ip, m)
  else ([], []).

Definition IPNet_Contains (n : IPNet) (ip : IP) : bool :=
  let '(nn, m) := networkNumberAndMask n in
  let ip := default ip (To4 ip) in
  bool_decide (length ip = length nn) && bool_decide (and_bytes nn m = and_bytes ip m).

(** ** host:port pairs: net.SplitHostPort *)

(** The positions of the first and of the last occurrence of a character. *)
Definition first_index (c : ascii) (l : list ascii) : option nat :=
  fst <$> list_find (λ c', c' = c) l.
Definition last_index (c : ascii) (l : list ascii) : option nat :=
  (λ i, length l - 1 - i)%nat <$> first_index c (reverse l).

(** The host of a pair; every error is the same to the caller. *)
Definition SplitHostPort (hostport : string) : option (string * string) :=
  let l := chars hostport in
  match last_index ":" l with
  | None => None
  | Some i =>
      if bool_decide (l !! 0%nat = Some "["%char) then
        match first_index "]" l with
        | Some end_ =>
            if bool_decide (S end_ = i) &&
               negb (bool_decide ("["%char ∈ drop 1 l)) &&
               negb (bool_decide ("]"%char ∈ drop (S end_) l))
            then Some (of_chars (take (end_ - 1) (drop 1 l)), of_chars (drop (S i) l))
            else None
        | None => None
        end
      else if bool_decide (":"%char ∈ take i l) ||
              bool_decide ("["%char ∈ l) || bool_decide ("]"%char ∈ l)
      then None
      else Some (of_chars (take i l), of_chars (drop (S i) l))
  end.

(** ** Requests *)

(** [http.Request]: the headers that are read, and the peer. *)
Record WebRequest := mkWebRequest {
  wr_XRealIP : string;
  wr_XForwardedFor : string;
  wr_RemoteAddr : string;
}.

(** The address of one [host:port] text. *)
Definition host_ip (hostPort : string) : option IP :=
  match SplitHostPort hostPort with
  | Some (ip, _) => ParseIP ip
  | None => None
  end.

(** The first text of a list that holds an address. *)
Fixpoint first_ip (l : list string) : option IP :=
  match l with
  | [] => None
  | hostPort :: l' =>
      match host_ip hostPort with Some ip => Some ip | None => first_ip l' end
  end.

(** The two nested loops of getRemoteIp. *)
Fixpoint remote_ip (possibleIPs : list string) : option IP :=
  match possibleIPs with
  | [] => None
  | possibleIP :: l =>
      match first_ip (Split possibleIP ",") with Some ip => Some ip | None => remote_ip l end
  end.

Definition getRemoteIp (r : WebRequest) : option IP :=
  remote_ip [wr_XRealIP r; wr_XForwardedFor r; wr_RemoteAddr r].

(** A nil address has no bytes. *)
Definition isAuthIP (requestIP : option IP) (authIPs : list IPNet) : bool :=
  existsb (λ authIP, IPNet_Contains authIP (default [] requestIP)) authIPs.

(** The [authIPs] of NewDriver. *)
Definition parse_auth_ips (flagStatusAuthIPs : string) : outcome (list IPNet) :=
  foldl (λ acc authIP, l ← acc; ipnet ← must (ParseCIDR authIP); Ret (l ++ [ipnet]))
    (Ret []) (Split flagStatusAuthIPs ",").

Section web.
Context `{E : Env}.

(** getWebResponse up to its wait for the reply. *)
Definition getWebResponse_send (operation : string) : D nat :=
  reply ← make_reply;
  send_op (mkOp operation "" "" [] (Some reply));;
  ret reply.

(** The rest of getWebResponse: the reply, as the format of Fprintf. *)
Definition getWebResponse_body (reply : nat) : D string :=
  r ← receive_reply reply;
  ret (Sprintf0 (re_NetworkStateString r)).

Definition runWeb (port : Z) : IO unit :=
  err ← ext (CListenAndServe (":" +:+ itoa port));
  must_nil err.

(** What handleNetworksWeb does: refuse, or ask the manager and wait. *)
Inductive web_action := NotAuthorized (body : string) | Await (reply : nat).

Definition handleNetworksWeb (r : WebRequest) : D web_action :=
  d ← get_d;
  let remoteIP := getRemoteIp r in
  let authIP := isAuthIP remoteIP (authIPs d) in
  if authIP then
    reply ← getWebResponse_send "networks";
    ret (Await reply)
  else ret (NotAuthorized "not authorized").
End web.

(** ** Prefixes in arithmetic *)

Section prefixes.
Local Open Scope Z_scope.

(** Masking a byte keeps its high bits: checked for all 256 bytes and 9 masks. *)
Lemma land_mask_byte x k : 0 ≤ x < 256 → 0 ≤ k ≤ 8 →
  Z.land x (mask_byte k) = x / 2 ^ (8 - k) * 2 ^ (8 - k).
Proof.
  intros Hx Hk.
  assert (forallb (λ x, forallb (λ k, Z.land x (mask_byte k) =? x / 2 ^ (8 - k) * 2 ^ (8 - k))
    (seqZ 0 9)) (seqZ 0 256) = true) as H by (vm_compute; reflexivity).
  rewrite forallb_forall in H. specialize (H x). rewrite forallb_forall in H.
  apply Z.eqb_eq, H; apply list_elem_of_In, elem_of_seqZ; lia.
Qed.

Lemma mask_byte_low n : n ≤ 0 → mask_byte n = 0.
Proof. intros. unfold mask_byte. by replace (Z.max 0 (Z.min 8 n)) with 0 by lia. Qed.
Lemma masked_byte x y n : 0 ≤ x < 256 → 0 ≤ y < 256 →
  Z.land x (mask_byte n) = Z.land y (mask_byte n) ↔
  x / 2 ^ (8 - Z.max 0 (Z.min 8 n)) = y / 2 ^ (8 - Z.max 0 (Z.min 8 n)).
Proof.
  intros Hx Hy. set (k := Z.max 0 (Z.min 8 n)).
  assert (mask_byte n = mask_byte k) as ->.
  { unfold mask_byte. fold k. by replace (Z.max 0 (Z.min 8 k)) with k by lia. }
  rewrite !land_mask_byte by lia. assert (0 < 2 ^ (8 - k)) by lia. split; [nia|congruence].
Qed.

Lemma cons_eq_iff {A} (x y : A) xs ys : x :: xs = y :: ys ↔ x = y ∧ xs = ys.
Proof. split; [by intros [= -> ->]|by intros [-> ->]]. Qed.

(** The masks of a prefix of [n] bits, from byte [i] on. *)
Lemma CIDRMask_S n L : CIDRMask n (S L) = mask_byte n :: CIDRMask (n - 8) L.
Proof.
  unfold CIDRMask. cbn [seq map]. f_equal; [f_equal; lia|].
  rewrite <- seq_shift, map_map. apply map_ext. intros i. f_equal. lia.
Qed.

Lemma length_CIDRMask n L : length (CIDRMask n L) = L.
Proof. unfold CIDRMask. by rewrite length_map, length_seq. Qed.

Lemma and_bytes_zero xs n : n ≤ 0 → and_bytes xs (CIDRMask n (length xs)) = replicate (length xs) 0.
Proof.
  revert n. induction xs as [|x xs IH]; intros n Hn; [done|].
  cbn [length]. rewrite CIDRMask_S. unfold and_bytes in *. cbn [zip_with replicate].
  rewrite mask_byte_low, Z.land_0_r, IH by lia. done.
Qed.

Lemma of_digits_range xs : Forall is_byte xs → 0 ≤ of_digits 256 xs < 256 ^ Z.of_nat (length xs).
Proof.
  induction 1 as [|x xs Hx _ IH]; [cbn; lia|]. rewrite of_digits_cons by lia.
  cbn [length]. rewrite Nat2Z.inj_succ, Z.pow_succ_r by lia. unfold is_byte in Hx. nia.
Qed.

Lemma pow256 L : 256 ^ Z.of_nat L = 2 ^ (8 * Z.of_nat L).
Proof. change 256 with (2 ^ 8). by rewrite <- Z.pow_mul_r by lia. Qed.

(** The high part of a number with a leading digit, cut inside that digit ... *)
Lemma div_in_head x r k L : 0 ≤ k → 0 ≤ r < 2 ^ L → 0 ≤ L → (x * 2 ^ L + r) / 2 ^ (k + L) = x / 2 ^ k.
Proof.
  intros Hk Hr HL. rewrite Z.pow_add_r, (Z.mul_comm (2 ^ k)), <- Z.div_div by lia.
  rewrite Z.div_add_l, (Z.div_small r) by lia. by rewrite Z.add_0_r.
Qed.

(** ... and below it. *)
Lemma div_below_head x r k L : 0 ≤ k ≤ L → (x * 2 ^ L + r) / 2 ^ k = x * 2 ^ (L - k) + r / 2 ^ k.
Proof.
  intros Hk. replace (x * 2 ^ L) with (x * 2 ^ (L - k) * 2 ^ k);
    [by rewrite Z.div_add_l by lia|].
  rewrite <- Z.mul_assoc, <- Z.pow_add_r by lia. do 2 f_equal. lia.
Qed.

Lemma head_eq x y r q L : 0 ≤ r < 2 ^ L → 0 ≤ q < 2 ^ L → 0 ≤ L →
  (x * 2 ^ L + r = y * 2 ^ L + q ↔ x = y ∧ r = q).
Proof.
  generalize (2 ^ L). intros P Hr Hq _. split; [|by intros [-> ->]]. intros H.
  assert (x = y) as -> by (destruct (Z.lt_trichotomy x y) as [|[|]]; nia). lia.
Qed.

Lemma div_range r k L : 0 ≤ r < 2 ^ L → 0 ≤ k ≤ L → 0 ≤ r / 2 ^ k < 2 ^ (L - k).
Proof.
  intros Hr Hk. split; [apply Z.div_pos; lia|]. apply Z.div_lt_upper_bound; [lia|].
  rewrite <- Z.pow_add_r by lia. replace (k + (L - k)) with L by lia. apply Hr.
Qed.

Lemma masked_prefix xs ys n :
  length ys = length xs → Forall is_byte xs → Forall is_byte ys →
  n ≤ 8 * Z.of_nat (length xs) →
  and_bytes xs (CIDRMask n (length xs)) = and_bytes ys (CIDRMask n (length xs)) ↔
  of_digits 256 xs / 2 ^ (8 * Z.of_nat (length xs) - Z.max 0 n) =
  of_digits 256 ys / 2 ^ (8 * Z.of_nat (length xs) - Z.max 0 n).
Proof.
  revert ys n. induction xs as [|x xs IH]; intros [|y ys] n Hl HX HY Hn; try done.
  injection Hl as Hl. inversion_clear HX as [|? ? Hx HXs]. inversion_clear HY as [|? ? Hy HYs].
  pose proof (of_digits_range xs HXs) as Rx. pose proof (of_digits_range ys HYs) as Ry.
  rewrite Hl in Ry. rewrite pow256 in Rx, Ry. unfold is_byte in Hx, Hy.
  cbn [length] in Hn |- *. set (L := 8 * Z.of_nat (length xs)) in *.
  rewrite !of_digits_cons, Hl, !pow256 by lia. fold L.
  rewrite CIDRMask_S. unfold and_bytes. cbn [zip_with].
  change (zip_with Z.land ?a ?b) with (and_bytes a b).
  replace (8 * Z.of_nat (S (length xs)) - Z.max 0 n) with (8 - Z.max 0 n + L) by lia.
  rewrite cons_eq_iff, (masked_byte x y) by lia.
  destruct (decide (n ≤ 8)).
  - (* the cut is in the first byte *)
    rewrite !div_in_head by lia. replace (Z.max 0 (Z.min 8 n)) with (Z.max 0 n) by lia.
    rewrite and_bytes_zero, <- Hl, and_bytes_zero by lia. rewrite Hl. tauto.
  - replace (Z.max 0 (Z.min 8 n)) with 8 by lia. replace (Z.max 0 n) with n by lia.
    rewrite Z.sub_diag, Z.pow_0_r, !Z.div_1_r, !div_below_head by lia.
    replace (L - (8 - n + L)) with (n - 8) by lia.
    rewrite IH by (done || lia). replace (L - Z.max 0 (n - 8)) with (8 - n + L) by lia.
    symmetry. replace (n - 8) with (L - (8 - n + L)) by lia.
    apply head_eq; [apply div_range; lia..|lia].
Qed.
End prefixes.

(** ** Addresses as text *)

Definition dotted (ip : IP) : string := Join (map itoa ip) ".".
Definition cidr (p : IP * Z) : string := dotted p.1 +:+ "/" +:+ itoa p.2.

(** An IPv4 address, and a prefix of one. *)
Definition wf_ipv4 (ip : IP) : Prop := length ip = 4%nat ∧ Forall is_byte ip.
Definition wf_prefix (p : IP * Z) : Prop := wf_ipv4 p.1 ∧ (0 ≤ p.2 ≤ 32)%Z.

#[export] Instance is_byte_dec b : Decision (is_byte b).
Proof. unfold is_byte. apply _. Defined.
#[export] Instance wf_ipv4_dec ip : Decision (wf_ipv4 ip).
Proof. unfold wf_ipv4. apply _. Defined.
#[export] Instance wf_prefix_dec p : Decision (wf_prefix p).
Proof. unfold wf_prefix. apply _. Defined.

(** The address has the same first bits as the prefix. *)
Definition in_prefix (p : IP * Z) (ip : IP) : Prop :=
  (of_digits 256 p.1 / 2 ^ (32 - p.2) = of_digits 256 ip / 2 ^ (32 - p.2))%Z.
#[export] Instance in_prefix_dec p ip : Decision (in_prefix p ip).
Proof. unfold in_prefix. apply _. Defined.

Section texts.
Lemma parse_octet_itoa x : is_byte x → parse_octet (itoa x) = Some x.
Proof.
  intros Hx.
  assert (forallb (λ x, bool_decide (parse_octet (itoa x) = Some x)) (seqZ 0 256) = true) as H
    by (vm_compute; reflexivity).
  rewrite forallb_forall in H. eapply bool_decide_eq_true_1, H, list_elem_of_In, elem_of_seqZ.
  unfold is_byte in Hx. lia.
Qed.

Lemma ipv4_cases ip : wf_ipv4 ip → ∃ a b c d, ip = [a; b; c; d] ∧
  is_byte a ∧ is_byte b ∧ is_byte c ∧ is_byte d.
Proof.
  intros [Hl HF]. destruct ip as [|a [|b [|c [|d [|]]]]]; try done.
  rewrite !Forall_cons in HF. destruct HF as (? & ? & ? & ? & _). eauto 9.
Qed.

Lemma dotted_free ip c : wf_ipv4 ip → is_digit c = false → c ≠ "."%char → free c (dotted ip).
Proof.
  intros (a & b & c' & d & -> & Ha & Hb & Hc & Hd)%ipv4_cases Hdig Hdot. unfold dotted. cbn [map Join].
  assert (free c ".") by (apply free_cons; auto with go).
  rewrite !free_app. unfold is_byte in *. split_and!; try done; apply itoa_free; (done || lia).
Qed.

Lemma parseIPv4_dotted ip : wf_ipv4 ip → parseIPv4 (dotted ip) = Some ip.
Proof.
  intros (a & b & c & d & -> & Ha & Hb & Hc & Hd)%ipv4_cases. unfold parseIPv4, dotted.
  rewrite Split_Join; [|done|]; cycle 1.
  { unfold is_byte in *. repeat constructor; apply itoa_free; (done || lia). }
  cbn [map mapM]. by rewrite !parse_octet_itoa.
Qed.

Lemma ParseAddr_dotted ip : wf_ipv4 ip → ParseAddr (dotted ip) = Some ip.
Proof.
  intros Hip. unfold ParseAddr.
  assert (∃ i, list_find (λ c, c ∈ ["."; ":"; "%"]%char) (chars (dotted ip)) = Some (i, "."%char)) as [i ->].
  { destruct (ipv4_cases ip Hip) as (a & b & c & d & -> & Ha & _). unfold dotted. cbn [map Join].
    rewrite chars_app, list_find_app_r.
    - rewrite chars_app. cbn. eauto.
    - apply list_find_None, Forall_forall. intros ch Hch Hin.
      apply itoa_chars in Hch; [|unfold is_byte in Ha; lia].
      rewrite !elem_of_cons in Hin. destruct Hin as [->|[->|[->|[]%not_elem_of_nil]]]; done. }
  by apply parseIPv4_dotted.
Qed.

Lemma free_not_sep c s : free c s → Forall (λ y, bool_decide (y ≠ c) = true) (chars s).
Proof.
  intros Hf. apply Forall_forall. intros y Hy. apply bool_decide_eq_true_2. intros ->. by apply Hf.
Qed.

(** Parsing a prefix masks its address. *)
Lemma ParseCIDR_cidr p : wf_prefix p →
  ParseCIDR (cidr p) = Ok (mkIPNet (and_bytes p.1 (CIDRMask p.2 4)) (CIDRMask p.2 4)).
Proof.
  destruct p as [ip n]. cbn [fst snd]. intros [Hip Hn]. cbn [fst snd] in *.
  unfold ParseCIDR, cidr. cbn [fst snd]. rewrite chars_app.
  change (chars ("/" +:+ itoa n)) with ("/"%char :: chars (itoa n)).
  rewrite list_span_app; [|by apply free_not_sep, dotted_free|reflexivity].
  rewrite !of_chars_chars, ParseAddr_dotted by done. unfold dtoi.
  rewrite ParseUint_itoa by lia. destruct Hip as [-> _].
  rewrite (proj2 (Z.ltb_ge _ _)) by lia. done.
Qed.

Lemma To4_To16 ip : wf_ipv4 ip → To4 (To16 ip) = Some ip.
Proof. by intros (a & b & c & d & -> & _)%ipv4_cases. Qed.

Lemma length_and_bytes xs n : length xs = 4%nat → length (and_bytes xs (CIDRMask n 4)) = 4%nat.
Proof. intros Hl. unfold and_bytes. by rewrite length_zip_with, Hl, length_CIDRMask. Qed.

Lemma and_bytes_idem xs n : and_bytes (and_bytes xs (CIDRMask n 4)) (CIDRMask n 4) = and_bytes xs (CIDRMask n 4).
Proof.
  unfold and_bytes. generalize (CIDRMask n 4). intros m. revert m.
  induction xs as [|x xs IH]; intros [|y m]; cbn; [done..|].
  by rewrite IH, <- Z.land_assoc, Z.land_diag.
Qed.

Lemma Contains_prefix p ip : wf_prefix p → wf_ipv4 ip →
  IPNet_Contains (mkIPNet (and_bytes p.1 (CIDRMask p.2 4)) (CIDRMask p.2 4)) (To16 ip) = true ↔
  in_prefix p ip.
Proof.
  destruct p as [net n]. cbn [fst snd]. intros [Hnet Hn] Hip. cbn [fst snd] in *.
  pose proof (length_and_bytes net n (proj1 Hnet)) as Hlen.
  unfold IPNet_Contains, networkNumberAndMask. cbn [ipn_IP ipn_Mask].
  assert (To4 (and_bytes net (CIDRMask n 4)) = Some (and_bytes net (CIDRMask n 4))) as ->.
  { unfold To4. by rewrite Hlen. }
  rewrite To4_To16 by done. cbn [from_option id]. rewrite Hlen, length_CIDRMask. cbn -[and_bytes CIDRMask].
  rewrite (proj1 Hip), bool_decide_eq_true_2, and_bytes_idem by done. cbn [andb].
  rewrite bool_decide_eq_true. rewrite <- (proj1 Hnet) at 1 2. rewrite masked_prefix.
  - unfold in_prefix. cbn [fst snd]. rewrite (proj1 Hnet). by replace (Z.max 0 n) with n by lia.
  - by rewrite (proj1 Hip), (proj1 Hnet).
  - apply Hnet.
  - apply Hip.
  - rewrite (proj1 Hnet). lia.
Qed.
End texts.

(** ** Who may read the status page *)

Section access.
Lemma last_index_app c l r : c ∉ r → last_index c (l ++ c :: r) = Some (length l).
Proof.
  intros Hr. unfold last_index, first_index. rewrite reverse_app, reverse_cons, <- app_assoc.
  rewrite list_find_app_r.
  - cbn. rewrite decide_True by done. cbn. f_equal.
    rewrite length_app, length_reverse. cbn. lia.
  - apply list_find_None, Forall_forall. intros x Hx Heq. subst x.
    by apply Hr, elem_of_reverse.
Qed.

(** A socket address: [a.b.c.d:port]. *)
Definition socket (ip : IP) (port : Z) : string := dotted ip +:+ ":" +:+ itoa port.

Lemma SplitHostPort_socket ip port : wf_ipv4 ip → (0 ≤ port)%Z →
  SplitHostPort (socket ip port) = Some (dotted ip, itoa port).
Proof.
  intros Hip Hp. unfold SplitHostPort, socket. rewrite chars_app.
  change (chars (":" +:+ itoa port)) with (":"%char :: chars (itoa port)).
  assert (∀ c, is_digit c = false → c ≠ "."%char → c ≠ ":"%char →
    c ∉ chars (dotted ip) ++ ":"%char :: chars (itoa port)) as Hfree.
  { intros c Hd Hdot Hc [Hin|[->|Hin]%elem_of_cons]%elem_of_app; [|done|].
    - by eapply dotted_free in Hin.
    - by eapply itoa_free in Hin. }
  rewrite last_index_app by by apply itoa_free.
  rewrite bool_decide_eq_false_2; cycle 1.
  { intros H%list_elem_of_lookup_2. by eapply Hfree in H. }
  pose proof (dotted_free ip ":"%char Hip eq_refl ltac:(discriminate)) as Hcolon.
  pose proof (Hfree "["%char eq_refl ltac:(discriminate) ltac:(discriminate)) as Hopen.
  pose proof (Hfree "]"%char eq_refl ltac:(discriminate) ltac:(discriminate)) as Hclose.
  rewrite take_app_length, (bool_decide_eq_false_2 _ Hcolon).
  rewrite (bool_decide_eq_false_2 _ Hopen), (bool_decide_eq_false_2 _ Hclose).
  cbn [orb]. rewrite <- Nat.add_1_r, drop_app_add. rewrite skipn_cons, drop_0.
  by rewrite !of_chars_chars.
Qed.

Lemma socket_free ip port c : wf_ipv4 ip → (0 ≤ port)%Z → is_digit c = false →
  c ≠ "."%char → c ≠ ":"%char → free c (socket ip port).
Proof.
  intros Hip Hp Hd Hdot Hc. unfold socket. rewrite !free_app. split_and!.
  - by apply dotted_free.
  - apply free_cons. auto with go.
  - by apply itoa_free.
Qed.

Lemma first_ip_socket ip port : wf_ipv4 ip → (0 ≤ port)%Z →
  first_ip (Split (socket ip port) ",") = Some (To16 ip).
Proof.
  intros Hip Hp. rewrite Split_free by (by apply socket_free). cbn. unfold host_ip.
  rewrite SplitHostPort_socket by done. unfold ParseIP. by rewrite ParseAddr_dotted.
Qed.

(** The headers of a request are believed.  Whatever the address of the peer, a request
    whose X-REAL-IP header holds a socket address counts as coming from that address. *)
Theorem getRemoteIp_header ip port forwarded peer :
  wf_ipv4 ip → (0 ≤ port)%Z →
  getRemoteIp (mkWebRequest (socket ip port) forwarded peer) = Some (To16 ip).
Proof. intros. unfold getRemoteIp. cbn [remote_ip wr_XRealIP]. by rewrite first_ip_socket. Qed.

Lemma parse_auth_ips_fold ps acc :
  Forall wf_prefix ps →
  foldl (λ acc authIP, l ← acc; ipnet ← must (ParseCIDR authIP); Ret (l ++ [ipnet])) (Ret acc)
    (map cidr ps) =
  Ret (acc ++ map (λ p, mkIPNet (and_bytes p.1 (CIDRMask p.2 4)) (CIDRMask p.2 4)) ps).
Proof.
  intros HF. revert acc. induction HF as [|p ps Hp _ IH]; intros acc; cbn [map foldl];
    [by rewrite app_nil_r|].
  rewrite ParseCIDR_cidr by done. cbn [bind outcome_seq must]. by rewrite IH, <- app_assoc.
Qed.

Lemma cidr_free p : wf_prefix p → free "," (cidr p).
Proof.
  intros [Hip Hn]. unfold cidr. rewrite !free_app. split_and!.
  - by apply dotted_free.
  - apply free_cons. auto with go.
  - apply itoa_free; [lia|done].
Qed.

Lemma isAuthIP_prefixes ps ip : Forall wf_prefix ps → wf_ipv4 ip →
  isAuthIP (Some (To16 ip))
    (map (λ p, mkIPNet (and_bytes p.1 (CIDRMask p.2 4)) (CIDRMask p.2 4)) ps) = true ↔
  Exists (λ p, in_prefix p ip) ps.
Proof.
  intros HF Hip. unfold isAuthIP. induction HF as [|p ps Hp _ IH]; cbn [map existsb].
  - by rewrite Exists_nil.
  - rewrite orb_true_iff, Exists_cons, IH. cbn [from_option id].
    by rewrite Contains_prefix.
Qed.

(** C37: The status page is for the configured prefixes only.  The driver accepts any list of
    IPv4 prefixes as its flag, and then a request without forwarding headers is authorized
    exactly when the peer's address agrees with one of the prefixes in as many leading bits
    as the prefix has. *)
Theorem status_page_access ps ip port :
  ps ≠ [] → Forall wf_prefix ps → wf_ipv4 ip → (0 ≤ port)%Z →
  ∃ nets, parse_auth_ips (Join (map cidr ps) ",") = Ret nets ∧
    (isAuthIP (getRemoteIp (mkWebRequest "" "" (socket ip port))) nets = true ↔
     Exists (λ p, in_prefix p ip) ps).
Proof.
  intros Hne HF Hip Hp. eexists. split.
  - unfold parse_auth_ips. rewrite Split_Join; [by apply parse_auth_ips_fold|by destruct ps|].
    apply Forall_map. eapply Forall_impl; [exact HF|]. apply cidr_free.
  - unfold getRemoteIp. cbn [remote_ip wr_XRealIP wr_XForwardedFor wr_RemoteAddr].
    change (first_ip (Split "" ",")) with (@None IP). cbn beta iota.
    rewrite first_ip_socket by done. by apply isAuthIP_prefixes.
Qed.

(** A request that is refused does nothing: it is answered at once and no message
    reaches the resource manager; one that is allowed queues exactly one status query, with
    a fresh channel for the answer, or waits for room in the queue. *)
Theorem handleNetworksWeb_guarded r s :
  wp (handleNetworksWeb r) (λ o s',
    if isAuthIP (getRemoteIp r) (authIPs (st_d s))
    then match o with
         | Ret (Await c) => st_ops s' = st_ops s ++ [mkOp "networks" "" "" [] (Some c)] ∧
             st_replies s !! c = None ∧ st_replies s' = <[c := []]> (st_replies s)
         | Block => st_ops s' = st_ops s
         | _ => False
         end
    else o = Ret (NotAuthorized "not authorized") ∧ s' = s) s.
Proof.
  unfold handleNetworksWeb. apply wp_bind, wp_gets.
  destruct (isAuthIP _ _); [|done].
  unfold getWebResponse_send, make_reply. apply wp_bind, wp_bind, wp_bind, wp_gets, wp_bind, wp_modify, wp_ret.
  apply wp_bind, wp_send_op; [done|]. unfold wp. cbn. split; [done|]. split; [|done].
  apply not_elem_of_dom, is_fresh.
Qed.
End access.

Lemma getRemoteIp_header_witness :
  getRemoteIp (mkWebRequest "127.0.0.1:1" "" "203.0.113.9:40000") = Some (To16 [127; 0; 0; 1]%Z).
Proof. apply (getRemoteIp_header [127; 0; 0; 1]%Z 1); [decide_now|lia]. Defined.

Lemma status_page_access_witness :
  ∃ nets, parse_auth_ips "127.0.0.0/8,192.168.16.0/20" = Ret nets ∧
    (isAuthIP (getRemoteIp (mkWebRequest "" "" "192.168.31.7:5000")) nets = true ↔
     Exists (λ p, in_prefix p [192; 168; 31; 7]%Z) [([127; 0; 0; 0]%Z, 8%Z); ([192; 168; 16; 0]%Z, 20%Z)]).
Proof.
  apply (status_page_access [([127; 0; 0; 0]%Z, 8%Z); ([192; 168; 16; 0]%Z, 20%Z)] [192; 168; 31; 7]%Z 5000);
    [discriminate|decide_now|decide_now|lia].
Defined.
