(* ===== verification/Notifier.v ===== *)
(** * The notifier: ovs/driver.go

    The handlers announce what they did on a channel, and a goroutine of its own prints
    the announcements as lines of JSON.  A line holds the network as it is when the line is
    printed: the maps of the network are shared with the manager. *)
From S2P Require Import Prelude GoStrings GoFormat GoMonad World Utils Types Json.

Definition json_NotifyMsg (h : heap) (m : NotifyMsg) : json :=
  JObj [("NetworkState", json_NetworkState h (nm_NetworkState m)); ("Type", JStr (nm_Type m));
        ("Operation", JStr (nm_Operation m)); ("Details", json_opt JStr (nm_Details m))].

Definition json_NotifyMsgJson (h : heap) (time : Z) (m : NotifyMsg) : json :=
  JObj [("Version", JNum 1); ("Time", JNum time); ("Msg", json_NotifyMsg h m)].

Section notifier.
Context `{E : Env}.

(** One turn of the notifier: it waits for an announcement and prints it, the text as the
    format of Infof.  [json.Marshal] has no error for these types. *)
Definition notifier_turn : D unit :=
  notes ← gets st_notes;
  match notes with
  | [] => block
  | notifyMsg :: rest =>
      modify (set_notes rest);;
      now ← io_do (ext CTimeNow);
      h ← gets st_heap;
      let encodedMsg := Marshal (json_NotifyMsgJson h now notifyMsg) in
      io_do (ext (CInfof (Sprintf0 encodedMsg)))
  end.

Fixpoint notifier_turns (n : nat) : D unit :=
  match n with
  | O => skip
  | S n' => notifier_turn;; notifier_turns n'
  end.

(** ** What a turn changes *)

(** The lines of a history. *)
Definition lines_of (t : list call) : list string :=
  omap (λ c, match c with CInfof line => Some line | _ => None end) t.

(** What stays when lines are printed: everything but the queue of announcements and the
    history, to which the lines are added. *)
Definition prints (lines : list string) (s s' : state) : Prop :=
  ∃ i, s' = set_io i (set_notes (st_notes s') s) ∧
    lines_of (io_trace i) = lines_of (io_trace (st_io s)) ++ lines.

Lemma notifier_turn_Ret s s' : notifier_turn s = (Ret tt, s') →
  ∃ i notes, s' = set_io i (set_notes notes s).
Proof.
  intros (notes & s1 & [= <- <-] & H)%bind_Ret_inv. destruct (st_notes s) as [|m rest]; [done|].
  repeat first [apply bind_Ret_inv in H as (? & ? & [= <- <-] & H) | apply bind_Ret_inv in H as (? & ? & [= <-] & H)].
  injection H as _ <-. by eexists _, _.
Qed.

Lemma prints_trans l1 l2 s1 s2 s3 : prints l1 s1 s2 → prints l2 s2 s3 → prints (l1 ++ l2) s1 s3.
Proof.
  intros (i1 & -> & H1) (i2 & H2 & H3). exists i2. split; [by rewrite H2|].
  rewrite H3. cbn. by rewrite H1, app_assoc.
Qed.

End notifier.
