(* ===== verification/Registry.v ===== *)
(** * The driver as a registry of networks and containers

    What the rest of the system relies on: the driver keeps a table of networks and,
    for each, the containers on it.  The table is abstract here; the driver's own state
    spreads it over a map of structs that hold references to shared maps, copies of
    which also travel in queued messages.  The invariant that keeps those references
    apart makes every turn of the resource manager a sequence of steps of the table. *)
From S2P Require Import Prelude GoStrings GoMonad World Scenario Utils OvsDb OvsPort Types Config Iptables Faucet Docker OvsBridge Driver Handlers Json Manager Web Notifier.

(** ** The abstract table *)

Abbreviation registry := (gmap string (gmap string ContainerState)).

Inductive label : Type :=
  | LCreate (id : string)
  | LDelete (id : string)
  | LJoin (id ep : string)
  | LLeave (id ep : string)
  | LAddress.

Inductive rstep : label → registry → registry → Prop :=
  | rs_create r id : rstep (LCreate id) r (<[id := ∅]> r)
  | rs_delete r id : rstep (LDelete id) r (delete id r)
  | rs_join r id ep m cs :
      r !! id = Some m → rstep (LJoin id ep) r (<[id := <[ep := cs]> m]> r)
  | rs_leave r id ep m :
      r !! id = Some m → rstep (LLeave id ep) r (<[id := delete ep m]> r)
  | rs_address r id ep m cs ip :
      r !! id = Some m → m !! ep = Some cs →
      rstep LAddress r (<[id := <[ep := set_HostIP ip cs]> m]> r).

(** Which steps a message may cause; no message stands for the timeout. *)
Definition permits (op : option DovesnapOp) (lab : label) : Prop :=
  match op with
  | None => lab = LAddress
  | Some op =>
      let id := op_NetworkID op in
      match operation_of (op_Operation op) with
      | OCreate | ORecreateBadBridge => lab = LCreate id
      | ORecreateDownBridge => lab = LCreate id ∨ lab = LDelete id
      | ODelete => lab = LDelete id
      | OJoin => lab = LJoin id (op_EndpointID op)
      | OLeave => lab = LLeave id (op_EndpointID op)
      | ONetworks => lab = LAddress
      | _ => False
      end
  end.

Definition allowed (op : option DovesnapOp) (r r' : registry) : Prop :=
  ∃ lab, permits op lab ∧ rstep lab r r'.

(** ** The table in the driver's state *)

Definition members (h : heap) (ns : NetworkState) : gmap string ContainerState :=
  map_get (h_containers h) (containers_of ns).

Definition abs (s : state) : registry := members (st_heap s) <$> networks (st_d s).

Definition msg_ref (op : DovesnapOp) : ref := containers_of (op_NewNetworkState op).

(** References of networks and messages: allocated, and never shared. *)
Record separate (nets : gmap string NetworkState) (ops : list DovesnapOp) (h : heap) : Prop := {
  sep_nets id1 id2 n1 n2 l :
    nets !! id1 = Some n1 → nets !! id2 = Some n2 →
    containers_of n1 = Some l → containers_of n2 = Some l → id1 = id2;
  sep_msgs id n op l :
    nets !! id = Some n → op ∈ ops → containers_of n = Some l → msg_ref op ≠ Some l;
  sep_queue : NoDup (omap msg_ref ops);
  sep_alloc id n l : nets !! id = Some n → containers_of n = Some l → (l < h_next h)%positive;
  sep_fresh op l : op ∈ ops → msg_ref op = Some l →
    (l < h_next h)%positive ∧ h_containers h !! l = Some ∅;
}.

Record inv (s : state) : Prop := {
  inv_sep : separate (networks (st_d s)) (st_ops s) (st_heap s);
  inv_ports : map_Forall (λ _ oc, sound_port oc) (st_OFPorts s);
}.

Section separation.
Implicit Types (nets : gmap string NetworkState) (ops : list DovesnapOp) (h : heap).

Lemma members_grows h h' ns :
  heap_grows h h' → (∀ l, containers_of ns = Some l → (l < h_next h)%positive) →
  members h' ns = members h ns.
Proof.
  intros [_ Hc] Ha. unfold members, map_get.
  destruct (containers_of ns) as [l|]; [|done]. by rewrite Hc by auto.
Qed.

Lemma fmap_members_grows h h' nets ops :
  heap_grows h h' → separate nets ops h → members h' <$> nets = members h <$> nets.
Proof.
  intros Hg Hs. apply map_fmap_ext. intros id n Hn. apply members_grows; [done|].
  intros l Hl. by eapply sep_alloc.
Qed.

Lemma separate_grows nets ops h h' : heap_grows h h' → separate nets ops h → separate nets ops h'.
Proof.
  intros Hg Hs. pose proof Hg as [Hn Hc].
  split; [by eapply sep_nets|by eapply sep_msgs|by eapply sep_queue|..].
  - intros id n l H1 H2. pose proof (sep_alloc _ _ _ Hs id n l H1 H2). lia.
  - intros op l H1 H2. destruct (sep_fresh _ _ _ Hs op l H1 H2) as [Hl He].
    split; [lia|]. by rewrite Hc.
Qed.

Lemma separate_delete nets ops h id : separate nets ops h → separate (delete id nets) ops h.
Proof.
  intros Hs. split.
  - intros id1 id2 n1 n2 l [_ H1]%lookup_delete_Some [_ H2]%lookup_delete_Some. by eapply sep_nets.
  - intros id' n op l [_ H1]%lookup_delete_Some. by eapply sep_msgs.
  - by eapply sep_queue.
  - intros id' n l [_ H1]%lookup_delete_Some. by eapply sep_alloc.
  - by eapply sep_fresh.
Qed.

(** Taking a message off the queue: what it carries is its own. *)
Record owned (op : DovesnapOp) nets ops h : Prop := {
  own_nets id n l : nets !! id = Some n → containers_of n = Some l → msg_ref op ≠ Some l;
  own_msgs op' l : op' ∈ ops → msg_ref op' = Some l → msg_ref op ≠ Some l;
  own_fresh l : msg_ref op = Some l → (l < h_next h)%positive ∧ h_containers h !! l = Some ∅;
}.

Lemma separate_pop nets ops h op :
  separate nets (op :: ops) h → separate nets ops h ∧ owned op nets ops h.
Proof.
  intros Hs. pose proof (sep_queue _ _ _ Hs) as Hq. cbn in Hq.
  split; split.
  - by eapply sep_nets.
  - intros id n op' l H1 H2. eapply sep_msgs; [done..|by right].
  - destruct (msg_ref op); [by apply NoDup_cons in Hq as [_ ?]|done].
  - by eapply sep_alloc.
  - intros op' l H1. eapply sep_fresh; [done|by right].
  - intros id n l H1 H2. eapply sep_msgs; [done..|by left|done].
  - intros op' l H1 H2 H3. rewrite H3 in Hq. apply NoDup_cons in Hq as [Hq _].
    apply Hq, list_elem_of_omap. eauto.
  - intros l H1. eapply sep_fresh; [done|by left|done].
Qed.

Lemma owned_grows op nets ops h h' : heap_grows h h' → owned op nets ops h → owned op nets ops h'.
Proof.
  intros [Hn Hc] Ho. split; [by eapply own_nets|by eapply own_msgs|].
  intros l Hl. destruct (own_fresh _ _ _ _ Ho l Hl) as [H1 H2]. split; [lia|]. by rewrite Hc.
Qed.

Lemma owned_delete op nets ops h id : owned op nets ops h → owned op (delete id nets) ops h.
Proof.
  intros Ho. split; [|by eapply own_msgs|by eapply own_fresh].
  intros id' n l [_ H]%lookup_delete_Some. by eapply own_nets.
Qed.

(** A created network takes over what its message carried. *)
Lemma separate_insert nets ops h op id ns :
  separate nets ops h → owned op nets ops h → containers_of ns = msg_ref op →
  separate (<[id := ns]> nets) ops h.
Proof.
  intros Hs Ho Hr. split.
  - intros id1 id2 n1 n2 l [[<- <-]|[? H1]]%lookup_insert_Some [[<- <-]|[? H2]]%lookup_insert_Some
      Hl1 Hl2; [done| | |by eapply sep_nets].
    + exfalso. eapply (own_nets _ _ _ _ Ho); [exact H2|exact Hl2|congruence].
    + exfalso. eapply (own_nets _ _ _ _ Ho); [exact H1|exact Hl1|congruence].
  - intros id' n op' l [[<- <-]|[? H1]]%lookup_insert_Some Hin Hl; [|by eapply sep_msgs].
    intros H. eapply (own_msgs _ _ _ _ Ho); [done..|congruence].
  - by eapply sep_queue.
  - intros id' n l [[<- <-]|[? H1]]%lookup_insert_Some Hl; [|by eapply sep_alloc].
    eapply own_fresh; [done|congruence].
  - by eapply sep_fresh.
Qed.

(** A request queues a message with nothing, or with maps just allocated. *)
Lemma separate_push nets ops h op :
  separate nets ops h → msg_ref op = None → separate nets (ops ++ [op]) h.
Proof.
  intros Hs Hr. split; [by eapply sep_nets| | |by eapply sep_alloc|].
  - intros id n op' l H1 [Hin|Hin%list_elem_of_singleton]%elem_of_app H2;
      [by eapply sep_msgs|congruence].
  - rewrite omap_app. cbn. rewrite Hr, app_nil_r. by eapply sep_queue.
  - intros op' l [Hin|Hin%list_elem_of_singleton]%elem_of_app; [by eapply sep_fresh|congruence].
Qed.

Lemma separate_push_alloc nets ops h op :
  separate nets ops h → msg_ref op = Some (h_next h) → separate nets (ops ++ [op]) (alloc h).
Proof.
  intros Hs Hr. pose proof (separate_grows _ _ _ _ (alloc_grows h) Hs) as Hs'.
  split; [by eapply sep_nets| | |by eapply sep_alloc|].
  - intros id n op' l H1 [Hin|Hin%list_elem_of_singleton]%elem_of_app H2;
      [by eapply sep_msgs|subst op'].
    rewrite Hr. intros [= <-]. pose proof (sep_alloc _ _ _ Hs _ _ _ H1 H2). lia.
  - rewrite omap_app. cbn. rewrite Hr. apply NoDup_app. split_and!.
    + by eapply sep_queue.
    + intros l (op' & Hin & Hl)%list_elem_of_omap Hl'%list_elem_of_singleton. subst l.
      pose proof (proj1 (sep_fresh _ _ _ Hs _ _ Hin Hl)). lia.
    + apply NoDup_singleton.
  - intros op' l [Hin|Hin%list_elem_of_singleton]%elem_of_app; [by eapply sep_fresh|subst op'].
    rewrite Hr. intros [= <-]. cbn. rewrite lookup_insert_eq. split; [lia|done].
Qed.
End separation.

(** ** The handlers as steps of the table *)

Section simulation.
Context `{E : Env}.
Implicit Types (s : state) (op : DovesnapOp) (ns : NetworkState).

Abbreviation owns op s := (owned op (networks (st_d s)) (st_ops s) (st_heap s)).

Lemma inv_pop s op ops : inv s → st_ops s = op :: ops → inv (set_ops ops s).
Proof. intros [Hs Hp] Hq. rewrite Hq in Hs. by apply separate_pop in Hs as [Hs _]. Qed.

Lemma inv_same s s' :
  networks (st_d s') = networks (st_d s) → st_ops s' = st_ops s →
  heap_grows (st_heap s) (st_heap s') →
  map_Forall (λ _ oc, sound_port oc) (st_OFPorts s') → inv s → inv s' ∧ abs s' = abs s.
Proof.
  intros Hn Ho Hh Hp [Hs _]. split.
  - split; [|done]. rewrite Hn, Ho. by eapply separate_grows.
  - unfold abs. rewrite Hn. by eapply fmap_members_grows.
Qed.

Lemma sim_delete op s s' :
  inv s → owns op s → mustHandleDeleteNetwork op s = (Ret tt, s') →
  inv s' ∧ owns op s' ∧
  (abs s' = abs s ∨ abs s' = delete (op_NetworkID op) (abs s)).
Proof.
  intros [Hs Hp] Ho (_ & Hh & HP & Hq & Hd)%delete_handler_spec.
  destruct Hd as [[Hd _]|[Hd _]]; split_and!.
  - split; rewrite ?Hd, ?Hq, ?Hh, ?HP; [by apply separate_delete|done].
  - rewrite Hd, Hq, Hh. by apply owned_delete.
  - right. unfold abs. rewrite Hd, Hh. apply fmap_delete.
  - split; rewrite ?Hd, ?Hq, ?Hh, ?HP; done.
  - by rewrite Hd, Hq, Hh.
  - left. unfold abs. by rewrite Hd, Hh.
Qed.

Lemma members_owned op nets ops h ns :
  owned op nets ops h → containers_of ns = msg_ref op → members h ns = ∅.
Proof.
  intros Ho Hr. unfold members, map_get. rewrite Hr.
  destruct (msg_ref op) as [l|] eqn:Hl; [|done].
  by rewrite (proj2 (own_fresh _ _ _ _ Ho l Hl)).
Qed.

Lemma sim_create op s s' :
  inv s → owns op s → mustHandleCreateNetwork op s = (Ret tt, s') →
  inv s' ∧ (abs s' = abs s ∨ abs s' = <[op_NetworkID op := ∅]> (abs s)).
Proof.
  intros Hi Ho (o & s1 & Hw & _ & [_ ->]%wg_done_Ret)%deferring_recovering_Ret.
  pose proof (create_work_spec op s) as H. unfold wp in H. rewrite Hw in H. cbn [fst snd] in H.
  destruct H as (HP & _ & Hh & H).
  destruct (chans_create_work (st_wg s) (st_ops s) (st_replies s) op s) as (_ & Hq & _); [done|].
  rewrite Hw in Hq. cbn [fst snd] in Hq.
  assert (st_d s1 = st_d s ∨ ∃ name, created op name s s1) as [Hd|[name Hd]].
  { destruct o; [destruct H as (name & H & _)|destruct H as [[H|(name & H & _)] _]..]; eauto. }
  { destruct (inv_same s (set_wg (st_wg s1 - 1) s1)) as [? ->]; cbn; [by rewrite ?Hd..| |done|auto].
    rewrite HP. apply Hi. }
  destruct Hi as [Hs Hp]. unfold created in Hd.
  pose proof (separate_grows _ _ _ _ Hh Hs) as Hs1. pose proof (owned_grows _ _ _ _ _ Hh Ho) as Ho1.
  split.
  - split; cbn; rewrite ?Hd, ?Hq, ?HP; [|done]. by eapply separate_insert.
  - right. unfold abs. cbn. rewrite Hd. cbn. rewrite fmap_insert. f_equal.
    + by eapply members_owned.
    + by eapply fmap_members_grows.
Qed.

(** An update of the shared map of one network. *)
Lemma fmap_members_update nets ops h id ns l m :
  separate nets ops h → nets !! id = Some ns → containers_of ns = Some l →
  members (upd_containers (λ h, <[l := m]> h) h) <$> nets = <[id := m]> (members h <$> nets).
Proof.
  intros Hs Hn Hl. apply map_eq. intros id'. rewrite lookup_fmap.
  destruct (decide (id' = id)) as [->|Hne].
  - rewrite Hn, lookup_insert_eq. cbn. unfold members, map_get. rewrite Hl. cbn.
    by rewrite lookup_insert_eq.
  - rewrite lookup_insert_ne, lookup_fmap by done.
    destruct (nets !! id') as [n'|] eqn:Hn'; [|done]. cbn. f_equal.
    unfold members, map_get. cbn. destruct (containers_of n') as [l'|] eqn:Hl'; [|done].
    rewrite lookup_insert_ne; [done|]. intros <-. apply Hne. by eapply sep_nets.
Qed.

Lemma separate_update nets ops h id ns l m :
  separate nets ops h → nets !! id = Some ns → containers_of ns = Some l →
  separate nets ops (upd_containers (λ h, <[l := m]> h) h).
Proof.
  intros Hs Hn Hl. split; [by eapply sep_nets|by eapply sep_msgs|by eapply sep_queue|..].
  - intros id' n' l'. cbn. by eapply sep_alloc.
  - intros op l' H1 H2. cbn. destruct (sep_fresh _ _ _ Hs op l' H1 H2) as [H3 H4].
    split; [done|]. rewrite lookup_insert_ne; [done|]. intros <-. by eapply sep_msgs.
Qed.

Lemma network_of_ref d id l :
  containers_of (network_of d id) = Some l → networks d !! id = Some (network_of d id).
Proof. unfold network_of. by destruct (networks d !! id). Qed.

Lemma lookup_abs s id ns : networks (st_d s) !! id = Some ns → abs s !! id = Some (members (st_heap s) ns).
Proof. intros H. unfold abs. by rewrite lookup_fmap, H. Qed.

(** A container is put in, or taken out of, the shared map of its network. *)
Lemma sim_update s s' id l m :
  inv s → containers_of (network_of (st_d s) id) = Some l →
  st_d s' = st_d s → st_ops s' = st_ops s →
  st_heap s' = upd_containers (λ h, <[l := m]> h) (st_heap s) →
  map_Forall (λ _ oc, sound_port oc) (st_OFPorts s') →
  inv s' ∧ abs s' = <[id := m]> (abs s).
Proof.
  intros [Hs _] Hl Hd Hq Hh Hp. pose proof (network_of_ref _ _ _ Hl) as Hn. split.
  - split; [|done]. rewrite Hd, Hq, Hh. by eapply separate_update.
  - unfold abs. rewrite Hd, Hh. by eapply fmap_members_update.
Qed.

Lemma sim_join op s :
  inv s → let s' := (join_work op s).2 in
  inv s' ∧ (abs s' = abs s ∨ rstep (LJoin (op_NetworkID op) (op_EndpointID op)) (abs s) (abs s')).
Proof.
  intros Hi s'. pose proof Hi as [Hs Hp].
  destruct (chans_join_work (st_wg s) (st_ops s) (st_replies s) op s) as (_ & Hq & _); [done|].
  fold s' in Hq.
  destruct (containers_of (network_of (st_d s) (op_NetworkID op))) as [l|] eqn:Hl.
  - destruct (join_work_spec op l s Hl) as (Hd & _ & H). fold s' in Hd, H.
    assert (joined op l s s' ∨ unmoved s s') as [Hj|(H1 & H2 & _)] by (destruct ((join_work op s).1); auto).
    + destruct Hj as (oc & cs & note & _ & Hb & _ & HP & _ & _ & Hh & _).
      destruct (sim_update s s' _ _ _ Hi Hl Hd Hq Hh) as [Hi' Ha].
      { rewrite HP. apply map_Forall_insert_2; [by right|done]. }
      split; [done|right]. rewrite Ha. apply rs_join.
      rewrite (lookup_abs _ _ _ (network_of_ref _ _ _ Hl)). unfold members. by rewrite Hl.
    + destruct (inv_same s s') as [? ->]; auto; [by rewrite Hd|by rewrite H2|by rewrite H1].
  - destruct (join_work_nil op s Hl) as (Hd & Hh & _ & HP). fold s' in Hd, Hh, HP.
    destruct (inv_same s s') as [? ->]; auto; [by rewrite Hd|by rewrite Hh|].
    destruct HP as [->|(oc & Hb & ->)]; [done|]. apply map_Forall_insert_2; [by right|done].
Qed.

Lemma sim_leave op s :
  inv s → let s' := (leave_work op s).2 in
  inv s' ∧ (abs s' = abs s ∨ rstep (LLeave (op_NetworkID op) (op_EndpointID op)) (abs s) (abs s')).
Proof.
  intros Hi s'. pose proof Hi as [Hs Hp].
  destruct (chans_leave_work (st_wg s) (st_ops s) (st_replies s) op s) as (_ & Hq & _); [done|].
  fold s' in Hq.
  destruct (leave_work_spec op s) as (Hd & _ & H); [by intros oc Hoc; eapply Hp|]. fold s' in Hd, H.
  assert (departed op s s' ∨ unmoved s s') as [(HP & Hh & _)|(H1 & H2 & _)]
    by (destruct ((leave_work op s).1); auto);
    [|by destruct (inv_same s s') as [? ->]; auto; [rewrite Hd|rewrite H2|rewrite H1]].
  assert (map_Forall (λ _ oc, sound_port oc) (st_OFPorts s')) as HP'.
  { rewrite HP. by apply map_Forall_delete. }
  destruct (containers_of (network_of (st_d s) (op_NetworkID op))) as [l|] eqn:Hl.
  - destruct (sim_update s s' _ _ _ Hi Hl Hd Hq Hh HP') as [Hi' Ha].
    split; [done|right]. rewrite Ha. apply rs_leave.
    rewrite (lookup_abs _ _ _ (network_of_ref _ _ _ Hl)). unfold members. by rewrite Hl.
  - destruct (inv_same s s') as [? ->]; auto; [by rewrite Hd|]. rewrite Hh. by destruct (st_heap s).
Qed.
End simulation.

(** ** Reconciliation *)

(** Since [s0] no network, port, message or container has changed. *)
Definition calm (s0 s : state) : Prop :=
  networks (st_d s) = networks (st_d s0) ∧ st_OFPorts s = st_OFPorts s0 ∧ st_ops s = st_ops s0 ∧
  st_wg s = st_wg s0 ∧ st_replies s = st_replies s0 ∧ heap_grows (st_heap s0) (st_heap s).

Lemma calm_refl s : calm s s.
Proof. by do 5 (split; [done|]). Qed.

Lemma calm_inv s0 s : inv s0 → calm s0 s → inv s ∧ abs s = abs s0.
Proof. intros Hi (Hn & HP & Hq & _ & _ & Hh). apply inv_same; try done. rewrite HP. apply Hi. Qed.

Section calm.
Context `{E : Env} (s0 : state).

Lemma calm_io_do {A} (m : IO A) : keeps (calm s0) (io_do m).
Proof. apply keeps_io_do. by intros i s. Qed.
Lemma calm_put_external ns k v : keeps (calm s0) (put_external ns k v).
Proof.
  intros s Hs. unfold put_external, map_set. cbn.
  by destruct (dyn_ExternalPorts _); cbn.
Qed.
Lemma calm_del_external ns k : keeps (calm s0) (del_external ns k).
Proof. by intros s Hs. Qed.
Hint Resolve calm_io_do calm_put_external calm_del_external : keeps.

Lemma calm_reconcileOvs : keeps (calm s0) reconcileOvs.
Proof.
  unfold reconcileOvs, reconcile_network, stale_port_step, adopt_ports, new_port_step. frame_tac.
Qed.
End calm.

Section addresses.
Context `{E : Env}.

(** The containers of the network that are still to be visited are in its map. *)
Definition unvisited (ns : NetworkState) (rest : list (string * ContainerState)) (s : state) : Prop :=
  NoDup rest.*1 ∧ ∀ k c, (k, c) ∈ rest → members (st_heap s) ns !! k = Some c.

(** So far only addresses have changed. *)
Definition readdressed (s0 s : state) : Prop :=
  inv s ∧ networks (st_d s) = networks (st_d s0) ∧ st_ops s = st_ops s0 ∧
  rtc (rstep LAddress) (abs s0) (abs s).

Lemma readdressed_io s0 s i : readdressed s0 s → readdressed s0 (set_io i s).
Proof. intros ([Hs Hp] & H). by split. Qed.

Lemma dhcp_container_step_spec s0 id ns k c rest s :
  networks (st_d s0) !! id = Some ns → readdressed s0 s → unvisited ns ((k, c) :: rest) s →
  wp (dhcp_container_step ns (k, c) tt)
    (λ _ s', readdressed s0 s' ∧ unvisited ns rest s') s.
Proof.
  intros Hn Hr [[Hk Hnd]%NoDup_cons Hm]. pose proof (Hm k c ltac:(by left)) as Hkc.
  assert (unvisited ns rest s) as Hu by (split; [done|intros; apply Hm; by right]).
  unfold dhcp_container_step. apply wp_bind, wp_io_do.
  intros [[content|e]|v| |] i; [|by split; [apply readdressed_io|]..].
  destruct (containers_of ns) as [l|] eqn:Hl; cycle 1.
  { unfold wp. rewrite put_container_nil by done. cbn. by split; [apply readdressed_io|]. }
  eapply wp_put_container; [exact Hl|]. set (s2 := set_heap _ _).
  destruct Hr as (Hi & Hnets & Hq & Hrt).
  assert (network_of (st_d s) id = ns) as Hof by (unfold network_of; by rewrite Hnets, Hn).
  unfold members in Hkc, Hm. rewrite Hl in Hkc. split.
  - destruct (sim_update s s2 id l (<[k := set_HostIP (Trim content (String " " (String newline "")))
        c]> (map_get (h_containers (st_heap s)) (Some l))) Hi) as [Hi' Ha];
      [by rewrite Hof|reflexivity..|apply Hi|].
    split; [exact Hi'|]. split; [done|]. split; [done|].
    eapply rtc_r; [exact Hrt|]. rewrite Ha. eapply rs_address; [|exact Hkc].
    rewrite (lookup_abs s id ns) by (by rewrite Hnets). unfold members. by rewrite Hl.
  - split; [done|]. intros k' c' Hin. specialize (Hm k' c' ltac:(by right)). rewrite Hl in Hm.
    unfold members. rewrite Hl. cbn. rewrite lookup_insert_eq. cbn.
    rewrite lookup_insert_ne; [done|]. intros <-. apply Hk. apply list_elem_of_fmap.
    by exists (k, c').
Qed.

Lemma dhcp_network_step_spec s0 id ns s :
  networks (st_d s0) !! id = Some ns → readdressed s0 s →
  wp (dhcp_network_step (id, ns) tt) (λ _ s', readdressed s0 s') s.
Proof.
  intros Hn Hr. unfold dhcp_network_step. destruct (ns_UseDHCP ns); [|done].
  apply wp_bind, wp_gets, wp_bind, wp_io_range. intros l i Hg.
  apply (wp_for_each (λ rest (_ : unit) s', readdressed s0 s' ∧ unvisited ns rest s')).
  - intros [k c] rest [] s1 [Hr1 Hu1].
    eapply wp_mono; [|by eapply dhcp_container_step_spec]. by intros [] s2 [? ?].
  - by intros _ s1 [? _].
  - split; [by apply readdressed_io|]. split.
    + rewrite Hg. apply NoDup_fst_map_to_list.
    + intros k c. rewrite Hg. by intros ?%elem_of_map_to_list.
Qed.

Lemma reconcileDhcpIp_spec s : inv s → wp reconcileDhcpIp (λ _ s', readdressed s s') s.
Proof.
  intros Hi. assert (readdressed s s) as Hr by done.
  unfold reconcileDhcpIp. apply wp_bind, wp_io_do.
  intros [[mtime|e ne]|v| |] i; [|by apply readdressed_io..].
  apply wp_bind, wp_gets. destruct (decide _); [by apply readdressed_io|].
  apply wp_bind, wp_modify, wp_bind, wp_io_range. intros l i' Hg.
  apply (wp_for_each (λ rest (_ : unit) s', readdressed s s' ∧
    ∀ id ns, (id, ns) ∈ rest → networks (st_d s) !! id = Some ns)).
  - intros [id ns] rest [] s1 [Hr1 Hin].
    eapply wp_mono; [|eapply dhcp_network_step_spec; [apply Hin; by left|done]].
    intros [] s2 Hr2; [split; [done|]; intros; apply Hin; by right|done..].
  - by intros _ s1 [? _].
  - split; [|intros id ns; rewrite Hg; by intros ?%elem_of_map_to_list].
    split; [|done]. by destruct Hi.
Qed.
End addresses.

(** ** The resource manager as steps of the table *)

Section manager_simulation.
Context `{E : Env}.
Abbreviation owns op s := (owned op (networks (st_d s)) (st_ops s) (st_heap s)).

Lemma io_do_Ret {A} (m : IO A) s a s' : io_do m s = (Ret a, s') → ∃ i, s' = set_io i s.
Proof. intros H. destruct (io_do_frame m s) as [i Hi]. rewrite H in Hi. eauto. Qed.

Lemma send_reply_Ret ch r s u s' :
  send_reply ch r s = (Ret u, s') → ∃ m, s' = set_replies m s.
Proof.
  intros H. eassert (wp (send_reply ch r) (on_ret (λ _ s', ∃ m, s' = set_replies m s)) s) as Hw.
  { apply wp_send_reply; [done|]. intros. by eexists. }
  unfold wp in Hw. by rewrite H in Hw.
Qed.

Lemma inv_frame s i m : inv s → inv (set_io i (set_replies m s)).
Proof. intros [Hs Hp]. by split. Qed.
Lemma inv_set_io s i : inv s → inv (set_io i s).
Proof. intros [Hs Hp]. by split. Qed.
Lemma inv_set_replies s m : inv s → inv (set_replies m s).
Proof. intros [Hs Hp]. by split. Qed.

Lemma sim_reserve op s : inv s → let s' := (reserve_work op s).2 in inv s' ∧ abs s' = abs s.
Proof.
  intros Hi. change (wp (reserve_work op) (λ _ s', inv s' ∧ abs s' = abs s) s).
  assert (∀ i, inv (set_io i s)) as Hio by auto using inv_set_io.
  unfold reserve_work. wp_walk; try (split; [apply Hio || done|done]).
  split; [|done]. destruct Hi as [Hs Hp]. split; [done|]. cbn.
  apply map_Forall_insert_2; [by left|done].
Qed.

Lemma reconcile_sim op s s' :
  (∀ lab, lab = LAddress → permits op lab) → inv s →
  (reconcileOvs ;; reconcileDhcpIp) s = (Ret tt, s') →
  inv s' ∧ rtc (allowed op) (abs s) (abs s') ∧
  networks (st_d s') = networks (st_d s) ∧ st_ops s' = st_ops s.
Proof.
  intros Hp Hi ([] & s1 & H1 & H2)%bind_Ret_inv.
  pose proof (calm_reconcileOvs s s (calm_refl s)) as Hc. rewrite H1 in Hc. cbn in Hc.
  destruct (calm_inv _ _ Hi Hc) as [Hi1 Ha]. destruct Hc as (Hn & _ & Hq & _).
  pose proof (reconcileDhcpIp_spec s1 Hi1) as Hr. unfold wp in Hr. rewrite H2 in Hr.
  destruct Hr as (Hi2 & Hn2 & Hq2 & Hrt). cbn in *. rewrite Hn2, Hq2, Hn, Hq.
  split; [done|]. split; [|done]. rewrite <- Ha.
  eapply rtc_subrel; [|exact Hrt]. intros r r' Hst. exists LAddress. auto.
Qed.

Lemma allowed_or op lab s s' :
  permits (Some op) lab → abs s' = abs s ∨ rstep lab (abs s) (abs s') →
  rtc (allowed (Some op)) (abs s) (abs s').
Proof. intros Hp [->|Hr]; [done|]. apply rtc_once. by exists lab. Qed.

Lemma create_allowed op s s' :
  permits (Some op) (LCreate (op_NetworkID op)) → inv s → owns op s →
  mustHandleCreateNetwork op s = (Ret tt, s') →
  inv s' ∧ rtc (allowed (Some op)) (abs s) (abs s').
Proof.
  intros Hp Hi Ho H. destruct (sim_create op s s' Hi Ho H) as [Hi' Ha]. split; [done|].
  eapply allowed_or; [exact Hp|]. destruct Ha as [->| ->]; auto using rs_create.
Qed.

Lemma delete_allowed op s s' :
  permits (Some op) (LDelete (op_NetworkID op)) → inv s → owns op s →
  mustHandleDeleteNetwork op s = (Ret tt, s') →
  inv s' ∧ owns op s' ∧ rtc (allowed (Some op)) (abs s) (abs s').
Proof.
  intros Hp Hi Ho H. destruct (sim_delete op s s' Hi Ho H) as (Hi' & Ho' & Ha).
  split; [done|]. split; [done|].
  eapply allowed_or; [exact Hp|]. destruct Ha as [->| ->]; auto using rs_delete.
Qed.

Lemma reinit_bridge_Ret op s s' : reinit_bridge op s = (Ret tt, s') → ∃ i, s' = set_io i s.
Proof. by intros (d & s1 & [= <- <-] & H%io_do_Ret)%bind_Ret_inv. Qed.

(** Where the handlers of containers, of the status and of queries end. *)
Lemma join_handler_Ret op s s' :
  mustHandleJoinContainer op s = (Ret tt, s') → s' = (join_work op s).2.
Proof. unfold mustHandleJoinContainer. rewrite recovering_skip by apply tame_join_work. congruence. Qed.
Lemma reserve_handler_Ret op s s' :
  mustHandleReservePort op s = (Ret tt, s') → s' = (reserve_work op s).2.
Proof. unfold mustHandleReservePort. rewrite recovering_skip by apply tame_reserve_work. congruence. Qed.
Lemma leave_handler_Ret op s s' :
  mustHandleLeaveContainer op s = (Ret tt, s') → ∃ m, s' = set_replies m (leave_work op s).2.
Proof.
  unfold mustHandleLeaveContainer. rewrite deferring_recovering_skip by apply tame_leave_work.
  intros ([] & s2 & [m ->]%send_reply_Ret & [= <-])%bind_Ret_inv. eauto.
Qed.
Lemma getnetwork_handler_Ret op s s' :
  mustHandleGetNetwork op s = (Ret tt, s') → ∃ m, s' = set_replies m s.
Proof. by intros (d & s2 & [= <- <-] & H%send_reply_Ret)%bind_Ret_inv. Qed.
Lemma networks_handler_Ret op s s' :
  mustHandleNetworks op s = (Ret tt, s') → ∃ m, s' = set_replies m s.
Proof.
  intros (d & s2 & [= <- <-] & H)%bind_Ret_inv.
  by apply bind_Ret_inv in H as (h & s2 & [= <- <-] & H%send_reply_Ret).
Qed.

Lemma handle_op_sim op s b s' :
  inv s → owns op s → handle_op op s = (Ret b, s') →
  inv s' ∧ rtc (allowed (Some op)) (abs s) (abs s').
Proof.
  intros Hi Ho H. unfold handle_op in H.
  assert (∀ lab, match operation_of (op_Operation op) with
    | OCreate | ORecreateBadBridge => lab = LCreate (op_NetworkID op)
    | ORecreateDownBridge => lab = LCreate (op_NetworkID op) ∨ lab = LDelete (op_NetworkID op)
    | ODelete => lab = LDelete (op_NetworkID op)
    | OJoin => lab = LJoin (op_NetworkID op) (op_EndpointID op)
    | OLeave => lab = LLeave (op_NetworkID op) (op_EndpointID op)
    | ONetworks => lab = LAddress
    | _ => False
    end → permits (Some op) lab) as Hp by done.
  destruct (operation_of (op_Operation op)).
  - apply bind_Ret_inv in H as (d & s1 & [= <- <-] & H).
    apply bind_Ret_inv in H as ([] & s2 & [i ->]%io_do_Ret & H).
    apply bind_Ret_inv in H as ([] & s3 & [i' ->]%reinit_bridge_Ret & H).
    apply bind_Ret_inv in H as ([] & s4 & H & [= _ <-]).
    eapply create_allowed in H; [exact H|by auto|by apply inv_set_io, inv_set_io|done].
  - apply bind_Ret_inv in H as ([] & s1 & H1 & H).
    apply bind_Ret_inv in H as ([] & s2 & [i ->]%reinit_bridge_Ret & H).
    apply bind_Ret_inv in H as ([] & s4 & H & [= _ <-]).
    apply delete_allowed in H1 as (Hi1 & Ho1 & Hr1); [|by auto..].
    eapply create_allowed in H as [Hi2 Hr2]; [|by auto|by apply inv_set_io|done].
    split; [done|]. by transitivity (abs s1).
  - apply bind_Ret_inv in H as ([] & s1 & H & [= _ <-]). by eapply create_allowed; eauto.
  - apply bind_Ret_inv in H as ([] & s1 & H & [= _ <-]).
    apply delete_allowed in H as (? & _ & ?); auto.
  - apply bind_Ret_inv in H as ([] & s1 & ->%join_handler_Ret & [= _ <-]).
    destruct (sim_join op s Hi) as [? Ha]. split; [done|]. eapply allowed_or; [|exact Ha]. auto.
  - apply bind_Ret_inv in H as ([] & s1 & [m ->]%leave_handler_Ret & [= _ <-]).
    destruct (sim_leave op s Hi) as [? Ha]. split; [by apply inv_set_replies|].
    eapply allowed_or; [|exact Ha]. auto.
  - apply bind_Ret_inv in H as ([] & s1 & ->%reserve_handler_Ret & [= _ <-]).
    by destruct (sim_reserve op s Hi) as [? ->].
  - apply bind_Ret_inv in H as ([] & s1 & [m ->]%getnetwork_handler_Ret & [= _ <-]).
    split; [by apply inv_set_replies|done].
  - apply bind_Ret_inv in H as ([] & s1 & H1 & H). apply bind_Ret_inv in H as ([] & s2 & H2 & H).
    apply bind_Ret_inv in H as ([] & s3 & [m ->]%networks_handler_Ret & [= _ <-]).
    destruct (reconcile_sim (Some op) s s2) as (Hi2 & Hrt & _);
      [done|done|by erewrite bind_Ret by exact H1|].
    split; [by apply inv_set_replies|exact Hrt].
  - by injection H as _ <-.
  - by injection H as _ <-.
Qed.

Lemma manager_turn_sim s b s' :
  inv s → manager_turn s = (Ret b, s') →
  inv s' ∧ rtc (allowed (head (st_ops s))) (abs s) (abs s').
Proof.
  intros Hi H. unfold manager_turn in H. apply bind_Ret_inv in H as (ops & s1 & [= <- <-] & H).
  destruct (st_ops s) as [|op ops] eqn:Hq.
  - apply bind_Ret_inv in H as ([] & s1 & H1 & H). apply bind_Ret_inv in H as ([] & s2 & H2 & [= _ <-]).
    destruct (reconcile_sim None s s2) as (Hi2 & Hrt & _); [done|done| |done].
    by erewrite bind_Ret by exact H1.
  - apply bind_Ret_inv in H as ([] & s1 & [= <-] & H). cbn [head].
    destruct Hi as [Hs Hp]. rewrite Hq in Hs. apply separate_pop in Hs as [Hs Ho].
    change (abs s) with (abs (set_ops ops s)). eapply handle_op_sim; [|exact Ho|exact H]. by split.
Qed.
End manager_simulation.

(** ** Requests *)

(** What runs beside the manager: docker's requests, the status page, the end of the
    process, and the restoring of a network at startup. *)
Inductive request : Type :=
  | QCreateNetwork (r : CreateNetworkRequest)
  | QDeleteNetwork (id : string)
  | QCreateEndpoint (r : CreateEndpointRequest)
  | QJoin (id ep : string) (options : list (string * ivalue))
  | QLeave (id ep : string)
  | QWeb (r : WebRequest)
  | QQuit
  | QRestore (id name : string).

(** Messages that the wait group counts. *)
Definition counted (op : DovesnapOp) : bool :=
  match operation_of (op_Operation op) with
  | OCreate | ODelete | ORecreateBadBridge | ORecreateDownBridge => true
  | _ => false
  end.

Section requests.
Context `{E : Env}.

Definition requested (q : request) : D unit :=
  match q with
  | QCreateNetwork r => CreateNetwork r;; skip
  | QDeleteNetwork id => DeleteNetwork_send id;; skip
  | QCreateEndpoint r => CreateEndpoint r;; skip
  | QJoin id ep options => Join_send id ep options;; skip
  | QLeave id ep => Leave_send id ep;; skip
  | QWeb r => handleNetworksWeb r;; skip
  | QQuit => Quit_send
  | QRestore id name => restore_network (id, name) tt
  end.

(** A request queues at most one message, and counts it. *)
Definition queued (s : state) (o : outcome unit) (s' : state) : Prop :=
  networks (st_d s') = networks (st_d s) ∧ st_OFPorts s' = st_OFPorts s ∧
  heap_grows (st_heap s) (st_heap s') ∧
  ((st_ops s' = st_ops s ∧ (settled o → st_wg s' = st_wg s)) ∨
   ∃ msg, st_ops s' = st_ops s ++ [msg] ∧ st_wg s' = (st_wg s + if counted msg then 1 else 0)%Z ∧
     ((msg_ref msg = None ∧ st_heap s' = st_heap s) ∨
      (msg_ref msg = Some (h_next (st_heap s)) ∧ st_heap s' = alloc (st_heap s)))).

Lemma queued_nothing s o s' :
  networks (st_d s') = networks (st_d s) → st_OFPorts s' = st_OFPorts s →
  heap_grows (st_heap s) (st_heap s') → st_ops s' = st_ops s → (settled o → st_wg s' = st_wg s) →
  queued s o s'.
Proof. unfold queued. auto 10. Qed.

Lemma queued_msg s o s' msg :
  networks (st_d s') = networks (st_d s) → st_OFPorts s' = st_OFPorts s →
  st_ops s' = st_ops s ++ [msg] → st_wg s' = (st_wg s + if counted msg then 1 else 0)%Z →
  (msg_ref msg = None ∧ st_heap s' = st_heap s) ∨
  (msg_ref msg = Some (h_next (st_heap s)) ∧ st_heap s' = alloc (st_heap s)) → queued s o s'.
Proof.
  intros ? ? ? ? H. unfold queued. do 2 (split; [done|]). split; [|eauto 8].
  destruct H as [[_ ->]|[_ ->]]; [done|apply alloc_grows].
Qed.

(** The end of a request's symbolic execution: nothing, or one message. *)
Ltac queued_done :=
  first
    [ apply queued_nothing; cbn;
      [reflexivity|reflexivity|first [reflexivity|apply alloc_grows]|reflexivity|
       first [contradiction|reflexivity]]
    | eapply queued_msg; cbn -[counted];
      [reflexivity|reflexivity|reflexivity|first [reflexivity|symmetry; apply Z.add_0_r]|
       first [left; split; reflexivity|right; split; [assumption|reflexivity]]] ].

(** Every way to restore a network is counted. *)
Definition restore_outcome (o : outcome string) : Prop :=
  match o with
  | Ret op => op = "recreatebadbridge" ∨ op = "create" ∨ op = "recreatedownbridge"
  | _ => True
  end.

Lemma restore_operation_counted br i : restore_outcome (restore_operation br i).1.
Proof.
  change (wp (restore_operation br) (λ o _, restore_outcome o) i).
  unfold restore_operation, ifUp, getIfaceAddr.
  repeat first [apply wp_bind | apply wp_ext | apply wp_ret; cbn; auto
    | match goal with |- wp (match ?x with _ => _ end) _ _ => destruct x end].
Qed.

Lemma restore_network_queued id name s :
  wp (restore_network (id, name) tt) (queued s) s.
Proof.
  unfold restore_network. apply wp_bind, wp_gets, wp_bind, wp_io_do.
  intros [netInspect|v| |] i; [|queued_done..].
  apply wp_bind. eapply wp_mono; [|apply getNetworkStateFromResource_spec].
  intros [[ns err]|v| |] s1 H; try done. destruct H as [-> H].
  apply wp_bind, wp_ret, wp_bind, wp_lift.
  destruct (getStackMirrorConfigFromResource _ _) as [sc|v| |];
    [|by destruct H as [[-> ->]|[Hr ->]]; queued_done..].
  apply wp_bind, wp_modify, wp_bind.
  eapply (wp_io_do_spec _ restore_outcome); [apply restore_operation_counted|].
  intros [operation|v| |] i' Hop; [|by destruct H as [[-> ->]|[Hr ->]]; queued_done..].
  apply wp_bind, wp_modify. apply wp_send_op.
  { destruct H as [[-> ->]|[Hr ->]]; queued_done. }
  destruct H as [[-> ->]|[Hr ->]], Hop as [->|[->| ->]].
  all: destruct (decide _); queued_done.
Qed.

Lemma requested_queued q s : wp (requested q) (queued s) s.
Proof.
  destruct q; cbn [requested]; [|..|apply restore_network_queued].
  - apply wp_bind. eapply wp_mono; [|apply reorcreate_spec].
    intros o s' ((Hd & _ & HP & _) & _ & Hg & H).
    destruct o as [[e|]|v| |]; [| |done|..].
    + destruct H as [Hw Hq]. by apply wp_ret, queued_nothing; rewrite ?Hd.
    + destruct H as (Hw & msg & Hq & Hop & _ & _ & Hr & Hh).
      eapply wp_ret, queued_msg; rewrite ?Hd; [done..| |by right; split].
      unfold counted. by rewrite Hop.
    + by apply queued_nothing; rewrite ?Hd.
    + by apply queued_nothing; rewrite ?Hd.
  - unfold DeleteNetwork_send, make_reply. wp_walk; queued_done.
  - unfold CreateEndpoint. wp_walk; queued_done.
  - unfold Join_send. wp_walk; queued_done.
  - unfold Leave_send. wp_walk; queued_done.
  - unfold handleNetworksWeb, getWebResponse_send. wp_walk; queued_done.
  - unfold Quit_send. wp_walk; queued_done.
Qed.
End requests.

(** ** Reachable states *)

Section reachability.
Context `{E : Env}.

(** A request of docker, of the status page or of startup, one turn of the manager,
    the receipt of a reply, or a line of the notifier.  A turn that panics ends the process and a turn that
    blocks ends the manager, so that only turns that return lead on. *)
Inductive step : state → state → Prop :=
  | step_request q s o s' : requested q s = (o, s') → step s s'
  | step_turn b s s' : manager_turn s = (Ret b, s') → step s s'
  | step_receive c r s s' : receive_reply c s = (Ret r, s') → step s s'
  | step_notify s s' : notifier_turn s = (Ret tt, s') → step s s'.

Lemma receive_reply_Ret c s r s' : receive_reply c s = (Ret r, s') → ∃ m, s' = set_replies m s.
Proof.
  intros (buf & s1 & [= <- <-] & H)%bind_Ret_inv. destruct (default _ _) as [|r' buf']; [done|].
  apply bind_Ret_inv in H as ([] & s2 & [= <-] & [= _ <-]). eauto.
Qed.

Lemma request_sim q s o s' : inv s → requested q s = (o, s') → inv s' ∧ abs s' = abs s.
Proof.
  intros Hi H. pose proof (requested_queued q s) as Hq. unfold wp in Hq. rewrite H in Hq.
  destruct Hq as (Hn & HP & Hg & Hq). cbn [fst snd] in *.
  assert (abs s' = abs s) as Ha.
  { unfold abs. rewrite Hn. eapply fmap_members_grows; [done|apply Hi]. }
  split; [|done]. destruct Hi as [Hs Hp]. split; [|by rewrite HP]. rewrite Hn.
  destruct Hq as [[-> _]|(msg & -> & _ & [[Hr ->]|[Hr ->]])].
  - by eapply separate_grows.
  - by apply separate_push.
  - by apply separate_push_alloc.
Qed.

Lemma step_inv s s' : inv s → step s s' → inv s'.
Proof.
  intros Hi Hst. revert Hi. destruct Hst as [q s1 o s2 H|b s1 s2 H|c r s1 s2 H|s1 s2 H]; intros Hi.
  - by destruct (request_sim _ _ _ _ Hi H).
  - by destruct (manager_turn_sim _ _ _ Hi H).
  - apply receive_reply_Ret in H as [m ->]. by apply inv_set_replies.
  - apply notifier_turn_Ret in H as (i & notes & ->). destruct Hi. by split.
Qed.

Lemma start_inv d : networks d = ∅ → inv (start d).
Proof.
  intros Hd. split; [|apply map_Forall_empty]. cbn. rewrite Hd.
  split; try (intros; set_solver); try (intros; simplify_map_eq). constructor.
Qed.

Lemma reachable_inv d s : networks d = ∅ → rtc step (start d) s → inv s.
Proof.
  intros Hd Hr. pose proof (start_inv d Hd) as Hi.
  induction Hr as [|s s1 s2 Hst _ IH]; [done|]. eapply IH, step_inv; eauto.
Qed.

(** The driver implements the table of networks and containers.  From its start, and
    however requests, turns of the manager, replies and announcements interleave, with any answers
    from outside: a turn of the manager changes the table only by the steps that the
    message at the head of the queue permits, in the network and for the endpoint it
    names (without a message, only addresses change); and a request changes nothing. *)
Theorem driver_refines_registry d s :
  networks d = ∅ → rtc step (start d) s →
  (∀ b s', manager_turn s = (Ret b, s') →
     rtc (allowed (head (st_ops s))) (abs s) (abs s')) ∧
  (∀ q o s', requested q s = (o, s') → abs s' = abs s).
Proof.
  intros Hd Hr. pose proof (reachable_inv d s Hd Hr) as Hi. split.
  - intros b s' H. by destruct (manager_turn_sim _ _ _ Hi H).
  - intros q o s' H. by destruct (request_sim _ _ _ _ Hi H).
Qed.

(** No two networks ever share their containers' map, although copies of every
    network's state travel through the queue, and a queued message never refers to the
    map of a network that exists. *)
Theorem reachable_no_sharing d s id1 id2 n1 n2 l :
  networks d = ∅ → rtc step (start d) s →
  networks (st_d s) !! id1 = Some n1 → containers_of n1 = Some l →
  (networks (st_d s) !! id2 = Some n2 → containers_of n2 = Some l → id1 = id2) ∧
  Forall (λ op, msg_ref op ≠ Some l) (st_ops s).
Proof.
  intros Hd Hr H1 Hl. destruct (reachable_inv d s Hd Hr) as [Hs _]. split.
  - intros H2 Hl2. by eapply sep_nets.
  - apply Forall_forall. intros op Hop. by eapply sep_msgs.
Qed.
End reachability.

(** ** The wait group *)

(** How often the handlers of a message call [Done]. *)
Definition dones (op : DovesnapOp) : Z :=
  match operation_of (op_Operation op) with
  | ORecreateDownBridge => 2
  | OCreate | ODelete | ORecreateBadBridge => 1
  | _ => 0
  end.

Section wait_group.
Context `{E : Env}.

Lemma chans_reconcile wg ops replies : keeps (chans wg ops replies) (reconcileOvs ;; reconcileDhcpIp).
Proof.
  unfold reconcileOvs, reconcile_network, stale_port_step, adopt_ports, new_port_step,
    reconcileDhcpIp, dhcp_network_step, dhcp_container_step.
  frame_tac.
Qed.

Lemma create_handler_counts op s s' :
  mustHandleCreateNetwork op s = (Ret tt, s') →
  st_ops s' = st_ops s ∧ st_wg s' = (st_wg s - 1)%Z.
Proof.
  intros (o & s1 & Hw & _ & [_ ->]%wg_done_Ret)%deferring_recovering_Ret.
  destruct (chans_create_work (st_wg s) (st_ops s) (st_replies s) op s) as (H1 & H2 & _); [done|].
  rewrite Hw in H1, H2. cbn in *. by rewrite H1.
Qed.

Lemma delete_handler_counts op s s' :
  mustHandleDeleteNetwork op s = (Ret tt, s') →
  st_ops s' = st_ops s ∧ st_wg s' = (st_wg s - 1)%Z.
Proof. intros (H1 & _ & _ & H2 & _)%delete_handler_spec. done. Qed.

(** A message takes from the wait group what its handlers count, and the queue stays. *)
Lemma handle_op_counts op s b s' :
  handle_op op s = (Ret b, s') → st_ops s' = st_ops s ∧ st_wg s' = (st_wg s - dones op)%Z.
Proof.
  unfold handle_op, dones.
  destruct (operation_of (op_Operation op)); intros H; rewrite ?Z.sub_0_r.
  - apply bind_Ret_inv in H as (d & s1 & [= <- <-] & H).
    apply bind_Ret_inv in H as ([] & s2 & [i ->]%io_do_Ret & H).
    apply bind_Ret_inv in H as ([] & s3 & [i' ->]%reinit_bridge_Ret & H).
    by apply bind_Ret_inv in H as ([] & s4 & H%create_handler_counts & [= _ <-]).
  - apply bind_Ret_inv in H as ([] & s1 & [H1 H2]%delete_handler_counts & H).
    apply bind_Ret_inv in H as ([] & s2 & [i ->]%reinit_bridge_Ret & H).
    apply bind_Ret_inv in H as ([] & s4 & [H3 H4]%create_handler_counts & [= _ <-]).
    cbn in *. rewrite H3, H4, H1, H2. split; [done|lia].
  - by apply bind_Ret_inv in H as ([] & s1 & H%create_handler_counts & [= _ <-]).
  - by apply bind_Ret_inv in H as ([] & s1 & H%delete_handler_counts & [= _ <-]).
  - apply bind_Ret_inv in H as ([] & s1 & ->%join_handler_Ret & [= _ <-]).
    by destruct (chans_join_work (st_wg s) (st_ops s) (st_replies s) op s) as (? & ? & _).
  - apply bind_Ret_inv in H as ([] & s1 & [m ->]%leave_handler_Ret & [= _ <-]).
    by destruct (chans_leave_work (st_wg s) (st_ops s) (st_replies s) op s) as (? & ? & _).
  - apply bind_Ret_inv in H as ([] & s1 & ->%reserve_handler_Ret & [= _ <-]).
    by destruct (chans_reserve_work (st_wg s) (st_ops s) (st_replies s) op s) as (? & ? & _).
  - by apply bind_Ret_inv in H as ([] & s1 & [m ->]%getnetwork_handler_Ret & [= _ <-]).
  - apply bind_Ret_inv in H as ([] & s1 & H1 & H). apply bind_Ret_inv in H as ([] & s2 & H2 & H).
    apply bind_Ret_inv in H as ([] & s3 & [m ->]%networks_handler_Ret & [= _ <-]).
    destruct (chans_reconcile (st_wg s) (st_ops s) (st_replies s) s) as (Hw & Hq & _); [done|].
    by erewrite bind_Ret in Hw, Hq by exact H1; rewrite H2 in Hw, Hq.
  - by injection H as _ <-.
  - by injection H as _ <-.
Qed.

Lemma manager_turn_counts s b s' :
  manager_turn s = (Ret b, s') →
  (st_ops s = [] ∧ st_ops s' = [] ∧ st_wg s' = st_wg s) ∨
  ∃ op ops, st_ops s = op :: ops ∧ st_ops s' = ops ∧ st_wg s' = (st_wg s - dones op)%Z.
Proof.
  intros (ops & s1 & [= <- <-] & H)%bind_Ret_inv. destruct (st_ops s) as [|op ops] eqn:Hq.
  - apply bind_Ret_inv in H as ([] & s1 & H1 & H). apply bind_Ret_inv in H as ([] & s2 & H2 & [= _ <-]).
    destruct (chans_reconcile (st_wg s) (st_ops s) (st_replies s) s) as (Hw & Hq2 & _); [done|].
    left. erewrite bind_Ret in Hw, Hq2 by exact H1. rewrite H2 in Hw, Hq2. cbn in *. by rewrite Hq2.
  - apply bind_Ret_inv in H as ([] & s1 & [= <-] & H). apply handle_op_counts in H as [H1 H2]. eauto 6.
Qed.

(** No message asks to recreate a bridge that is down. *)
Definition no_down (s : state) : Prop :=
  Forall (λ op, operation_of (op_Operation op) ≠ ORecreateDownBridge) (st_ops s).

(** The steps without such a message, and in which a request that finds the queue
    full takes its step when there is room. *)
Inductive smooth : state → state → Prop :=
  | smooth_request q s o s' :
      requested q s = (o, s') → settled o → no_down s' → smooth s s'
  | smooth_turn b s s' : manager_turn s = (Ret b, s') → smooth s s'
  | smooth_receive c r s s' : receive_reply c s = (Ret r, s') → smooth s s'
  | smooth_notify s s' : notifier_turn s = (Ret tt, s') → smooth s s'.

Definition pending (s : state) : list DovesnapOp := filter (λ op, counted op = true) (st_ops s).

(** The counter is the number of messages it counts. *)
Definition balanced (s : state) : Prop := no_down s ∧ st_wg s = Z.of_nat (length (pending s)).

Lemma dones_counted op :
  operation_of (op_Operation op) ≠ ORecreateDownBridge → dones op = if counted op then 1%Z else 0%Z.
Proof. unfold dones, counted. by destruct (operation_of _). Qed.

Lemma count_cons op ops :
  Z.of_nat (length (filter (λ op, counted op = true) (op :: ops))) =
    ((if counted op then 1 else 0) + Z.of_nat (length (filter (λ op, counted op = true) ops)))%Z.
Proof.
  rewrite filter_cons. case_decide as Hc; [rewrite Hc; cbn [length]; lia|].
  by destruct (counted op).
Qed.

Lemma smooth_balanced s s' : balanced s → smooth s s' → balanced s'.
Proof.
  unfold balanced, no_down, pending. intros Hb Hst. revert Hb.
  destruct Hst as [q s o s' H Ho Hd|b s s' H|c r s s' H|s s' H]; intros [Hn Hw].
  - split; [done|]. pose proof (requested_queued q s) as Hq. unfold wp in Hq. rewrite H in Hq.
    cbn [fst snd] in Hq. destruct Hq as (_ & _ & _ & [[-> Hw']|(msg & -> & -> & _)]);
      [by rewrite Hw'|].
    rewrite filter_app, length_app, Nat2Z.inj_add, count_cons. cbn. lia.
  - destruct (manager_turn_counts _ _ _ H) as [(Hq & -> & ->)|(op & ops & Hq & -> & ->)];
      rewrite Hq in Hn, Hw; [done|]. apply Forall_cons in Hn as [Hop Hn]. split; [done|].
    rewrite dones_counted, Hw, count_cons by done. lia.
  - apply receive_reply_Ret in H as [m ->]. done.
  - apply notifier_turn_Ret in H as (i & notes & ->). done.
Qed.

(** While no bridge is found down at startup, the wait group always counts exactly the
    create, recreate and delete messages in the queue.  So a Done never makes it
    negative, and Join, which waits for it to reach zero, proceeds only when no such message
    is left ahead of its own. *)
Theorem wait_group_counts d s :
  rtc smooth (start d) s →
  st_wg s = Z.of_nat (length (pending s)) ∧
  (∀ id ep options, pending s ≠ [] → Join_send id ep options s = (Block, s)).
Proof.
  intros Hr. assert (balanced s) as [Hn Hw].
  { assert (balanced (start d)) as Hb by (split; [apply Forall_nil_2|done]).
    induction Hr as [|s s1 s2 Hst _ IH]; [done|]. eapply IH, smooth_balanced; eauto. }
  split; [done|]. intros id ep options Hp. unfold Join_send. cbn. case_match eqn:H0; [|done].
  apply Z.eqb_eq in H0. destruct (pending s); [done|]. cbn in Hw. lia.
Qed.

(** C39: A network whose bridge is found down at startup is never restored cleanly.  Its
    message carries no reply channel and is counted once, but its handlers answer on the
    channel and call Done twice: if the turn returns at all, the counter has gone
    down by two, so with this network alone the turn never returns. *)
Theorem recreatedownbridge_unbalanced id ns sc s b s' :
  handle_op (restore_msg "recreatedownbridge" id ns sc) s = (Ret b, s') →
  counted (restore_msg "recreatedownbridge" id ns sc) = true ∧
  st_wg s' = (st_wg s - 2)%Z ∧ (2 ≤ st_wg s)%Z.
Proof.
  set (op := restore_msg _ _ _ _). intros H. split; [done|].
  destruct (handle_op_counts _ _ _ _ H) as [_ Hw]. change (dones op) with 2%Z in Hw.
  split; [done|]. unfold handle_op in H. change (operation_of _) with ORecreateDownBridge in H.
  apply bind_Ret_inv in H as ([] & s1 & [_ H1]%delete_handler_counts & H).
  apply bind_Ret_inv in H as ([] & s2 & [i ->]%reinit_bridge_Ret & H).
  apply bind_Ret_inv in H as ([] & s3 & H & [= _ <-]).
  apply deferring_recovering_Ret in H as (o & s4 & Hwk & _ & [Hpos ->]%wg_done_Ret).
  cbn in *. lia.
Qed.
End wait_group.

(** ** A concrete run *)

Module Run.
Definition create_request : CreateNetworkRequest :=
  mkCreateNetworkRequest Lab.net_id
    (Some [(genericOption, IMap [("ovs.bridge.dpid", IStr "0x620")])]) [] [].
Definition endpoint_request : CreateEndpointRequest :=
  mkCreateEndpointRequest Lab.net_id Lab.endpoint (Some "").

#[local] Existing Instance Lab.env.
Definition s0 : state := start plain_driver.
(** docker creates the network, the manager handles the message, ... *)
Definition s1 : state := (requested (QCreateNetwork create_request) s0).2.
Definition s2 : state := (manager_turn s1).2.
(** ... docker creates an endpoint and its port is reserved, ... *)
Definition s3 : state := (requested (QCreateEndpoint endpoint_request) s2).2.
Definition s4 : state := (manager_turn s3).2.
(** ... and the container joins. *)
Definition s5 : state := (requested (QJoin Lab.net_id Lab.endpoint Lab.options) s4).2.
Definition s6 : state := (manager_turn s5).2.

Lemma request_step q s : step s (requested q s).2.
Proof. eapply (step_request q). apply surjective_pairing. Qed.
Lemma turn_step s : (manager_turn s).1 = Ret false → step s (manager_turn s).2.
Proof. intros H. eapply (step_turn false). by rewrite <- H, <- surjective_pairing. Qed.

Lemma reaches_s5 : rtc step s0 s5.
Proof.
  eapply (rtc_l _ _ s1); [exact (request_step _ s0)|].
  eapply (rtc_l _ _ s2); [apply (turn_step s1); vm_compute; reflexivity|].
  eapply (rtc_l _ _ s3); [exact (request_step _ s2)|].
  eapply (rtc_l _ _ s4); [apply (turn_step s3); vm_compute; reflexivity|].
  eapply (rtc_l _ _ s5); [exact (request_step _ s4)|]. apply rtc_refl.
Qed.

Lemma smooth_s1 : rtc smooth s0 s1.
Proof.
  apply rtc_once. eapply (smooth_request (QCreateNetwork create_request));
    [apply surjective_pairing|vm_compute; done|]. vm_compute. constructor; [done|constructor].
Qed.

(** The container is in the table at the end. *)
Example joined_in_registry :
  cs_Name <$> (abs s6 !! Lab.net_id ≫= (.!! Lab.endpoint)) = Some "/web".
Proof. vm_compute. reflexivity. Qed.
End Run.

Lemma driver_refines_registry_witness :
  rtc (allowed (head (st_ops Run.s5))) (abs Run.s5) (abs Run.s6).
Proof.
  apply (proj1 (driver_refines_registry (E := Lab.env) plain_driver Run.s5 eq_refl Run.reaches_s5) false).
  unfold Run.s6. rewrite (surjective_pairing (manager_turn Run.s5)) at 1. f_equal.
Defined.

Lemma reachable_no_sharing_witness :
  ∃ n, networks (st_d Run.s5) !! Lab.net_id = Some n ∧ Forall (λ op, msg_ref op ≠ Some 1%positive) (st_ops Run.s5).
Proof.
  destruct (networks (st_d Run.s5) !! Lab.net_id) as [n|] eqn:Hn; [|vm_compute in Hn; discriminate Hn].
  exists n. split; [reflexivity|].
  apply (proj2 (reachable_no_sharing (E := Lab.env) plain_driver Run.s5 Lab.net_id Lab.net_id n n 1
    eq_refl Run.reaches_s5 Hn ltac:(vm_compute in Hn; injection Hn as <-; reflexivity))).
Defined.

Lemma wait_group_counts_witness :
  st_wg Run.s1 = 1%Z ∧ Join_send Lab.net_id Lab.endpoint Lab.options Run.s1 = (Block, Run.s1).
Proof.
  destruct (wait_group_counts (E := Lab.env) plain_driver Run.s1 Run.smooth_s1) as [Hw Hj].
  split; [rewrite Hw; vm_compute; reflexivity|apply Hj; vm_compute; discriminate].
Defined.

(** Faucet refuses the deletion, so that the handler recovers before it would answer. *)
Definition down_env : Env := scripted (with_rpc (λ r,
  match r with DelDps _ => Some "rpc error: code = NotFound" | _ => None end)
  (with_docker (λ _, Ok Lab.inspect) (λ _, Ok Lab.container) quiet)).
Definition down_turn : outcome bool * state :=
  handle_op (E := down_env) (restore_msg "recreatedownbridge" Lab.net_id Lab.net zero_StackMirrorConfig)
    (set_wg 2 (set_heap Lab.heap1 (start plain_driver))).

Lemma recreatedownbridge_unbalanced_witness : st_wg down_turn.2 = 0%Z.
Proof.
  apply (recreatedownbridge_unbalanced (E := down_env) Lab.net_id Lab.net zero_StackMirrorConfig
    (set_wg 2 (set_heap Lab.heap1 (start plain_driver))) false down_turn.2).
  vm_compute. reflexivity.
Defined.

(** When Faucet accepts it, the answer goes to a nil channel: the manager stops there. *)
Example recreatedownbridge_blocks :
  (handle_op (E := Lab.env) (restore_msg "recreatedownbridge" Lab.net_id Lab.net zero_StackMirrorConfig)
    (set_wg 1 (set_heap Lab.heap1 (start plain_driver)))).1 = Block.
Proof. vm_compute. reflexivity. Qed.
