(* ===== verification/Concurrent.v ===== *)
(** * Requests that wait to send

    In [Registry] a request runs up to its wait in one step, its send included.  Here the
    send is a step of its own: a request leaves its message with its goroutine, which is
    waiting to send while other requests and the manager go on, and sends it when there
    is room in the queue.  The refinement and the wait group hold here too. *)
From S2P Require Import Prelude GoStrings GoMonad World Scenario Utils OvsDb OvsPort Types Config Iptables Faucet Docker OvsBridge Driver Handlers Json Manager Web Notifier Registry.

(** ** The queue that handlers do not see *)

(** A computation that neither reads nor writes the queue of messages. *)
Definition blind {A} (m : D A) : Prop :=
  ∀ l s, m (set_ops l s) = let '(o, s') := m s in (o, set_ops l s').

Section blind_rules.
Context {A B : Type}.

Lemma blind_ret (a : A) : blind (ret a).
Proof. done. Qed.
Lemma blind_lift (o : outcome A) : blind (lift o).
Proof. done. Qed.
Lemma blind_panic v : blind (A := A) (panic v).
Proof. done. Qed.
Lemma blind_block : blind (A := A) block.
Proof. done. Qed.
Lemma blind_gets (f : state → A) : (∀ l s, f (set_ops l s) = f s) → blind (gets f).
Proof. intros Hf l s. unfold gets, modify. by rewrite Hf. Qed.
Lemma blind_modify f : (∀ l s, f (set_ops l s) = set_ops l (f s)) → blind (modify f).
Proof. intros Hf l s. unfold gets, modify. by rewrite Hf. Qed.
Lemma blind_io_do (m : IO A) : blind (io_do m).
Proof. intros l s. unfold io_do, zoom. cbn. by destruct (m (st_io s)). Qed.

Lemma blind_bind (m : D A) (k : A → D B) : blind m → (∀ a, blind (k a)) → blind (bind m k).
Proof. intros Hm Hk l s. cbn [bind M_seq]. rewrite Hm. destruct (m s) as [[a|v| |] s']; [apply Hk|done..]. Qed.

Lemma blind_recovering (m : D A) h : blind m → (∀ v, blind (h v)) → blind (recovering m h).
Proof. intros Hm Hh l s. unfold recovering. rewrite Hm. destruct (m s) as [[a|v| |] s']; [done|apply Hh|done..]. Qed.

Lemma blind_when b (m : D unit) : blind m → blind (when b m).
Proof. by destruct b. Qed.
Lemma blind_must_nil e : blind (must_nil e : D unit).
Proof. by destruct e. Qed.
End blind_rules.

Lemma blind_deferring {A} (m : D A) (f : D unit) : blind m → blind f → blind (deferring m f).
Proof.
  intros Hm Hf l s. unfold deferring. rewrite Hm.
  destruct (m s) as [[a|v| |] s']; [| |done..]; cbn; rewrite Hf; by destruct (f s') as [[] ?].
Qed.

Lemma blind_for_each {X A} (xs : list X) (a : A) (body : X → A → D A) :
  (∀ x a, blind (body x a)) → blind (for_each xs a body).
Proof.
  intros Hb. revert a. induction xs as [|x xs IH]; intros a; cbn [for_each]; [apply blind_ret|].
  apply blind_bind; [apply Hb|exact IH].
Qed.

Create HintDb blind.
#[export] Hint Resolve blind_ret blind_lift blind_panic blind_block blind_io_do blind_must_nil : blind.

(** Take a computation apart; the access functions commute with the queue by computation. *)
Ltac blind_tac :=
  repeat first
    [ solve [auto with blind]
    | apply blind_bind; [|intros ?]
    | apply blind_recovering; [|intros ?]
    | apply blind_deferring
    | apply blind_when
    | apply blind_for_each; intros ? ?
    | apply blind_gets; reflexivity
    | apply blind_modify; reflexivity
    | match goal with
      | |- blind (match ?x with _ => _ end) => destruct x
      | |- blind (if ?x then _ else _) => destruct x
      | |- blind (let '(_, _) := ?x in _) => destruct x
      end ].

Section handlers.
Context `{E : Env}.

Lemma blind_send_reply ch r : blind (send_reply ch r).
Proof. unfold send_reply. blind_tac. Qed.
Hint Resolve blind_send_reply : blind.

Lemma blind_reconcileOvs : blind reconcileOvs.
Proof.
  unfold reconcileOvs, reconcile_network, stale_port_step, adopt_ports, new_port_step, put_external,
    del_external, get_d.
  blind_tac.
Qed.
Lemma blind_reconcileDhcpIp : blind reconcileDhcpIp.
Proof. unfold reconcileDhcpIp, dhcp_network_step, dhcp_container_step, put_container, get_d. blind_tac. Qed.
Hint Resolve blind_reconcileOvs blind_reconcileDhcpIp : blind.

Lemma blind_mustHandleCreateNetwork op : blind (mustHandleCreateNetwork op).
Proof.
  unfold mustHandleCreateNetwork, create_work, create_register, create_configure,
    getNetworkStateFromResource, makeDynamicNetworkState, create_added_ports, add_port_step, add_copro_port_step,
    create_gateway_port, create_mirror_port, create_config_yaml, port_acl_step, put_external, put_other,
    send_note, wg_done, get_d.
  blind_tac.
Qed.

Lemma blind_mustHandleDeleteNetwork op : blind (mustHandleDeleteNetwork op).
Proof. unfold mustHandleDeleteNetwork, delete_work, send_note, wg_done, get_d. blind_tac. Qed.
Hint Resolve blind_mustHandleCreateNetwork blind_mustHandleDeleteNetwork : blind.

(** No handler looks at the messages that wait behind its own. *)
Lemma blind_handle_op op : blind (handle_op op).
Proof.
  unfold handle_op, reinit_bridge, mustHandleJoinContainer, join_work, mustHandleLeaveContainer, leave_work,
    mustHandleReservePort, reserve_work, mustHandleGetNetwork, mustHandleNetworks, put_container, del_container,
    send_note, get_d.
  destruct (operation_of _); blind_tac.
Qed.
End handlers.

(** ** The steps *)

(** The state with the messages of the goroutines that wait to send. *)
Record cstate := mkC { c_state : state; c_waiting : list DovesnapOp }.

Section steps.
Context `{E : Env}.

(** A request runs as if the queue were empty, and what it queues waits to be sent; any of
    the waiting messages is sent when there is room; the other steps are as before. *)
Inductive cstep : cstate → cstate → Prop :=
  | c_request q s w o s' :
      requested q (set_ops [] s) = (o, s') →
      cstep (mkC s w) (mkC (set_ops (st_ops s) s') (w ++ st_ops s'))
  | c_send s w1 msg w2 :
      (length (st_ops s) < chanSize)%nat →
      cstep (mkC s (w1 ++ msg :: w2)) (mkC (set_ops (st_ops s ++ [msg]) s) (w1 ++ w2))
  | c_turn b s s' w : manager_turn s = (Ret b, s') → cstep (mkC s w) (mkC s' w)
  | c_receive c r s s' w : receive_reply c s = (Ret r, s') → cstep (mkC s w) (mkC s' w)
  | c_notify s s' w : notifier_turn s = (Ret tt, s') → cstep (mkC s w) (mkC s' w).

(** All messages that were made and not yet handled: the queue and those behind it. *)
Definition all_ops (x : cstate) : list DovesnapOp := st_ops (c_state x) ++ c_waiting x.

(** The invariant of [Registry], for all of them. *)
Definition cinv (x : cstate) : Prop := inv (set_ops (all_ops x) (c_state x)).

Lemma separate_perm nets ops ops' h : ops ≡ₚ ops' → separate nets ops h → separate nets ops' h.
Proof.
  intros Hp Hs. split.
  - by eapply sep_nets.
  - intros id n op l. rewrite <- Hp. by eapply sep_msgs.
  - rewrite <- Hp. by eapply sep_queue.
  - by eapply sep_alloc.
  - intros op l. rewrite <- Hp. by eapply sep_fresh.
Qed.

(** A turn with more messages behind the queue. *)
Lemma manager_turn_more s b s' w :
  manager_turn s = (Ret b, s') →
  inv (set_ops (st_ops s ++ w) s) →
  inv (set_ops (st_ops s' ++ w) s') ∧ rtc (allowed (head (st_ops s))) (abs s) (abs s').
Proof.
  intros H [Hs Hp]. apply bind_Ret_inv in H as (ops & s1 & [= <- <-] & H).
  destruct (st_ops s) as [|op ops] eqn:Hq.
  - apply bind_Ret_inv in H as ([] & s1 & H1 & H). apply bind_Ret_inv in H as ([] & s2 & H2 & [= _ <-]).
    assert ((reconcileOvs;; reconcileDhcpIp) s = (Ret tt, s2)) as Hrun by by erewrite bind_Ret by exact H1.
    assert (blind (reconcileOvs;; reconcileDhcpIp)) as Hb
      by (apply blind_bind; [apply blind_reconcileOvs|intros _; apply blind_reconcileDhcpIp]).
    assert (st_ops s2 = []) as ->.
    { specialize (Hb [] s). replace (set_ops [] s) with s in Hb by (rewrite <- Hq; by destruct s).
      rewrite Hrun in Hb. by injection Hb as ->. }
    specialize (Hb w s). rewrite Hrun in Hb.
    destruct (reconcile_sim None (set_ops w s) (set_ops w s2)) as (Hi & Hr & _);
      [done|by split|exact Hb|]. by split.
  - apply bind_Ret_inv in H as ([] & s1 & [= <-] & H). cbn [head].
    assert (st_ops s' = ops) as ->.
    { pose proof (blind_handle_op op ops s) as Hb. rewrite H in Hb.
      destruct (handle_op op s) as [o s2]. by injection Hb as _ ->. }
    pose proof (blind_handle_op op (ops ++ w) (set_ops ops s)) as Hb. rewrite H in Hb.
    cbn [app] in Hs. apply separate_pop in Hs as [Hs Ho].
    change (abs s) with (abs (set_ops (ops ++ w) s)). change (abs s') with (abs (set_ops (ops ++ w) s')).
    eapply handle_op_sim; [|exact Ho|exact Hb]. by split.
Qed.

(** A request does not change the table, and its message shares nothing. *)
Lemma request_more q s o s' w :
  requested q (set_ops [] s) = (o, s') → inv (set_ops (st_ops s ++ w) s) →
  inv (set_ops (st_ops s ++ w ++ st_ops s') s') ∧ abs s' = abs s.
Proof.
  intros H [Hs Hp]. pose proof (requested_queued q (set_ops [] s)) as Hq. unfold wp in Hq. rewrite H in Hq.
  destruct Hq as (Hn & HP & Hg & Hq). cbn [fst snd] in *.
  assert (abs s' = abs s) as Ha.
  { unfold abs. rewrite Hn. eapply (fmap_members_grows (st_heap s)); [done|exact Hs]. }
  split; [|done]. split; [|cbn; by rewrite HP]. cbn. rewrite Hn.
  destruct Hq as [[-> _]|(msg & -> & _ & [[Hr ->]|[Hr ->]])]; cbn [st_ops set_ops app].
  - rewrite app_nil_r. by eapply separate_grows.
  - rewrite app_assoc. by apply separate_push.
  - rewrite app_assoc. by apply separate_push_alloc.
Qed.

Lemma cstep_inv x y : cinv x → cstep x y → cinv y.
Proof.
  intros Hi Hst. destruct Hst as [q s w o s' H|s w1 msg w2 _|b s s' w H|c r s s' w H|s s' w H];
    unfold cinv, all_ops in *; cbn [c_state c_waiting] in *.
  - by eapply request_more in H as [H _].
  - destruct Hi as [Hs Hp]. split; [|done]. cbn. eapply separate_perm; [|exact Hs].
    cbn. rewrite <- app_assoc. apply Permutation_app_head. cbn. symmetry. apply Permutation_middle.
  - by eapply manager_turn_more in H as [H _].
  - apply receive_reply_Ret in H as [m ->]. destruct Hi. by split.
  - apply notifier_turn_Ret in H as (i & notes & ->). destruct Hi. by split.
Qed.

Lemma creachable_inv d x : networks d = ∅ → rtc cstep (mkC (start d) []) x → cinv x.
Proof.
  intros Hd Hr. assert (cinv (mkC (start d) [])) as Hi by apply (start_inv d Hd).
  induction Hr as [|x y z Hst _ IH]; [done|]. eapply IH, cstep_inv; eauto.
Qed.

(** C1: The driver implements the table of networks and containers, also while requests wait
    to send.  From its start, and however the requests, their sends, the turns of the manager,
    replies and announcements interleave, with any answers from outside: a turn of the manager
    changes the table only by the steps that the message at the head of the queue permits, in
    the network and for the endpoint it names (without a message, only addresses change); a
    request changes nothing; and no two networks ever share their containers, although copies
    of every network's state travel through the queue. *)
Theorem driver_implements_registry d x :
  networks d = ∅ → rtc cstep (mkC (start d) []) x →
  let s := c_state x in
  (∀ b s', manager_turn s = (Ret b, s') → rtc (allowed (head (st_ops s))) (abs s) (abs s')) ∧
  (∀ q o s', requested q (set_ops [] s) = (o, s') → abs s' = abs s) ∧
  (∀ id1 id2 n1 n2 l, networks (st_d s) !! id1 = Some n1 → networks (st_d s) !! id2 = Some n2 →
     containers_of n1 = Some l → containers_of n2 = Some l → id1 = id2) ∧
  (∀ id n l, networks (st_d s) !! id = Some n → containers_of n = Some l →
     Forall (λ op, msg_ref op ≠ Some l) (all_ops x)).
Proof.
  intros Hd Hr s. pose proof (creachable_inv d x Hd Hr) as Hi. unfold cinv in Hi. split_and!.
  - intros b s' H. by eapply manager_turn_more in H as [_ H].
  - intros q o s' H. by eapply request_more in H as [_ H].
  - intros id1 id2 n1 n2 l H1 H2. destruct Hi as [Hs _]. by eapply sep_nets.
  - intros id n l H1 H2. destruct Hi as [Hs _]. apply Forall_forall. intros op Hop. by eapply sep_msgs.
Qed.
End steps.

(** ** The wait group *)

Section wait_group.
Context `{E : Env}.

Definition no_down_ops (ops : list DovesnapOp) : Prop :=
  Forall (λ op, operation_of (op_Operation op) ≠ ORecreateDownBridge) ops.

(** The steps without a bridge that is found down, and in which a request that waits for the
    wait group, or that ends the process, takes no step. *)
Inductive csmooth : cstate → cstate → Prop :=
  | cs_request q s w o s' :
      requested q (set_ops [] s) = (o, s') → settled o → no_down_ops (st_ops s') →
      csmooth (mkC s w) (mkC (set_ops (st_ops s) s') (w ++ st_ops s'))
  | cs_send s w1 msg w2 :
      (length (st_ops s) < chanSize)%nat →
      csmooth (mkC s (w1 ++ msg :: w2)) (mkC (set_ops (st_ops s ++ [msg]) s) (w1 ++ w2))
  | cs_turn b s s' w : manager_turn s = (Ret b, s') → csmooth (mkC s w) (mkC s' w)
  | cs_receive c r s s' w : receive_reply c s = (Ret r, s') → csmooth (mkC s w) (mkC s' w)
  | cs_notify s s' w : notifier_turn s = (Ret tt, s') → csmooth (mkC s w) (mkC s' w).

(** The creations and deletions that were asked for and not yet handled. *)
Definition cpending (x : cstate) : list DovesnapOp := filter (λ op, counted op = true) (all_ops x).

Definition cbalanced (x : cstate) : Prop :=
  no_down_ops (all_ops x) ∧ st_wg (c_state x) = Z.of_nat (length (cpending x)).

Lemma csmooth_balanced x y : cbalanced x → csmooth x y → cbalanced y.
Proof.
  intros [Hn Hw] Hst. destruct Hst as [q s w o s' H Ho Hd|s w1 msg w2 _|b s s' w H|c r s s' w H|s s' w H];
    unfold cbalanced, cpending, all_ops in *; cbn [c_state c_waiting] in *.
  - change (st_ops (set_ops (st_ops s) s')) with (st_ops s).
    change (st_wg (set_ops (st_ops s) s')) with (st_wg s').
    pose proof (requested_queued q (set_ops [] s)) as Hq. unfold wp in Hq. rewrite H in Hq.
    cbn [fst snd] in Hq. destruct Hq as (_ & _ & _ & Hq). cbn [st_ops set_ops st_wg] in Hq.
    rewrite app_assoc, filter_app, length_app, Nat2Z.inj_add.
    split; [by apply Forall_app|]. destruct Hq as [[-> Hw']|(msg & -> & -> & _)].
    + rewrite Hw' by done. cbn. lia.
    + cbn [app]. rewrite (count_cons msg []). cbn. lia.
  - assert (st_ops s ++ w1 ++ msg :: w2 ≡ₚ st_ops (set_ops (st_ops s ++ [msg]) s) ++ w1 ++ w2) as Hperm.
    { cbn. rewrite <- app_assoc. apply Permutation_app_head. cbn. symmetry. apply Permutation_middle. }
    split; [by unfold no_down_ops; rewrite <- Hperm|]. by rewrite <- Hperm.
  - destruct (manager_turn_counts _ _ _ H) as [(Hq & -> & ->)|(op & ops & Hq & -> & ->)];
      rewrite Hq in Hn, Hw; [done|]. cbn [app] in *. apply Forall_cons in Hn as [Hop Hn]. split; [done|].
    rewrite dones_counted, Hw, count_cons by done. lia.
  - by apply receive_reply_Ret in H as [m ->].
  - by apply notifier_turn_Ret in H as (i & notes & ->).
Qed.

(** C2: While no bridge is found down at startup, the wait group counts exactly the creations and
    deletions that were asked for and not yet handled, whether their messages are queued or
    their requests still wait to send.  So Join, which waits for the count to reach zero,
    proceeds only when no such message is left anywhere, and a Done never makes the
    count negative. *)
Theorem wait_group_counts_all d x :
  rtc csmooth (mkC (start d) []) x →
  st_wg (c_state x) = Z.of_nat (length (cpending x)) ∧
  (∀ id ep options, cpending x ≠ [] → Join_send id ep options (c_state x) = (Block, c_state x)).
Proof.
  intros Hr. assert (cbalanced x) as [Hn Hw].
  { assert (cbalanced (mkC (start d) [])) as Hb by (split; [apply Forall_nil_2|done]).
    induction Hr as [|x y z Hst _ IH]; [done|]. eapply IH, csmooth_balanced; eauto. }
  split; [done|]. intros id ep options Hp. unfold Join_send. cbn. case_match eqn:H0; [|done].
  apply Z.eqb_eq in H0. destruct (cpending x); [done|]. cbn in Hw. lia.
Qed.
End wait_group.

(** ** A concrete run *)

Module WaitingRun.
#[local] Existing Instance Lab.env.
(** docker creates the network: its message waits, is sent, and is handled. *)
Definition x0 : cstate := mkC (start plain_driver) [].
Definition after_request (q : request) (x : cstate) : cstate :=
  let s := c_state x in
  let s' := (requested q (set_ops [] s)).2 in
  mkC (set_ops (st_ops s) s') (c_waiting x ++ st_ops s').
Definition after_send (x : cstate) : cstate :=
  match c_waiting x with
  | msg :: w => mkC (set_ops (st_ops (c_state x) ++ [msg]) (c_state x)) w
  | [] => x
  end.
Definition x1 : cstate := after_request (QCreateNetwork Run.create_request) x0.
Definition x2 : cstate := after_send x1.

Lemma x1_waits : length (c_waiting x1) = 1%nat ∧ st_wg (c_state x1) = 1%Z ∧ st_ops (c_state x1) = [].
Proof. vm_compute. done. Qed.

Lemma request_cstep q x : cstep x (after_request q x).
Proof. destruct x as [s w]. eapply (c_request q). apply surjective_pairing. Qed.
Lemma send_cstep x msg w : c_waiting x = msg :: w → (length (st_ops (c_state x)) < chanSize)%nat →
  cstep x (after_send x).
Proof. destruct x as [s w']. cbn. intros -> Hl. exact (c_send s [] msg w Hl). Qed.

Lemma reaches_x2 : rtc cstep x0 x2.
Proof.
  eapply (rtc_l _ _ x1); [apply request_cstep|].
  destruct (c_waiting x1) as [|msg w] eqn:Hw; [vm_compute in Hw; discriminate Hw|].
  eapply (rtc_l _ _ x2); [|apply rtc_refl]. eapply send_cstep; [exact Hw|]. vm_compute. lia.
Qed.

Lemma smooth_x1 : rtc csmooth x0 x1.
Proof.
  apply rtc_once. eapply (cs_request (QCreateNetwork Run.create_request));
    [apply surjective_pairing|vm_compute; done|]. vm_compute. constructor; [done|constructor].
Qed.
End WaitingRun.

Lemma driver_implements_registry_witness :
  let s := c_state WaitingRun.x2 in
  rtc (allowed (head (st_ops s))) (abs s) (abs (manager_turn (E := Lab.env) s).2).
Proof.
  intros s.
  apply (proj1 (driver_implements_registry (E := Lab.env) plain_driver WaitingRun.x2 eq_refl
    WaitingRun.reaches_x2) false).
  assert ((manager_turn (E := Lab.env) (c_state WaitingRun.x2)).1 = Ret false) as H
    by (vm_compute; reflexivity).
  rewrite <- H. apply surjective_pairing.
Defined.

Lemma wait_group_counts_all_witness :
  let s := c_state WaitingRun.x1 in
  st_wg s = 1%Z ∧ Join_send Lab.net_id Lab.endpoint Lab.options s = (Block, s).
Proof.
  intros s.
  destruct (wait_group_counts_all (E := Lab.env) plain_driver WaitingRun.x1 WaitingRun.smooth_x1) as [Hw Hj].
  split; [etransitivity; [exact Hw|vm_compute; reflexivity]|apply Hj; vm_compute; discriminate].
Defined.
