(* ===== verification/Cleanup.v ===== *)
(** * What a deleted network leaves behind

    Creating a network makes a bridge, links it to the shared bridges, and for a network with
    masquerading inserts an iptables rule.  Here the history is read as what it does to the
    ports of the bridges and to the rules, to show that the deletion undoes the creation. *)
From S2P Require Import Prelude GoStrings GoMonad World Scenario Utils OvsDb OvsPort Types Config Iptables Faucet Docker OvsBridge Driver Links Handlers FaucetView NetworkView Json Manager Web Notifier Registry.

(** ** The rules of iptables *)

(** Delete one occurrence of a rule. *)
Fixpoint remove_rule (rule : list string) (rules : list (list string)) : list (list string) :=
  match rules with
  | [] => []
  | r :: rules' => if decide (r = rule) then rules' else r :: remove_rule rule rules'
  end.

(** The operation of a command line of iptables, and the rule it is applied to: the other
    words, a table that is named before the operation included. *)
Fixpoint split_op (args : list string) : option (string * list string) :=
  match args with
  | [] => None
  | w :: args' =>
      if decide (w ∈ ["-I"; "-A"; "-D"]) then Some (w, args') else prod_map id (cons w) <$> split_op args'
  end.

(** What a call of iptables does: [-I] puts a rule first, [-A] last, and [-D] removes it.  The
    policy of a chain, which [-P] sets, is not a rule. *)
Definition rule_effect (rules : list (list string)) (c : call) : list (list string) :=
  match c with
  | CIptables args =>
      match split_op args with
      | Some (op, rule) =>
          if decide (op = "-I") then rule :: rules
          else if decide (op = "-A") then rules ++ [rule]
          else remove_rule rule rules
      | None => rules
      end
  | _ => rules
  end.

(** The rule that masquerades what comes from a gateway's network. *)
Definition masquerade (ns : NetworkState) : list string :=
  ["POSTROUTING"; "-t"; "nat"; "-s"; ns_Gateway ns +:+ "/" +:+ ns_GatewayMask ns; "-j"; "MASQUERADE"].

Section rules.
Context `{E : Env}.

(** The rules that the calls of a history leave. *)
Definition rules_of (t : list call) : list (list string) := replay rule_effect [] [] t.

Lemma rules_of_snoc t c :
  rules_of (t ++ [c]) = if carried_out t c then rule_effect (rules_of t) c else rules_of t.
Proof. apply replay_snoc. Qed.

Definition has_rules (v : list (list string)) (i : io) : Prop := rules_of (io_trace i) = v.

Lemma keeps_rules_call v c : (∀ rules, rule_effect rules c = rules) → keeps (has_rules v) (ext c).
Proof. intros Hc i Hi. change (rules_of (io_trace i ++ [c]) = v). rewrite rules_of_snoc, Hc. by destruct (carried_out _ _). Qed.

Lemma keeps_rules_range {K V} `{Countable K} v (m : gmap K V) : keeps (has_rules v) (range m).
Proof. by intros i. Qed.

Lemma keeps_rules_RunCmd v cmd args : keeps (has_rules v) (RunCmd cmd args).
Proof. unfold RunCmd. apply keeps_bind; [by apply keeps_rules_call|]. intros []. keeps_tac. Qed.
#[local] Hint Resolve keeps_rules_range keeps_rules_RunCmd : keeps.

(** Take a computation apart whose calls are none of iptables. *)
Ltac no_iptables := repeat first [progress keeps_tac | by apply keeps_rules_call].

Lemma keeps_rules_run_config_cmds v br cmds : keeps (has_rules v) (run_config_cmds br cmds).
Proof. induction cmds as [|cmd cmds IH]; cbn [run_config_cmds]; unfold VsCtl; no_iptables. Qed.
Lemma keeps_rules_check_added_ports v br ports : keeps (has_rules v) (check_added_ports br ports).
Proof.
  induction ports as [|[name n] ports IH]; cbn [check_added_ports]; unfold getOfPort, mustVsCtl, VsCtl;
    no_iptables.
Qed.
#[local] Hint Resolve keeps_rules_run_config_cmds keeps_rules_check_added_ports : keeps.

Lemma keeps_rules_createBridge v br controller dpid add_ports ex userspace mac :
  keeps (has_rules v) (createBridge br controller dpid add_ports ex userspace mac).
Proof.
  unfold createBridge, addBridgeExists, addBridge, mustOfCtl, OfCtl, VsCtl, interfaceUp. no_iptables.
Qed.

Lemma keeps_rules_mustAddPatchPort v br peer p1 p2 : keeps (has_rules v) (mustAddPatchPort br peer p1 p2).
Proof.
  unfold mustAddPatchPort, mustLowestFreePortOnBridge, mustScrapePortDesc, scrape_attempt, scrapePortDesc,
    OfCtl, VsCtl, Sleep.
  no_iptables.
Qed.

Lemma keeps_rules_mustDeleteBridgeAndPorts v d br : keeps (has_rules v) (mustDeleteBridgeAndPorts d br).
Proof.
  unfold mustDeleteBridgeAndPorts, mustDeletePatchPort, mustDeletePort, mustDeleteBridge, mustVsCtl, VsCtl.
  no_iptables.
Qed.

Lemma keeps_rules_Ret {A} (m : IO A) i a i' :
  (∀ v, keeps (has_rules v) m) → m i = (Ret a, i') → rules_of (io_trace i') = rules_of (io_trace i).
Proof. intros Hm H. specialize (Hm _ i eq_refl). rewrite H in Hm. exact Hm. Qed.

(** natOut without an error has inserted or deleted its rule. *)
Lemma natOut_rules ns op i i' : op ∈ ["-I"; "-D"] →
  natOut (ns_Gateway ns +:+ "/" +:+ ns_GatewayMask ns) op i = (Ret None, i') →
  rules_of (io_trace i') = rule_effect (rules_of (io_trace i)) (CIptables (op :: masquerade ns)).
Proof.
  intros Hop H. apply bind_Ret_inv in H as ([out err] & i1 & [= Hr <-] & H). destruct err; [done|].
  destruct (0 <? len out)%Z; [done|].
  apply bind_Ret_inv in H as ([out2 err2] & i2 & [= _ <-] & [= _ <-]).
  cbn [io_trace]. rewrite !rules_of_snoc. cbn [carried_out]. fold (masquerade ns) in Hr |- *.
  rewrite Hr. cbn [snd]. rewrite (bool_decide_eq_true_2 (None = None)) by done.
  by destruct (bool_decide _).
Qed.

Lemma initBridge_rules ns controller dpid add_ports userspace mac i i' :
  initBridge ns controller dpid add_ports userspace mac i = (Ret None, i') →
  rules_of (io_trace i') =
    if decide (ns_Mode ns = modeNAT) then masquerade ns :: rules_of (io_trace i) else rules_of (io_trace i).
Proof.
  intros H. apply bind_Ret_inv in H as (err & i1 & H1 & H).
  apply keeps_rules_Ret in H1; [|intros v; apply keeps_rules_createBridge]. destruct err as [e|]; [done|].
  destruct (decide (ns_Mode ns = modeNAT ∨ ns_Mode ns = modeRouted)) as [Hm|Hm].
  2: { injection H as <-. by rewrite decide_False by tauto. }
  apply bind_Ret_inv in H as (e & i2 & H2 & H).
  apply keeps_rules_Ret in H2; [|intros v; unfold setInterfaceIP, Fatalf, Sleep; no_iptables].
  apply bind_Ret_inv in H as (addr & i3 & H3 & H).
  apply keeps_rules_Ret in H3; [|intros v; unfold getIfaceAddr; no_iptables].
  destruct addr as [a|e']; [|by apply bind_Ret_inv in H as (? & ? & _ & ?)].
  destruct (decide (ns_Mode ns = modeNAT)); [|injection H as <-; congruence].
  apply bind_Ret_inv in H as ([e''|] & i4 & H4 & H); [by apply bind_Ret_inv in H as (? & ? & _ & ?)|].
  injection H as <-. apply natOut_rules in H4; [|left]. rewrite H4, H3, H2, H1. done.
Qed.

(** Creating the bridge of a network inserts its rule, when it has one. *)
Lemma InitBridge_rules d ns sc i i' : InitBridge d ns sc i = (Ret tt, i') →
  rules_of (io_trace i') =
    if decide (ns_Mode ns = modeNAT) then masquerade ns :: rules_of (io_trace i) else rules_of (io_trace i).
Proof.
  intros H. apply bind_Ret_inv in H as (err & i1 & H1 & H).
  apply bind_Ret_inv in H as ([] & i2 & H2 & H). destruct err; [done|]. injection H2 as <-.
  apply initBridge_rules in H1. rewrite <- H1. clear H1. revert H. apply keeps_rules_Ret. intros v.
  unfold mustGetOfPort, getOfPort, mustVsCtl, VsCtl, mustOfCtl, OfCtl.
  repeat first [apply keeps_rules_mustAddPatchPort | progress no_iptables].
Qed.

(** ** The deletion *)

(** The history of a state has a history behind it. *)
Lemma grows_Ret {A} (m : IO A) i a i' : (∀ t, keeps (λ i, t `prefix_of` io_trace i) m) →
  m i = (Ret a, i') → ∀ c, c ∈ io_trace i → c ∈ io_trace i'.
Proof.
  intros Hm H c Hc. specialize (Hm (io_trace i) i (reflexivity _)). rewrite H in Hm. cbn in Hm.
  destruct Hm as [t ->]. apply elem_of_app. by left.
Qed.

(** The masquerading rule of a network is deleted. *)
Lemma delete_nat_Ret ns s s' :
  when (bool_decide (ns_Mode ns = modeNAT)) (
    let gatewayIP := ns_Gateway ns +:+ "/" +:+ ns_GatewayMask ns in
    err ← io_do (natOut gatewayIP "-D");
    match err with
    | Some e =>
        io_do (Fatalf ("Could not delete NAT rules for bridge " +:+ ns_BridgeName ns
          +:+ " because " +:+ e));;
        panic e
    | None => skip
    end) s = (Ret tt, s') →
  ∃ i, s' = set_io i s ∧
    rules_of (io_trace i) =
      (if decide (ns_Mode ns = modeNAT) then remove_rule (masquerade ns) (rules_of (io_trace (st_io s)))
       else rules_of (io_trace (st_io s))) ∧
    (∀ B, ports_of B (io_trace i) = ports_of B (io_trace (st_io s))) ∧
    (∀ c, c ∈ io_trace (st_io s) → c ∈ io_trace i).
Proof.
  intros H. destruct (decide (ns_Mode ns = modeNAT)) as [Hm|Hm].
  - rewrite bool_decide_eq_true_2 in H by done. cbn [when] in H.
    apply bind_Ret_inv in H as ([e|] & s1 & (i & Hn & ->)%io_do_inv & H);
      [by apply bind_Ret_inv in H as (? & ? & _ & ?)|].
    injection H as <-. exists i. split; [done|]. split_and!.
    + apply natOut_rules in Hn; [|right; left]. exact Hn.
    + intros B. revert Hn. apply keeps_ports_Ret. intros v. unfold natOut.
      repeat first [progress keeps_tac | by apply keeps_call].
    + revert Hn. apply grows_Ret. intros t. unfold natOut. keeps_tac.
  - rewrite bool_decide_eq_false_2 in H by done. injection H as <-. exists (st_io s).
    split; [by destruct s|]. done.
Qed.

(** What the handler's work did, when it returned. *)
Lemma delete_work_Ret op s s' : delete_work op s = (Ret tt, s') →
  let d := st_d s in
  let ns := network_of d (op_NetworkID op) in
  ∃ i,
    rules_of (io_trace (st_io s')) =
      (if decide (ns_Mode ns = modeNAT) then remove_rule (masquerade ns) (rules_of (io_trace (st_io s)))
       else rules_of (io_trace (st_io s))) ∧
    (∀ B, ports_of B (io_trace i) = ports_of B (io_trace (st_io s))) ∧
    mustDeleteBridgeAndPorts d (ns_BridgeName ns) i = (Ret tt, st_io s') ∧
    told (DelDps [ns_NetworkName ns]) s' ∧
    networks (st_d s') = delete (op_NetworkID op) (networks d).
Proof.
  intros H. cbv zeta. apply bind_Ret_inv in H as (d & s0 & [= <- <-] & H). cbv zeta in H.
  set (ns := network_of (st_d s) (op_NetworkID op)) in *.
  apply bind_Ret_inv in H as ([] & s1 & H1 & H). pose proof H1 as (i1 & Hi1 & ->)%io_do_inv.
  assert (rules_of (io_trace i1) = rules_of (io_trace (st_io s)) ∧
    ∀ B, ports_of B (io_trace i1) = ports_of B (io_trace (st_io s))) as [Hr1 Hp1].
  { unfold mustDeleteDp, must_rpc in Hi1. split; [|intros B].
    - eapply keeps_rules_Ret; [|exact Hi1]. intros v. no_iptables.
    - eapply keeps_ports_Ret; [|exact Hi1]. intros v. repeat first [progress keeps_tac | by apply keeps_call]. }
  clear Hi1.
  apply must_rpc_Ret in H1 as (Htold & _).
  apply bind_Ret_inv in H as ([] & s2 & (i2 & -> & Hrules & Hports & Hgrow)%delete_nat_Ret & H).
  apply bind_Ret_inv in H as ([] & s3 & (i3 & Hdel & ->)%io_do_inv & H).
  change (st_io (set_io i2 (set_io i1 s))) with i2 in Hdel.
  apply bind_Ret_inv in H as ([] & s4 & [= <-] & H). apply bind_Ret_inv in H as ([] & s5 & [= <-] & H).
  apply bind_Ret_inv in H as ([] & s6 & [m ->]%send_reply_Ret & [= <-]).
  exists i2. split_and!; [| |exact Hdel| |done].
  - change (rules_of (io_trace i3) = if decide (ns_Mode ns = modeNAT)
      then remove_rule (masquerade ns) (rules_of (io_trace (st_io s))) else rules_of (io_trace (st_io s))).
    rewrite (keeps_rules_Ret _ _ _ _ (λ v, keeps_rules_mustDeleteBridgeAndPorts v _ _) Hdel), Hrules.
    by rewrite <- Hr1.
  - intros B. by rewrite Hports, <- Hp1.
  - unfold told. cbn. eapply grows_Ret; [|exact Hdel|by apply Hgrow]. intros t.
    unfold mustDeleteBridgeAndPorts, mustDeletePatchPort, mustDeletePort, mustDeleteBridge, mustVsCtl, VsCtl, RunCmd.
    keeps_tac.
Qed.

(** ** Creation and deletion *)

(** The settings that decide about links are the same: only the tables of a driver change
    after its start. *)
Definition same_settings (d d' : Driver) : Prop :=
  mirrorBridgeOut d' = mirrorBridgeOut d ∧ stackingInterfaces d' = stackingInterfaces d ∧
  stackMirrorInterface d' = stackMirrorInterface d ∧ mirrorBridgeName d' = mirrorBridgeName d ∧
  stackDpName d' = stackDpName d ∧ loopbackBridgeName d' = loopbackBridgeName d.

Lemma linked_settings d d' B : same_settings d d' → linked d' B ↔ linked d B.
Proof.
  intros (H1 & H2 & H3 & H4 & H5 & H6). unfold linked, usingStackMirroring, usingStacking, usingMirrorBridge.
  by rewrite H1, H2, H3, H4, H5, H6.
Qed.

(** A deletion that took the network from the table ran to its end. *)
Lemma delete_handler_done op s s' :
  is_Some (networks (st_d s) !! op_NetworkID op) →
  mustHandleDeleteNetwork op s = (Ret tt, s') → networks (st_d s') !! op_NetworkID op = None →
  ∃ s1, delete_work op s = (Ret tt, s1) ∧ st_io s' = st_io s1.
Proof.
  intros Hin (o & s1 & Hw & Hset & [_ ->]%wg_done_Ret)%deferring_recovering_Ret Hout. exists s1.
  split; [|done]. pose proof (delete_work_spec op s) as Hsp. unfold wp in Hsp. rewrite Hw in Hsp.
  destruct Hsp as (_ & _ & _ & _ & Ho). destruct o as [[]|v| |]; [done| |done..].
  destruct Ho as [Hd _]. cbn in Hout, Hd. rewrite Hd in Hout. by rewrite Hout in Hin; destruct Hin.
Qed.

(** C13: A deleted network leaves nothing behind.  Take a network that was created, and deleted
    later under the same settings, with the table saying that the deletion was done.  Then its
    bridge has no ports, Faucet was asked to forget its datapath, and what others did not
    change in between is as before the creation: the iptables rules, and the ports of every other
    bridge on which no port of the link's name was before. *)
Theorem deleted_network_leaves_nothing d ns sc name i i1 op s s' :
  InitBridge d ns sc i = (Ret tt, i1) →
  same_settings d (st_d s) →
  networks (st_d s) !! op_NetworkID op = Some (set_NetworkName name ns) →
  mustHandleDeleteNetwork op s = (Ret tt, s') → networks (st_d s') !! op_NetworkID op = None →
  let t0 := io_trace i in let t1 := io_trace i1 in
  let t2 := io_trace (st_io s) in let t3 := io_trace (st_io s') in
  ports_of (ns_BridgeName ns) t3 = ∅ ∧ told (DelDps [name]) s' ∧
  (rules_of t2 = rules_of t1 → rules_of t3 = rules_of t0) ∧
  (∀ B link, B ≠ ns_BridgeName ns → patchName B (ns_BridgeName ns) = Ret link → link ∉ ports_of B t0 →
     ports_of B t2 = ports_of B t1 → ports_of B t3 = ports_of B t0).
Proof.
  intros Hinit Hset Hns Hrun Hout. cbv zeta.
  destruct (delete_handler_done op s s' ltac:(eauto) Hrun Hout) as (s1 & Hw & Hio).
  unfold told. rewrite Hio. apply delete_work_Ret in Hw as (j & Hrules & Hports & Hdel & Htold & _).
  unfold network_of in *. rewrite Hns in *. cbn [default from_option id set_NetworkName ns_NetworkName
    ns_BridgeName ns_Mode] in *. split_and!.
  - by eapply mustDeleteBridgeAndPorts_own in Hdel.
  - exact Htold.
  - intros Heq. rewrite Hrules, Heq, (InitBridge_rules _ _ _ _ _ Hinit).
    destruct (decide (ns_Mode ns = modeNAT)); [|done]. cbn [remove_rule]. by rewrite decide_True.
  - intros B link Hne Hl Hfresh Heq. apply set_eq. intros p.
    rewrite (mustDeleteBridgeAndPorts_links _ _ _ _ _ _ Hne Hl Hdel), Hports, Heq.
    rewrite (linked_settings _ _ _ Hset).
    destruct (InitBridge_links _ _ _ _ _ _ _ Hne Hl Hinit) as [->|[Hk ->]].
    + split; [by intros []|]. intros Hp. split; [done|]. by intros [_ ->].
    + rewrite elem_of_union, elem_of_singleton. split; [by intros [[->|Hp] Hnl]; [destruct Hnl|]|].
      intros Hp. split; [by right|]. by intros [_ ->].
Qed.
End rules.

(** ** A concrete life *)

Module Life.
(** A masqueraded network on a mirrored host. *)
Definition nat_net : NetworkState :=
  mkNetworkState "" "odsbr4f1d8" "0x620" 1568 100 1500 0 "nat" "" "" "10.1.0.1" "16" "" false false
    "" "" "" "" "" (mkDynamicNetworkState "0ABCDE" (Some 1%positive) (Some 1%positive) (Some 1%positive)).
Definition mirrored : Driver :=
  mkDriver "" [""] [] "" "" "eth8" 0 "0ABCDE" "mirrorbr" "loopbr" "stackbr"
    {[Lab.net_id := set_NetworkName "testnet" nat_net]} ∅ [].
#[local] Instance env : Env := scripted (mkScript
  (λ _ _ args, if bool_decide ("get" ∈ args) then ("7" +:+ String newline "", None) else ("", None))
  (λ name, (Some (mkLink name []), None)) (λ _, (["10.1.0.1/16"], None)) (sc_iptables quiet) (sc_rpc quiet)
  (sc_network quiet) [] (sc_container quiet) (sc_up quiet) (sc_stat quiet) (sc_file quiet)).

Definition i1 : io := (InitBridge mirrored nat_net (mkStackMirrorConfig 99 0 "" 0) init_io).2.
Definition delete_op : DovesnapOp := mkOp "delete" Lab.net_id "" [] (Some 0%nat).
Definition before : state :=
  set_wg 1 (set_replies {[0%nat := []]} (set_io i1 (start mirrored))).
Definition after : state := (mustHandleDeleteNetwork delete_op before).2.

(** The rule and the link are there in between. *)
Example in_between :
  length (rules_of (io_trace i1)) = 1%nat ∧ size (ports_of "mirrorbr" (io_trace i1)) = 1%nat.
Proof. vm_compute. done. Qed.
End Life.

Lemma deleted_network_leaves_nothing_witness :
  ports_of (E := Life.env) "odsbr4f1d8" (io_trace (st_io Life.after)) = ∅ ∧
  rules_of (E := Life.env) (io_trace (st_io Life.after)) = [] ∧
  ports_of (E := Life.env) "mirrorbr" (io_trace (st_io Life.after)) = ∅.
Proof.
  destruct (deleted_network_leaves_nothing (E := Life.env) Life.mirrored Life.nat_net
    (mkStackMirrorConfig 99 0 "" 0) "testnet" init_io Life.i1 Life.delete_op Life.before Life.after)
    as (Hown & _ & Hrules & Hports).
  - vm_compute. reflexivity.
  - repeat split.
  - reflexivity.
  - vm_compute. reflexivity.
  - vm_compute. reflexivity.
  - split; [exact Hown|]. split; [apply Hrules; reflexivity|].
    destruct (patchName "mirrorbr" "odsbr4f1d8") as [link| | |] eqn:Hl; try (vm_compute in Hl; discriminate Hl).
    apply (Hports "mirrorbr" link); [discriminate|exact Hl|apply not_elem_of_empty|reflexivity].
Defined.
