(* ===== verification/StatusDoc.v ===== *)
(** * The status document and the table of containers

    The status page answers with a JSON document of the driver's networks.  Read as a
    tree, the document shows the same networks and containers as the abstract table that
    the driver implements. *)
From S2P Require Import Prelude GoStrings GoFormat GoMonad World Scenario Utils OvsDb OvsPort Types Config Iptables Faucet Docker OvsBridge Driver Handlers Json JsonText Manager Web Registry.

(** ** Reading a document *)

(** The value of a field: the first one of that name. *)
Fixpoint field_of (k : string) (fields : list (string * json)) : option json :=
  match fields with
  | [] => None
  | (k', j) :: fields' => if decide (k' = k) then Some j else field_of k fields'
  end.

Fixpoint json_at (path : list string) (j : json) : option json :=
  match path, j with
  | [], _ => Some j
  | k :: path', JObj fields => field_of k fields ≫= json_at path'
  | _ :: _, _ => None
  end.

Lemma field_of_In k fields : NoDup fields.*1 → ∀ j, field_of k fields = Some j ↔ (k, j) ∈ fields.
Proof.
  induction fields as [|[k' j'] fields IH]; cbn; intros Hnd j.
  { split; [done|]. by intros ?%not_elem_of_nil. }
  apply NoDup_cons in Hnd as [Hk Hnd]. rewrite elem_of_cons. case_decide as Heq.
  - subst k'. split; [intros [= ->]; by left|]. intros [[= ->]|Hin]; [done|].
    destruct Hk. apply list_elem_of_fmap. by exists (k, j).
  - rewrite IH by done. split; [auto|]. by intros [[= <-]|?].
Qed.

Lemma sorted_entries_perm {V} (m : gmap string V) : sorted_entries m ≡ₚ map_to_list m.
Proof. apply merge_sort_Permutation. Qed.

Lemma field_of_json_map {V} (f : V → json) (m : gmap string V) k :
  field_of k (prod_map id f <$> sorted_entries m) = f <$> m !! k.
Proof.
  assert ((prod_map id f <$> sorted_entries m).*1 = (sorted_entries m).*1) as Hk.
  { rewrite <- list_fmap_compose. by apply list_fmap_ext. }
  assert (NoDup (prod_map id f <$> sorted_entries m).*1) as Hnd.
  { rewrite Hk, sorted_entries_perm. apply NoDup_fst_map_to_list. }
  apply option_eq. intros j. rewrite field_of_In by done. rewrite list_elem_of_fmap. split.
  - intros ([k' v] & [= -> ->] & Hin). rewrite sorted_entries_perm in Hin.
    apply elem_of_map_to_list in Hin. cbn. by rewrite Hin.
  - intros (v & Hv & ->)%fmap_Some. exists (k, v). split; [done|].
    by rewrite sorted_entries_perm, elem_of_map_to_list.
Qed.

Lemma json_map_at {V} (f : V → json) (m : gmap string V) k path :
  json_at (k :: path) (json_map f m) = m !! k ≫= λ v, json_at path (f v).
Proof. unfold json_map. cbn [json_at]. rewrite field_of_json_map. by destruct (m !! k). Qed.

(** ** The document of the networks *)

(** Where a container is in the document. *)
Definition container_path (id ep : string) : list string :=
  [id; "DynamicNetworkStates"; "Containers"; ep].

Lemma json_networks_at h m id path :
  json_at (id :: path) (json_networks h m) = m !! id ≫= λ ns, json_at path (json_NetworkState h ns).
Proof. apply json_map_at. Qed.

Lemma json_containers_at h ns ep :
  json_at ["DynamicNetworkStates"; "Containers"; ep] (json_NetworkState h ns) =
  json_ContainerState <$> members h ns !! ep.
Proof.
  unfold members, containers_of.
  change (json_at _ (json_NetworkState h ns)) with
    (json_at [ep] (json_ref json_ContainerState (h_containers h)
      (dyn_Containers (ns_DynamicNetworkStates ns)))).
  destruct (dyn_Containers (ns_DynamicNetworkStates ns)) as [l|]; [|done].
  cbn [json_ref]. rewrite json_map_at. by destruct (map_get _ _ !! ep).
Qed.

Lemma sorted_entries_sorted {V} (m : gmap string V) : StronglySorted String.le (sorted_entries m).*1.
Proof.
  apply (StronglySorted_fmap fst (λ a b : string * V, String.le a.1 b.1)); [done|].
  apply StronglySorted_merge_sort.
  - intros a b c. apply transitivity.
  - intros a b. apply (total String.le).
Qed.

(** The texts of the networks are UTF-8 without a percent sign, and their numbers are
    unsigned. *)
Definition printable (s : state) : Prop :=
  json_texts plain_text (json_networks (st_heap s) (networks (st_d s))) = true.

Section status.
Context `{E : Env}.

(** A status query that has come to the head of the channel: the manager's turn, which
    reconciles the state and then answers, and the body of the response. *)
Definition status_reply (c : nat) : D string :=
  manager_turn;;
  getWebResponse_body c.

Lemma networks_answer op c s : op_Reply op = Some c → st_replies s !! c = Some [] →
  (mustHandleNetworks op;; getWebResponse_body c) s =
  (Ret (Sprintf0 (Marshal (json_networks (st_heap s) (networks (st_d s))))), s).
Proof.
  intros Hc Hb. unfold mustHandleNetworks. rewrite Hc.
  erewrite bind_Ret; cycle 1.
  { erewrite bind_Ret, bind_Ret by reflexivity.
    apply (send_reply_room c _ s []); [done|]. apply Nat.ltb_lt. reflexivity. }
  unfold getWebResponse_body, receive_reply. cbn -[Sprintf0 Marshal json_networks].
  rewrite lookup_insert_eq. cbn -[Sprintf0 Marshal json_networks].
  rewrite insert_insert_eq, insert_id by done. by destruct s.
Qed.

Lemma status_reply_run op ops c s s1 :
  st_ops s = op :: ops → operation_of (op_Operation op) = ONetworks → op_Reply op = Some c →
  st_replies s !! c = Some [] →
  (reconcileOvs;; reconcileDhcpIp) (set_ops ops s) = (Ret tt, s1) →
  status_reply c s = (Ret (Sprintf0 (Marshal (json_networks (st_heap s1) (networks (st_d s1))))), s1).
Proof.
  intros Hq Hop Hc Hb Hrec.
  assert (st_replies s1 !! c = Some []) as Hb1.
  { destruct (chans_reconcile (st_wg s) ops (st_replies s) (set_ops ops s)) as (_ & _ & Hr); [done|].
    rewrite Hrec in Hr. cbn in Hr. by rewrite Hr. }
  rewrite <- (networks_answer op c s1 Hc Hb1).
  assert (manager_turn s = (mustHandleNetworks op;; ret false) s1) as Hturn.
  { unfold manager_turn. erewrite bind_Ret by reflexivity. rewrite Hq.
    erewrite bind_Ret by reflexivity. unfold handle_op. rewrite Hop.
    apply bind_Ret_inv in Hrec as ([] & s0 & H1 & H2).
    erewrite bind_Ret by exact H1. by erewrite bind_Ret by exact H2. }
  unfold status_reply. rewrite (bind_congr _ _ _ _ _ Hturn). apply bind_assoc.
Qed.

(** What a document of the networks shows. *)
Lemma networks_document h nets : ∃ fields, json_networks h nets = JObj fields ∧
  StronglySorted String.le fields.*1 ∧
  (∀ id, is_Some (field_of id fields) ↔ is_Some (nets !! id)) ∧
  (∀ id ep, json_at (container_path id ep) (JObj fields) =
    (members h <$> nets !! id) ≫= λ members, json_ContainerState <$> members !! ep).
Proof.
  pose proof (json_networks_at h nets) as Hat. unfold json_networks, json_map in *.
  set (fields := prod_map _ _ <$> _) in *. exists fields. split_and!; [done| | |].
  - unfold fields. rewrite <- list_fmap_compose. apply sorted_entries_sorted.
  - intros id. unfold fields. by rewrite field_of_json_map, fmap_is_Some.
  - intros id ep. unfold container_path. rewrite Hat.
    destruct (nets !! id) as [ns|]; [|done]. apply json_containers_at.
Qed.

(** C16: The status page shows the table.  A status query that has come to the head of the
    channel first has the state reconciled with Open vSwitch and the DHCP leases; this
    changes the table only in addresses of containers.  When the reconciliation returns, the query
    is answered.  When moreover the texts of the networks are UTF-8 without a percent sign,
    the body of the response, read back as JSON, is an object whose fields are the
    networks' identifiers in order, and in which every network lists exactly its
    containers, each as it is in the table after the reconciliation. *)
Theorem status_shows_registry op ops c s s1 :
  inv s → st_ops s = op :: ops → op_Operation op = "networks" → op_Reply op = Some c →
  st_replies s !! c = Some [] →
  (reconcileOvs;; reconcileDhcpIp) (set_ops ops s) = (Ret tt, s1) →
  rtc (rstep LAddress) (abs s) (abs s1) ∧
  ∃ body, status_reply c s = (Ret body, s1) ∧
    (printable s1 → ∃ fields, Unmarshal body = Some (JObj fields) ∧
      StronglySorted String.le fields.*1 ∧
      (∀ id, is_Some (field_of id fields) ↔ is_Some (abs s1 !! id)) ∧
      (∀ id ep, json_at (container_path id ep) (JObj fields) =
        abs s1 !! id ≫= λ members, json_ContainerState <$> members !! ep)).
Proof.
  intros Hi Hq Hop Hc Hb Hrec. split.
  { destruct (reconcile_sim None (set_ops ops s) s1) as (_ & Hrt & _); [by intros|by eapply inv_pop|done|].
    eapply rtc_subrel; [|exact Hrt]. by intros r r' (lab & -> & Hst). }
  eexists. split; [eapply status_reply_run; try done; by rewrite Hop|]. intros Hp.
  destruct (networks_document (st_heap s1) (networks (st_d s1))) as (fields & Hf & Hsort & Hid & Hat).
  exists fields. unfold printable in Hp. rewrite Hf in *. split; [by apply Unmarshal_Sprintf0|].
  unfold abs. split_and!; [done| |].
  - intros id. by rewrite lookup_fmap, fmap_is_Some.
  - intros id ep. by rewrite lookup_fmap.
Qed.
End status.

Definition status_query : DovesnapOp := mkOp "networks" "" "" [] (Some 0%nat).
Definition status_asked : state :=
  set_ops [status_query] (set_replies {[0%nat := []]} Lab.after_join).

Lemma status_asked_inv : inv status_asked.
Proof.
  assert (networks (st_d status_asked) = {[Lab.net_id := Lab.net]}) as Hn by (vm_compute; reflexivity).
  assert (∃ oc, st_OFPorts status_asked = {[Lab.endpoint := oc]} ∧ is_Some (ir_Base (oc_containerInspect oc)))
    as (oc & Hp & Hoc) by (eexists; split; [vm_compute; reflexivity|vm_compute; eauto]).
  assert (∀ op, op ∈ st_ops status_asked → msg_ref op = None) as Hq.
  { intros op [->|[]%not_elem_of_nil]%elem_of_cons. reflexivity. }
  split; [|rewrite Hp; apply map_Forall_singleton; by right]. split; rewrite ?Hn.
  - by intros id1 id2 n1 n2 l [<- _]%lookup_singleton_Some [<- _]%lookup_singleton_Some.
  - intros id n op l _ Hop%Hq _. by rewrite Hop.
  - apply NoDup_nil_2.
  - intros id n l [_ <-]%lookup_singleton_Some [= <-]. vm_compute. reflexivity.
  - intros op l Hop%Hq. by rewrite Hop.
Qed.

Lemma status_shows_registry_witness :
  ∃ body fields,
    Unmarshal body = Some (JObj fields) ∧
    json_at (container_path Lab.net_id Lab.endpoint) (JObj fields) =
      abs Lab.after_join !! Lab.net_id ≫= λ members, json_ContainerState <$> members !! Lab.endpoint.
Proof.
  destruct (status_shows_registry (E := Lab.env) status_query [] 0%nat status_asked
    ((reconcileOvs (E := Lab.env);; reconcileDhcpIp (E := Lab.env)) (set_ops [] status_asked)).2)
    as (_ & body & _ & H).
  - exact status_asked_inv.
  - reflexivity.
  - reflexivity.
  - reflexivity.
  - reflexivity.
  - vm_compute. reflexivity.
  - destruct H as (fields & Hr & _ & _ & Hat); [vm_compute; reflexivity|].
    exists body, fields. split; [exact Hr|]. rewrite Hat. vm_compute. reflexivity.
Defined.
