(* ===== verification/Announce.v ===== *)
(** * Announcements

    What the notifier's lines say, read back as JSON, and that a join is announced the way it
    is recorded. *)
From S2P Require Import Prelude GoStrings GoFormat GoMonad World Scenario Utils OvsDb OvsPort Types Config Iptables Faucet Docker OvsBridge Driver Handlers Json JsonText Manager Web Notifier Registry StatusDoc.

Section announcements.
Context `{E : Env}.

(** A line announces a message, with the containers of a heap. *)
Definition announces (h : heap) (m : NotifyMsg) (line : string) : Prop :=
  ∃ j, Unmarshal line = Some j ∧
    json_at ["Version"] j = Some (JNum 1) ∧
    json_at ["Msg"; "Type"] j = Some (JStr (nm_Type m)) ∧
    json_at ["Msg"; "Operation"] j = Some (JStr (nm_Operation m)) ∧
    (∀ k, json_at ["Msg"; "Details"; k] j = nm_Details m ≫= λ d, JStr <$> d !! k) ∧
    (∀ ep, json_at (["Msg"; "NetworkState"; "DynamicNetworkStates"; "Containers"; ep]) j =
      json_ContainerState <$> members h (nm_NetworkState m) !! ep).

(** The clock is past 1970. *)
Definition clock_ok : Prop := ∀ t, (0 ≤ env_reply t CTimeNow ≤ u64_max)%Z.

Definition plain_note (h : heap) (m : NotifyMsg) : Prop :=
  json_texts plain_text (json_NotifyMsg h m) = true.

Lemma json_note_at h time m path :
  json_at ("Msg" :: path) (json_NotifyMsgJson h time m) = json_at path (json_NotifyMsg h m).
Proof. done. Qed.

Lemma announces_line h time m : (0 ≤ time ≤ u64_max)%Z → plain_note h m →
  announces h m (Sprintf0 (Marshal (json_NotifyMsgJson h time m))).
Proof.
  intros Ht Hm. exists (json_NotifyMsgJson h time m). split_and!; try done.
  - apply Unmarshal_Sprintf0. unfold json_NotifyMsgJson. cbn [json_texts forallb fst snd].
    rewrite Hm, (bool_decide_eq_true_2 _ Ht). reflexivity.
  - intros k. rewrite json_note_at. change (json_at _ _) with (json_at [k] (json_opt JStr (nm_Details m))).
    destruct (nm_Details m) as [d|]; [|done]. cbn [json_opt]. rewrite json_map_at.
    cbn. by destruct (d !! k).
  - intros ep. rewrite json_note_at. apply json_containers_at.
Qed.

(** The line that is printed for a message: its encoding at some time of the clock, passed
    through Infof as a format.  Without a percent sign to interpret, and with text and time
    that JSON can hold, it announces the message. *)
Definition printed_as (h : heap) (m : NotifyMsg) (line : string) : Prop :=
  ∃ t, line = Sprintf0 (Marshal (json_NotifyMsgJson h (env_reply t CTimeNow) m)) ∧
    ((0 ≤ env_reply t CTimeNow ≤ u64_max)%Z → plain_note h m → announces h m line).

Lemma notifier_turn_prints s m rest : st_notes s = m :: rest →
  ∃ line s', notifier_turn s = (Ret tt, s') ∧ st_notes s' = rest ∧
    prints [line] s s' ∧ printed_as (st_heap s) m line.
Proof.
  intros Hs. unfold notifier_turn. erewrite bind_Ret by reflexivity. rewrite Hs.
  set (now := env_reply (io_trace (st_io s)) CTimeNow).
  set (line := Sprintf0 (Marshal (json_NotifyMsgJson (st_heap s) now m))).
  exists line. eexists. split.
  { erewrite !bind_Ret by reflexivity. unfold io_do, zoom, ext. by destruct (env_reply _ (CInfof _)). }
  split; [done|]. split; [|exists (io_trace (st_io s)); split; [done|]; apply announces_line].
  eexists. split; [reflexivity|]. cbn -[line lines_of]. unfold lines_of. rewrite !omap_app.
  by rewrite app_nil_r.
Qed.

(** As many turns as there are announcements. *)
Lemma notifier_turns_print notes s : st_notes s = notes →
  ∃ lines s', notifier_turns (length notes) s = (Ret tt, s') ∧ st_notes s' = [] ∧
    prints lines s s' ∧ Forall2 (printed_as (st_heap s)) notes lines.
Proof.
  revert s. induction notes as [|m notes IH]; intros s Hn.
  { exists [], s. split_and!; [done..| |constructor]. exists (st_io s).
    split; [by destruct s|by rewrite app_nil_r]. }
  destruct (notifier_turn_prints s m notes Hn) as (line & s1 & Hrun & Hs1 & Hp & Ha).
  assert (st_heap s1 = st_heap s) as Hh by (destruct Hp as (i & -> & _); done).
  destruct (IH s1 Hs1) as (lines & s2 & Hrun2 & Hs2 & Hp2 & Ha2).
  exists (line :: lines), s2. split_and!; [|done| |constructor; [done|by rewrite <- Hh]].
  - cbn [length notifier_turns]. by erewrite bind_Ret.
  - by apply (prints_trans [line] lines _ s1).
Qed.

(** C17: Every announcement is printed, in order and once.  Run for as many turns as there are
    announcements, the notifier empties the queue and prints one line for each, and nothing
    else of the driver changes.  The line is the announcement's JSON passed through Infof as
    a format.  For an announcement whose texts are UTF-8 without a percent sign, printed at a
    time after 1970, the line read back as JSON has the version, the type, the
    operation and the details of the announcement, and lists the containers that its
    network has at that time. *)
Theorem notifier_prints_all s :
  ∃ lines s', notifier_turns (length (st_notes s)) s = (Ret tt, s') ∧ st_notes s' = [] ∧
    prints lines s s' ∧ Forall2 (printed_as (st_heap s)) (st_notes s) lines.
Proof. by apply notifier_turns_print. Qed.

(** What the line of a join says about its container. *)
Definition tells_join (op : DovesnapOp) (cs : ContainerState) (line : string) : Prop :=
  ∃ j, Unmarshal line = Some j ∧
    json_at ["Msg"; "Type"] j = Some (JStr "CONTAINER") ∧
    json_at ["Msg"; "Operation"] j = Some (JStr "JOIN") ∧
    json_at ["Msg"; "NetworkState"; "DynamicNetworkStates"; "Containers"; op_EndpointID op] j =
      Some (json_ContainerState cs) ∧
    json_at ["Msg"; "Details"; "port"] j = Some (JStr (itoa (cs_OFPort cs))) ∧
    json_at ["Msg"; "Details"; "id"] j = Some (JStr (cs_Id cs)) ∧
    json_at ["Msg"; "Details"; "mac"] j = Some (JStr (cs_MacAddress cs)).

(** C18: A join is announced as it is recorded.  After a join on a network with maps, either
    nothing changed, or the container is the last to be announced: when the notifier then
    works off the announcements that were waiting and this one, its last line is the join's.
    When the texts of this announcement are UTF-8 without a percent sign and the clock is
    past 1970, that line, read back as JSON, gives the port that was reserved for the
    endpoint, and lists the container in its network with the port, the identifier and the
    hardware address of the announcement. *)
Theorem join_is_announced op l s s' :
  containers_of (network_of (st_d s) (op_NetworkID op)) = Some l →
  mustHandleJoinContainer op s = (Ret tt, s') →
  unmoved s s' ∨
  ∃ note lines line s2 cs,
    st_notes s' = st_notes s ++ [note] ∧
    notifier_turns (length (st_notes s')) s' = (Ret tt, s2) ∧ st_notes s2 = [] ∧
    prints (lines ++ [line]) s' s2 ∧ length lines = length (st_notes s) ∧
    cs_OFPort cs = oc_OFPort (default zero_OFPortContainer (st_OFPorts s !! op_EndpointID op)) ∧
    (clock_ok → plain_note (st_heap s') note → tells_join op cs line).
Proof.
  intros Hl Hrun.
  apply join_handler_Ret in Hrun. destruct (join_work_spec op l s Hl) as (_ & _ & H).
  rewrite <- Hrun in H. clear Hrun. destruct ((join_work op s).1); [right|left; exact H..].
  destruct H as (oc & cs & note & _ & _ & _ & _ & Hcs & _ & Hheap & Ht & Ho & Hns & Hd & Hnotes).
  destruct Hd as (details & Hd & Hport & Hid & Hmac & _).
  destruct (notifier_turns_print _ s' eq_refl) as (all & s2 & Hturns & Hs2 & Hp & Ha).
  rewrite Hnotes in Ha at 1. apply Forall2_app_inv_l in Ha as (lines & last_ & Ha1 & Ha2 & ->).
  destruct (Forall2_cons_inv_l _ _ _ _ Ha2) as (line & none & Hline & Hnone%Forall2_nil_inv_l & ->).
  subst none. exists note, lines, line, s2, cs.
  split_and!; [done..|by apply Forall2_length in Ha1|done|]. intros Hc Hplain.
  destruct Hline as (t & _ & Hline). destruct (Hline (Hc t) Hplain) as (j & Hj & _ & HjT & HjO & HjD & HjC).
  exists j. rewrite HjT, HjO, HjC, !HjD, Ht, Ho, Hd. cbn.
  rewrite Hport, Hid, Hmac, Hcs, Hns, Hheap. unfold members. rewrite Hl. cbn.
  split_and!; try done. by rewrite lookup_insert_eq; cbn; rewrite lookup_insert_eq.
Qed.
End announcements.

(** A clock that stands still. *)
Lemma lab_clock : clock_ok (E := Lab.env).
Proof. intros t. cbn. unfold u64_max. lia. Qed.

Lemma join_is_announced_witness :
  ∃ line cs, tells_join Lab.join_op cs line ∧ cs_OFPort cs = 7%Z.
Proof.
  destruct (join_is_announced (E := Lab.env) Lab.join_op 1 Lab.reserved Lab.after_join)
    as [(_ & _ & H)|(note & lines & line & s2 & cs & Hn & _ & _ & _ & _ & Hport & H)].
  - reflexivity.
  - vm_compute. reflexivity.
  - vm_compute in H. discriminate H.
  - exists line, cs. split; [|rewrite Hport; reflexivity]. apply H; [exact lab_clock|].
    vm_compute in Hn. injection Hn as <-. vm_compute. reflexivity.
Defined.

(** An announcement lists the containers of the moment it is printed: printed after the
    container left again, the announcement of its join does not list it. *)
Example late_announcement :
  let s := (mustHandleLeaveContainer (E := Lab.env) Lab.leave_op Lab.about_to_leave).2 in
  nm_Operation <$> st_notes s = ["JOIN"; "LEAVE"] ∧
  map (λ line, Unmarshal line ≫= json_at ["Msg"; "NetworkState"; "DynamicNetworkStates"; "Containers"])
    (lines_of (io_trace (st_io (notifier_turns (E := Lab.env) 2 s).2))) =
  [Some (JObj []); Some (JObj [])].
Proof. vm_compute. done. Qed.
