(* ===== verification/Startup.v ===== *)
(** * Startup: NewDriver of ovs/driver.go

    The settings are checked, the services that dovesnap needs are reached, and the
    bridges that all networks share are created.  Then the resource manager is started, and
    the networks that docker knows are restored while it runs. *)
From S2P Require Import Prelude GoStrings GoMonad World Scenario Utils OvsDb OvsPort Types Config Iptables Faucet Docker OvsBridge Driver Handlers Json Manager Web Notifier Registry Concurrent.

(** The arguments of NewDriver, which main.go takes from the command line. *)
Record Flags := mkFlags {
  flagFaucetconfrpcClientName : string;
  flagFaucetconfrpcServerName : string;
  flagFaucetconfrpcServerPort : Z;
  flagFaucetconfrpcKeydir : string;
  flagFaucetconfrpcConnRetries : Z;
  flagStackPriority1 : string;
  flagStackingInterfaces : string;
  flagStackMirrorInterface : string;
  flagDefaultControllers : string;
  flagMirrorBridgeIn : string;
  flagMirrorBridgeOut : string;
  flagStatusServerPort : Z;
  flagStatusAuthIPs : string;
}.

(** The driver that the flags describe, once the engine's ID is known. *)
Definition configured_driver (f : Flags) (auth : list IPNet) (engineId : string) : Driver :=
  let d := {|
    stackPriority1 := flagStackPriority1 f;
    stackingInterfaces := Split (flagStackingInterfaces f) ",";
    stackMirrorInterface := Split (flagStackMirrorInterface f) ":";
    stackDefaultControllers := flagDefaultControllers f;
    mirrorBridgeIn := flagMirrorBridgeIn f;
    mirrorBridgeOut := flagMirrorBridgeOut f;
    lastDhcpMtime := 0;
    shortEngineId := engineId;
    mirrorBridgeName := ""; loopbackBridgeName := ""; stackDpName := "";
    networks := ∅;
    stackMirrorConfigs := ∅;
    authIPs := auth;
  |} in
  mkDriver (stackPriority1 d) (stackingInterfaces d) (stackMirrorInterface d)
    (stackDefaultControllers d) (mirrorBridgeIn d) (mirrorBridgeOut d) (lastDhcpMtime d)
    (shortEngineId d) (mustGetMirrorBrName d) (mustGetLoopbackBrName d) (mustGetStackDPName d)
    (networks d) (stackMirrorConfigs d) (authIPs d).

Section startup.
Context `{E : Env}.

(** The bridges that all networks share. *)
Definition create_shared_bridges (d : Driver) : IO unit :=
  when (usingMirrorBridge d) (createMirrorBridge d);;
  stacking ← lift (usingStacking d);
  when stacking (
    stackerr ← createStackingBridge d;
    must_nil stackerr;;
    mirroring ← lift (usingStackMirroring d);
    when mirroring (
      lberr ← createLoopbackBridge d;
      must_nil lberr)).

(** NewDriver up to the start of the resource manager.  A loop up to a negative number of
    retries does not run. *)
Definition NewDriver (f : Flags) : D unit :=
  io_do (ensureDirExists netNsPath);;
  let stack_mirror_interface := Split (flagStackMirrorInterface f) ":" in
  when ((0 <? len (flagStackMirrorInterface f))%Z &&
        negb (bool_decide (length stack_mirror_interface = 2%nat)))
    (panic ("invalid stack mirror interface config: " +:+ flagStackMirrorInterface f));;
  auth ← lift (parse_auth_ips (flagStatusAuthIPs f));
  io_do mustGetDockerClient;;
  engineId ← io_do mustGetShortEngineID;
  modify (upd_d (λ _, configured_driver f auth engineId));;
  io_do (mustGetGRPCClient (flagFaucetconfrpcClientName f) (flagFaucetconfrpcServerName f)
    (flagFaucetconfrpcServerPort f) (flagFaucetconfrpcKeydir f)
    (Z.to_nat (flagFaucetconfrpcConnRetries f)));;
  io_do waitForOvs;;
  d ← get_d;
  io_do (create_shared_bridges d).
End startup.

(** ** Restoring networks beside the manager

    NewDriver starts the resource manager and then runs restoreNetworks, which sends the
    manager one message for each network that docker knows.  The manager and the notifier take
    turns in between, from the moment they are started; docker's requests are served only after
    NewDriver has returned. *)

(** How far restoreNetworks has come: before docker's list, or with the history at which the
    list was asked for, the entries left to go through, and the message it waits to send. *)
Inductive restoring :=
  | Listing
  | Restoring (asked : list call) (todo : list (string * string)) (waiting : option DovesnapOp).

(** The driver's state beside it, and the messages that the manager has handled. *)
Record ustate := mkU { u_restoring : restoring; u_state : state; u_handled : list DovesnapOp }.

Section restoring_steps.
Context `{E : Env}.

Inductive startup_step : ustate → ustate → Prop :=
  | su_list s s' entries h :
      restoreNetworks_entries s = (Ret entries, s') →
      startup_step (mkU Listing s h) (mkU (Restoring (io_trace (st_io s)) entries None) s' h)
  | su_restore asked p todo s s' msg h :
      restore_network p tt (set_ops [] s) = (Ret tt, s') → st_ops s' = [msg] →
      startup_step (mkU (Restoring asked (p :: todo) None) s h)
        (mkU (Restoring asked todo (Some msg)) (set_ops (st_ops s) s') h)
  | su_send asked todo msg s h :
      (length (st_ops s) < chanSize)%nat →
      startup_step (mkU (Restoring asked todo (Some msg)) s h)
        (mkU (Restoring asked todo None) (set_ops (st_ops s ++ [msg]) s) h)
  | su_turn r s b s' h :
      manager_turn s = (Ret b, s') →
      startup_step (mkU r s h) (mkU r s' (h ++ take 1 (st_ops s)))
  | su_notify r s s' h :
      notifier_turn s = (Ret tt, s') → startup_step (mkU r s h) (mkU r s' h).

(** Each of dovesnap's networks in docker's list [l] has one message, handled or queued. *)
Definition sent_for (l : list NetSummary) (handled queue : list DovesnapOp) : Prop :=
  NoDup (op_NetworkID <$> handled ++ queue) ∧
  (∀ id, id ∈ op_NetworkID <$> handled ++ queue ↔
    ∃ net, net ∈ l ∧ su_Driver net = DriverName ∧ su_ID net = id).

(** What holds at every step.  [todo] and [waiting] are those of restoreNetworks. *)
Record underway (asked : list call) (todo : list (string * string)) (waiting : option DovesnapOp)
    (s : state) (handled : list DovesnapOp) : Prop := {
  uw_list : ∃ l entries, env_reply asked CNetworkList = Ok l ∧
    entries ≡ₚ map_to_list (foldl put_net ∅ (dovesnap_nets l)) ∧
    (op_NetworkID <$> handled ++ st_ops s ++ option_list waiting) ++ todo.*1 = entries.*1;
  uw_counted : Forall (λ op, counted op = true) (handled ++ st_ops s ++ option_list waiting);
  uw_wg : no_down_ops handled → st_wg s = Z.of_nat (length (st_ops s ++ option_list waiting));
  uw_inv : inv (set_ops (st_ops s ++ option_list waiting) s);
  uw_nets id : is_Some (networks (st_d s) !! id) → id ∈ op_NetworkID <$> handled;
}.

Definition startup_inv (x : ustate) : Prop :=
  match u_restoring x with
  | Listing => st_ops (u_state x) = [] ∧ st_wg (u_state x) = 0%Z ∧ inv (u_state x) ∧
      networks (st_d (u_state x)) = ∅ ∧ u_handled x = []
  | Restoring asked todo waiting => underway asked todo waiting (u_state x) (u_handled x)
  end.

(** What one turn of the loop leaves to be sent. *)
Lemma restore_network_msg id name s :
  wp (restore_network (id, name) tt) (λ o s', match o with
    | Ret _ => networks (st_d s') = networks (st_d s) ∧ st_wg s' = (st_wg s + 1)%Z ∧
        ∃ msg, st_ops s' = st_ops s ++ [msg] ∧ op_NetworkID msg = id ∧ counted msg = true
    | _ => True
    end) s.
Proof.
  unfold restore_network. apply wp_bind, wp_gets, wp_bind, wp_io_do.
  intros [netInspect|v| |] i; try done.
  apply wp_bind. eapply wp_mono; [|apply getNetworkStateFromResource_spec].
  intros [[ns err]|v| |] s1 H; try done. destruct H as [-> H].
  apply wp_bind, wp_ret, wp_bind, wp_lift.
  destruct (getStackMirrorConfigFromResource _ _) as [sc|v| |]; try done.
  apply wp_bind, wp_modify, wp_bind.
  eapply (wp_io_do_spec _ restore_outcome); [apply restore_operation_counted|].
  intros [operation|v| |] i' Hop; try done.
  apply wp_bind, wp_modify. apply wp_send_op; [done|].
  destruct H as [[_ ->]|[_ ->]]; (split; [done|]; split; [done|]; eexists;
    split; [done|]; split; [done|]; by destruct Hop as [->|[->| ->]]).
Qed.

(** ** What holds at every step *)

Lemma rstep_dom lab r r' id : rstep lab r r' → is_Some (r' !! id) → is_Some (r !! id) ∨ lab = LCreate id.
Proof.
  destruct 1 as [r i|r i|r i ep m cs H|r i ep m H|r i ep m cs ip H _]; cbn.
  2: intros [v [_ Hv]%lookup_delete_Some]; eauto.
  all: intros [->|[_ Hv]]%lookup_insert_is_Some; eauto.
Qed.

Lemma allowed_dom op r r' id : rtc (allowed op) r r' → is_Some (r' !! id) →
  is_Some (r !! id) ∨ ∃ op', op = Some op' ∧ op_NetworkID op' = id.
Proof.
  induction 1 as [r|r1 r2 r3 (lab & Hp & Hst) _ IH]; [by left|]. intros [H| ?]%IH; [|by right].
  destruct (rstep_dom _ _ _ _ Hst H) as [?| ->]; [by left|right]. destruct op as [op'|]; [|done].
  exists op'. split; [done|]. cbn in Hp. destruct (operation_of _); try destruct Hp as [Hp|Hp]; by simplify_eq.
Qed.

(** A turn registers no network but that of the message it handles. *)
Lemma turn_networks s b s' w id :
  manager_turn s = (Ret b, s') → inv (set_ops (st_ops s ++ w) s) → is_Some (networks (st_d s') !! id) →
  is_Some (networks (st_d s) !! id) ∨ id ∈ op_NetworkID <$> take 1 (st_ops s).
Proof.
  assert (∀ s, is_Some (abs s !! id) ↔ is_Some (networks (st_d s) !! id)) as Habs.
  { intros s0. unfold abs. by rewrite lookup_fmap, fmap_is_Some. }
  intros H Hi Hid%Habs. eapply manager_turn_more in H as [_ Hr]; [|done].
  destruct (allowed_dom _ _ _ id Hr Hid) as [Hs%Habs|(op & Hop & <-)]; [by left|right].
  destruct (st_ops s); [done|]. injection Hop as ->. left.
Qed.

Lemma underway_turn asked todo w s b s' h :
  manager_turn s = (Ret b, s') → underway asked todo w s h →
  underway asked todo w s' (h ++ take 1 (st_ops s)).
Proof.
  intros H [(l & entries & Hl & Hp & Hids) Hc Hw Hi Hn].
  pose proof (manager_turn_more _ _ _ (option_list w) H Hi) as [Hi' _].
  assert ((h ++ take 1 (st_ops s)) ++ st_ops s' ++ option_list w = h ++ st_ops s ++ option_list w) as Heq.
  { destruct (manager_turn_counts _ _ _ H) as [(-> & -> & _)|(op & ops & -> & -> & _)];
      cbn; by rewrite <- ?app_assoc, ?app_nil_r. }
  split; rewrite ?Heq; [by exists l, entries|done| |done|].
  - intros Hd. apply Forall_app in Hd as [Hd Hop].
    destruct (manager_turn_counts _ _ _ H) as [(Hq & -> & ->)|(op & ops & Hq & -> & ->)];
      rewrite Hq in *; [by apply Hw|].
    apply Forall_inv in Hop. rewrite dones_counted by done.
    apply Forall_app in Hc as [_ Hc]. apply Forall_inv in Hc. rewrite Hc, Hw by done. cbn. lia.
  - intros id Hid. rewrite fmap_app. apply elem_of_app.
    destruct (turn_networks _ _ _ _ id H Hi Hid); auto.
Qed.

Lemma underway_restore asked id name todo s s' msg h :
  restore_network (id, name) tt (set_ops [] s) = (Ret tt, s') → st_ops s' = [msg] →
  underway asked ((id, name) :: todo) None s h →
  underway asked todo (Some msg) (set_ops (st_ops s) s') h.
Proof.
  intros H Hmsg [(l & entries & Hl & Hp & Hids) Hc Hw Hi Hn].
  pose proof (restore_network_msg id name (set_ops [] s)) as Hr. unfold wp in Hr. rewrite H in Hr.
  destruct Hr as (Hd & Hwg & msg' & Hq & Hid & Hcount). cbn in Hd, Hwg, Hq. rewrite Hq in Hmsg.
  injection Hmsg as ->. pose proof (request_more (QRestore id name) s (Ret tt) s' [] H Hi) as [Hi' _].
  rewrite Hq in Hi'. cbn [option_list] in *. rewrite app_nil_r in *. split; cbn [st_ops set_ops option_list].
  - exists l, entries. do 2 (split; [done|]). rewrite <- Hids. cbn [fmap list_fmap].
    by rewrite app_assoc, fmap_app, <- app_assoc; cbn; rewrite Hid.
  - rewrite app_assoc. apply Forall_app. split; [done|by constructor].
  - intros Hdown. cbn. rewrite Hwg, Hw by done. rewrite length_app. cbn. lia.
  - exact Hi'.
  - intros id'. cbn. rewrite Hd. apply Hn.
Qed.

Lemma startup_step_inv x y : startup_inv x → startup_step x y → startup_inv y.
Proof.
  intros Hi Hst. destruct Hst as [s s' entries h H|asked [id name] todo s s' msg h H Hmsg
    |asked todo msg s h _|r s b s' h H|r s s' h H]; unfold startup_inv in *;
    cbn [u_restoring u_state u_handled] in *.
  - destruct Hi as (Hq & Hw & Hi & Hn & ->). apply bind_Ret_inv in H as (m & s1 & (i & H1 & ->)%io_do_inv & H).
    apply io_do_inv in H as (i2 & H2 & ->). pose proof (range_perm _ _ _ _ H2) as Hperm.
    unfold mustGetNetworkList in H1. cbn in H1.
    destruct (env_reply (io_trace (st_io s)) CNetworkList) as [l|e] eqn:Hl; [|done].
    injection H1 as <- _. rewrite network_list_fold in Hperm. split; cbn; rewrite ?Hq.
    + by exists l, entries.
    + constructor.
    + by rewrite Hw.
    + destruct Hi as [Hs Hp]. rewrite Hq in Hs. by split.
    + rewrite Hn. by intros id [? ?].
  - by eapply underway_restore.
  - destruct Hi as [Hlist Hc Hw Hi Hn]. split; cbn [st_ops set_ops option_list] in *;
      rewrite ?app_nil_r; [done..|exact Hi|done].
  - destruct r as [|asked todo w]; [|by eapply underway_turn].
    destruct Hi as (Hq & Hw & Hi & Hn & ->).
    assert (inv (set_ops (st_ops s ++ []) s)) as Hi0 by (rewrite app_nil_r; by destruct s).
    pose proof (manager_turn_more _ _ _ [] H Hi0) as [Hi' _]. rewrite app_nil_r in Hi'.
    destruct (manager_turn_counts _ _ _ H) as [(_ & Hq' & Hw')|(op & ops & Hq' & _)]; [|congruence].
    rewrite Hq, Hq', Hw'. split_and!; [done..|by destruct s'| |done].
    apply map_empty. intros id. apply eq_None_not_Some. intros Hid.
    destruct (turn_networks _ _ _ _ id H Hi0 Hid) as [Hs|Hs]; [rewrite Hn in Hs; by destruct Hs|].
    rewrite Hq in Hs. by apply not_elem_of_nil in Hs.
  - apply notifier_turn_Ret in H as (i & notes & ->). destruct r as [|asked todo w].
    + destruct Hi as (? & ? & [Hs Hp] & ? & ?). split_and!; try done; by split.
    + destruct Hi as [Hlist Hc Hw [Hs Hp] Hn]. by split.
Qed.

(** NewDriver leaves a driver without networks, and nothing queued. *)
Lemma NewDriver_state f d s : NewDriver f (start d) = (Ret tt, s) →
  ∃ d' i, s = set_io i (start d') ∧ networks d' = ∅.
Proof.
  intros H. unfold NewDriver in H.
  apply bind_Ret_inv in H as ([] & s1 & (i1 & _ & ->)%io_do_inv & H). cbv zeta in H.
  apply bind_Ret_inv in H as ([] & s2 & Hcheck & H).
  assert (s2 = set_io i1 (start d)) as -> by (unfold when in Hcheck; case_match; [done|by injection Hcheck]).
  apply bind_Ret_inv in H as (auth & s3 & Hauth & H). injection Hauth as _ <-.
  apply bind_Ret_inv in H as ([] & s4 & (i4 & _ & ->)%io_do_inv & H).
  apply bind_Ret_inv in H as (engineId & s5 & (i5 & _ & ->)%io_do_inv & H).
  apply bind_Ret_inv in H as ([] & s6 & Hmod & H). injection Hmod as <-.
  apply bind_Ret_inv in H as ([] & s7 & (i7 & _ & ->)%io_do_inv & H).
  apply bind_Ret_inv in H as ([] & s8 & (i8 & _ & ->)%io_do_inv & H).
  apply bind_Ret_inv in H as (d' & s9 & Hd & H). injection Hd as _ <-.
  apply io_do_inv in H as (i10 & _ & ->). by exists (configured_driver f auth engineId), i10.
Qed.

(** C19: A start restores exactly dovesnap's networks.  Let the settings be accepted, and let
    restoreNetworks run beside the manager and the notifier, in any interleaving.  When it has
    gone through its list and comes to wait for the wait group, then docker had answered it
    with a list; there is one message for each network of the list with the dovesnap driver,
    and no other, already handled or still in the queue; all of them are counted; and only
    networks whose message was handled are registered.  When moreover no bridge was found
    down, the wait group counts the messages still in the queue, so that when the wait
    ends every network has been handled. *)
Theorem NewDriver_restores f d s0 x asked :
  NewDriver f (start d) = (Ret tt, s0) →
  rtc startup_step (mkU Listing s0 []) x → u_restoring x = Restoring asked [] None →
  let s := u_state x in let handled := u_handled x in
  ∃ l, env_reply asked CNetworkList = Ok l ∧
    sent_for l handled (st_ops s) ∧
    Forall (λ op, counted op = true) (handled ++ st_ops s) ∧
    (∀ id, is_Some (networks (st_d s) !! id) → id ∈ op_NetworkID <$> handled) ∧
    (no_down_ops handled → st_wg s = Z.of_nat (length (st_ops s)) ∧
      (st_wg s = 0%Z → ∀ net, net ∈ l → su_Driver net = DriverName → su_ID net ∈ op_NetworkID <$> handled)).
Proof.
  intros (d' & i & -> & Hd)%NewDriver_state Hr Hx s handled.
  assert (startup_inv x) as Hinv.
  { assert (startup_inv (mkU Listing (set_io i (start d')) [])) as H0.
    { pose proof (start_inv d' Hd). split_and!; try done. by apply inv_set_io. }
    clear Hx. induction Hr as [|x y z Hst _ IH]; [done|]. by eapply IH, startup_step_inv. }
  unfold startup_inv in Hinv. rewrite Hx in Hinv. fold s handled in Hinv.
  destruct Hinv as [(l & entries & Hl & Hp & Hids) Hc Hw _ Hn]. cbn [option_list fmap list_fmap] in *.
  rewrite !app_nil_r in *. exists l.
  assert (sent_for l handled (st_ops s)) as Hsent.
  { unfold sent_for. rewrite Hids. split; [rewrite Hp; apply NoDup_fst_map_to_list|].
    intros id. rewrite <- network_list_ids, list_elem_of_fmap. split.
    - intros ([id' name] & -> & Hin). rewrite Hp in Hin. apply elem_of_map_to_list in Hin. by eexists.
    - intros [name Hnm]. exists (id, name). by rewrite Hp, elem_of_map_to_list. }
  split_and!; [done..|]. intros Hdown. specialize (Hw Hdown). split; [done|]. intros H0 net Hin Hdrv.
  destruct (st_ops s) as [|op ops]; [|rewrite Hw in H0; cbn in H0; lia].
  destruct Hsent as [_ Hsent]. rewrite app_nil_r in Hsent. apply Hsent. eauto.
Qed.

End restoring_steps.

(** ** Settings that are refused *)

(** The mirror interface is not [datapath:port], or a status prefix does not parse. *)
Definition bad_flags (f : Flags) : Prop :=
  (flagStackMirrorInterface f ≠ "" ∧ length (Split (flagStackMirrorInterface f) ":") ≠ 2%nat) ∨
  Exists (λ p, ∃ e, ParseCIDR p = Err e) (Split (flagStatusAuthIPs f) ",").

Lemma parse_auth_ips_panic v l :
  foldl (λ acc authIP, l ← acc; ipnet ← must (ParseCIDR authIP); Ret (l ++ [ipnet])) (Panic v) l =
  Panic v.
Proof. by induction l. Qed.

Lemma parse_auth_ips_bad flag :
  Exists (λ p, ∃ e, ParseCIDR p = Err e) (Split flag ",") → ∃ v, parse_auth_ips flag = Panic v.
Proof.
  assert (∀ l acc, Exists (λ p, ∃ e, ParseCIDR p = Err e) l → ∃ v,
    foldl (λ acc authIP, l ← acc; ipnet ← must (ParseCIDR authIP); Ret (l ++ [ipnet])) (Ret acc) l =
    Panic v) as H; [|apply H].
  intros l acc Hex. revert acc. induction Hex as [p l [e Hp]|p l Hex IH]; intros acc; cbn [foldl].
  - exists e. rewrite Hp. apply parse_auth_ips_panic.
  - destruct (ParseCIDR p) as [n|e]; [apply IH|]. exists e. apply parse_auth_ips_panic.
Qed.

Lemma ensureDirExists_calls `{E : Env} dir i :
  wp (ensureDirExists dir) (λ o i', settled o ∧ ∃ calls, io_trace i' = io_trace i ++ calls ∧
    calls `prefix_of` [CStat dir; CMkdirAll dir]) i.
Proof.
  unfold ensureDirExists. apply wp_bind, wp_ext.
  destruct (env_reply _ _) as [t|e []].
  1, 3: apply wp_ret; split; [done|]; exists [CStat dir]; split; [done|]; by exists [CMkdirAll dir].
  apply wp_bind, wp_ext. unfold wp. cbn [fst snd]. destruct (env_reply _ _) as [e'|]; (split; [done|]);
    exists [CStat dir; CMkdirAll dir]; cbn; by rewrite <- app_assoc.
Qed.

(** C20: Bad settings are refused before anything is touched.  NewDriver panics on a mirror
    interface that is not a pair and on a status prefix that does not parse; by then it has
    at most made the directory of the network namespaces, and has asked neither docker nor
    Faucet nor Open vSwitch anything. *)
Theorem NewDriver_rejects `{E : Env} f s :
  bad_flags f →
  ∃ v i, NewDriver f s = (Panic v, set_io i s) ∧
    ∃ calls, io_trace i = io_trace (st_io s) ++ calls ∧
      calls `prefix_of` [CStat netNsPath; CMkdirAll netNsPath].
Proof.
  intros Hbad. unfold NewDriver. cbv zeta.
  pose proof (ensureDirExists_calls netNsPath (st_io s)) as Hdir. unfold wp in Hdir.
  destruct (ensureDirExists netNsPath (st_io s)) as [o i] eqn:Hens. cbn in Hdir.
  assert (io_do (ensureDirExists netNsPath) s = (o, set_io i s)) as Hio
    by (unfold io_do, zoom; by rewrite Hens).
  destruct Hdir as [Hset Hcalls]. destruct o as [[]|v| |]; try done.
  2: { exists v, i. split; [by apply bind_Panic|done]. }
  erewrite bind_Ret by exact Hio. destruct Hbad as [[Hne Hlen]|Hbad].
  - exists ("invalid stack mirror interface config: " +:+ flagStackMirrorInterface f), i.
    split; [|done]. rewrite (bool_decide_eq_false_2 _ Hlen).
    destruct (flagStackMirrorInterface f); [done|]. by apply bind_Panic.
  - destruct (parse_auth_ips_bad _ Hbad) as [v Hv]. rewrite Hv.
    destruct (_ && _); [eexists _, i; split; [by apply bind_Panic|done]|].
    exists v, i. split; [|done]. by erewrite bind_Ret by reflexivity.
Qed.

(** ** Concrete starts *)

Definition plain_flags (mirror auth : string) : Flags :=
  mkFlags "" "faucetconfrpc" 59999 "/certs" 3 "" "" mirror "" "" "" 9401 auth.

(** docker lists one network of dovesnap's and one of its own. *)
Definition one_to_restore : Env := scripted (mkScript
  (λ _ _ args, if bool_decide ("get" ∈ args) then ("7" +:+ String newline "", None) else ("", None))
  (sc_link quiet) (sc_addrs quiet) (sc_iptables quiet) (sc_rpc quiet) (λ _, Ok Lab.inspect)
  [mkNetSummary Lab.net_id "testnet" "dovesnap"; mkNetSummary "77aa77aa77" "bridge" "bridge"]
  (sc_container quiet) (sc_up quiet) (sc_stat quiet) (λ _, Ok "certificate")).

(** A start that restores it: docker lists the networks, the message is made, sent and
    handled. *)
Module Restart.
#[local] Existing Instance one_to_restore.
Definition s0 : state := (NewDriver (plain_flags "" "127.0.0.0/8") (start plain_driver)).2.
Definition s1 : state := (restoreNetworks_entries s0).2.
Definition s2 : state := (restore_network (Lab.net_id, "testnet") tt (set_ops [] s1)).2.
Definition msg : DovesnapOp := default (mkOp "" "" "" [] None) (head (st_ops s2)).
Definition s3 : state := set_ops (st_ops s1 ++ [msg]) (set_ops (st_ops s1) s2).
Definition s4 : state := (manager_turn s3).2.
Definition asked : list call := io_trace (st_io s0).
Definition last_ : ustate := mkU (Restoring asked [] None) s4 [msg].

Lemma runs : rtc startup_step (mkU Listing s0 []) last_.
Proof.
  eapply rtc_l.
  { apply (su_list s0 s1 [(Lab.net_id, "testnet")] []). vm_compute. reflexivity. }
  eapply rtc_l.
  { apply (su_restore _ (Lab.net_id, "testnet") [] s1 s2 msg []); vm_compute; reflexivity. }
  eapply rtc_l.
  { apply su_send. vm_compute. lia. }
  eapply rtc_l; [|apply rtc_refl].
  apply (su_turn _ s3 false s4 []). vm_compute. reflexivity.
Qed.

(** The network is registered at the end, and the wait is over. *)
Example restored : networks (st_d s4) !! Lab.net_id ≠ None ∧ st_wg s4 = 0%Z.
Proof. vm_compute. done. Qed.
End Restart.

Lemma NewDriver_restores_witness :
  ∃ l, sent_for l [Restart.msg] (st_ops Restart.s4) ∧
    (∀ net, net ∈ l → su_Driver net = DriverName → su_ID net ∈ op_NetworkID <$> [Restart.msg]).
Proof.
  destruct (NewDriver_restores (E := one_to_restore) (plain_flags "" "127.0.0.0/8") plain_driver
    Restart.s0 Restart.last_ Restart.asked) as (l & _ & Hs & _ & _ & Hw).
  - vm_compute. reflexivity.
  - exact Restart.runs.
  - reflexivity.
  - exists l. split; [exact Hs|]. apply Hw; [|vm_compute; reflexivity].
    constructor; [vm_compute; discriminate|constructor].
Defined.

Lemma NewDriver_rejects_witness :
  ∃ v i, NewDriver (E := one_to_restore) (plain_flags "sw1" "127.0.0.0/8") (start plain_driver) =
    (Panic v, set_io i (start plain_driver)).
Proof.
  destruct (NewDriver_rejects (E := one_to_restore) (plain_flags "sw1" "127.0.0.0/8") (start plain_driver))
    as (v & i & H & _); [left; split; vm_compute; discriminate|].
  exists v, i. exact H.
Defined.
