(* ===== verification/GoFlag.v ===== *)
(** * Command lines: package flag, and strconv.ParseInt

    The flag package as main.go uses it: a table of named values, and [Parse], which
    takes flags from the arguments until the first that is none and ends the process
    on an argument that it cannot read. *)
From S2P Require Import Prelude GoStrings GoFormat GoMonad.

(** ** strconv.ParseInt(s, 0, 64) *)

(** The letter in lower case. *)
Definition base_prefix (c : ascii) : option Z :=
  if decide (to_lower_char c = "b"%char) then Some 2%Z
  else if decide (to_lower_char c = "o"%char) then Some 8%Z
  else if decide (to_lower_char c = "x"%char) then Some 16%Z
  else None.

(** The base of a number, and its digits after the prefix. *)
Definition number_base (l : list ascii) : Z * list ascii :=
  match l with
  | c :: rest =>
      if decide (c = "0"%char) then
        match rest with
        | p :: ((_ :: _) as ds) =>
            match base_prefix p with Some b => (b, ds) | None => (8%Z, rest) end
        | _ => (8%Z, rest)
        end
      else (10%Z, l)
  | [] => (10%Z, l)
  end.

(** A digit of any base up to 36. *)
Definition any_digit (c : ascii) : option Z :=
  match char_digit c with
  | Some d => Some d
  | None =>
      if ascii_in 97 122 (to_lower_char c)
      then Some (byte_of (to_lower_char c) - 97 + 10)%Z else None
  end.

(** The digits of a number below [2 ^ 64]; underscores are skipped. *)
Fixpoint base_digits (base acc : Z) (l : list ascii) : option Z :=
  match l with
  | [] => Some acc
  | c :: l' =>
      if decide (c = "_"%char) then base_digits base acc l'
      else
        d ← any_digit c;
        if (base <=? d)%Z then None
        else if (u64_max <? acc * base + d)%Z then None
        else base_digits base (acc * base + d) l'
  end.

(** [underscoreOK]: an underscore stands between digits, or after the base prefix.
    [saw] says whether the last character was a digit, an underscore, or neither. *)
Inductive seen := SawStart | SawDigit | SawUnderscore | SawOther.

Fixpoint underscores_ok (hex : bool) (saw : seen) (l : list ascii) : bool :=
  match l with
  | [] => match saw with SawUnderscore => false | _ => true end
  | c :: l' =>
      if is_digit c || (hex && ascii_in 97 102 (to_lower_char c))
      then underscores_ok hex SawDigit l'
      else if decide (c = "_"%char) then
        match saw with SawDigit => underscores_ok hex SawUnderscore l' | _ => false end
      else match saw with
           | SawUnderscore => false
           | _ => underscores_ok hex SawOther l'
           end
  end.

Definition underscoreOK (l : list ascii) : bool :=
  match l with
  | c :: p :: ds =>
      if decide (c = "0"%char) then
        match base_prefix p with
        | Some b => underscores_ok (b =? 16)%Z SawDigit ds
        | None => underscores_ok false SawStart l
        end
      else underscores_ok false SawStart l
  | _ => underscores_ok false SawStart l
  end.

(** [strconv.ParseUint(s, 0, 64)] *)
Definition ParseUint0 (l : list ascii) : option Z :=
  match l with
  | [] => None
  | _ =>
      let '(base, ds) := number_base l in
      n ← base_digits base 0 ds;
      if bool_decide ("_"%char ∈ ds) && negb (underscoreOK l) then None else Some n
  end.

(** [strconv.ParseInt(s, 0, 64)]; every error is the same to the caller. *)
Definition ParseInt0 (s : string) : option Z :=
  let '(neg, l) :=
    match chars s with
    | c :: l =>
        if decide (c = "+"%char) then (false, l)
        else if decide (c = "-"%char) then (true, l)
        else (false, chars s)
    | [] => (false, [])
    end in
  un ← ParseUint0 l;
  if (neg : bool) then if (2 ^ 63 <? un)%Z then None else Some (- un)%Z
  else if (2 ^ 63 <=? un)%Z then None else Some un.

Example ParseInt0_texts :
  map ParseInt0 ["59999"; "-1"; "+7"; "0x1F"; "017"; "0b101"; "1_000"; "1__0"; "_1"; "0x_f"; "09"; "";
    "9223372036854775807"; "9223372036854775808"; "-9223372036854775808"; "0"; "12a"] =
  [Some 59999; Some (-1); Some 7; Some 31; Some 15; Some 5; Some 1000; None; None; Some 15; None; None;
   Some 9223372036854775807; None; Some (-9223372036854775808); Some 0; None]%Z.
Proof. vm_compute. reflexivity. Qed.

(** ** Flags *)

(** A [flag.Value]. *)
Inductive fvalue :=
  | FBool (b : bool)
  | FInt (n : Z)
  | FString (s : string).

#[export] Instance fvalue_eq_dec : EqDecision fvalue.
Proof. solve_decision. Defined.

Definition IsBoolFlag (v : fvalue) : bool := match v with FBool _ => true | _ => false end.

(** [Value.Set]: the value keeps its kind. *)
Definition fvalue_Set (v : fvalue) (s : string) : option fvalue :=
  match v with
  | FBool _ => match ParseBool s with Ok b => Some (FBool b) | Err _ => None end
  | FInt _ => FInt <$> ParseInt0 s
  | FString _ => Some (FString s)
  end.

(** What one call of [parseOne] finds: no further flag, a flag, a call for help, or
    an argument that it cannot read. *)
Inductive parse_one :=
  | POne (formal : gmap string fvalue) (args : list string)
  | PDone (args : list string)
  | PHelp
  | PFail.

(** The name of a flag and, after the first equals sign, its value. *)
Definition split_value (name : list ascii) : string * option string :=
  match name with
  | c :: l =>
      let '(w, rest) := list_span (λ c, bool_decide (c ≠ "="%char)) l in
      (of_chars (c :: w), match rest with [] => None | _ :: v => Some (of_chars v) end)
  | [] => ("", None)
  end.

(** A flag, with the value of its own argument or of the next one. *)
Definition set_flag (formal : gmap string fvalue) (name : string) (value : option string)
    (args : list string) : parse_one :=
  match formal !! name with
  | None => if decide (name = "help" ∨ name = "h") then PHelp else PFail
  | Some v =>
      let set s args :=
        match fvalue_Set v s with Some v' => POne (<[name := v']> formal) args | None => PFail end in
      if IsBoolFlag v then set (default "true" value) args
      else match value, args with
           | Some s, _ => set s args
           | None, s :: args' => set s args'
           | None, [] => PFail
           end
  end.

Definition parseOne (formal : gmap string fvalue) (args : list string) : parse_one :=
  match args with
  | [] => PDone []
  | s :: rest =>
      match chars s with
      | d1 :: ((d2 :: l) as name) =>
          if decide (d1 = "-"%char) then
            if decide (d2 = "-"%char ∧ l = []) then PDone rest
            else
              let name := if decide (d2 = "-"%char) then l else name in
              match name with
              | [] => PFail
              | c :: _ =>
                  if decide (c = "-"%char ∨ c = "="%char) then PFail
                  else let '(n, value) := split_value name in set_flag formal n value rest
              end
          else PDone args
      | _ => PDone args
      end
  end.

(** [CommandLine.Parse]: the values and the arguments that are left, or the status the
    process ends with.  Every flag takes an argument, so one more than their number is
    enough fuel. *)
Fixpoint parse_flags (fuel : nat) (formal : gmap string fvalue) (args : list string) :
    option (Z + gmap string fvalue * list string) :=
  match fuel with
  | O => None
  | S fuel' =>
      match parseOne formal args with
      | POne formal' args' => parse_flags fuel' formal' args'
      | PDone rest => Some (inr (formal, rest))
      | PHelp => Some (inl 0%Z)
      | PFail => Some (inl 2%Z)
      end
  end.

Definition Parse (formal : gmap string fvalue) (args : list string) :
    option (Z + gmap string fvalue * list string) :=
  parse_flags (S (length args)) formal args.

(** ** Lemmas: numbers *)

Section numbers.
Local Open Scope Z_scope.

(** A numeral does not start with a zero. *)
Lemma to_digits_leading b fuel n acc : 2 ≤ b → 0 < n < b ^ Z.of_nat fuel →
  ∃ d ds, to_digits fuel b n acc = d :: ds ∧ 0 < d < b.
Proof.
  intros Hb. revert n acc. induction fuel as [|f IH]; intros n acc Hn; [cbn in Hn; lia|].
  cbn [to_digits]. rewrite (proj2 (Z.ltb_lt 0 n)) by lia.
  rewrite Nat2Z.inj_succ, Z.pow_succ_r in Hn by lia.
  assert (n < b ∨ b ≤ n) as [Hlt|Hge] by lia.
  - rewrite (Z.div_small n b), (Z.mod_small n b) by lia. exists n, acc. split; [by destruct f|lia].
  - apply IH. split; [apply Z.div_str_pos; lia|]. apply Z.div_lt_upper_bound; lia.
Qed.

Lemma digit_char_zero d : 0 < d < 10 → digit_char d ≠ "0"%char.
Proof.
  intros Hd. assert (d ∈ seqZ 1 9) as Hin by (apply elem_of_seqZ; lia).
  assert (Forall (λ d, digit_char d ≠ "0"%char) (seqZ 1 9)) as HF by decide_now.
  by eapply Forall_forall in HF.
Qed.

Lemma base_digits_parse all s acc v :
  parse_digits all u64_max acc s = Ok v → base_digits 10 acc (chars s) = Some v.
Proof.
  revert acc. induction s as [|c s IH]; intros acc; [by intros [= <-]|].
  cbn [parse_digits chars String.list_ascii_of_string base_digits].
  destruct (char_digit c) as [d|] eqn:Hd; [|done].
  pose proof (char_digit_bounds c d Hd) as Hb. intros H.
  rewrite decide_False by (intros ->; discriminate Hd).
  unfold any_digit. rewrite Hd. cbn [bind option_seq]. rewrite (proj2 (Z.leb_gt 10 d)) by lia.
  destruct (u64_max <? acc * 10 + d); [done|]. by apply IH.
Qed.

Lemma number_base_itoa n : 0 < n → number_base (chars (itoa n)) = (10, chars (itoa n)).
Proof.
  intros Hn. unfold itoa. rewrite (proj2 (Z.eqb_neq n 0)), (proj2 (Z.ltb_ge n 0)) by lia.
  destruct (to_digits_leading 10 (digits_fuel n) n []) as (d & ds & -> & Hd); [lia|split; [lia|]|].
  { apply pow_digits_fuel; lia. }
  unfold digits_string. rewrite chars_of_chars. cbn [map number_base].
  by rewrite decide_False by by apply digit_char_zero.
Qed.

Lemma ParseUint0_itoa n : 0 ≤ n ≤ u64_max → ParseUint0 (chars (itoa n)) = Some n.
Proof.
  intros Hn. destruct (decide (n = 0)) as [->|Hz]; [reflexivity|].
  unfold ParseUint0. rewrite number_base_itoa by lia.
  pose proof (ParseUint_itoa n u64_max Hn) as Hp. pose proof (itoa_free n "_" ltac:(lia) eq_refl) as Hu.
  destruct (itoa n) as [|c s] eqn:E; [discriminate Hp|]. rewrite ParseUint_cons in Hp.
  rewrite (base_digits_parse _ _ _ _ Hp), (bool_decide_eq_false_2 _ Hu). by cbn.
Qed.

(** A number of 64 bits is read back from its text. *)
Lemma ParseInt0_itoa n : - 2 ^ 63 ≤ n < 2 ^ 63 → ParseInt0 (itoa n) = Some n.
Proof.
  intros Hn. destruct (decide (n < 0)) as [Hneg|Hpos].
  - assert (itoa n = String "-" (itoa (- n))) as ->.
    { unfold itoa. rewrite (proj2 (Z.eqb_neq n 0)), (proj2 (Z.ltb_lt n 0)) by lia.
      rewrite (proj2 (Z.eqb_neq (- n) 0)), (proj2 (Z.ltb_ge (- n) 0)) by lia. done. }
    unfold ParseInt0. cbn [chars String.list_ascii_of_string]. rewrite decide_False, decide_True by done.
    fold (chars (itoa (- n))). rewrite ParseUint0_itoa by (unfold u64_max; lia). cbn [bind option_seq].
    rewrite (proj2 (Z.ltb_ge (2 ^ 63) (- n))) by lia. f_equal. lia.
  - unfold ParseInt0. pose proof (ParseUint0_itoa n ltac:(unfold u64_max; lia)) as Hp.
    assert (Forall (λ c, is_digit c = true) (chars (itoa n))) as Hd.
    { apply Forall_forall. intros c Hc. eapply itoa_chars; [|done]. lia. }
    destruct (chars (itoa n)) as [|c l] eqn:E; [discriminate Hp|]. apply Forall_inv in Hd.
    rewrite !decide_False by (intros ->; discriminate Hd). rewrite Hp. cbn [bind option_seq].
    by rewrite (proj2 (Z.leb_gt (2 ^ 63) n)) by lia.
Qed.
End numbers.

(** ** Lemmas: flags *)

Lemma parseOne_shorter formal args formal' args' :
  parseOne formal args = POne formal' args' → (length args' < length args)%nat.
Proof.
  destruct args as [|s rest]; [done|]. cbn [parseOne length].
  assert (∀ n v, set_flag formal n v rest = POne formal' args' → (length args' < S (length rest))%nat) as Hset.
  { intros n v. unfold set_flag. destruct (formal !! n) as [f|]; [|by case_decide].
    destruct (IsBoolFlag f); [|destruct v as [v|]; [|destruct rest as [|s' rest]]];
      try done; (destruct (fvalue_Set _ _); [|done]); intros [= _ <-]; cbn; lia. }
  repeat case_match; try done; apply Hset.
Qed.

(** Parsing ends: the fuel is enough. *)
Lemma parse_flags_total fuel formal args :
  (length args < fuel)%nat → is_Some (parse_flags fuel formal args).
Proof.
  revert formal args. induction fuel as [|fuel IH]; intros formal args Hf; [lia|]. cbn [parse_flags].
  destruct (parseOne formal args) as [formal' args'| | |] eqn:Hp; eauto.
  apply parseOne_shorter in Hp. apply IH. lia.
Qed.

Lemma parse_flags_mono fuel fuel' formal args r :
  parse_flags fuel formal args = Some r → (fuel ≤ fuel')%nat → parse_flags fuel' formal args = Some r.
Proof.
  revert fuel' formal args. induction fuel as [|fuel IH]; intros [|fuel'] formal args Hr Hf;
    [done|done|lia|]. cbn [parse_flags] in *. destruct (parseOne formal args); auto with lia.
Qed.

(** The text of a flag: [-name=value]. *)
Definition fvalue_text (v : fvalue) : string :=
  match v with
  | FBool b => if b then "true" else "false"
  | FInt n => itoa n
  | FString s => s
  end.
Definition flag_text (nv : string * fvalue) : string := "-" +:+ nv.1 +:+ "=" +:+ fvalue_text nv.2.

Definition same_kind (v w : fvalue) : bool :=
  match v, w with
  | FBool _, FBool _ | FString _, FString _ => true
  | FInt _, FInt n => bool_decide (- 2 ^ 63 ≤ n < 2 ^ 63)%Z
  | _, _ => false
  end.

Definition flag_name (s : string) : bool :=
  match chars s with
  | c :: _ => bool_decide (c ≠ "-"%char) && bool_decide ("="%char ∉ chars s)
  | [] => false
  end.

Lemma fvalue_Set_text v w : same_kind v w = true → fvalue_Set v (fvalue_text w) = Some w.
Proof.
  destruct v, w; try done; cbn; [by destruct b0|]. intros H%bool_decide_eq_true.
  by rewrite ParseInt0_itoa.
Qed.

Lemma split_value_text name v : flag_name name = true →
  split_value (chars (name +:+ "=" +:+ v)) = (name, Some v).
Proof.
  unfold flag_name, split_value. intros H. rewrite chars_app.
  destruct name as [|c s]; [done|]. cbn [chars String.list_ascii_of_string app] in *.
  apply andb_prop in H as [_ H%bool_decide_eq_true].
  rewrite (list_span_app _ (String.list_ascii_of_string s) "="%char (chars v)).
  - fold (chars s). cbn [of_chars String.string_of_list_ascii].
    by rewrite !of_chars_chars || (fold (of_chars (chars s)) (of_chars (chars v)); by rewrite !of_chars_chars).
  - apply Forall_forall. intros x Hx. apply bool_decide_eq_true. intros ->. apply H. by right.
  - by apply bool_decide_eq_false_2; intros [].
Qed.

(** The argument [-name=text]. *)
Lemma parseOne_flag formal name text rest : flag_name name = true →
  parseOne formal (("-" +:+ name +:+ "=" +:+ text) :: rest) = set_flag formal name (Some text) rest.
Proof.
  intros Hn. cbn [parseOne]. pose proof (split_value_text name text Hn) as Hs.
  change (chars ("-" +:+ ?x)) with ("-"%char :: chars x).
  unfold flag_name in Hn. destruct name as [|c s]; [done|].
  cbn [chars String.list_ascii_of_string] in Hn. apply andb_prop in Hn as [Hc Hfree].
  apply bool_decide_eq_true in Hc, Hfree.
  change (chars (String c s +:+ ?x)) with (c :: chars (s +:+ x)) in *. cbn beta iota.
  rewrite decide_True by done. rewrite decide_False by (by intros [? _]).
  rewrite decide_False by done. rewrite decide_False by (intros [->| ->]; [done|apply Hfree; left]).
  by rewrite Hs.
Qed.

Lemma parseOne_text formal name v w rest :
  flag_name name = true → formal !! name = Some v → same_kind v w = true →
  parseOne formal (flag_text (name, w) :: rest) = POne (<[name := w]> formal) rest.
Proof.
  intros Hn Hv Hk. unfold flag_text. cbn [fst snd]. rewrite parseOne_flag by done.
  unfold set_flag. rewrite Hv. cbn [default from_option id].
  rewrite fvalue_Set_text by done. by destruct (IsBoolFlag v).
Qed.

(** An argument at which the flags end. *)
Definition no_flag (args : list string) : bool :=
  match args with
  | [] => true
  | s :: _ => match chars s with d :: _ :: _ => bool_decide (d ≠ "-"%char) | _ => true end
  end.

Lemma parseOne_no_flag formal args : no_flag args = true → parseOne formal args = PDone args.
Proof.
  destruct args as [|s rest]; [done|]. cbn [parseOne no_flag]. destruct (chars s) as [|d1 [|d2 l]]; try done.
  intros H%bool_decide_eq_true. by rewrite decide_False.
Qed.

(** The values that a list of settings leaves. *)
Definition settle (formal : gmap string fvalue) (l : list (string * fvalue)) : gmap string fvalue :=
  foldl (λ m nv, <[nv.1 := nv.2]> m) formal l.

Definition fits (formal : gmap string fvalue) (nv : string * fvalue) : Prop :=
  flag_name nv.1 = true ∧ ∃ v, formal !! nv.1 = Some v ∧ same_kind v nv.2 = true.

Lemma same_kind_trans u v w : same_kind u v = true → same_kind u w = true → same_kind v w = true.
Proof. by destruct u, v, w. Qed.

Lemma fits_insert formal nv nv' : fits formal nv → fits formal nv' → fits (<[nv.1 := nv.2]> formal) nv'.
Proof.
  intros [Hn (v & Hv & Hk)] [Hn' (v' & Hv' & Hk')]. split; [done|].
  destruct (decide (nv.1 = nv'.1)) as [Heq|Hne].
  - exists nv.2. rewrite Heq, lookup_insert_eq. split; [done|]. simplify_map_eq.
    eapply same_kind_trans; [|done]. by rewrite Heq in Hv; simplify_eq.
  - exists v'. by rewrite lookup_insert_ne.
Qed.

Lemma parse_flags_S fuel formal args :
  parse_flags (S fuel) formal args =
  match parseOne formal args with
  | POne formal' args' => parse_flags fuel formal' args'
  | PDone rest => Some (inr (formal, rest))
  | PHelp => Some (inl 0%Z)
  | PFail => Some (inl 2%Z)
  end.
Proof. done. Qed.

(** Settings that are written out as flags are read, and parsing goes on with the rest. *)
Lemma parse_flags_settings formal l rest fuel :
  Forall (fits formal) l →
  parse_flags (length l + fuel) formal (map flag_text l ++ rest) = parse_flags fuel (settle formal l) rest.
Proof.
  revert formal. induction l as [|[name w] l IH]; intros formal HF; [done|].
  apply Forall_cons in HF as [Hf HF]. pose proof Hf as [Hn (v & Hv & Hk)]. cbn [fst snd] in *.
  cbn [map app length Nat.add]. rewrite parse_flags_S, (parseOne_text _ _ v) by done.
  rewrite IH; [done|]. eapply Forall_impl; [exact HF|]. intros nv'. by apply (fits_insert formal (name, w)).
Qed.

Lemma Parse_settings formal l rest r :
  Forall (fits formal) l → parse_flags 1 (settle formal l) rest = Some r →
  Parse formal (map flag_text l ++ rest) = Some r.
Proof.
  intros HF Hr. unfold Parse. eapply (parse_flags_mono (length l + 1)).
  - by rewrite parse_flags_settings.
  - rewrite length_app, length_map. lia.
Qed.

(** Settings keep the kinds of the flags. *)
Lemma settle_kind formal l name : Forall (fits formal) l →
  match settle formal l !! name, formal !! name with
  | Some v', Some v => ∀ s, fvalue_Set v' s = fvalue_Set v s
  | None, None => True
  | _, _ => False
  end.
Proof.
  revert formal. induction l as [|[n w] l IH]; intros formal HF.
  { cbn. by destruct (formal !! name). }
  apply Forall_cons in HF as [Hf HF]. pose proof Hf as [_ (v & Hv & Hk)]. cbn [fst snd] in *.
  assert (Forall (fits (<[n := w]> formal)) l) as HF'.
  { eapply Forall_impl; [exact HF|]. intros nv'. by apply (fits_insert formal (n, w)). }
  specialize (IH (<[n := w]> formal) HF'). cbn [settle foldl fst snd] in *.
  fold (settle (<[n := w]> formal) l). destruct (decide (n = name)) as [->|Hne].
  - rewrite lookup_insert_eq in IH. rewrite Hv.
    destruct (settle _ l !! name); [|done]. intros s. rewrite IH. by destruct v, w.
  - by rewrite lookup_insert_ne in IH.
Qed.
