(* ===== verification/Main.v ===== *)
(** * The program: main.go

    main reads the command line, starts the driver, serves docker's requests, and on
    SIGTERM lets the resource manager finish what is queued before it ends. *)
From S2P Require Import Prelude GoStrings GoFormat GoMonad World Scenario Utils OvsDb OvsPort Types Config Iptables Faucet Docker OvsBridge Driver Handlers Json Manager Web Registry Startup GoFlag.

(** ** Flags *)

(** The flags with their defaults, in the order of their definition. *)
Definition defined_flags : list (string * fvalue) :=
  [("trace", FBool false); ("debug", FBool false);
   ("faucetconfrpc_client", FString "faucetconfrpc"); ("faucetconfrpc_addr", FString "localhost");
   ("faucetconfrpc_port", FInt 59999); ("faucetconfrpc_keydir", FString "/faucetconfrpc");
   ("faucetconfrpc_connretries", FInt 5); ("stacking_interfaces", FString "");
   ("stack_priority1", FString ""); ("stack_mirror_interface", FString "");
   ("default_ofcontrollers", FString ""); ("mirror_bridge_in", FString "");
   ("mirror_bridge_out", FString ""); ("status_port", FInt 9401);
   ("status_auth_ips", FString "127.0.0.0/8,::1/128")].

Definition formal : gmap string fvalue := list_to_map defined_flags.

(** The variables that the flags are read into. *)
Definition get_bool (m : gmap string fvalue) (name : string) : bool :=
  match m !! name with Some (FBool b) => b | _ => false end.
Definition get_int (m : gmap string fvalue) (name : string) : Z :=
  match m !! name with Some (FInt n) => n | _ => 0%Z end.
Definition get_string (m : gmap string fvalue) (name : string) : string :=
  match m !! name with Some (FString s) => s | _ => "" end.

Inductive level := InfoLevel | DebugLevel | TraceLevel.

Definition log_level (m : gmap string fvalue) : level :=
  if get_bool m "trace" then TraceLevel
  else if get_bool m "debug" then DebugLevel
  else InfoLevel.

(** The arguments of NewDriver. *)
Definition NewDriver_args (m : gmap string fvalue) : Flags := {|
  flagFaucetconfrpcClientName := get_string m "faucetconfrpc_client";
  flagFaucetconfrpcServerName := get_string m "faucetconfrpc_addr";
  flagFaucetconfrpcServerPort := get_int m "faucetconfrpc_port";
  flagFaucetconfrpcKeydir := get_string m "faucetconfrpc_keydir";
  flagFaucetconfrpcConnRetries := get_int m "faucetconfrpc_connretries";
  flagStackPriority1 := get_string m "stack_priority1";
  flagStackingInterfaces := get_string m "stacking_interfaces";
  flagStackMirrorInterface := get_string m "stack_mirror_interface";
  flagDefaultControllers := get_string m "default_ofcontrollers";
  flagMirrorBridgeIn := get_string m "mirror_bridge_in";
  flagMirrorBridgeOut := get_string m "mirror_bridge_out";
  flagStatusServerPort := get_int m "status_port";
  flagStatusAuthIPs := get_string m "status_auth_ips";
|}.

(** ** The process *)

(** The process has ended with a status, or goes on. *)
Inductive ending := Exited (status : Z) | Running.

Section main.
Context `{E : Env}.

(** main up to the start of the resource manager in NewDriver; what NewDriver does beside the
    manager is [startup_step]. *)
Definition main_start (args : list string) : D ending :=
  match Parse formal args with
  | Some (inr (m, _)) => NewDriver (NewDriver_args m);; ret Running
  | Some (inl status) => ret (Exited status)
  | None => block
  end.

(** The goroutine that serves docker's requests: it is not meant to return. *)
Definition main_serve : IO ending :=
  ext (CServeUnix DriverName);;
  ret (Exited 1).

(** resourceManager, for at most the given number of turns: whether it returned. *)
Fixpoint resourceManager (turns : nat) : D bool :=
  match turns with
  | O => ret false
  | S turns' =>
      quit ← manager_turn;
      if (quit : bool) then ret true else resourceManager turns'
  end.

(** main from the signal on: Quit waits for the manager, which takes its turns. *)
Definition main_signal (turns : nat) : D ending :=
  Quit_send;;
  finished ← resourceManager turns;
  if (finished : bool) then ret (Exited 0) else block.
End main.

(** ** The command line *)

Definition int64 (n : Z) : Prop := (- 2 ^ 63 ≤ n < 2 ^ 63)%Z.

(** The settings of the driver, one flag for each. *)
Definition flag_values (f : Flags) : list (string * fvalue) :=
  [("faucetconfrpc_client", FString (flagFaucetconfrpcClientName f));
   ("faucetconfrpc_addr", FString (flagFaucetconfrpcServerName f));
   ("faucetconfrpc_port", FInt (flagFaucetconfrpcServerPort f));
   ("faucetconfrpc_keydir", FString (flagFaucetconfrpcKeydir f));
   ("faucetconfrpc_connretries", FInt (flagFaucetconfrpcConnRetries f));
   ("stack_priority1", FString (flagStackPriority1 f));
   ("stacking_interfaces", FString (flagStackingInterfaces f));
   ("stack_mirror_interface", FString (flagStackMirrorInterface f));
   ("default_ofcontrollers", FString (flagDefaultControllers f));
   ("mirror_bridge_in", FString (flagMirrorBridgeIn f));
   ("mirror_bridge_out", FString (flagMirrorBridgeOut f));
   ("status_port", FInt (flagStatusServerPort f));
   ("status_auth_ips", FString (flagStatusAuthIPs f))].

Lemma fits_flag_values f :
  int64 (flagFaucetconfrpcServerPort f) → int64 (flagFaucetconfrpcConnRetries f) →
  int64 (flagStatusServerPort f) → Forall (fits formal) (flag_values f).
Proof.
  intros H1 H2 H3. unfold flag_values.
  repeat (apply Forall_cons_2; [split; [done|eexists; split; [vm_compute; reflexivity|]];
    first [done | by apply bool_decide_eq_true]|]).
  constructor.
Qed.

Section command_line.
Context `{E : Env}.

(** C21: Every configuration of the driver can be given on the command line.  Written out as
    flags, one for each setting, in front of any arguments that are no flags, it reaches
    NewDriver exactly as it was written, whatever characters its texts have. *)
Theorem main_command_line f rest s :
  int64 (flagFaucetconfrpcServerPort f) → int64 (flagFaucetconfrpcConnRetries f) →
  int64 (flagStatusServerPort f) → no_flag rest = true →
  main_start (map flag_text (flag_values f) ++ rest) s = (NewDriver f;; ret Running) s.
Proof.
  intros H1 H2 H3 Hr. unfold main_start.
  rewrite (Parse_settings _ _ _ (inr (settle formal (flag_values f), rest))).
  - replace (NewDriver_args (settle formal (flag_values f))) with f; [done|].
    destruct f. vm_compute. reflexivity.
  - by apply fits_flag_values.
  - cbn [parse_flags]. by rewrite parseOne_no_flag.
Qed.

(** An argument [-name=text] that names no flag, or whose text is no value of its flag. *)
Definition bad_argument (arg : string) : Prop :=
  ∃ name text, arg = "-" +:+ name +:+ "=" +:+ text ∧ flag_name name = true ∧
    match formal !! name with
    | None => name ≠ "help" ∧ name ≠ "h"
    | Some v => fvalue_Set v text = None
    end.

(** C22: A bad argument ends the program before it does anything.  After any settings, an
    argument that names no flag or does not fit its flag makes the process exit with status 2:
    no directory is made and neither docker, Faucet nor Open vSwitch is asked anything. *)
Theorem main_refuses l arg rest s :
  Forall (fits formal) l → bad_argument arg →
  main_start (map flag_text l ++ arg :: rest) s = (Ret (Exited 2), s).
Proof.
  intros HF (name & text & -> & Hn & Hbad). unfold main_start.
  rewrite (Parse_settings _ _ _ (inl 2%Z)); [done|done|].
  cbn [parse_flags]. rewrite parseOne_flag by done. unfold set_flag.
  pose proof (settle_kind formal l name HF) as Hk.
  destruct (settle formal l !! name) as [v'|], (formal !! name) as [v|]; try done.
  - rewrite Hk. cbn. rewrite Hk, Hbad. by destruct (IsBoolFlag v').
  - by rewrite decide_False by tauto.
Qed.
End command_line.

(** ** The end *)

Section quit.
Context `{E : Env}.

(** Messages of docker's ordinary life, and those that are waited for. *)
Definition ordinary (op : DovesnapOp) : bool :=
  match operation_of (op_Operation op) with
  | OCreate | OJoin | OLeave | OReservePort | OGetNetwork | OUnknown => true
  | _ => false
  end.
Definition waited (op : DovesnapOp) : bool :=
  match operation_of (op_Operation op) with OLeave | OGetNetwork => true | _ => false end.

(** A queue that can be worked off: its creations are counted in the wait group, and every
    message that is waited for has a channel of its own with room for the answer. *)
Record served (l : list DovesnapOp) (s : state) : Prop := {
  served_ordinary : Forall (λ op, ordinary op = true) l;
  served_counted :
    (Z.of_nat (length (filter (λ op, operation_of (op_Operation op) = OCreate) l)) ≤ st_wg s)%Z;
  served_room : Forall (λ op, waited op = true → answerable op s) l;
  served_apart : NoDup (omap awaits l);
}.

Lemma served_ready op l s : served (op :: l) s → ready op s.
Proof.
  intros [Ho Hc Hr _]. apply Forall_inv in Ho, Hr. unfold ready, ordinary, waited in *.
  rewrite filter_cons in Hc. destruct (operation_of (op_Operation op)) eqn:Eop; try done; auto.
  rewrite decide_True in Hc by done. cbn [length] in Hc. lia.
Qed.

(** A message's turn leaves the rest of the queue as it was for the messages behind it. *)
Lemma served_spends op l s s' : served (op :: l) s → spends op s s' → served l s'.
Proof.
  intros [Ho Hc Hr Ha] (Hw & _ & Hrep). apply Forall_cons in Ho as [_ Ho], Hr as [_ Hr]. split; [done| | |].
  - rewrite Hw. rewrite filter_cons in Hc. case_decide; cbn [length] in Hc; lia.
  - apply Forall_forall. intros op' Hin Hop. rewrite Forall_forall in Hr.
    destruct (Hr op' Hin Hop) as (c & buf & Hc' & Hb & Hl). exists c, buf. split_and!; [done| |done].
    rewrite Hrep; [done|]. intros Heq. cbn [omap list_omap] in Ha. rewrite Heq in Ha.
    apply NoDup_cons in Ha as [Ha _]. apply Ha, list_elem_of_omap. exists op'. split; [done|].
    revert Hop. unfold awaits, waited. destruct (operation_of (op_Operation op')); try done.
  - cbn [omap list_omap] in Ha. destruct (awaits op); [by apply NoDup_cons in Ha as [_ Ha]|done].
Qed.

Lemma ordinary_not_quit op :
  ordinary op = true → bool_decide (operation_of (op_Operation op) = OQuit) = false.
Proof. unfold ordinary. by destruct (operation_of _). Qed.

(** The manager works off its queue and returns at the quit message. *)
Lemma resourceManager_drains l quit s :
  operation_of (op_Operation quit) = OQuit → st_ops s = l ++ [quit] → served l s →
  ∃ s', resourceManager (S (length l)) s = (Ret true, s') ∧ st_ops s' = [].
Proof.
  intros Hquit. revert s. induction l as [|op l IH]; intros s Hs Hl.
  - exists (set_ops [] s). split; [|done]. cbn [resourceManager length]. unfold manager_turn.
    erewrite bind_Ret; cycle 1.
    { erewrite bind_Ret by reflexivity. rewrite Hs. cbn [app]. erewrite bind_Ret by reflexivity.
      unfold handle_op. rewrite Hquit. reflexivity. }
    reflexivity.
  - assert (served (op :: l) (set_ops (l ++ [quit]) s)) as Hl' by by destruct Hl.
    destruct (handle_op_ready op _ (served_ready _ _ _ Hl')) as (s1 & Hrun & Hsp).
    rewrite ordinary_not_quit in Hrun by (destruct Hl as [Ho _ _ _]; by apply Forall_inv in Ho).
    destruct (IH s1) as (s' & Hs' & Hq); [by destruct Hsp as (_ & -> & _)|by eapply served_spends|].
    exists s'. split; [|done]. change (resourceManager (S (length (op :: l)))) with
      (quit ← manager_turn; if (quit : bool) then ret true else resourceManager (S (length l))).
    erewrite bind_Ret; cycle 1.
    { unfold manager_turn. erewrite bind_Ret by reflexivity. rewrite Hs. cbn [app].
      erewrite bind_Ret by reflexivity. exact Hrun. }
    exact Hs'.
Qed.

(** C12: A signal ends the program in order.  On SIGTERM, with room in the queue for one more
    message and a queue that can be worked off, the manager handles every message that was
    queued before the signal, whatever the outside answers, and then the process exits with
    status 0, with nothing left in the queue. *)
Theorem main_signal_exits s :
  (length (st_ops s) < chanSize)%nat → served (st_ops s) s →
  ∃ s', main_signal (S (length (st_ops s))) s = (Ret (Exited 0), s') ∧ st_ops s' = [].
Proof.
  intros Hroom Hl. set (quit := mkOp "quit" "" "" [] None).
  set (s1 := set_ops (st_ops s ++ [quit]) s).
  destruct (resourceManager_drains (st_ops s) quit s1) as (s' & Hrun & Hq); [done|done|by destruct Hl|].
  exists s'. split; [|done]. unfold main_signal. erewrite bind_Ret; cycle 1.
  { unfold Quit_send, send_op. erewrite bind_Ret by reflexivity.
    apply Nat.ltb_lt in Hroom. rewrite Hroom. reflexivity. }
  by erewrite bind_Ret by exact Hrun.
Qed.
End quit.

(** ** Concrete runs *)

(** Without arguments, the program starts with the defaults; the page is then for the host. *)
Example default_settings :
  NewDriver_args formal =
    mkFlags "faucetconfrpc" "localhost" 59999 "/faucetconfrpc" 5 "" "" "" "" "" "" 9401 "127.0.0.0/8,::1/128" ∧
  match parse_auth_ips (flagStatusAuthIPs (NewDriver_args formal)) with
  | Ret nets => isAuthIP (ParseIP "127.0.0.1") nets && isAuthIP (ParseIP "::1") nets &&
      negb (isAuthIP (ParseIP "10.0.0.1") nets)
  | _ => false
  end = true.
Proof. vm_compute. done. Qed.

Example command_lines :
  map (λ args, match Parse formal args with
    | Some (inl status) => inl status
    | Some (inr (m, rest)) => inr (get_int m "status_port", log_level m, rest)
    | None => inl (-1)%Z
    end)
    [["-status_port"; "80"; "--debug"]; ["--trace=false"; "-debug=true"; "x"; "-h"]; ["-h"];
     ["--status_port=0x50"; "--"; "-debug"]; ["-status_port"]; ["-status_port=http"]; ["-nosuch"]; ["-=1"]] =
  [inr (80%Z, DebugLevel, []); inr (9401%Z, DebugLevel, ["x"; "-h"]); inl 0%Z;
   inr (80%Z, InfoLevel, ["-debug"]); inl 2%Z; inl 2%Z; inl 2%Z; inl 2%Z].
Proof. vm_compute. reflexivity. Qed.

Lemma main_command_line_witness :
  main_start (E := one_to_restore)
    (map flag_text (flag_values (plain_flags "sw1:7" "10.0.0.0/8")) ++ ["x"]) (start plain_driver) =
  (NewDriver (E := one_to_restore) (plain_flags "sw1:7" "10.0.0.0/8");; ret Running) (start plain_driver).
Proof.
  apply (main_command_line (E := one_to_restore) (plain_flags "sw1:7" "10.0.0.0/8") ["x"]);
    [unfold int64; cbn; lia..|reflexivity].
Defined.

Lemma main_refuses_witness :
  main_start (E := one_to_restore) ["-status_port=80"; "-status_prot=81"] (start plain_driver) =
  (Ret (Exited 2), start plain_driver).
Proof.
  apply (main_refuses (E := one_to_restore) [("status_port", FInt 80)] "-status_prot=81" []).
  - constructor; [|constructor]. split; [reflexivity|]. exists (FInt 9401).
    split; [vm_compute; reflexivity|vm_compute; reflexivity].
  - exists "status_prot", "81". split; [reflexivity|]. split; [reflexivity|]. vm_compute. done.
Defined.

(** A join and a leave are queued when the signal comes. *)
Definition busy : state :=
  set_ops [Lab.join_op; Lab.leave_op] (set_replies {[0%nat := []]} Lab.reserved).

Lemma main_signal_exits_witness :
  ∃ s', main_signal (E := Lab.env) 3 busy = (Ret (Exited 0), s') ∧ st_ops s' = [].
Proof.
  apply (main_signal_exits (E := Lab.env) busy).
  - vm_compute. lia.
  - split.
    + repeat constructor.
    + vm_compute. discriminate.
    + constructor; [discriminate|]. constructor; [|constructor]. intros _. exists 0%nat, [].
      split; [reflexivity|]. split; [reflexivity|]. vm_compute. lia.
    + vm_compute. apply NoDup_singleton.
Defined.
