(* ===== verification/Logging.v ===== *)
(** * Log set-up: ovs/logging.go

    Four loggers of package log in global variables, set up by InitDefaultLogging.  No
    other part of the program uses them: it logs through logrus. *)
From S2P Require Import Prelude.

(** Where a logger writes. *)
Inductive writer := Discard | Stdout | Stderr.

(** A [log.Logger]. *)
Record Logger := mkLogger {
  lg_out : writer;
  lg_prefix : string;
  lg_flags : Z;
}.

(** [log.Ldate | log.Ltime | log.Lmicroseconds] *)
Definition standardLogFlags : Z := Z.lor (Z.lor 1 2) 4.

(** The variables of the package; a nil logger is [None]. *)
Record loggers := mkLoggers {
  Debug : option Logger;
  Info : option Logger;
  Warning : option Logger;
  Error : option Logger;
  debugF : bool;
}.

Definition no_loggers : loggers := mkLoggers None None None None false.

Definition InitLogging (debugHandle infoHandle warningHandle errorHandle : writer) (g : loggers) :
    loggers :=
  mkLoggers
    (Some (mkLogger debugHandle "DEBUG: " standardLogFlags))
    (Some (mkLogger infoHandle "INFO: " standardLogFlags))
    (Some (mkLogger warningHandle "WARNING: " standardLogFlags))
    (Some (mkLogger errorHandle "ERROR: " standardLogFlags))
    (debugF g).

Definition InitDefaultLogging (debug : bool) (g : loggers) : loggers :=
  if bool_decide (debug = debugF g) then g
  else
    let g := mkLoggers (Debug g) (Info g) (Warning g) (Error g) debug in
    let debugOut := if debug then Stderr else Discard in
    InitLogging debugOut Stdout Stdout Stderr g.

(** The loggers for a setting. *)
Definition default_loggers (debug : bool) : loggers :=
  InitLogging (if debug then Stderr else Discard) Stdout Stdout Stderr
    (mkLoggers None None None None debug).

Definition init_calls (calls : list bool) : loggers :=
  foldl (λ g debug, InitDefaultLogging debug g) no_loggers calls.

Lemma init_again debug last : InitDefaultLogging debug (default_loggers last) = default_loggers debug.
Proof. by destruct debug, last. Qed.

(** What the calls of InitDefaultLogging leave depends on the last one only, once debugging
    was asked for; until then every logger is nil, also after calls that asked for the
    default without debugging. *)
Theorem InitDefaultLogging_calls calls debug :
  init_calls (calls ++ [debug]) =
  if bool_decide (true ∈ calls ++ [debug]) then default_loggers debug else no_loggers.
Proof.
  unfold init_calls. rewrite foldl_app. cbn [foldl]. fold (init_calls calls).
  revert debug. induction calls as [|last calls IH] using rev_ind; intros debug; [by destruct debug|].
  unfold init_calls. rewrite foldl_app. cbn [foldl]. fold (init_calls calls). rewrite IH.
  case_bool_decide as Hc.
  - rewrite init_again, bool_decide_eq_true_2; [done|]. apply elem_of_app. by left.
  - destruct debug; [|rewrite bool_decide_eq_false_2]; [|done|].
    + rewrite bool_decide_eq_true_2; [done|]. apply elem_of_app. right. left.
    + by intros [?|?%list_elem_of_singleton]%elem_of_app.
Qed.
